(** * vita-elf: import-stub extraction and NID resolution

    A shallow embedding of [src/vita-elf.c].  The C functions become Rocq
    functions of the same names.  Integers are [Z]; a stub address is stored
    in a 32-bit field, so its wrap-around is written out ([wrap32]).  Arrays
    obtained from [calloc] are lists, a pointer into an array is an index,
    and a store outside the array, a read outside a data buffer or a
    division by zero is a fault (the C program has no defined behaviour
    there); faulting computations return [None].

    libelf is outside the repository: an ELF handle is a record holding what
    the libelf calls used here return ([Elf], [Elf_Scn], [Elf_Data]).  The
    import database of [vita-import.h] is a parameter of the development. *)

From Stdlib Require Import ZArith Lia String Strings.Byte.
From stdpp Require Import base numbers list option strings.

Local Open Scope Z_scope.

(** ** Constants of [elf.h] and [libelf.h] *)

Definition EV_NONE : Z := 0.
Definition ELF_K_ELF : Z := 3.
Definition EM_ARM : Z := 40.
Definition ELFCLASS32 : Z := 1.
Definition ELFDATA2LSB : Z := 1.
Definition SHT_PROGBITS : Z := 1.
Definition SHT_SYMTAB : Z := 2.
Definition STB_GLOBAL : Z := 1.
Definition STT_OBJECT : Z := 1.
Definition STT_FUNC : Z := 2.

Definition GELF_ST_BIND (info : Z) : Z := Z.shiftr info 4.
Definition GELF_ST_TYPE (info : Z) : Z := Z.land info 15.

(** ** Bytes and little-endian words *)

Definition byte_val (b : byte) : Z := Z.of_N (Byte.to_N b).

(** The value of the little-endian 32-bit word [b0 b1 b2 b3]; this is
    [le32toh] applied to the word as the host loads it. *)
Definition le32 (b0 b1 b2 b3 : byte) : Z :=
  Z.lor (byte_val b0)
    (Z.lor (Z.shiftl (byte_val b1) 8)
       (Z.lor (Z.shiftl (byte_val b2) 16) (Z.shiftl (byte_val b3) 24))).

Definition le16 (b0 b1 : byte) : Z :=
  Z.lor (byte_val b0) (Z.shiftl (byte_val b1) 8).

(** Reading inside a buffer; [None] when a byte lies outside of it. *)
Definition read_byte (buf : list byte) (off : Z) : option byte :=
  if decide (0 ≤ off) then buf !! Z.to_nat off else None.

Definition read_le32 (buf : list byte) (off : Z) : option Z :=
  b0 ← read_byte buf off;
  b1 ← read_byte buf (off + 1);
  b2 ← read_byte buf (off + 2);
  b3 ← read_byte buf (off + 3);
  Some (le32 b0 b1 b2 b3).

Definition read_le16 (buf : list byte) (off : Z) : option Z :=
  b0 ← read_byte buf off;
  b1 ← read_byte buf (off + 1);
  Some (le16 b0 b1).

Definition wrap32 (z : Z) : Z := z mod 2 ^ 32.

(** ** libelf objects *)

Record GElf_Ehdr := {
  e_machine : Z;
  ei_class : Z;   (* e_ident[EI_CLASS] *)
  ei_data : Z     (* e_ident[EI_DATA] *)
}.

Record GElf_Shdr := {
  sh_name : Z;
  sh_type : Z;
  sh_addr : Z;
  sh_size : Z;
  sh_link : Z;
  sh_info : Z;
  sh_entsize : Z
}.

(** One data descriptor of a section: [d_size] is the length of [d_buf]. *)
Record Elf_Data := {
  d_buf : list byte;
  d_off : Z
}.

Definition d_size (data : Elf_Data) : Z := Z.of_nat (length (d_buf data)).

(** A section: what [gelf_getshdr] returns for it ([None] when it fails)
    and the descriptors that successive [elf_getdata] calls return. *)
Record Elf_Scn := {
  scn_shdr : option GElf_Shdr;
  scn_data : list Elf_Data
}.

Record GElf_Sym := {
  st_name : Z;
  st_value : Z;
  st_info : Z;
  st_shndx : Z
}.

(** [gelf_getsym] for an [ELFCLASS32] file: entry [ndx] of the descriptor
    is the 16-byte [Elf32_Sym] at [16 * ndx]; it fails when the entry does
    not lie inside the descriptor. *)
Definition gelf_getsym (data : Elf_Data) (ndx : Z) : option GElf_Sym :=
  if decide (0 ≤ ndx ∧ 16 * (ndx + 1) ≤ d_size data) then
    name ← read_le32 (d_buf data) (16 * ndx);
    value ← read_le32 (d_buf data) (16 * ndx + 4);
    info ← read_byte (d_buf data) (16 * ndx + 12);
    shndx ← read_le16 (d_buf data) (16 * ndx + 14);
    Some {| st_name := name; st_value := value;
            st_info := byte_val info; st_shndx := shndx |}
  else None.

(** An ELF handle.  [elf_scns] lists sections 1, 2, ... in the order of
    [elf_nextscn] (which never returns section 0), so the section at
    position [k] has [elf_ndxscn] equal to [k + 1]. *)
Record Elf := {
  elf_kind : Z;
  elf_ehdr : option GElf_Ehdr;            (* gelf_getehdr *)
  elf_shdrstrndx : option Z;              (* elf_getshdrstrndx *)
  elf_scns : list Elf_Scn;
  elf_strptr : Z → Z → option string      (* elf_strptr(elf, section, offset) *)
}.

(** ** Diagnostics written by [warn] and [warnx] *)

Inductive diag :=
  | Err_elf_init
  | Err_assert_ve
  | Err_open (filename : string)
  | Err_elf_begin
  | Err_not_elf (filename : string)
  | Err_getehdr
  | Err_not_arm (filename : string)
  | Err_not_32le (filename : string)
  | Err_getshdrstrndx
  | Err_getshdr
  | Err_strptr
  | Err_multiple_fstubs
  | Err_multiple_vstubs
  | Err_multiple_symtabs
  | Err_getsym
  | Err_no_stubs
  | Err_no_symtab
  | Err_symbol_type (name : option string) (stubs_ndx sym_type type : Z)
  | Err_duplicate_symbols (value stubs_ndx : Z) (old new : option string)
  | Err_not_valid_stub (name : option string) (shndx : Z)
  | Warn_no_library (nid : Z) (stub_type_name : string) (sym : option string)
  | Warn_no_module (nid : Z) (stub_type_name : string) (sym : option string)
  | Warn_no_target (stub_type_name : string) (nid : Z) (sym : option string).

(** ** The loop counters

    [for (i = lo; i < hi; i += step)] with [0 < step] runs its body for
    the values [for_range lo hi step] of [i], in this order. *)
Definition for_range (lo hi step : Z) : list Z :=
  (λ k, lo + step * k) <$> seqZ 0 ((hi - lo + step - 1) / step).

(** A store through a pointer at index [i] of an allocated array. *)
Definition store {A} (arr : list A) (i : Z) (f : A → A) : option (list A) :=
  if decide (0 ≤ i) then
    old ← arr !! Z.to_nat i; Some (<[Z.to_nat i := f old]> arr)
  else None.

(** A step of a loop whose body may [FAIL]: the loop goes on, or a
    diagnostic is written and control jumps to [failure]. *)
Inductive step (S : Type) :=
  | Continue (s : S)
  | Stop (s : S) (d : diag).
Arguments Continue {S} s.
Arguments Stop {S} s d.

(** ** The resources of the process

    The number of live heap blocks, of open file descriptors and of ELF
    handles, and what was written to the standard error stream. *)
Record sys := {
  live_blocks : Z;
  open_fds : Z;
  elf_handles : Z;
  stderr : list diag
}.

(** A C function: a state transformer that may fault. *)
Definition M (A : Type) : Type := sys → option (A * sys).

Definition ret {A} (a : A) : M A := λ s, Some (a, s).
Definition bind {A B} (m : M A) (k : A → M B) : M B :=
  λ s, match m s with Some (a, s') => k a s' | None => None end.

Declare Scope M_scope.
Delimit Scope M_scope with M.
Notation "x <- m ;; k" := (bind m (λ x, k))
  (at level 100, m at next level, right associativity) : M_scope.
Notation "m ;; k" := (bind m (λ _, k))
  (at level 100, right associativity) : M_scope.

Definition lift {A} (o : option A) : M A :=
  λ s, match o with Some a => Some (a, s) | None => None end.

Definition warnx (d : diag) : M unit := λ s,
  Some (tt, {| live_blocks := live_blocks s; open_fds := open_fds s;
               elf_handles := elf_handles s; stderr := stderr s ++ [d] |}).

Definition add_blocks (n : Z) : M unit := λ s,
  Some (tt, {| live_blocks := live_blocks s + n; open_fds := open_fds s;
               elf_handles := elf_handles s; stderr := stderr s |}).
Definition add_fds (n : Z) : M unit := λ s,
  Some (tt, {| live_blocks := live_blocks s; open_fds := open_fds s + n;
               elf_handles := elf_handles s; stderr := stderr s |}).
Definition add_elfs (n : Z) : M unit := λ s,
  Some (tt, {| live_blocks := live_blocks s; open_fds := open_fds s;
               elf_handles := elf_handles s + n; stderr := stderr s |}).

(** [calloc] of an array succeeds and returns a block of its own, also for
    a count of 0 (as glibc does); the code does not test these results. *)
Definition calloc : M unit := add_blocks 1.
(** [free(p)]: nothing for NULL. *)
Definition free {A} (p : option A) : M unit :=
  match p with Some _ => add_blocks (-1) | None => ret tt end.
Definition close : M unit := add_fds (-1).
Definition elf_end : M unit := add_elfs (-1).

(** What the process finds outside: the result of [elf_version], whether
    the [calloc] of the session succeeds, the descriptor [open] returns
    (negative on failure) and the handle [elf_begin] returns for it. *)
Record Env := {
  env_elf_version : Z;
  env_calloc_ve : bool;
  env_open : string → Z;
  env_elf_begin : Z → option Elf
}.

Section Model.

Local Open Scope M_scope.

(** The types of [vita-import.h]: the database and its entries. *)
Context {vita_imports_t vita_imports_lib_t vita_imports_module_t
         vita_imports_stub_t : Type}.

(** ** The structures of [vita-elf.h] *)

Record vita_elf_symbol_t := {
  name : option string;   (* borrowed from the string table, or NULL *)
  value : Z;
  type : Z;
  binding : Z;
  shndx : Z
}.

(** [symbol] points into the session's symbol table: it is the index of
    the entry it points to. *)
Record vita_elf_stub_t := {
  addr : Z;
  library_nid : Z;
  module_nid : Z;
  target_nid : Z;
  symbol : option nat;
  library : option vita_imports_lib_t;
  module : option vita_imports_module_t;
  target : option vita_imports_stub_t
}.

(** What [calloc] hands out. *)
Definition zero_symbol : vita_elf_symbol_t :=
  {| name := None; value := 0; type := 0; binding := 0; shndx := 0 |}.

Definition zero_stub : vita_elf_stub_t :=
  {| addr := 0; library_nid := 0; module_nid := 0; target_nid := 0;
     symbol := None; library := None; module := None; target := None |}.

(** ** [load_stubs] *)

(** The four assignments through [curstub] in the body of the inner loop. *)
Definition set_stub (a l m t : Z) (old : vita_elf_stub_t) : vita_elf_stub_t :=
  {| addr := wrap32 a; library_nid := l; module_nid := m; target_nid := t;
     symbol := symbol old; library := library old; module := module old;
     target := target old |}.

(** One iteration of the inner loop; the state is the array and [curstub]. *)
Definition load_stubs_body (shdr : GElf_Shdr) (data : Elf_Data)
    (chunk_offset : Z) (st : list vita_elf_stub_t * Z)
    : option (list vita_elf_stub_t * Z) :=
  let '(stubs, curstub) := st in
  w0 ← read_le32 (d_buf data) chunk_offset;
  w1 ← read_le32 (d_buf data) (chunk_offset + 4);
  w2 ← read_le32 (d_buf data) (chunk_offset + 8);
  stubs' ← store stubs curstub
              (set_stub (sh_addr shdr + d_off data + chunk_offset) w0 w1 w2);
  Some (stubs', curstub + 1).

Fixpoint load_stubs_for (shdr : GElf_Shdr) (data : Elf_Data)
    (chunk_offsets : list Z) (st : list vita_elf_stub_t * Z)
    : option (list vita_elf_stub_t * Z) :=
  match chunk_offsets with
  | [] => Some st
  | chunk_offset :: rest =>
      st' ← load_stubs_body shdr data chunk_offset st;
      load_stubs_for shdr data rest st'
  end.

(** The [while] loop over the descriptors of the section. *)
Fixpoint load_stubs_while (shdr : GElf_Shdr) (datas : list Elf_Data)
    (total_bytes : Z) (st : list vita_elf_stub_t * Z)
    : option (list vita_elf_stub_t * Z) :=
  match datas with
  | [] => Some st
  | data :: rest =>
      if decide (total_bytes < sh_size shdr) then
        st' ← load_stubs_for shdr data (for_range 0 (d_size data) 16) st;
        load_stubs_while shdr rest (total_bytes + d_size data) st'
      else Some st
  end.

(** [load_stubs] always returns 1; its value here is
    [(1, ( *num_stubs, *stubs))]. *)
Definition load_stubs (scn : Elf_Scn) : M (Z * (Z * list vita_elf_stub_t)) :=
  shdr <- lift (scn_shdr scn) ;;
  let num_stubs := sh_size shdr / 16 in
  calloc ;;
  st <- lift (load_stubs_while shdr (scn_data scn) 0
                (replicate (Z.to_nat num_stubs) zero_stub, 0)) ;;
  ret (1, (num_stubs, st.1)).

(** ** The session *)

(** A pointer to an array is [None] when it is NULL. *)
Record vita_elf_t := {
  fd : Z;
  elf : option Elf;
  fstubs_ndx : Z;
  vstubs_ndx : Z;
  fstubs : option (list vita_elf_stub_t);
  vstubs : option (list vita_elf_stub_t);
  num_fstubs : Z;
  num_vstubs : Z;
  symtab : option (list vita_elf_symbol_t);
  num_symbols : Z
}.

(** [calloc(1, sizeof(vita_elf_t))] *)
Definition zero_ve : vita_elf_t :=
  {| fd := 0; elf := None; fstubs_ndx := 0; vstubs_ndx := 0;
     fstubs := None; vstubs := None; num_fstubs := 0; num_vstubs := 0;
     symtab := None; num_symbols := 0 |}.

Definition with_fd (ve : vita_elf_t) (x : Z) : vita_elf_t :=
  {| fd := x; elf := elf ve; fstubs_ndx := fstubs_ndx ve;
     vstubs_ndx := vstubs_ndx ve; fstubs := fstubs ve; vstubs := vstubs ve;
     num_fstubs := num_fstubs ve; num_vstubs := num_vstubs ve;
     symtab := symtab ve; num_symbols := num_symbols ve |}.
Definition with_elf (ve : vita_elf_t) (x : option Elf) : vita_elf_t :=
  {| fd := fd ve; elf := x; fstubs_ndx := fstubs_ndx ve;
     vstubs_ndx := vstubs_ndx ve; fstubs := fstubs ve; vstubs := vstubs ve;
     num_fstubs := num_fstubs ve; num_vstubs := num_vstubs ve;
     symtab := symtab ve; num_symbols := num_symbols ve |}.
Definition with_fstubs_ndx (ve : vita_elf_t) (x : Z) : vita_elf_t :=
  {| fd := fd ve; elf := elf ve; fstubs_ndx := x;
     vstubs_ndx := vstubs_ndx ve; fstubs := fstubs ve; vstubs := vstubs ve;
     num_fstubs := num_fstubs ve; num_vstubs := num_vstubs ve;
     symtab := symtab ve; num_symbols := num_symbols ve |}.
Definition with_vstubs_ndx (ve : vita_elf_t) (x : Z) : vita_elf_t :=
  {| fd := fd ve; elf := elf ve; fstubs_ndx := fstubs_ndx ve;
     vstubs_ndx := x; fstubs := fstubs ve; vstubs := vstubs ve;
     num_fstubs := num_fstubs ve; num_vstubs := num_vstubs ve;
     symtab := symtab ve; num_symbols := num_symbols ve |}.
Definition with_fstubs (ve : vita_elf_t) (n : Z)
    (x : option (list vita_elf_stub_t)) : vita_elf_t :=
  {| fd := fd ve; elf := elf ve; fstubs_ndx := fstubs_ndx ve;
     vstubs_ndx := vstubs_ndx ve; fstubs := x; vstubs := vstubs ve;
     num_fstubs := n; num_vstubs := num_vstubs ve;
     symtab := symtab ve; num_symbols := num_symbols ve |}.
Definition with_vstubs (ve : vita_elf_t) (n : Z)
    (x : option (list vita_elf_stub_t)) : vita_elf_t :=
  {| fd := fd ve; elf := elf ve; fstubs_ndx := fstubs_ndx ve;
     vstubs_ndx := vstubs_ndx ve; fstubs := fstubs ve; vstubs := x;
     num_fstubs := num_fstubs ve; num_vstubs := n;
     symtab := symtab ve; num_symbols := num_symbols ve |}.
Definition with_symtab (ve : vita_elf_t) (n : Z)
    (x : option (list vita_elf_symbol_t)) : vita_elf_t :=
  {| fd := fd ve; elf := elf ve; fstubs_ndx := fstubs_ndx ve;
     vstubs_ndx := vstubs_ndx ve; fstubs := fstubs ve; vstubs := vstubs ve;
     num_fstubs := num_fstubs ve; num_vstubs := num_vstubs ve;
     symtab := x; num_symbols := n |}.

(** An array seen through its pointer: NULL has no element. *)
Definition elems {A} (p : option (list A)) : list A := default [] p.

Definition load_at {A} (arr : list A) (i : Z) : option A :=
  if decide (0 ≤ i) then arr !! Z.to_nat i else None.

(** ** [load_symbols] *)

(** The five assignments through [cursym]. *)
Definition set_sym (nm : option string) (sym : GElf_Sym)
    (old : vita_elf_symbol_t) : vita_elf_symbol_t :=
  {| name := nm; value := st_value sym; type := GELF_ST_TYPE (st_info sym);
     binding := GELF_ST_BIND (st_info sym); shndx := st_shndx sym |}.

Definition strptr (e : option Elf) (scn offset : Z) : option string :=
  match e with Some e => elf_strptr e scn offset | None => None end.

(** One iteration of the inner loop.  The state is the symbol table and,
    as a record of the run, the indices stored so far. *)
Definition load_symbols_body (e : option Elf) (shdr : GElf_Shdr)
    (data : Elf_Data) (data_beginsym symndx : Z)
    (st : list vita_elf_symbol_t * list Z)
    : option (step (list vita_elf_symbol_t * list Z)) :=
  match gelf_getsym data symndx with
  | None => Some (Stop st Err_getsym)
  | Some sym =>
      tab ← store st.1 (symndx + data_beginsym)
               (set_sym (strptr e (sh_link shdr) (st_name sym)) sym);
      Some (Continue (tab, st.2 ++ [symndx + data_beginsym]))
  end.

Fixpoint load_symbols_for (e : option Elf) (shdr : GElf_Shdr)
    (data : Elf_Data) (data_beginsym : Z) (symndxs : list Z)
    (st : list vita_elf_symbol_t * list Z)
    : option (step (list vita_elf_symbol_t * list Z)) :=
  match symndxs with
  | [] => Some (Continue st)
  | symndx :: rest =>
      match load_symbols_body e shdr data data_beginsym symndx st with
      | Some (Continue st') =>
          load_symbols_for e shdr data data_beginsym rest st'
      | r => r
      end
  end.

Fixpoint load_symbols_while (e : option Elf) (shdr : GElf_Shdr)
    (datas : list Elf_Data) (total_bytes : Z)
    (st : list vita_elf_symbol_t * list Z)
    : option (step (list vita_elf_symbol_t * list Z)) :=
  match datas with
  | [] => Some (Continue st)
  | data :: rest =>
      if decide (total_bytes < sh_size shdr) then
        let data_beginsym := d_off data / sh_entsize shdr in
        let first :=
          if decide (sh_info shdr > data_beginsym)
          then sh_info shdr - data_beginsym else 0 in
        match load_symbols_for e shdr data data_beginsym
                (for_range first (d_size data / sh_entsize shdr) 1) st with
        | Some (Continue st') =>
            load_symbols_while e shdr rest (total_bytes + d_size data) st'
        | r => r
        end
      else Some (Continue st)
  end.

(** The decoding proper: the loops run on the zeroed array. *)
Definition load_symbols_decode (e : option Elf) (shdr : GElf_Shdr)
    (datas : list Elf_Data)
    : option (step (list vita_elf_symbol_t * list Z)) :=
  load_symbols_while e shdr datas 0
    (replicate (Z.to_nat (sh_size shdr / sh_entsize shdr)) zero_symbol, []).

(** The value is the returned status and the session as it was left. *)
Definition load_symbols (ve : vita_elf_t) (scn : Elf_Scn)
    : M (Z * vita_elf_t) :=
  match symtab ve with
  | Some _ => warnx Err_multiple_symtabs ;; ret (0, ve)
  | None =>
      shdr <- lift (scn_shdr scn) ;;
      if decide (sh_entsize shdr = 0) then lift None
      else
        let num := sh_size shdr / sh_entsize shdr in
        calloc ;;
        r <- lift (load_symbols_decode (elf ve) shdr (scn_data scn)) ;;
        match r with
        | Continue st => ret (1, with_symtab ve num (Some st.1))
        | Stop st d => warnx d ;; ret (0, with_symtab ve num (Some st.1))
        end
  end.

(** ** [lookup_stub_symbols] *)

Definition set_symbol (p : option nat) (old : vita_elf_stub_t)
    : vita_elf_stub_t :=
  {| addr := addr old; library_nid := library_nid old;
     module_nid := module_nid old; target_nid := target_nid old;
     symbol := p; library := library old; module := module old;
     target := target old |}.

(** The inner loop over [stub].  The value holds the array and the value
    of [stub] when the loop is left: the index of the [break], or the
    bound when the loop ran to its end. *)
Fixpoint lookup_stub_symbols_for (tab : list vita_elf_symbol_t)
    (symndx : Z) (cursym : vita_elf_symbol_t) (stubs_ndx num_stubs : Z)
    (idxs : list Z) (stubs : list vita_elf_stub_t)
    : option (step (list vita_elf_stub_t * Z)) :=
  match idxs with
  | [] => Some (Continue (stubs, Z.max 0 num_stubs))
  | stub :: rest =>
      s ← load_at stubs stub;
      if decide (addr s ≠ value cursym) then
        lookup_stub_symbols_for tab symndx cursym stubs_ndx num_stubs
          rest stubs
      else
        match symbol s with
        | Some old =>
            o ← tab !! old;
            Some (Stop (stubs, stub)
                    (Err_duplicate_symbols (value cursym) stubs_ndx
                       (name o) (name cursym)))
        | None =>
            stubs' ← store stubs stub (set_symbol (Some (Z.to_nat symndx)));
            Some (Continue (stubs', stub))
        end
  end.

(** The body of the outer loop, for the symbol at [symndx]. *)
Definition lookup_stub_symbols_body (tab : list vita_elf_symbol_t)
    (num_stubs stubs_ndx sym_type : Z) (symndx : Z)
    (stubs : list vita_elf_stub_t) : option (step (list vita_elf_stub_t)) :=
  cursym ← load_at tab symndx;
  if decide (binding cursym ≠ STB_GLOBAL) then Some (Continue stubs)
  else if decide (type cursym ≠ STT_FUNC ∧ type cursym ≠ STT_OBJECT)
  then Some (Continue stubs)
  else if decide (shndx cursym ≠ stubs_ndx) then Some (Continue stubs)
  else if decide (type cursym ≠ sym_type) then
    Some (Stop stubs
            (Err_symbol_type (name cursym) stubs_ndx sym_type (type cursym)))
  else
    r ← lookup_stub_symbols_for tab symndx cursym stubs_ndx num_stubs
          (for_range 0 num_stubs 1) stubs;
    match r with
    | Stop st d => Some (Stop st.1 d)
    | Continue st =>
        if decide (st.2 = num_stubs) then
          Some (Stop st.1 (Err_not_valid_stub (name cursym) (shndx cursym)))
        else Some (Continue st.1)
    end.

Fixpoint lookup_stub_symbols_loop (tab : list vita_elf_symbol_t)
    (num_stubs stubs_ndx sym_type : Z) (symndxs : list Z)
    (stubs : list vita_elf_stub_t) : option (step (list vita_elf_stub_t)) :=
  match symndxs with
  | [] => Some (Continue stubs)
  | symndx :: rest =>
      match lookup_stub_symbols_body tab num_stubs stubs_ndx sym_type
              symndx stubs with
      | Some (Continue stubs') =>
          lookup_stub_symbols_loop tab num_stubs stubs_ndx sym_type
            rest stubs'
      | r => r
      end
  end.

(** The value is the returned status and the stub array as it was left. *)
Definition lookup_stub_symbols (ve : vita_elf_t) (num_stubs : Z)
    (stubs : list vita_elf_stub_t) (stubs_ndx sym_type : Z)
    : M (Z * list vita_elf_stub_t) :=
  r <- lift (lookup_stub_symbols_loop (elems (symtab ve)) num_stubs
               stubs_ndx sym_type (for_range 0 (num_symbols ve) 1) stubs) ;;
  match r with
  | Continue stubs' => ret (1, stubs')
  | Stop stubs' d => warnx d ;; ret (0, stubs')
  end.

(** ** [vita_elf_free] *)

Definition vita_elf_free (ve : vita_elf_t) : M unit :=
  free (fstubs ve) ;;
  free (vstubs ve) ;;
  free (symtab ve) ;;
  (match elf ve with Some _ => elf_end | None => ret tt end) ;;
  (if decide (fd ve >= 0) then close else ret tt) ;;
  add_blocks (-1).

(** ** [vita_elf_load] *)

(** The [failure] label. *)
Definition failure (ve : option vita_elf_t) : M (option vita_elf_t) :=
  (match ve with Some v => vita_elf_free v | None => ret tt end) ;;
  ret None.

(** The body of the loop over the sections, for the section [scn] of
    index [ndx]; [false] stands for the jump to [failure].  First the
    [if] / [else if] on the two stub section names. *)
Definition scan_stubs (shdr : GElf_Shdr) (nm : string) (scn : Elf_Scn)
    (ndx : Z) (ve : vita_elf_t) : M (bool * vita_elf_t) :=
  if bool_decide (sh_type shdr = SHT_PROGBITS)
     && String.eqb nm ".vitalink.fstubs" then
    if decide (fstubs_ndx ve ≠ 0) then
      warnx Err_multiple_fstubs ;; ret (false, ve)
    else
      let ve := with_fstubs_ndx ve ndx in
      r <- load_stubs scn ;;
      let ve := with_fstubs ve r.2.1 (Some r.2.2) in
      if decide (r.1 = 0) then ret (false, ve) else ret (true, ve)
  else if bool_decide (sh_type shdr = SHT_PROGBITS)
          && String.eqb nm ".vitalink.vstubs" then
    if decide (vstubs_ndx ve ≠ 0) then
      warnx Err_multiple_vstubs ;; ret (false, ve)
    else
      let ve := with_vstubs_ndx ve ndx in
      r <- load_stubs scn ;;
      let ve := with_vstubs ve r.2.1 (Some r.2.2) in
      if decide (r.1 = 0) then ret (false, ve) else ret (true, ve)
  else ret (true, ve).

(** Then the [if] on [SHT_SYMTAB]. *)
Definition scan_symtab (shdr : GElf_Shdr) (scn : Elf_Scn)
    (ve : vita_elf_t) : M (bool * vita_elf_t) :=
  if decide (sh_type shdr = SHT_SYMTAB) then
    r <- load_symbols ve scn ;;
    if decide (r.1 = 0) then ret (false, r.2) else ret (true, r.2)
  else ret (true, ve).

Definition scan_section (e : Elf) (shstrndx : Z) (scn : Elf_Scn) (ndx : Z)
    (ve : vita_elf_t) : M (bool * vita_elf_t) :=
  match scn_shdr scn with
  | None => warnx Err_getshdr ;; ret (false, ve)
  | Some shdr =>
      match elf_strptr e shstrndx (sh_name shdr) with
      | None => warnx Err_strptr ;; ret (false, ve)
      | Some nm =>
          r <- scan_stubs shdr nm scn ndx ve ;;
          if r.1 then scan_symtab shdr scn r.2 else ret (false, r.2)
      end
  end.

Fixpoint scan_sections (e : Elf) (shstrndx : Z) (scns : list Elf_Scn)
    (ndx : Z) (ve : vita_elf_t) : M (bool * vita_elf_t) :=
  match scns with
  | [] => ret (true, ve)
  | scn :: rest =>
      r <- scan_section e shstrndx scn ndx ve ;;
      if r.1 then scan_sections e shstrndx rest (ndx + 1) r.2
      else ret (false, r.2)
  end.

(** The checks and the correlation after the scan. *)
Definition after_scan (ve : vita_elf_t) : M (option vita_elf_t) :=
  if decide (fstubs_ndx ve = 0 ∧ vstubs_ndx ve = 0) then
    warnx Err_no_stubs ;; failure (Some ve)
  else match symtab ve with
  | None => warnx Err_no_symtab ;; failure (Some ve)
  | Some _ =>
      r <- (if decide (fstubs_ndx ve ≠ 0) then
              r <- lookup_stub_symbols ve (num_fstubs ve)
                     (elems (fstubs ve)) (fstubs_ndx ve) STT_FUNC ;;
              ret (negb (bool_decide (r.1 = 0)),
                   with_fstubs ve (num_fstubs ve)
                     ((λ _, r.2) <$> fstubs ve))
            else ret (true, ve)) ;;
      if r.1 then
        let ve := r.2 in
        r <- (if decide (vstubs_ndx ve ≠ 0) then
                r <- lookup_stub_symbols ve (num_vstubs ve)
                       (elems (vstubs ve)) (vstubs_ndx ve) STT_OBJECT ;;
                ret (negb (bool_decide (r.1 = 0)),
                     with_vstubs ve (num_vstubs ve)
                       ((λ _, r.2) <$> vstubs ve))
              else ret (true, ve)) ;;
        if r.1 then ret (Some r.2) else failure (Some r.2)
      else failure (Some r.2)
  end.

(** The value is the returned session, [None] for NULL. *)
Definition vita_elf_load (env : Env) (filename : string)
    : M (option vita_elf_t) :=
  if decide (env_elf_version env = EV_NONE) then
    warnx Err_elf_init ;; failure None
  else if negb (env_calloc_ve env) then
    warnx Err_assert_ve ;; failure None
  else
    add_blocks 1 ;;
    let ve := with_fd zero_ve (-1) in
    let ve := with_fd ve (env_open env filename) in
    if decide (fd ve < 0) then warnx (Err_open filename) ;; failure (Some ve)
    else
      add_fds 1 ;;
      match env_elf_begin env (fd ve) with
      | None => warnx Err_elf_begin ;; failure (Some ve)
      | Some e =>
          add_elfs 1 ;;
          let ve := with_elf ve (Some e) in
          if decide (elf_kind e ≠ ELF_K_ELF) then
            warnx (Err_not_elf filename) ;; failure (Some ve)
          else match elf_ehdr e with
          | None => warnx Err_getehdr ;; failure (Some ve)
          | Some ehdr =>
              if decide (e_machine ehdr ≠ EM_ARM) then
                warnx (Err_not_arm filename) ;; failure (Some ve)
              else if decide (ei_class ehdr ≠ ELFCLASS32
                              ∨ ei_data ehdr ≠ ELFDATA2LSB) then
                warnx (Err_not_32le filename) ;; failure (Some ve)
              else match elf_shdrstrndx e with
              | None => warnx Err_getshdrstrndx ;; failure (Some ve)
              | Some shstrndx =>
                  r <- scan_sections e shstrndx (elf_scns e) 1 ve ;;
                  if r.1 then after_scan r.2 else failure (Some r.2)
              end
          end
      end.

(** ** The import resolver *)

Variable vita_imports_find_lib :
  vita_imports_t → Z → option vita_imports_lib_t.
Variable vita_imports_find_module :
  vita_imports_lib_t → Z → option vita_imports_module_t.
Variable vita_imports_find_function vita_imports_find_variable :
  vita_imports_module_t → Z → option vita_imports_stub_t.

Definition set_library (x : option vita_imports_lib_t)
    (old : vita_elf_stub_t) : vita_elf_stub_t :=
  {| addr := addr old; library_nid := library_nid old;
     module_nid := module_nid old; target_nid := target_nid old;
     symbol := symbol old; library := x; module := module old;
     target := target old |}.
Definition set_module (x : option vita_imports_module_t)
    (old : vita_elf_stub_t) : vita_elf_stub_t :=
  {| addr := addr old; library_nid := library_nid old;
     module_nid := module_nid old; target_nid := target_nid old;
     symbol := symbol old; library := library old; module := x;
     target := target old |}.
Definition set_target (x : option vita_imports_stub_t)
    (old : vita_elf_stub_t) : vita_elf_stub_t :=
  {| addr := addr old; library_nid := library_nid old;
     module_nid := module_nid old; target_nid := target_nid old;
     symbol := symbol old; library := library old; module := module old;
     target := x |}.

(** [stub->symbol ? stub->symbol->name : "(unreferenced stub)"] *)
Definition symbol_name (tab : list vita_elf_symbol_t)
    (stub : vita_elf_stub_t) : option (option string) :=
  match symbol stub with
  | Some p => name <$> tab !! p
  | None => Some (Some "(unreferenced stub)"%string)
  end.

(** The state of the loop in [lookup_stubs]: the array, [found_all] and
    the diagnostics written so far. *)
Definition lookup_state : Type := list vita_elf_stub_t * Z * list diag.

Definition lookup_stubs_body (tab : list vita_elf_symbol_t)
    (imports : vita_imports_t)
    (find_stub : vita_imports_module_t → Z → option vita_imports_stub_t)
    (stub_type_name : string) (i : Z) (st : lookup_state)
    : option lookup_state :=
  let '(stubs, found_all, out) := st in
  stub ← load_at stubs i;
  let lib := vita_imports_find_lib imports (library_nid stub) in
  stubs ← store stubs i (set_library lib);
  match lib with
  | None =>
      sym ← symbol_name tab stub;
      Some (stubs, 0,
            out ++ [Warn_no_library (library_nid stub) stub_type_name sym])
  | Some l =>
      let md := vita_imports_find_module l (module_nid stub) in
      stubs ← store stubs i (set_module md);
      match md with
      | None =>
          sym ← symbol_name tab stub;
          Some (stubs, 0,
                out ++ [Warn_no_module (module_nid stub) stub_type_name sym])
      | Some m =>
          let tg := find_stub m (target_nid stub) in
          stubs ← store stubs i (set_target tg);
          match tg with
          | None =>
              sym ← symbol_name tab stub;
              Some (stubs, 0,
                    out ++ [Warn_no_target stub_type_name (module_nid stub)
                              sym])
          | Some _ => Some (stubs, found_all, out)
          end
      end
  end.

Fixpoint lookup_stubs_for (tab : list vita_elf_symbol_t)
    (imports : vita_imports_t)
    (find_stub : vita_imports_module_t → Z → option vita_imports_stub_t)
    (stub_type_name : string) (idxs : list Z) (st : lookup_state)
    : option lookup_state :=
  match idxs with
  | [] => Some st
  | i :: rest =>
      st' ← lookup_stubs_body tab imports find_stub stub_type_name i st;
      lookup_stubs_for tab imports find_stub stub_type_name rest st'
  end.

(** The symbol table is passed for the reads through [stub->symbol].  The
    value is [found_all] and the array as it was left. *)
Definition lookup_stubs (tab : list vita_elf_symbol_t)
    (stubs : list vita_elf_stub_t) (num_stubs : Z) (imports : vita_imports_t)
    (find_stub : vita_imports_module_t → Z → option vita_imports_stub_t)
    (stub_type_name : string) : M (Z * list vita_elf_stub_t) := λ s,
  st ← lookup_stubs_for tab imports find_stub stub_type_name
         (for_range 0 num_stubs 1) (stubs, 1, []);
  Some ((st.1.2, st.1.1),
        {| live_blocks := live_blocks s; open_fds := open_fds s;
           elf_handles := elf_handles s; stderr := stderr s ++ st.2 |}).

Definition vita_elf_lookup_imports (ve : vita_elf_t)
    (imports : vita_imports_t) : M (Z * vita_elf_t) :=
  rf <- lookup_stubs (elems (symtab ve)) (elems (fstubs ve)) (num_fstubs ve)
          imports vita_imports_find_function "function" ;;
  let found_all := if decide (rf.1 = 0) then 0 else 1 in
  let ve := with_fstubs ve (num_fstubs ve) ((λ _, rf.2) <$> fstubs ve) in
  rv <- lookup_stubs (elems (symtab ve)) (elems (vstubs ve)) (num_vstubs ve)
          imports vita_imports_find_variable "variable" ;;
  let found_all := if decide (rv.1 = 0) then 0 else found_all in
  let ve := with_vstubs ve (num_vstubs ve) ((λ _, rv.2) <$> vstubs ve) in
  ret (found_all, ve).

End Model.

(** ** Deliveries of a section

    [elf_getdata] hands the content of a section over in descriptors.  A
    delivery is in records of [entsize] bytes when the descriptors follow
    each other from offset 0, each holds a whole number of records, and
    together they hold [size] bytes. *)

Definition section_bytes (datas : list Elf_Data) : list byte :=
  mjoin (d_buf <$> datas).

Fixpoint chunks_from (entsize off : Z) (datas : list Elf_Data) : Prop :=
  match datas with
  | [] => True
  | data :: rest =>
      d_off data = off ∧ d_size data mod entsize = 0
      ∧ chunks_from entsize (off + d_size data) rest
  end.

Definition delivery_ok (entsize size : Z) (datas : list Elf_Data) : Prop :=
  0 < entsize ∧ chunks_from entsize 0 datas
  ∧ Z.of_nat (length (section_bytes datas)) = size.

(** The whole content as one descriptor, as libelf delivers a section of
    a file it reads. *)
Definition whole (datas : list Elf_Data) : Elf_Data :=
  {| d_buf := section_bytes datas; d_off := 0 |}.

(** ** The states and entries that the statements speak of *)

(** The state that a loop step leaves, whether the loop goes on or not. *)
Definition step_state {S} (r : step S) : S :=
  match r with Continue s => s | Stop s _ => s end.

(** The table entry made from a decoded record. *)
Definition sym_entry (e : option Elf) (shdr : GElf_Shdr) (sym : GElf_Sym)
    : vita_elf_symbol_t :=
  set_sym (strptr e (sh_link shdr) (st_name sym)) sym zero_symbol.

(** The sections that [vita_elf_load] takes for a function-stub section,
    a variable-stub section and a symbol table. *)
Definition named_progbits (e : Elf) (shstrndx : Z) (marker : string)
    (scn : Elf_Scn) : bool :=
  match scn_shdr scn with
  | Some shdr =>
      match elf_strptr e shstrndx (sh_name shdr) with
      | Some nm =>
          bool_decide (sh_type shdr = SHT_PROGBITS) && String.eqb nm marker
      | None => false
      end
  | None => false
  end.

Definition is_fstubs (e : Elf) (shstrndx : Z) : Elf_Scn → bool :=
  named_progbits e shstrndx ".vitalink.fstubs".
Definition is_vstubs (e : Elf) (shstrndx : Z) : Elf_Scn → bool :=
  named_progbits e shstrndx ".vitalink.vstubs".
Definition is_symtab (scn : Elf_Scn) : bool :=
  match scn_shdr scn with
  | Some shdr => bool_decide (sh_type shdr = SHT_SYMTAB)
  | None => false
  end.

Fixpoint count_scns (p : Elf_Scn → bool) (scns : list Elf_Scn) : nat :=
  match scns with
  | [] => 0
  | scn :: rest => (if p scn then 1 else 0) + count_scns p rest
  end.

(** The data of the sections that the loaders read are delivered in
    whole records: 16 bytes for a stub section, [sh_entsize] bytes (not 0)
    for a symbol table. *)
Definition scn_wf (e : Elf) (shstrndx : Z) (scn : Elf_Scn) : Prop :=
  ∀ shdr, scn_shdr scn = Some shdr →
    (is_fstubs e shstrndx scn || is_vstubs e shstrndx scn = true →
     delivery_ok 16 (sh_size shdr) (scn_data scn))
    ∧ (is_symtab scn = true →
       delivery_ok (sh_entsize shdr) (sh_size shdr) (scn_data scn)).

Definition env_wf (env : Env) (filename : string) : Prop :=
  ∀ e shstrndx,
    env_elf_begin env (env_open env filename) = Some e →
    elf_shdrstrndx e = Some shstrndx →
    Forall (scn_wf e shstrndx) (elf_scns e).

Definition same_resources (s s' : sys) : Prop :=
  live_blocks s' = live_blocks s ∧ open_fds s' = open_fds s
  ∧ elf_handles s' = elf_handles s.

(** The checks of [vita_elf_load] before the scan all pass: libelf
    initialises, the session is allocated, the file opens as the ELF handle
    [e], which is a 32-bit little-endian ARM ELF file whose section name
    table is [shstrndx]. *)
Definition header_ok (env : Env) (filename : string) (e : Elf)
    (shstrndx : Z) : Prop :=
  env_elf_version env ≠ EV_NONE
  ∧ env_calloc_ve env = true
  ∧ 0 ≤ env_open env filename
  ∧ env_elf_begin env (env_open env filename) = Some e
  ∧ elf_kind e = ELF_K_ELF
  ∧ (∃ ehdr, elf_ehdr e = Some ehdr ∧ e_machine ehdr = EM_ARM
             ∧ ei_class ehdr = ELFCLASS32 ∧ ei_data ehdr = ELFDATA2LSB)
  ∧ elf_shdrstrndx e = Some shstrndx.

(** The resources once the session is allocated and the file is open. *)
Definition opened (s : sys) : sys :=
  {| live_blocks := live_blocks s + 1; open_fds := open_fds s + 1;
     elf_handles := elf_handles s + 1; stderr := stderr s |}.

(** A section that the scan can read: its header and its name are there,
    and a symbol table has entries no shorter than an [Elf32_Sym]. *)
Definition scn_readable (e : Elf) (shstrndx : Z) (scn : Elf_Scn) : Prop :=
  ∃ shdr, scn_shdr scn = Some shdr
          ∧ is_Some (elf_strptr e shstrndx (sh_name shdr))
          ∧ (sh_type shdr = SHT_SYMTAB →
             16 ≤ sh_entsize shdr ∧ 0 ≤ sh_info shdr).

(** The diagnostics of the correlator. *)
Definition correlation_diag (d : diag) : Prop :=
  match d with
  | Err_symbol_type _ _ _ _ | Err_duplicate_symbols _ _ _ _
  | Err_not_valid_stub _ _ => True
  | _ => False
  end.

(** The header fields [sh_size] and [sh_entsize] are unsigned. *)
Definition scn_typed (scn : Elf_Scn) : Prop :=
  ∀ shdr, scn_shdr scn = Some shdr →
    0 ≤ sh_size shdr ∧ 0 ≤ sh_entsize shdr.

Definition env_typed (env : Env) (filename : string) : Prop :=
  ∀ e, env_elf_begin env (env_open env filename) = Some e →
    Forall scn_typed (elf_scns e).

Section Vocabulary.

Context {vita_imports_t vita_imports_lib_t vita_imports_module_t
         vita_imports_stub_t : Type}.

Variable vita_imports_find_lib :
  vita_imports_t → Z → option vita_imports_lib_t.
Variable vita_imports_find_module :
  vita_imports_lib_t → Z → option vita_imports_module_t.

Local Abbreviation stub_t :=
  (@vita_elf_stub_t vita_imports_lib_t vita_imports_module_t
     vita_imports_stub_t).
Local Abbreviation ve_t :=
  (@vita_elf_t vita_imports_lib_t vita_imports_module_t vita_imports_stub_t).
Local Abbreviation finder :=
  (vita_imports_module_t → Z → option vita_imports_stub_t).

(** Record [i] of a content [bytes] placed at address [base]: the words
    at [16 * i], [16 * i + 4] and [16 * i + 8]. *)
Definition stub_entry (base : Z) (bytes : list byte) (i : Z)
    : option stub_t :=
  w0 ← read_le32 bytes (16 * i);
  w1 ← read_le32 bytes (16 * i + 4);
  w2 ← read_le32 bytes (16 * i + 8);
  Some (set_stub (base + 16 * i) w0 w1 w2 zero_stub).

(** A symbol that passes the three filters of the correlator. *)
Definition qualifies (stubs_ndx : Z) (sym : vita_elf_symbol_t) : Prop :=
  binding sym = STB_GLOBAL
  ∧ (type sym = STT_FUNC ∨ type sym = STT_OBJECT)
  ∧ shndx sym = stubs_ndx.

(** What the correlator has established when the symbols below [m] are
    done: an attached symbol is one of them, passes the filters and has
    the address of its stub as its value; each of them that passes the
    filters is attached; and no symbol is attached to two stubs. *)
Definition attached_upto (tab : list vita_elf_symbol_t) (stubs_ndx m : Z)
    (stubs : list stub_t) : Prop :=
  (∀ i st p, stubs !! i = Some st → symbol st = Some p →
     Z.of_nat p < m
     ∧ ∃ sym, tab !! p = Some sym ∧ qualifies stubs_ndx sym
              ∧ addr st = value sym)
  ∧ (∀ p sym, Z.of_nat p < m → tab !! p = Some sym →
       qualifies stubs_ndx sym →
       ∃ i st, stubs !! i = Some st ∧ symbol st = Some p)
  ∧ (∀ i j st st' p, stubs !! i = Some st → stubs !! j = Some st' →
       symbol st = Some p → symbol st' = Some p → i = j).

(** The stub as one iteration of [lookup_stubs] leaves it. *)
Definition resolved_stub (imports : vita_imports_t) (find_stub : finder)
    (st : stub_t) : stub_t :=
  match vita_imports_find_lib imports (library_nid st) with
  | None => set_library None st
  | Some l =>
      match vita_imports_find_module l (module_nid st) with
      | None => set_module None (set_library (Some l) st)
      | Some m =>
          set_target (find_stub m (target_nid st))
            (set_module (Some m) (set_library (Some l) st))
      end
  end.

(** The diagnostic that the iteration writes for the stub, if any. *)
Definition stub_diag (tab : list vita_elf_symbol_t)
    (imports : vita_imports_t) (find_stub : finder)
    (stub_type_name : string) (st : stub_t) : option diag :=
  let sym := default None (symbol_name tab st) in
  match vita_imports_find_lib imports (library_nid st) with
  | None => Some (Warn_no_library (library_nid st) stub_type_name sym)
  | Some l =>
      match vita_imports_find_module l (module_nid st) with
      | None => Some (Warn_no_module (module_nid st) stub_type_name sym)
      | Some m =>
          match find_stub m (target_nid st) with
          | None => Some (Warn_no_target stub_type_name (module_nid st) sym)
          | Some _ => None
          end
      end
  end.

Definition fully_resolved (st : stub_t) : Prop :=
  is_Some (library st) ∧ is_Some (module st) ∧ is_Some (target st).

(** A stub whose [symbol], when set, points into the table. *)
Definition symbol_ok (tab : list vita_elf_symbol_t) (st : stub_t) : Prop :=
  is_Some (symbol_name tab st).

(** The hypotheses of the resolver on a session: the counts are the
    lengths of the arrays and the [symbol] pointers lie in the table. *)
Definition session_ok (ve : ve_t) : Prop :=
  num_fstubs ve = Z.of_nat (length (elems (fstubs ve)))
  ∧ num_vstubs ve = Z.of_nat (length (elems (vstubs ve)))
  ∧ Forall (symbol_ok (elems (symtab ve))) (elems (fstubs ve))
  ∧ Forall (symbol_ok (elems (symtab ve))) (elems (vstubs ve)).

(** What a session owns. *)
Definition owned_blocks (ve : ve_t) : Z :=
  1 + (if fstubs ve is Some _ then 1 else 0)
  + (if vstubs ve is Some _ then 1 else 0)
  + (if symtab ve is Some _ then 1 else 0).
Definition owned_fds (ve : ve_t) : Z := if decide (fd ve >= 0) then 1 else 0.
Definition owned_elfs (ve : ve_t) : Z :=
  if elf ve is Some _ then 1 else 0.

(** In state [s] the process holds what it held in [s0] and what the
    session [ve] owns. *)
Definition holds (s0 s : sys) (ve : ve_t) : Prop :=
  live_blocks s = live_blocks s0 + owned_blocks ve
  ∧ open_fds s = open_fds s0 + owned_fds ve
  ∧ elf_handles s = elf_handles s0 + owned_elfs ve.

(** What the scan has established about a stub array so far. *)
Definition stubs_inv (ndx : Z) (arr : option (list stub_t)) (num : Z)
    : Prop :=
  (ndx = 0 → arr = None ∧ num = 0)
  ∧ (ndx ≠ 0 → ∃ l, arr = Some l ∧ num = Z.of_nat (length l)
                    ∧ Forall (λ st, symbol st = None) l).

Definition scan_inv (ve : ve_t) : Prop :=
  stubs_inv (fstubs_ndx ve) (fstubs ve) (num_fstubs ve)
  ∧ stubs_inv (vstubs_ndx ve) (vstubs ve) (num_vstubs ve)
  ∧ (∀ tab, symtab ve = Some tab → num_symbols ve = Z.of_nat (length tab)).

(** What one section does to the session, by its kind. *)
Definition step_ok (isf isv ist ok : bool) (ve ve' : ve_t) : Prop :=
  fd ve' = fd ve ∧ elf ve' = elf ve
  ∧ (if isf then ok = true → fstubs_ndx ve = 0 ∧ fstubs_ndx ve' ≠ 0
     else fstubs_ndx ve' = fstubs_ndx ve)
  ∧ (if isv then ok = true → vstubs_ndx ve = 0 ∧ vstubs_ndx ve' ≠ 0
     else vstubs_ndx ve' = vstubs_ndx ve)
  ∧ (if ist then ok = true → symtab ve = None ∧ symtab ve' ≠ None
     else symtab ve' = symtab ve).

(** The diagnostics of a step: none when it goes on, one when it fails. *)
Definition step_err (ok : bool) (s s' : sys) : Prop :=
  if ok then stderr s' = stderr s else ∃ d, stderr s' = stderr s ++ [d].

(** What a scan that reaches its end says about the sections it saw:
    at most one of each kind, and a second one never after a first. *)
Definition scan_ok (cf cv cs : nat) (ve ve' : ve_t) : Prop :=
  (cf = 0%nat ∧ fstubs_ndx ve' = fstubs_ndx ve
   ∨ cf = 1%nat ∧ fstubs_ndx ve = 0 ∧ fstubs_ndx ve' ≠ 0)
  ∧ (cv = 0%nat ∧ vstubs_ndx ve' = vstubs_ndx ve
     ∨ cv = 1%nat ∧ vstubs_ndx ve = 0 ∧ vstubs_ndx ve' ≠ 0)
  ∧ (cs = 0%nat ∧ symtab ve' = symtab ve
     ∨ cs = 1%nat ∧ symtab ve = None ∧ symtab ve' ≠ None).

(** A session as [vita_elf_load] returns it. *)
Definition fully_formed (ve : ve_t) : Prop :=
  fd ve >= 0 ∧ is_Some (elf ve)
  ∧ is_Some (symtab ve)
  ∧ num_symbols ve = Z.of_nat (length (elems (symtab ve)))
  ∧ (fstubs_ndx ve ≠ 0 ∨ vstubs_ndx ve ≠ 0)
  ∧ (fstubs_ndx ve ≠ 0 ↔ is_Some (fstubs ve))
  ∧ (vstubs_ndx ve ≠ 0 ↔ is_Some (vstubs ve))
  ∧ session_ok ve.

(** A stub after the correlation: it differs from the stub before in
    [symbol] at most, and a symbol it had is still the one it has. *)
Definition correlated (st st' : stub_t) : Prop :=
  addr st' = addr st ∧ library_nid st' = library_nid st
  ∧ module_nid st' = module_nid st ∧ target_nid st' = target_nid st
  ∧ library st' = library st ∧ module st' = module st
  ∧ target st' = target st
  ∧ (is_Some (symbol st) → symbol st' = symbol st).

(** A stub after the resolution: what the loaders and the correlator
    wrote is as it was. *)
Definition annotated (st st' : stub_t) : Prop :=
  addr st' = addr st ∧ library_nid st' = library_nid st
  ∧ module_nid st' = module_nid st ∧ target_nid st' = target_nid st
  ∧ symbol st' = symbol st.

(** A session after the resolution: only the stubs differ, by their
    annotations. *)
Definition same_session (ve ve' : ve_t) : Prop :=
  fd ve' = fd ve ∧ elf ve' = elf ve
  ∧ fstubs_ndx ve' = fstubs_ndx ve ∧ vstubs_ndx ve' = vstubs_ndx ve
  ∧ num_fstubs ve' = num_fstubs ve ∧ num_vstubs ve' = num_vstubs ve
  ∧ symtab ve' = symtab ve ∧ num_symbols ve' = num_symbols ve
  ∧ (fstubs ve' = None ↔ fstubs ve = None)
  ∧ (vstubs ve' = None ↔ vstubs ve = None)
  ∧ Forall2 annotated (elems (fstubs ve)) (elems (fstubs ve'))
  ∧ Forall2 annotated (elems (vstubs ve)) (elems (vstubs ve')).

(** The session when the scan of the sections begins. *)
Definition session0 (fd : Z) (e : Elf) : ve_t :=
  with_elf (with_fd (with_fd zero_ve (-1)) fd) (Some e).

(** A call returns NULL, having written the diagnostic [d] and nothing
    else, and holding what was held before. *)
Definition rejects (m : M (option ve_t)) (s : sys) (d : diag) : Prop :=
  ∃ s', m s = Some (None, s') ∧ stderr s' = stderr s ++ [d]
        ∧ same_resources s s'.

(** Where a stub array of a session comes from: with no section index
    there is no array; otherwise the index is that of a section of the
    kind [is_x] among [scns] (section [ndx] is at position [ndx - 1]), the
    count is its size in records, and the stubs are its records, up to
    what the correlation attached. *)
Definition stubs_from (scns : list Elf_Scn) (is_x : Elf_Scn → bool)
    (ndx num : Z) (arr : option (list stub_t)) : Prop :=
  (ndx = 0 → arr = None ∧ num = 0)
  ∧ (ndx ≠ 0 →
     ∃ scn shdr stubs0 stubs,
       0 < ndx ∧ scns !! Z.to_nat (ndx - 1) = Some scn ∧ is_x scn = true
       ∧ scn_shdr scn = Some shdr ∧ num = sh_size shdr / 16
       ∧ arr = Some stubs
       ∧ Z.of_nat (length stubs0) = num
       ∧ (∀ i, 0 ≤ i < num →
            stubs0 !! Z.to_nat i
            = stub_entry (sh_addr shdr) (section_bytes (scn_data scn)) i)
       ∧ Forall2 correlated stubs0 stubs).

(** Where the symbol table of a session comes from: a section of type
    [SHT_SYMTAB] among [scns]; the count is its size in entries, and for
    entries of 16 bytes the table is the decoded content of the section
    from index [sh_info] on, zeroed below. *)
Definition symtab_from (scns : list Elf_Scn) (e : Elf) (num : Z)
    (tab : option (list vita_elf_symbol_t)) : Prop :=
  ∀ t, tab = Some t →
    ∃ (k : nat) scn shdr,
      scns !! k = Some scn ∧ is_symtab scn = true
      ∧ scn_shdr scn = Some shdr ∧ sh_entsize shdr ≠ 0
      ∧ num = sh_size shdr / sh_entsize shdr
      ∧ Z.of_nat (length t) = num
      ∧ (sh_entsize shdr = 16 → 0 ≤ sh_info shdr →
         ∀ i : nat, (i < length t)%nat →
           t !! i
           = if decide (Z.of_nat i < sh_info shdr) then Some zero_symbol
             else sym_entry (Some e) shdr
                    <$> gelf_getsym (whole (scn_data scn)) (Z.of_nat i)).

(** Where a session comes from: its handle is [e] and its arrays come
    from the sections [scns] of [e]. *)
Definition session_from (scns : list Elf_Scn) (e : Elf) (shstrndx : Z)
    (ve : ve_t) : Prop :=
  elf ve = Some e
  ∧ stubs_from scns (is_fstubs e shstrndx) (fstubs_ndx ve) (num_fstubs ve)
      (fstubs ve)
  ∧ stubs_from scns (is_vstubs e shstrndx) (vstubs_ndx ve) (num_vstubs ve)
      (vstubs ve)
  ∧ symtab_from scns e (num_symbols ve) (symtab ve).

(** What the correlation of the stubs of section [ndx] against the table
    [tab] has established when it succeeds: the stubs and the symbols of
    kind Function or Object that are global and lie in the section are
    attached one to one, by address, and these symbols have the type
    [sym_type]. *)
Definition attached (tab : list vita_elf_symbol_t) (ndx sym_type : Z)
    (stubs : list stub_t) : Prop :=
  attached_upto tab ndx (Z.of_nat (length tab)) stubs
  ∧ ∀ sym, sym ∈ tab → qualifies ndx sym → type sym = sym_type.

(** The symbols below [m] all go through the correlation of fresh stubs:
    each of them that passes the three filters has the type [sym_type] and
    the address of a stub as its value, and no two of them share a
    value. *)
Definition correlatable (tab : list vita_elf_symbol_t)
    (stubs_ndx sym_type : Z) (stubs : list stub_t) (m : nat) : Prop :=
  (∀ (p : nat) sym, (p < m)%nat → tab !! p = Some sym →
     qualifies stubs_ndx sym →
     type sym = sym_type ∧ ∃ st, st ∈ stubs ∧ addr st = value sym)
  ∧ (∀ (p q : nat) sp sq, (p < m)%nat → (q < m)%nat →
       tab !! p = Some sp → tab !! q = Some sq →
       qualifies stubs_ndx sp → qualifies stubs_ndx sq →
       value sp = value sq → p = q).

(** The part of [scan_inv] that the counting of the resources rests on:
    a stub array whose section index is still 0 is NULL. *)
Definition scan_inv0 (ve : ve_t) : Prop :=
  (fstubs_ndx ve = 0 → fstubs ve = None)
  ∧ (vstubs_ndx ve = 0 → vstubs ve = None).

End Vocabulary.

(** ** Sample inputs *)

Definition byte_of (z : Z) : byte := default Byte.x00 (Byte.of_N (Z.to_N z)).

Definition bytes_le32 (z : Z) : list byte :=
  [byte_of (z mod 256); byte_of (z / 256 mod 256);
   byte_of (z / 65536 mod 256); byte_of (z / 16777216 mod 256)].

Definition bytes_le16 (z : Z) : list byte :=
  [byte_of (z mod 256); byte_of (z / 256 mod 256)].

(** A stub entry: three NIDs and a fourth word. *)
Definition stub_bytes (l m t w3 : Z) : list byte :=
  bytes_le32 l ++ bytes_le32 m ++ bytes_le32 t ++ bytes_le32 w3.

(** An [Elf32_Sym]. *)
Definition sym_bytes (nm v size info other ndx : Z) : list byte :=
  bytes_le32 nm ++ bytes_le32 v ++ bytes_le32 size
  ++ [byte_of info; byte_of other] ++ bytes_le16 ndx.

Definition sys0 : sys :=
  {| live_blocks := 0; open_fds := 0; elf_handles := 0; stderr := [] |}.

Definition fstubs_shdr : GElf_Shdr :=
  {| sh_name := 1; sh_type := SHT_PROGBITS; sh_addr := 4096; sh_size := 32;
     sh_link := 0; sh_info := 0; sh_entsize := 0 |}.
Definition fstubs_content : list byte :=
  stub_bytes 1 2 3 3735928559 ++ stub_bytes 4 5 6 0.
(** The function stubs, in one descriptor and in two. *)
Definition fstubs_scn : Elf_Scn :=
  {| scn_shdr := Some fstubs_shdr;
     scn_data := [ {| d_buf := fstubs_content; d_off := 0 |} ] |}.
Definition fstubs_scn2 : Elf_Scn :=
  {| scn_shdr := Some fstubs_shdr;
     scn_data := [ {| d_buf := take 16 fstubs_content; d_off := 0 |};
                   {| d_buf := drop 16 fstubs_content; d_off := 16 |} ] |}.

Definition vstubs_shdr : GElf_Shdr :=
  {| sh_name := 2; sh_type := SHT_PROGBITS; sh_addr := 8192; sh_size := 16;
     sh_link := 0; sh_info := 0; sh_entsize := 0 |}.
Definition vstubs_scn : Elf_Scn :=
  {| scn_shdr := Some vstubs_shdr;
     scn_data := [ {| d_buf := stub_bytes 7 8 9 0; d_off := 0 |} ] |}.

Definition symtab_shdr : GElf_Shdr :=
  {| sh_name := 3; sh_type := SHT_SYMTAB; sh_addr := 0; sh_size := 64;
     sh_link := 4; sh_info := 1; sh_entsize := 16 |}.
Definition symtab_content : list byte :=
  sym_bytes 0 0 0 0 0 0 ++ sym_bytes 1 4096 0 18 0 1
  ++ sym_bytes 2 4112 0 18 0 1 ++ sym_bytes 3 8192 0 17 0 2.
Definition symtab_scn : Elf_Scn :=
  {| scn_shdr := Some symtab_shdr;
     scn_data := [ {| d_buf := take 32 symtab_content; d_off := 0 |};
                   {| d_buf := drop 32 symtab_content; d_off := 32 |} ] |}.

Definition sample_strptr (scn offset : Z) : option string :=
  match scn, offset with
  | 5, 1 => Some ".vitalink.fstubs"%string
  | 5, 2 => Some ".vitalink.vstubs"%string
  | 5, 3 => Some ".symtab"%string
  | 4, 1 => Some "foo"%string
  | 4, 2 => Some "bar"%string
  | 4, 3 => Some "baz"%string
  | _, _ => None
  end.

Definition sample_elf (scns : list Elf_Scn) : Elf :=
  {| elf_kind := ELF_K_ELF;
     elf_ehdr := Some {| e_machine := EM_ARM; ei_class := ELFCLASS32;
                         ei_data := ELFDATA2LSB |};
     elf_shdrstrndx := Some 5;
     elf_scns := scns;
     elf_strptr := sample_strptr |}.

Definition sample_env (scns : list Elf_Scn) : Env :=
  {| env_elf_version := 1; env_calloc_ve := true;
     env_open := λ _, 3;
     env_elf_begin := λ _, Some (sample_elf scns) |}.

(** The symbol table in one descriptor, and cut at byte 24, inside its
    second record. *)
Definition symtab_scn_whole : Elf_Scn :=
  {| scn_shdr := Some symtab_shdr;
     scn_data := [ {| d_buf := symtab_content; d_off := 0 |} ] |}.
Definition symtab_scn_cut : Elf_Scn :=
  {| scn_shdr := Some symtab_shdr;
     scn_data := [ {| d_buf := take 24 symtab_content; d_off := 0 |};
                   {| d_buf := drop 24 symtab_content; d_off := 24 |} ] |}.
(** The function stubs cut at byte 12, inside their first record. *)
Definition fstubs_scn_cut : Elf_Scn :=
  {| scn_shdr := Some fstubs_shdr;
     scn_data := [ {| d_buf := take 12 fstubs_content; d_off := 0 |};
                   {| d_buf := drop 12 fstubs_content; d_off := 12 |} ] |}.

(** A database over numbers: library 100 has NID 1 and library 700 has
    NID 7; module 200 has NID 2 in library 100, module 800 has NID 8 in
    library 700; function 300 has NID 3 in module 200 and variable 900 has
    NID 9 in module 800.  [full] adds library 400 (NID 4), its module 500
    (NID 5) and the function 600 (NID 6). *)
Definition db_find_lib (full : bool) (nid : Z) : option Z :=
  match nid with
  | 1 => Some 100 | 7 => Some 700
  | 4 => if full then Some 400 else None
  | _ => None
  end.
Definition db_find_module (lib nid : Z) : option Z :=
  match lib, nid with
  | 100, 2 => Some 200 | 700, 8 => Some 800 | 400, 5 => Some 500
  | _, _ => None
  end.
Definition db_find_function (mod_ nid : Z) : option Z :=
  match mod_, nid with
  | 200, 3 => Some 300 | 500, 6 => Some 600
  | _, _ => None
  end.
Definition db_find_variable (mod_ nid : Z) : option Z :=
  match mod_, nid with
  | 800, 9 => Some 900
  | _, _ => None
  end.

(** The session loaded from the sample binary. *)
Definition sample_session : @vita_elf_t Z Z Z :=
  match vita_elf_load (sample_env [fstubs_scn; vstubs_scn; symtab_scn])
          "a.elf" sys0 with
  | Some (Some ve, _) => ve
  | _ => zero_ve
  end.

(** The arrays as the loaders leave them, before the correlation. *)
Definition fresh_fstubs : list (@vita_elf_stub_t Z Z Z) :=
  match load_stubs fstubs_scn sys0 with
  | Some (_, (_, stubs), _) => stubs
  | None => []
  end.
Definition sample_symtab : list vita_elf_symbol_t :=
  elems (symtab sample_session).
Definition sym_bar : vita_elf_symbol_t :=
  {| name := Some "bar"%string; value := 4112; type := STT_FUNC;
     binding := STB_GLOBAL; shndx := 1 |}.

(** A symbol table whose header gives no entry size. *)
Definition symtab_shdr0 : GElf_Shdr :=
  {| sh_name := 3; sh_type := SHT_SYMTAB; sh_addr := 0; sh_size := 64;
     sh_link := 4; sh_info := 1; sh_entsize := 0 |}.
Definition symtab_scn0 : Elf_Scn :=
  {| scn_shdr := Some symtab_shdr0;
     scn_data := [ {| d_buf := symtab_content; d_off := 0 |} ] |}.

(** The sample binary, and the resources held once it is loaded. *)
Definition sample_scns : list Elf_Scn := [fstubs_scn; vstubs_scn; symtab_scn].
Definition sys_loaded : sys :=
  {| live_blocks := 4; open_fds := 1; elf_handles := 1; stderr := [] |}.

(** The sample binary with the header of an x86 file. *)
Definition x86_env : Env :=
  {| env_elf_version := 1; env_calloc_ve := true;
     env_open := λ _, 3;
     env_elf_begin := λ _,
       Some {| elf_kind := ELF_K_ELF;
               elf_ehdr := Some {| e_machine := 3; ei_class := ELFCLASS32;
                                   ei_data := ELFDATA2LSB |};
               elf_shdrstrndx := Some 5;
               elf_scns := sample_scns;
               elf_strptr := sample_strptr |} |}.

(** The function stubs placed at the last 16 bytes of the 32-bit address
    space, and the function stubs of which libelf hands over no data. *)
Definition fstubs_shdr_top : GElf_Shdr :=
  {| sh_name := 1; sh_type := SHT_PROGBITS; sh_addr := 4294967280;
     sh_size := 32; sh_link := 0; sh_info := 0; sh_entsize := 0 |}.
Definition fstubs_scn_top : Elf_Scn :=
  {| scn_shdr := Some fstubs_shdr_top;
     scn_data := [ {| d_buf := fstubs_content; d_off := 0 |} ] |}.
Definition fstubs_scn_nodata : Elf_Scn :=
  {| scn_shdr := Some fstubs_shdr; scn_data := [] |}.

(** A session whose symbol table has, before the symbol [foo] of the first
    function stub, a global function symbol of section 1 whose value is the
    address of no stub. *)
Definition sym_foo : vita_elf_symbol_t :=
  {| name := Some "foo"%string; value := 4096; type := STT_FUNC;
     binding := STB_GLOBAL; shndx := 1 |}.
Definition sym_stray : vita_elf_symbol_t :=
  {| name := Some "baz"%string; value := 12288; type := STT_FUNC;
     binding := STB_GLOBAL; shndx := 1 |}.
Definition stray_session : @vita_elf_t Z Z Z :=
  with_symtab zero_ve 3 (Some [zero_symbol; sym_stray; sym_foo]).

(** Stub sections of 20 bytes, each in one descriptor: one record and four
    bytes more. *)
Definition fstubs_shdr20 : GElf_Shdr :=
  {| sh_name := 1; sh_type := SHT_PROGBITS; sh_addr := 4096; sh_size := 20;
     sh_link := 0; sh_info := 0; sh_entsize := 0 |}.
Definition fstubs_scn20 : Elf_Scn :=
  {| scn_shdr := Some fstubs_shdr20;
     scn_data := [ {| d_buf := take 20 fstubs_content; d_off := 0 |} ] |}.
Definition vstubs_shdr20 : GElf_Shdr :=
  {| sh_name := 2; sh_type := SHT_PROGBITS; sh_addr := 8192; sh_size := 20;
     sh_link := 0; sh_info := 0; sh_entsize := 0 |}.
Definition vstubs_scn20 : Elf_Scn :=
  {| scn_shdr := Some vstubs_shdr20;
     scn_data := [ {| d_buf := stub_bytes 7 8 9 0 ++ bytes_le32 0;
                      d_off := 0 |} ] |}.

(** ** Lemmas on the loop counters, reads and stores *)

Lemma for_range_1 lo hi : for_range lo hi 1 = seqZ lo (hi - lo).
Proof.
  unfold for_range. replace ((hi - lo + 1 - 1) / 1) with (hi - lo)
    by (rewrite Z.div_1_r; lia).
  transitivity (Z.add lo <$> seqZ 0 (hi - lo)).
  - apply list_fmap_ext. intros _ k _. lia.
  - rewrite fmap_add_seqZ. f_equal. lia.
Qed.

Lemma for_range_16 m : for_range 0 (16 * m) 16 = (λ k, 16 * k) <$> seqZ 0 m.
Proof.
  unfold for_range. replace ((16 * m - 0 + 16 - 1) / 16) with m.
  - apply list_fmap_ext. intros _ k _. lia.
  - apply Z.div_unique with 15; lia.
Qed.

Lemma read_byte_Some buf off :
  0 ≤ off < Z.of_nat (length buf) → is_Some (read_byte buf off).
Proof.
  intros H. unfold read_byte. rewrite decide_True by lia.
  apply lookup_lt_is_Some. lia.
Qed.

Lemma read_byte_app_l l1 l2 off :
  off < Z.of_nat (length l1) → read_byte (l1 ++ l2) off = read_byte l1 off.
Proof.
  intros H. unfold read_byte. case_decide; [|done].
  apply lookup_app_l. lia.
Qed.

Lemma read_byte_app_r l1 l2 off :
  0 ≤ off →
  read_byte (l1 ++ l2) (Z.of_nat (length l1) + off) = read_byte l2 off.
Proof.
  intros H. unfold read_byte. rewrite !decide_True by lia.
  rewrite lookup_app_r by lia. f_equal. lia.
Qed.

Lemma read_le32_Some buf off :
  0 ≤ off → off + 4 ≤ Z.of_nat (length buf) → is_Some (read_le32 buf off).
Proof.
  intros H1 H2. unfold read_le32.
  destruct (read_byte_Some buf off) as [b0 ->]; [lia|].
  destruct (read_byte_Some buf (off + 1)) as [b1 ->]; [lia|].
  destruct (read_byte_Some buf (off + 2)) as [b2 ->]; [lia|].
  destruct (read_byte_Some buf (off + 3)) as [b3 ->]; [lia|].
  simpl. eauto.
Qed.

Lemma read_le32_app_l l1 l2 off :
  off + 4 ≤ Z.of_nat (length l1) →
  read_le32 (l1 ++ l2) off = read_le32 l1 off.
Proof.
  intros H. unfold read_le32. rewrite !read_byte_app_l by lia. done.
Qed.

Lemma read_le32_app_r l1 l2 off :
  0 ≤ off →
  read_le32 (l1 ++ l2) (Z.of_nat (length l1) + off) = read_le32 l2 off.
Proof.
  intros H. unfold read_le32.
  rewrite <- !Z.add_assoc, !read_byte_app_r by lia. done.
Qed.

Lemma read_le16_app_l l1 l2 off :
  off + 2 ≤ Z.of_nat (length l1) →
  read_le16 (l1 ++ l2) off = read_le16 l1 off.
Proof.
  intros H. unfold read_le16. rewrite !read_byte_app_l by lia. done.
Qed.

Lemma read_le16_app_r l1 l2 off :
  0 ≤ off →
  read_le16 (l1 ++ l2) (Z.of_nat (length l1) + off) = read_le16 l2 off.
Proof.
  intros H. unfold read_le16.
  rewrite <- !Z.add_assoc, !read_byte_app_r by lia. done.
Qed.

Lemma read_le16_Some buf off :
  0 ≤ off → off + 2 ≤ Z.of_nat (length buf) → is_Some (read_le16 buf off).
Proof.
  intros H1 H2. unfold read_le16.
  destruct (read_byte_Some buf off) as [b0 ->]; [lia|].
  destruct (read_byte_Some buf (off + 1)) as [b1 ->]; [lia|].
  simpl. eauto.
Qed.

Lemma store_Some {A} (arr : list A) i f :
  0 ≤ i < Z.of_nat (length arr) →
  ∃ old, arr !! Z.to_nat i = Some old
         ∧ store arr i f = Some (<[Z.to_nat i := f old]> arr).
Proof.
  intros H. unfold store. rewrite decide_True by lia.
  destruct (lookup_lt_is_Some_2 arr (Z.to_nat i)) as [old Hold]; [lia|].
  exists old. by rewrite Hold.
Qed.

Lemma store_inv {A} (arr arr' : list A) i f :
  store arr i f = Some arr' →
  0 ≤ i < Z.of_nat (length arr)
  ∧ ∃ old, arr !! Z.to_nat i = Some old ∧ arr' = <[Z.to_nat i := f old]> arr.
Proof.
  unfold store. case_decide; [|done].
  destruct (arr !! Z.to_nat i) as [old|] eqn:E; [|done].
  simpl. intros [= <-]. apply lookup_lt_Some in E. split; [lia|eauto].
Qed.

Lemma store_nat {A} (arr : list A) (j : nat) f old :
  arr !! j = Some old → store arr (Z.of_nat j) f = Some (<[j := f old]> arr).
Proof.
  intros H. unfold store. rewrite decide_True by lia.
  rewrite Nat2Z.id, H. done.
Qed.

Lemma load_at_nat {A} (arr : list A) (j : nat) :
  load_at arr (Z.of_nat j) = arr !! j.
Proof. unfold load_at. rewrite decide_True by lia. by rewrite Nat2Z.id. Qed.

Lemma load_at_Some {A} (arr : list A) i :
  0 ≤ i < Z.of_nat (length arr) → is_Some (load_at arr i).
Proof.
  intros H. unfold load_at. rewrite decide_True by lia.
  apply lookup_lt_is_Some. lia.
Qed.

Lemma length_section_bytes_cons data rest :
  Z.of_nat (length (section_bytes (data :: rest)))
  = d_size data + Z.of_nat (length (section_bytes rest)).
Proof.
  unfold section_bytes, d_size. simpl. rewrite length_app, Nat2Z.inj_add.
  reflexivity.
Qed.

Lemma list_of_length_16 (l : list byte) :
  length l = 16%nat →
  ∃ b0 b1 b2 b3 b4 b5 b6 b7 b8 b9 b10 b11 b12 b13 b14 b15,
    l = [b0; b1; b2; b3; b4; b5; b6; b7; b8; b9; b10; b11; b12; b13; b14; b15].
Proof.
  intros H. do 16 (destruct l as [|? l]; [done|]).
  destruct l; [|done]. eauto 20.
Qed.

Lemma read_byte_window (bytes : list byte) (off : Z) (c : nat) :
  0 ≤ off → (c < 16)%nat →
  read_byte bytes (off + Z.of_nat c)
  = take 16 (drop (Z.to_nat off) bytes) !! c.
Proof.
  intros Hoff Hc. unfold read_byte. rewrite decide_True by lia.
  rewrite lookup_take_lt, lookup_drop by done. f_equal. lia.
Qed.

(** ** The stub loader *)

Section StubLoader.

Context {vita_imports_lib_t vita_imports_module_t vita_imports_stub_t : Type}.

Local Abbreviation stub_t :=
  (@vita_elf_stub_t vita_imports_lib_t vita_imports_module_t
     vita_imports_stub_t).

Lemma stub_entry_app_l base l1 l2 i :
  16 * i + 16 ≤ Z.of_nat (length l1) →
  stub_entry base (l1 ++ l2) i =@{option stub_t} stub_entry base l1 i.
Proof.
  intros H. unfold stub_entry. rewrite !read_le32_app_l by lia. done.
Qed.

Lemma stub_entry_app_r base l1 l2 m i :
  Z.of_nat (length l1) = 16 * m → 0 ≤ i →
  stub_entry base (l1 ++ l2) (m + i)
  =@{option stub_t} stub_entry (base + 16 * m) l2 i.
Proof.
  intros Hl Hi.
  assert (∀ c, 0 ≤ c → read_le32 (l1 ++ l2) (16 * (m + i) + c)
                       = read_le32 l2 (16 * i + c)) as R.
  { intros c Hc.
    replace (16 * (m + i) + c) with (Z.of_nat (length l1) + (16 * i + c))
      by lia.
    apply read_le32_app_r. lia. }
  unfold stub_entry. rewrite (R 4), (R 8) by lia.
  generalize (R 0). rewrite !Z.add_0_r. intros ->; [|lia].
  replace (base + 16 * (m + i)) with (base + 16 * m + 16 * i) by lia.
  done.
Qed.

Lemma load_stubs_for_spec (shdr : GElf_Shdr) (data : Elf_Data) (n : nat) :
  ∀ (j k : Z) (arr : list stub_t),
    0 ≤ j → 0 ≤ k →
    16 * (j + Z.of_nat n) ≤ d_size data →
    k + Z.of_nat n ≤ Z.of_nat (length arr) →
    (∀ i : nat, k ≤ Z.of_nat i → (i < length arr)%nat →
                arr !! i = Some zero_stub) →
    ∃ arr',
      load_stubs_for shdr data ((λ x, 16 * x) <$> seqZ j (Z.of_nat n))
        (arr, k) = Some (arr', k + Z.of_nat n)
      ∧ length arr' = length arr
      ∧ (∀ i : nat, Z.of_nat i < k ∨ k + Z.of_nat n ≤ Z.of_nat i →
                    arr' !! i = arr !! i)
      ∧ (∀ x, 0 ≤ x < Z.of_nat n →
              arr' !! Z.to_nat (k + x)
              = stub_entry (sh_addr shdr + d_off data) (d_buf data) (j + x)).
Proof.
  induction n as [|n IH]; intros j k arr Hj Hk Hbuf Harr Hzero.
  - exists arr. rewrite seqZ_nil by lia. simpl.
    rewrite Z.add_0_r. split; [done|]. split; [done|]. split; [done|].
    intros x Hx. lia.
  - rewrite seqZ_cons by lia. rewrite fmap_cons. simpl.
    unfold d_size in Hbuf.
    destruct (read_le32_Some (d_buf data) (16 * j)) as [w0 E0]; [lia..|].
    destruct (read_le32_Some (d_buf data) (16 * j + 4)) as [w1 E1]; [lia..|].
    destruct (read_le32_Some (d_buf data) (16 * j + 8)) as [w2 E2]; [lia..|].
    rewrite E0, E1, E2. simpl.
    destruct (store_Some arr k
                (set_stub (sh_addr shdr + d_off data + 16 * j) w0 w1 w2))
      as (old & Hold & ->); [lia|]. simpl.
    assert (old = zero_stub) as ->.
    { specialize (Hzero (Z.to_nat k)). rewrite Hzero in Hold by lia.
      congruence. }
    replace (Z.pred (Z.of_nat (S n))) with (Z.of_nat n) by lia.
    destruct (IH (Z.succ j) (k + 1)
                (<[Z.to_nat k :=
                     set_stub (sh_addr shdr + d_off data + 16 * j) w0 w1 w2
                       zero_stub]> arr))
      as (arr' & Hrun & Hlen & Hout & Hin).
    + lia.
    + lia.
    + unfold d_size. lia.
    + rewrite length_insert. lia.
    + intros i Hi1 Hi2. rewrite length_insert in Hi2.
      rewrite list_lookup_insert_ne by lia. apply Hzero; lia.
    + exists arr'. rewrite Hrun. rewrite length_insert in Hlen.
      split; [f_equal; f_equal; lia|]. split; [done|]. split.
      * intros i Hi. rewrite Hout by lia.
        apply list_lookup_insert_ne. lia.
      * intros x Hx. destruct (decide (x = 0)) as [->|Hne].
        -- rewrite Z.add_0_r, Hout by lia.
           rewrite list_lookup_insert_eq by lia.
           rewrite Z.add_0_r. unfold stub_entry. rewrite E0, E1, E2. done.
        -- specialize (Hin (x - 1)).
           replace (k + 1 + (x - 1)) with (k + x) in Hin by lia.
           replace (Z.succ j + (x - 1)) with (j + x) in Hin by lia.
           apply Hin. lia.
Qed.

Lemma load_stubs_while_spec (shdr : GElf_Shdr) :
  ∀ (datas : list Elf_Data) (off k : Z) (arr : list stub_t),
    chunks_from 16 off datas → 0 ≤ k → off = 16 * k →
    off + Z.of_nat (length (section_bytes datas)) = sh_size shdr →
    16 * Z.of_nat (length arr) = sh_size shdr →
    (∀ i : nat, k ≤ Z.of_nat i → (i < length arr)%nat →
                arr !! i = Some zero_stub) →
    ∃ arr',
      load_stubs_while shdr datas off (arr, k)
      = Some (arr', Z.of_nat (length arr))
      ∧ length arr' = length arr
      ∧ (∀ i : nat, Z.of_nat i < k → arr' !! i = arr !! i)
      ∧ (∀ x, 0 ≤ x → k + x < Z.of_nat (length arr) →
              arr' !! Z.to_nat (k + x)
              = stub_entry (sh_addr shdr + off) (section_bytes datas) x).
Proof.
  induction datas as [|data rest IH]; intros off k arr Hch Hk Hoff Htot Hlen Hz.
  - simpl in *. exists arr. split; [do 2 f_equal; lia|].
    split; [done|]. split; [done|]. intros x Hx1 Hx2. lia.
  - destruct Hch as (Hdoff & Hmod & Hch).
    rewrite length_section_bytes_cons in Htot.
    assert (0 ≤ d_size data) as Hnn by (unfold d_size; lia).
    apply Z.mod_divide in Hmod; [|lia]. destruct Hmod as [m Hm].
    assert (0 ≤ m) as Hmnn by lia.
    cbn [load_stubs_while]. case_decide as Hlt.
    + replace (for_range 0 (d_size data) 16)
        with (for_range 0 (16 * m) 16) by (f_equal; lia).
      rewrite for_range_16.
      destruct (load_stubs_for_spec shdr data (Z.to_nat m) 0 k arr)
        as (arr1 & Hrun & Hlen1 & Hout1 & Hin1); [lia..|done|].
      rewrite Z2Nat.id in Hrun, Hout1, Hin1 by lia.
      rewrite Hrun. simpl.
      destruct (IH (off + d_size data) (k + m) arr1)
        as (arr' & Hrun' & Hlen' & Hout' & Hin'); [done|lia..| |].
      { intros i Hi1 Hi2. rewrite Hout1 by lia. apply Hz; lia. }
      exists arr'. rewrite Hlen1 in Hrun', Hlen', Hin'.
      split; [done|]. split; [done|]. split.
      * intros i Hi. rewrite Hout' by lia. apply Hout1. lia.
      * intros x Hx1 Hx2. destruct (decide (x < m)) as [Hxm|Hxm].
        -- rewrite Hout' by lia. rewrite Hin1 by lia.
           change (section_bytes (data :: rest))
             with (d_buf data ++ section_bytes rest).
           rewrite stub_entry_app_l by (unfold d_size in Hm; lia).
           rewrite Hdoff. done.
        -- specialize (Hin' (x - m)).
           replace (k + m + (x - m)) with (k + x) in Hin' by lia.
           rewrite Hin' by lia.
           change (section_bytes (data :: rest))
             with (d_buf data ++ section_bytes rest).
           replace x with (m + (x - m)) at 2 by lia.
           rewrite stub_entry_app_r by (unfold d_size in Hm; lia).
           f_equal. lia.
    + exists arr. split; [do 2 f_equal; lia|].
      split; [done|]. split; [done|]. intros x Hx1 Hx2. lia.
Qed.

(** What [load_stubs] returns for a delivery in 16-byte records. *)
Lemma load_stubs_spec (scn : Elf_Scn) (shdr : GElf_Shdr) (s : sys) :
  scn_shdr scn = Some shdr →
  delivery_ok 16 (sh_size shdr) (scn_data scn) →
  ∃ stubs : list stub_t,
    load_stubs scn s
    = Some ((1, (sh_size shdr / 16, stubs)),
            {| live_blocks := live_blocks s + 1; open_fds := open_fds s;
               elf_handles := elf_handles s; stderr := stderr s |})
    ∧ Z.of_nat (length stubs) = sh_size shdr / 16
    ∧ ∀ i, 0 ≤ i < sh_size shdr / 16 →
           stubs !! Z.to_nat i
           = stub_entry (sh_addr shdr) (section_bytes (scn_data scn)) i.
Proof.
  intros Hshdr (_ & Hch & Hsize).
  assert (sh_size shdr mod 16 = 0) as Hmod.
  { rewrite <- Hsize. clear Hsize. revert Hch. generalize 0 at 1.
    induction (scn_data scn) as [|d l IH]; intros off Hch; [done|].
    destruct Hch as (_ & Hm & Hch). rewrite length_section_bytes_cons.
    rewrite Z.add_mod, Hm, (IH _ Hch) by lia. done. }
  apply Z.mod_divide in Hmod; [|lia]. destruct Hmod as [n Hn].
  assert (sh_size shdr / 16 = n) as Hdiv by (rewrite Hn; apply Z.div_mul; lia).
  assert (0 ≤ n) as Hnn by lia.
  destruct (load_stubs_while_spec shdr (scn_data scn) 0 0
              (replicate (Z.to_nat n) zero_stub))
    as (arr' & Hrun & Hlen & _ & Hin); [done|lia|lia|lia| | |].
  { rewrite length_replicate. lia. }
  { intros i _ Hi. rewrite length_replicate in Hi.
    by apply lookup_replicate_2. }
  rewrite length_replicate in Hrun, Hlen, Hin.
  exists arr'. unfold load_stubs, bind, lift, calloc, add_blocks, ret.
  rewrite Hshdr, Hdiv, Hrun. simpl. split; [done|]. split; [lia|].
  intros i Hi. specialize (Hin i). rewrite Z.add_0_l, Z.add_0_r in Hin.
  apply Hin; lia.
Qed.

Lemma stub_entry_window (base : Z) (bytes : list byte) (i : Z) :
  0 ≤ i → 16 * i + 16 ≤ Z.of_nat (length bytes) →
  ∃ b0 b1 b2 b3 b4 b5 b6 b7 b8 b9 b10 b11 b12 b13 b14 b15,
    take 16 (drop (Z.to_nat (16 * i)) bytes)
    = [b0; b1; b2; b3; b4; b5; b6; b7; b8; b9; b10; b11; b12; b13; b14; b15]
    ∧ stub_entry base bytes i
      = Some (set_stub (base + 16 * i) (le32 b0 b1 b2 b3) (le32 b4 b5 b6 b7)
                (le32 b8 b9 b10 b11) zero_stub : stub_t).
Proof.
  intros Hi Hlen.
  destruct (list_of_length_16 (take 16 (drop (Z.to_nat (16 * i)) bytes)))
    as (b0 & b1 & b2 & b3 & b4 & b5 & b6 & b7 & b8 & b9 & b10 & b11 & b12
        & b13 & b14 & b15 & Hw).
  { rewrite length_take, length_drop. lia. }
  exists b0, b1, b2, b3, b4, b5, b6, b7, b8, b9, b10, b11, b12, b13, b14, b15.
  split; [done|].
  assert (∀ (c : nat) (z : Z), z = 16 * i + Z.of_nat c → (c < 16)%nat →
            read_byte bytes z
            = [b0; b1; b2; b3; b4; b5; b6; b7; b8; b9; b10; b11; b12; b13;
               b14; b15] !! c) as R.
  { intros c z -> Hc. rewrite read_byte_window by lia. by rewrite Hw. }
  unfold stub_entry, read_le32.
  rewrite (R 0%nat (16 * i)), (R 1%nat (16 * i + 1)),
    (R 2%nat (16 * i + 2)), (R 3%nat (16 * i + 3)) by lia.
  rewrite (R 4%nat (16 * i + 4)), (R 5%nat (16 * i + 4 + 1)),
    (R 6%nat (16 * i + 4 + 2)), (R 7%nat (16 * i + 4 + 3)) by lia.
  rewrite (R 8%nat (16 * i + 8)), (R 9%nat (16 * i + 8 + 1)),
    (R 10%nat (16 * i + 8 + 2)), (R 11%nat (16 * i + 8 + 3)) by lia.
  reflexivity.
Qed.

(** C1, amended: a stub section of [16 * N] bytes that is delivered in
    whole 16-byte records, each record address [sh_addr + 16 * i] fitting
    the 32-bit address field, gives exactly [N] stub records; record [i]
    has address [sh_addr + 16 * i], its three NIDs are the little-endian
    words 0, 1 and 2 of entry [i] (bytes [b0] to [b11]; word 3, bytes [b12]
    to [b15], appears nowhere in it), and addresses are strictly ascending
    along the array, hence distinct. *)
Theorem load_stubs_records (scn : Elf_Scn) (shdr : GElf_Shdr) (N : Z)
    (s : sys) :
  scn_shdr scn = Some shdr →
  sh_size shdr = 16 * N →
  delivery_ok 16 (sh_size shdr) (scn_data scn) →
  0 ≤ sh_addr shdr →
  (∀ i, 0 ≤ i < N → sh_addr shdr + 16 * i < 2 ^ 32) →
  ∃ (stubs : list stub_t) (s' : sys),
    load_stubs scn s = Some ((1, (N, stubs)), s')
    ∧ Z.of_nat (length stubs) = N
    ∧ (∀ i, 0 ≤ i < N →
        ∃ b0 b1 b2 b3 b4 b5 b6 b7 b8 b9 b10 b11 b12 b13 b14 b15,
          take 16 (drop (Z.to_nat (16 * i)) (section_bytes (scn_data scn)))
          = [b0; b1; b2; b3; b4; b5; b6; b7; b8; b9; b10; b11; b12; b13;
             b14; b15]
          ∧ stubs !! Z.to_nat i
            = Some {| addr := sh_addr shdr + 16 * i;
                      library_nid := le32 b0 b1 b2 b3;
                      module_nid := le32 b4 b5 b6 b7;
                      target_nid := le32 b8 b9 b10 b11;
                      symbol := None; library := None; module := None;
                      target := None |})
    ∧ (∀ (i j : nat) (si sj : stub_t),
        stubs !! i = Some si → stubs !! j = Some sj → (i < j)%nat →
        addr si < addr sj).
Proof.
  intros Hshdr HN Hdel Hbase Htop.
  assert (sh_size shdr / 16 = N) as Hdiv.
  { rewrite HN, Z.mul_comm. apply Z.div_mul. lia. }
  destruct (load_stubs_spec scn shdr s Hshdr Hdel) as (stubs & Hrun & Hlen & Hin).
  rewrite Hdiv in Hrun, Hlen, Hin.
  assert (∀ i, 0 ≤ i < N →
            ∃ b0 b1 b2 b3 b4 b5 b6 b7 b8 b9 b10 b11 b12 b13 b14 b15,
              take 16 (drop (Z.to_nat (16 * i)) (section_bytes (scn_data scn)))
              = [b0; b1; b2; b3; b4; b5; b6; b7; b8; b9; b10; b11; b12; b13;
                 b14; b15]
              ∧ stubs !! Z.to_nat i
                = Some {| addr := sh_addr shdr + 16 * i;
                          library_nid := le32 b0 b1 b2 b3;
                          module_nid := le32 b4 b5 b6 b7;
                          target_nid := le32 b8 b9 b10 b11;
                          symbol := None; library := None; module := None;
                          target := None |}) as Hrec.
  { intros i Hi. destruct Hdel as (_ & _ & Hsize).
    destruct (stub_entry_window (sh_addr shdr)
                (section_bytes (scn_data scn)) i)
      as (b0 & b1 & b2 & b3 & b4 & b5 & b6 & b7 & b8 & b9 & b10 & b11 & b12
          & b13 & b14 & b15 & Hw & He); [lia..|].
    exists b0, b1, b2, b3, b4, b5, b6, b7, b8, b9, b10, b11, b12, b13, b14, b15.
    split; [done|]. rewrite Hin, He by done. unfold set_stub, wrap32. simpl.
    specialize (Htop i Hi). rewrite Z.mod_small by lia. done. }
  eexists stubs, _. split; [exact Hrun|]. split; [done|]. split; [done|].
  intros i j si sj Hsi Hsj Hij.
  pose proof (lookup_lt_Some _ _ _ Hsj) as Hj.
  destruct (Hrec (Z.of_nat i)) as (? & ? & ? & ? & ? & ? & ? & ? & ? & ? & ?
    & ? & ? & ? & ? & ? & _ & Ei); [lia|].
  destruct (Hrec (Z.of_nat j)) as (? & ? & ? & ? & ? & ? & ? & ? & ? & ? & ?
    & ? & ? & ? & ? & ? & _ & Ej); [lia|].
  rewrite Nat2Z.id in Ei, Ej. rewrite Hsi in Ei. rewrite Hsj in Ej.
  injection Ei as ->. injection Ej as ->. simpl. lia.
Qed.

End StubLoader.

(** ** The symbol loader *)

Lemma gelf_getsym_Some (data : Elf_Data) (ndx : Z) :
  0 ≤ ndx → 16 * (ndx + 1) ≤ d_size data → is_Some (gelf_getsym data ndx).
Proof.
  intros H1 H2. unfold gelf_getsym. rewrite decide_True by lia.
  unfold d_size in H2.
  destruct (read_le32_Some (d_buf data) (16 * ndx)) as [? ->]; [lia..|].
  destruct (read_le32_Some (d_buf data) (16 * ndx + 4)) as [? ->]; [lia..|].
  destruct (read_byte_Some (d_buf data) (16 * ndx + 12)) as [? ->]; [lia|].
  destruct (read_le16_Some (d_buf data) (16 * ndx + 14)) as [? ->]; [lia..|].
  simpl. eauto.
Qed.

(** A descriptor seen inside the whole content: entry [x] of a
    descriptor that starts [16 * k] bytes into the content is entry
    [k + x] of the content. *)
Lemma gelf_getsym_inside (pre post : list byte) (data : Elf_Data)
    (k x : Z) (sym : GElf_Sym) :
  Z.of_nat (length pre) = 16 * k →
  gelf_getsym data x = Some sym →
  gelf_getsym {| d_buf := pre ++ d_buf data ++ post; d_off := 0 |} (k + x)
  = Some sym.
Proof.
  intros Hpre. unfold gelf_getsym, d_size. simpl.
  case_decide as Hx; [|done]. destruct Hx as [Hx1 Hx2].
  rewrite decide_True by (rewrite !length_app; lia).
  intros <-.
  assert (∀ c, 0 ≤ c → 16 * (k + x) + c
                       = Z.of_nat (length pre) + (16 * x + c)) as E
    by (intros; lia).
  rewrite (E 4), (E 12), (E 14) by lia.
  generalize (E 0). rewrite !Z.add_0_r. intros ->; [|lia].
  rewrite !read_le32_app_r, read_byte_app_r, read_le16_app_r by lia.
  rewrite !read_le32_app_l, read_byte_app_l, read_le16_app_l by lia.
  done.
Qed.

(** Every descriptor of a delivery lies in the content at its offset. *)
Lemma chunks_from_inside (entsize : Z) (datas : list Elf_Data) :
  ∀ (off : Z) (data : Elf_Data),
    chunks_from entsize off datas → data ∈ datas →
    ∃ pre post,
      section_bytes datas = pre ++ d_buf data ++ post
      ∧ off + Z.of_nat (length pre) = d_off data.
Proof.
  induction datas as [|d rest IH]; intros off data Hch Hin.
  - by apply elem_of_nil in Hin.
  - destruct Hch as (Hoff & _ & Hch).
    apply elem_of_cons in Hin as [->|Hin].
    + exists [], (section_bytes rest). split; [done|]. simpl. lia.
    + destruct (IH _ _ Hch Hin) as (pre & post & Hb & Hl).
      exists (d_buf d ++ pre), post.
      change (section_bytes (d :: rest)) with (d_buf d ++ section_bytes rest).
      rewrite Hb, <- app_assoc. split; [done|].
      rewrite length_app. unfold d_size in Hl. lia.
Qed.

Lemma load_symbols_for_spec (e : option Elf) (shdr : GElf_Shdr)
    (data : Elf_Data) (b : Z) (n : nat) :
  ∀ (j : Z) (tab : list vita_elf_symbol_t) (log : list Z),
    0 ≤ j → 0 ≤ b →
    16 * (j + Z.of_nat n) ≤ d_size data →
    b + j + Z.of_nat n ≤ Z.of_nat (length tab) →
    ∃ tab',
      load_symbols_for e shdr data b (seqZ j (Z.of_nat n)) (tab, log)
      = Some (Continue (tab', log ++ seqZ (j + b) (Z.of_nat n)))
      ∧ length tab' = length tab
      ∧ (∀ i : nat, Z.of_nat i < b + j ∨ b + j + Z.of_nat n ≤ Z.of_nat i →
                    tab' !! i = tab !! i)
      ∧ (∀ x, 0 ≤ x < Z.of_nat n →
              ∃ sym, gelf_getsym data (j + x) = Some sym
                     ∧ tab' !! Z.to_nat (b + j + x)
                       = Some (sym_entry e shdr sym)).
Proof.
  induction n as [|n IH]; intros j tab log Hj Hb Hbuf Htab.
  - exists tab. rewrite !seqZ_nil by lia. simpl. rewrite app_nil_r.
    split; [done|]. split; [done|]. split; [done|]. intros x Hx. lia.
  - rewrite (seqZ_cons j) by lia. cbn [load_symbols_for].
    unfold load_symbols_body.
    destruct (gelf_getsym_Some data j) as [sym Hsym]; [lia..|].
    rewrite Hsym. cbn [fst snd].
    destruct (store_Some tab (j + b)
                (set_sym (strptr e (sh_link shdr) (st_name sym)) sym))
      as (old & Hold & ->); [lia|]. cbn [mbind option_bind].
    replace (Z.pred (Z.of_nat (S n))) with (Z.of_nat n) by lia.
    destruct (IH (Z.succ j)
                (<[Z.to_nat (j + b) :=
                     set_sym (strptr e (sh_link shdr) (st_name sym)) sym old]>
                   tab) (log ++ [j + b]))
      as (tab' & Hrun & Hlen & Hout & Hin);
      [lia|lia|lia|rewrite length_insert; lia|].
    exists tab'. rewrite Hrun. rewrite length_insert in Hlen.
    split.
    { do 3 f_equal. rewrite <- app_assoc. f_equal.
      rewrite (seqZ_cons (j + b)) by lia. simpl. do 2 f_equal; lia. }
    split; [done|]. split.
    + intros i Hi. rewrite Hout by lia. apply list_lookup_insert_ne. lia.
    + intros x Hx. destruct (decide (x = 0)) as [->|Hne].
      * exists sym. rewrite !Z.add_0_r. split; [done|].
        rewrite Hout by lia. replace (b + j) with (j + b) by lia.
        rewrite list_lookup_insert_eq by lia. done.
      * destruct (Hin (x - 1)) as (sym' & Hs' & Ht'); [lia|].
        exists sym'. replace (j + x) with (Z.succ j + (x - 1)) by lia.
        split; [done|]. rewrite <- Ht'. f_equal. lia.
Qed.

(** The same loop cannot fault as long as its stores stay in the table. *)
Lemma load_symbols_for_safe (e : option Elf) (shdr : GElf_Shdr)
    (data : Elf_Data) (b : Z) (symndxs : list Z) :
  ∀ st : list vita_elf_symbol_t * list Z,
    Forall (λ x, 0 ≤ x + b < Z.of_nat (length st.1)) symndxs →
    ∃ r, load_symbols_for e shdr data b symndxs st = Some r
         ∧ length (step_state r).1 = length st.1.
Proof.
  induction symndxs as [|x rest IH]; intros st Hall.
  - exists (Continue st). done.
  - apply Forall_cons in Hall as [Hx Hall].
    cbn [load_symbols_for]. unfold load_symbols_body.
    destruct (gelf_getsym data x) as [sym|].
    + destruct (store_Some st.1 (x + b)
                  (set_sym (strptr e (sh_link shdr) (st_name sym)) sym))
        as (old & Hold & ->); [lia|]. cbn [mbind option_bind].
      destruct (IH (<[Z.to_nat (x + b) :=
                        set_sym (strptr e (sh_link shdr) (st_name sym)) sym
                          old]> st.1, st.2 ++ [x + b])) as (r & Hr & Hlen).
      { simpl. rewrite length_insert. done. }
      exists r. split; [done|]. rewrite Hlen. simpl. apply length_insert.
    + exists (Stop st Err_getsym). done.
Qed.

Lemma seqZ_to_nat (a n : Z) : seqZ a n = seqZ a (Z.of_nat (Z.to_nat n)).
Proof. unfold seqZ. by rewrite Nat2Z.id. Qed.

Lemma seqZ_max_join (a k m N : Z) :
  0 ≤ m → k + m ≤ N →
  seqZ (Z.max a k) (k + m - Z.max a k)
    ++ seqZ (Z.max a (k + m)) (N - Z.max a (k + m))
  = seqZ (Z.max a k) (N - Z.max a k).
Proof.
  intros Hm HN. destruct (decide (a ≤ k + m)) as [Ha|Ha].
  - replace (Z.max a (k + m)) with (Z.max a k + (k + m - Z.max a k)) by lia.
    rewrite <- seqZ_app by lia. f_equal. lia.
  - rewrite (seqZ_nil _ (k + m - Z.max a k)) by lia.
    simpl. f_equal; lia.
Qed.

(** One descriptor: the inner loop stores the indices from the later of
    [sh_info] and the first index of the descriptor up to its last. *)
Lemma load_symbols_chunk_spec (e : option Elf) (shdr : GElf_Shdr)
    (data : Elf_Data) (k m : Z) (tab : list vita_elf_symbol_t)
    (log : list Z) :
  16 ≤ sh_entsize shdr → 0 ≤ k → 0 ≤ m →
  d_off data = sh_entsize shdr * k →
  d_size data = sh_entsize shdr * m →
  k + m ≤ Z.of_nat (length tab) →
  ∃ tab1,
    load_symbols_for e shdr data (d_off data / sh_entsize shdr)
      (for_range
         (if decide (sh_info shdr > d_off data / sh_entsize shdr)
          then sh_info shdr - d_off data / sh_entsize shdr else 0)
         (d_size data / sh_entsize shdr) 1) (tab, log)
    = Some (Continue
              (tab1, log ++ seqZ (Z.max (sh_info shdr) k)
                       (k + m - Z.max (sh_info shdr) k)))
    ∧ length tab1 = length tab
    ∧ (∀ i : nat, Z.of_nat i < Z.max (sh_info shdr) k
                  ∨ k + m ≤ Z.of_nat i →
                  tab1 !! i = tab !! i)
    ∧ (∀ i, Z.max (sh_info shdr) k ≤ i < k + m →
            ∃ sym, gelf_getsym data (i - k) = Some sym
                   ∧ tab1 !! Z.to_nat i = Some (sym_entry e shdr sym)).
Proof.
  intros HE Hk Hm Hdoff Hdsize HkN.
  assert (d_off data / sh_entsize shdr = k) as Hb.
  { rewrite Hdoff, Z.mul_comm. apply Z.div_mul. lia. }
  assert (d_size data / sh_entsize shdr = m) as Hcnt.
  { rewrite Hdsize, Z.mul_comm. apply Z.div_mul. lia. }
  rewrite Hb, Hcnt, for_range_1.
  set (first := if decide (sh_info shdr > k) then sh_info shdr - k else 0).
  assert (first + k = Z.max (sh_info shdr) k ∧ 0 ≤ first)
    as [Hfirst Hfnn] by (unfold first; case_decide; lia).
  destruct (decide (m ≤ first)) as [Hle|Hgt].
  - exists tab. rewrite !seqZ_nil by lia. simpl. rewrite app_nil_r.
    split; [done|]. split; [done|]. split; [done|].
    intros i Hi. lia.
  - destruct (load_symbols_for_spec e shdr data k
                (Z.to_nat (m - first)) first tab log)
      as (tab1 & Hrun1 & Hlen1 & Hout1 & Hin1); [lia|lia|nia|lia|].
    rewrite Z2Nat.id in Hrun1, Hout1, Hin1 by lia.
    exists tab1. rewrite Hrun1, Hfirst.
    split; [do 5 f_equal; lia|]. split; [done|]. split.
    + intros i Hi. apply Hout1. lia.
    + intros i Hi. destruct (Hin1 (i - k - first)) as (sym & Hs & Ht);
        [lia|].
      exists sym. replace (first + (i - k - first)) with (i - k) in Hs
        by lia.
      split; [done|]. rewrite <- Ht. f_equal. lia.
Qed.

Lemma load_symbols_while_spec (e : option Elf) (shdr : GElf_Shdr) :
  16 ≤ sh_entsize shdr → 0 ≤ sh_info shdr →
  ∀ (datas : list Elf_Data) (off k : Z) (tab : list vita_elf_symbol_t)
    (log : list Z),
    chunks_from (sh_entsize shdr) off datas →
    0 ≤ k → off = sh_entsize shdr * k →
    off + Z.of_nat (length (section_bytes datas)) = sh_size shdr →
    sh_entsize shdr * Z.of_nat (length tab) = sh_size shdr →
    ∃ tab',
      load_symbols_while e shdr datas off (tab, log)
      = Some (Continue
                (tab', log ++ seqZ (Z.max (sh_info shdr) k)
                         (Z.of_nat (length tab) - Z.max (sh_info shdr) k)))
      ∧ length tab' = length tab
      ∧ (∀ i : nat, Z.of_nat i < Z.max (sh_info shdr) k →
                    tab' !! i = tab !! i)
      ∧ (∀ i, Z.max (sh_info shdr) k ≤ i < Z.of_nat (length tab) →
              ∃ data sym,
                data ∈ datas
                ∧ 0 ≤ i - d_off data / sh_entsize shdr
                ∧ gelf_getsym data (i - d_off data / sh_entsize shdr)
                  = Some sym
                ∧ tab' !! Z.to_nat i = Some (sym_entry e shdr sym)).
Proof.
  intros HE Hinfo.
  induction datas as [|data rest IH];
    intros off k tab log Hch Hk Hoff Htot Hlen.
  - simpl in *. assert (k = Z.of_nat (length tab)) as -> by nia.
    exists tab. rewrite seqZ_nil by lia. rewrite app_nil_r.
    split; [done|]. split; [done|]. split; [done|]. intros i Hi. lia.
  - destruct Hch as (Hdoff & Hmod & Hch).
    rewrite length_section_bytes_cons in Htot.
    assert (0 ≤ d_size data) as Hnn by (unfold d_size; lia).
    apply Z.mod_divide in Hmod; [|lia]. destruct Hmod as [m Hm].
    assert (0 ≤ m) as Hmnn by nia.
    assert (k + m ≤ Z.of_nat (length tab)) as HkN by nia.
    cbn [load_symbols_while]. case_decide as Hlt.
    + destruct (load_symbols_chunk_spec e shdr data k m tab log)
        as (tab1 & Hrun1 & Hlen1 & Hout1 & Hin1); [lia..|].
      assert (d_off data / sh_entsize shdr = k) as Hb.
      { rewrite Hdoff, Hoff, Z.mul_comm. apply Z.div_mul. lia. }
      rewrite Hrun1.
      destruct (IH (off + d_size data) (k + m) tab1
                  (log ++ seqZ (Z.max (sh_info shdr) k)
                            (k + m - Z.max (sh_info shdr) k)))
        as (tab' & Hrun' & Hlen' & Hout' & Hin'); [done|lia|nia|lia|lia|].
      rewrite Hlen1 in Hrun', Hlen', Hin'.
      exists tab'. rewrite Hrun'. split.
      { do 3 f_equal. rewrite <- app_assoc. f_equal.
        by apply seqZ_max_join. }
      split; [done|]. split.
      * intros i Hi. rewrite Hout' by lia. apply Hout1. lia.
      * intros i Hi. destruct (decide (i < k + m)) as [Hi'|Hi'].
        -- destruct (Hin1 i) as (sym & Hs & Ht); [lia|].
           exists data, sym. rewrite Hb. split; [apply elem_of_cons; by left|].
           split; [lia|]. split; [done|].
           rewrite Hout' by lia. done.
        -- destruct (Hin' i) as (data' & sym & Hd & Hge & Hs & Ht); [lia|].
           exists data', sym. split; [apply elem_of_cons; by right|].
           done.
    + assert (k = Z.of_nat (length tab)) as -> by nia.
      exists tab. rewrite seqZ_nil by lia. rewrite app_nil_r.
      split; [done|]. split; [done|]. split; [done|]. intros i Hi. lia.
Qed.

Lemma load_symbols_while_safe (e : option Elf) (shdr : GElf_Shdr) :
  0 < sh_entsize shdr →
  ∀ (datas : list Elf_Data) (off k : Z)
    (st : list vita_elf_symbol_t * list Z),
    chunks_from (sh_entsize shdr) off datas →
    0 ≤ k → off = sh_entsize shdr * k →
    off + Z.of_nat (length (section_bytes datas)) = sh_size shdr →
    sh_entsize shdr * Z.of_nat (length st.1) = sh_size shdr →
    ∃ r, load_symbols_while e shdr datas off st = Some r
         ∧ length (step_state r).1 = length st.1.
Proof.
  intros HE. induction datas as [|data rest IH];
    intros off k st Hch Hk Hoff Htot Hlen.
  - exists (Continue st). done.
  - destruct Hch as (Hdoff & Hmod & Hch).
    rewrite length_section_bytes_cons in Htot.
    assert (0 ≤ d_size data) as Hnn by (unfold d_size; lia).
    apply Z.mod_divide in Hmod; [|lia]. destruct Hmod as [m Hm].
    assert (0 ≤ m) as Hmnn by nia.
    assert (k + m ≤ Z.of_nat (length st.1)) as HkN by nia.
    cbn [load_symbols_while]. case_decide as Hlt.
    + assert (d_off data / sh_entsize shdr = k) as Hb.
      { rewrite Hdoff, Hoff, Z.mul_comm. apply Z.div_mul. lia. }
      assert (d_size data / sh_entsize shdr = m) as Hcnt.
      { rewrite Hm. apply Z.div_mul. lia. }
      rewrite Hb, Hcnt, for_range_1.
      set (first := if decide (sh_info shdr > k)
                    then sh_info shdr - k else 0).
      assert (0 ≤ first) as Hfnn by (unfold first; case_decide; lia).
      destruct (load_symbols_for_safe e shdr data k
                  (seqZ first (m - first)) st) as (r & Hr & Hlr).
      { apply Forall_seqZ. intros x Hx. lia. }
      rewrite Hr. destruct r as [st1|st1 d].
      * simpl in Hlr.
        destruct (IH (off + d_size data) (k + m) st1)
          as (r' & Hr' & Hlr'); [done|lia|nia|lia|lia|].
        exists r'. split; [done|]. lia.
      * exists (Stop st1 d). done.
    + exists (Continue st). done.
Qed.

Lemma delivery_size_multiple (entsize size : Z) (datas : list Elf_Data) :
  delivery_ok entsize size datas →
  0 ≤ size / entsize ∧ size = entsize * (size / entsize).
Proof.
  intros (Hpos & Hch & Hsize).
  assert (size mod entsize = 0) as Hmod.
  { rewrite <- Hsize. clear Hsize. revert Hch. generalize 0 at 1.
    induction datas as [|d l IH]; intros off Hch.
    - simpl. by apply Z.mod_0_l, Z.neq_sym, Z.lt_neq.
    - destruct Hch as (_ & Hm & Hch). rewrite length_section_bytes_cons.
      rewrite Z.add_mod, Hm, (IH _ Hch) by lia. simpl.
      by apply Z.mod_0_l, Z.neq_sym, Z.lt_neq. }
  split.
  - apply Z.div_pos; lia.
  - pose proof (Z.div_mod size entsize) as H. lia.
Qed.

Lemma chunks_from_elem (entsize : Z) (datas : list Elf_Data) :
  0 < entsize →
  ∀ (off k : Z) (data : Elf_Data),
    chunks_from entsize off datas → off = entsize * k → 0 ≤ k →
    data ∈ datas →
    ∃ k' m, 0 ≤ k' ∧ 0 ≤ m ∧ d_off data = entsize * k'
            ∧ d_size data = entsize * m
            ∧ entsize * (k' + m)
              ≤ off + Z.of_nat (length (section_bytes datas)).
Proof.
  intros HE. induction datas as [|d rest IH]; intros off k data Hch Hoff Hk Hin.
  - by apply elem_of_nil in Hin.
  - destruct Hch as (Hdoff & Hmod & Hch).
    assert (0 ≤ d_size d) as Hnn by (unfold d_size; lia).
    apply Z.mod_divide in Hmod; [|lia]. destruct Hmod as [m Hm].
    assert (0 ≤ m) as Hmnn by nia.
    rewrite length_section_bytes_cons.
    apply elem_of_cons in Hin as [->|Hin].
    + exists k, m. repeat split; [lia..|nia].
    + destruct (IH (off + d_size d) (k + m) data Hch) as
        (k' & m' & ? & ? & ? & ? & ?); [nia|lia|done|].
      exists k', m'. repeat split; [lia..].
Qed.

(** What the decoding loops of [load_symbols] do for a delivery in
    records of [sh_entsize] bytes, none shorter than an [Elf32_Sym]. *)
Lemma load_symbols_decode_spec (e : option Elf) (shdr : GElf_Shdr)
    (datas : list Elf_Data) :
  16 ≤ sh_entsize shdr → 0 ≤ sh_info shdr →
  delivery_ok (sh_entsize shdr) (sh_size shdr) datas →
  ∃ tab,
    load_symbols_decode e shdr datas
    = Some (Continue
              (tab, seqZ (sh_info shdr)
                      (sh_size shdr / sh_entsize shdr - sh_info shdr)))
    ∧ Z.of_nat (length tab) = sh_size shdr / sh_entsize shdr
    ∧ (∀ i : nat, Z.of_nat i < sh_info shdr →
                  (i < length tab)%nat → tab !! i = Some zero_symbol)
    ∧ (∀ i, sh_info shdr ≤ i < sh_size shdr / sh_entsize shdr →
            ∃ data sym,
              data ∈ datas
              ∧ 0 ≤ i - d_off data / sh_entsize shdr
              ∧ gelf_getsym data (i - d_off data / sh_entsize shdr)
                = Some sym
              ∧ tab !! Z.to_nat i = Some (sym_entry e shdr sym)).
Proof.
  intros HE Hinfo Hdel.
  destruct (delivery_size_multiple _ _ _ Hdel) as [HN Hsz].
  destruct Hdel as (_ & Hch & Hsize).
  set (N := sh_size shdr / sh_entsize shdr) in *.
  destruct (load_symbols_while_spec e shdr HE Hinfo datas 0 0
              (replicate (Z.to_nat N) zero_symbol) [])
    as (tab & Hrun & Hlen & Hout & Hin); [done|lia|lia|lia| |].
  { rewrite length_replicate. lia. }
  rewrite length_replicate, Z2Nat.id in Hrun, Hin by lia.
  rewrite length_replicate in Hlen.
  replace (Z.max (sh_info shdr) 0) with (sh_info shdr) in * by lia.
  exists tab. unfold load_symbols_decode. fold N. rewrite Hrun.
  split; [done|]. split; [lia|]. split; [|done].
  intros i Hi1 Hi2. rewrite Hout by done. apply lookup_replicate_2. lia.
Qed.

Section SymbolLoader.

Context {vita_imports_lib_t vita_imports_module_t vita_imports_stub_t : Type}.

Local Abbreviation stub_t :=
  (@vita_elf_stub_t vita_imports_lib_t vita_imports_module_t
     vita_imports_stub_t).
Local Abbreviation ve_t :=
  (@vita_elf_t vita_imports_lib_t vita_imports_module_t vita_imports_stub_t).

Lemma load_symbols_run (ve : ve_t) (scn : Elf_Scn) (shdr : GElf_Shdr)
    (s : sys) r :
  symtab ve = None → scn_shdr scn = Some shdr → sh_entsize shdr ≠ 0 →
  load_symbols_decode (elf ve) shdr (scn_data scn) = Some r →
  ∃ s',
    load_symbols ve scn s
    = Some ((match r with Continue _ => 1 | Stop _ _ => 0 end,
             with_symtab ve (sh_size shdr / sh_entsize shdr)
               (Some (step_state r).1)), s')
    ∧ live_blocks s' = live_blocks s + 1
    ∧ open_fds s' = open_fds s ∧ elf_handles s' = elf_handles s
    ∧ stderr s'
      = stderr s ++ match r with Continue _ => [] | Stop _ d => [d] end.
Proof.
  intros Hnull Hshdr HE Hrun.
  unfold load_symbols, bind, lift, calloc, add_blocks, warnx, ret.
  rewrite Hnull, Hshdr. rewrite decide_False by done. simpl.
  rewrite Hrun. destruct r; simpl; eexists; (split; [done|]); simpl;
    rewrite ?app_nil_r; done.
Qed.

(** C5, as amended: for a symbol table delivered in descriptors of whole
    records of [sh_entsize] bytes (none shorter than an [Elf32_Sym]), the
    stores of
    [load_symbols] go to the indices [sh_info], [sh_info + 1], ... up to the
    last index of the table, each exactly once and in this order; and
    a descriptor at byte offset [d_off] has its stores at the indices from
    [d_off / sh_entsize] (or from [sh_info], if that is later) up to the
    last record it holds. *)
Theorem load_symbols_indices (ve : ve_t) (scn : Elf_Scn) (shdr : GElf_Shdr)
    (s : sys) :
  symtab ve = None →
  scn_shdr scn = Some shdr →
  16 ≤ sh_entsize shdr →
  0 ≤ sh_info shdr →
  delivery_ok (sh_entsize shdr) (sh_size shdr) (scn_data scn) →
  ∃ tab written s',
    load_symbols_decode (elf ve) shdr (scn_data scn)
    = Some (Continue (tab, written))
    ∧ load_symbols ve scn s
      = Some ((1, with_symtab ve (sh_size shdr / sh_entsize shdr) (Some tab)),
              s')
    ∧ written = seqZ (sh_info shdr)
                  (sh_size shdr / sh_entsize shdr - sh_info shdr)
    ∧ NoDup written
    ∧ (∀ i, i ∈ written
            ↔ sh_info shdr ≤ i < sh_size shdr / sh_entsize shdr)
    ∧ (∀ data tab0,
         data ∈ scn_data scn →
         Z.of_nat (length tab0) = sh_size shdr / sh_entsize shdr →
         ∃ tab1,
           load_symbols_for (elf ve) shdr data (d_off data / sh_entsize shdr)
             (for_range
                (if decide (sh_info shdr > d_off data / sh_entsize shdr)
                 then sh_info shdr - d_off data / sh_entsize shdr else 0)
                (d_size data / sh_entsize shdr) 1) (tab0, [])
           = Some (Continue
                     (tab1,
                      seqZ (Z.max (sh_info shdr)
                              (d_off data / sh_entsize shdr))
                        (d_off data / sh_entsize shdr
                         + d_size data / sh_entsize shdr
                         - Z.max (sh_info shdr)
                             (d_off data / sh_entsize shdr))))).
Proof.
  intros Hnull Hshdr HE Hinfo Hdel.
  destruct (load_symbols_decode_spec (elf ve) shdr (scn_data scn) HE Hinfo Hdel)
    as (tab & Hdec & Hlen & _ & _).
  destruct (load_symbols_run ve scn shdr s _ Hnull Hshdr ltac:(lia) Hdec)
    as (s' & Hrun & _).
  eexists tab, _, s'. split; [exact Hdec|]. split; [exact Hrun|].
  split; [done|]. split; [apply NoDup_seqZ|]. split.
  { intros i. rewrite elem_of_seqZ. lia. }
  intros data tab0 Hin Hlen0.
  destruct (delivery_size_multiple _ _ _ Hdel) as [HN Hsz].
  destruct Hdel as (Hpos & Hch & Hsize).
  destruct (chunks_from_elem _ (scn_data scn) Hpos 0 0 data Hch)
    as (k & m & Hk & Hm & Hdoff & Hdsize & Hle); [lia|lia|done|].
  destruct (load_symbols_chunk_spec (elf ve) shdr data k m tab0 [])
    as (tab1 & Hrun1 & _); [lia..|nia|].
  assert (d_off data / sh_entsize shdr = k) as Hb.
  { rewrite Hdoff, Z.mul_comm. apply Z.div_mul. lia. }
  assert (d_size data / sh_entsize shdr = m) as Hcnt.
  { rewrite Hdsize, Z.mul_comm. apply Z.div_mul. lia. }
  exists tab1. rewrite Hb, Hcnt in *. exact Hrun1.
Qed.

End SymbolLoader.

(** ** Deliveries of one content *)

(** For records of 16 bytes the table depends on the content only. *)
Lemma load_symbols_decode_16 (e : option Elf) (shdr : GElf_Shdr)
    (datas : list Elf_Data) :
  sh_entsize shdr = 16 → 0 ≤ sh_info shdr →
  delivery_ok 16 (sh_size shdr) datas →
  ∃ tab,
    load_symbols_decode e shdr datas
    = Some (Continue (tab, seqZ (sh_info shdr)
                             (sh_size shdr / 16 - sh_info shdr)))
    ∧ Z.of_nat (length tab) = sh_size shdr / 16
    ∧ ∀ i : nat, (i < length tab)%nat →
        tab !! i
        = if decide (Z.of_nat i < sh_info shdr) then Some zero_symbol
          else sym_entry e shdr <$> gelf_getsym (whole datas) (Z.of_nat i).
Proof.
  intros HE Hinfo Hdel.
  destruct (load_symbols_decode_spec e shdr datas)
    as (tab & Hdec & Hlen & Hlo & Hhi); [lia|done|by rewrite HE|].
  rewrite HE in *. exists tab. split; [done|]. split; [done|].
  intros i Hi. case_decide as Hlt; [by apply Hlo|].
  destruct (Hhi (Z.of_nat i)) as (data & sym & Hin & Hge & Hsym & Htab); [lia|].
  rewrite Nat2Z.id in Htab. rewrite Htab.
  destruct Hdel as (Hpos & Hch & Hsize).
  destruct (chunks_from_inside 16 datas 0 data Hch Hin)
    as (pre & post & Hbytes & Hpre).
  destruct (chunks_from_elem 16 datas Hpos 0 0 data Hch)
    as (k & m & Hk & Hm & Hdoff & _); [lia|lia|done|].
  assert (d_off data / 16 = k) as Hb.
  { rewrite Hdoff, Z.mul_comm. apply Z.div_mul. lia. }
  rewrite Hb in Hsym.
  unfold whole. rewrite Hbytes.
  replace (Z.of_nat i) with (k + (Z.of_nat i - k)) at 1 by lia.
  erewrite gelf_getsym_inside; [done|lia|done].
Qed.

Section Chunking.

Context {vita_imports_lib_t vita_imports_module_t vita_imports_stub_t : Type}.

Local Abbreviation stub_t :=
  (@vita_elf_stub_t vita_imports_lib_t vita_imports_module_t
     vita_imports_stub_t).
Local Abbreviation ve_t :=
  (@vita_elf_t vita_imports_lib_t vita_imports_module_t vita_imports_stub_t).

(** C6, as amended: two deliveries of one section content, each in whole
    16-byte records (the stub entry size, and the [Elf32_Sym] size when
    [sh_entsize] is 16), give the same stub array and the same symbol
    table, with the same status and the same resources. *)
Theorem chunking_unobservable (ve : ve_t) (shdr : GElf_Shdr)
    (datas1 datas2 : list Elf_Data) (s : sys) :
  section_bytes datas1 = section_bytes datas2 →
  delivery_ok 16 (sh_size shdr) datas1 →
  delivery_ok 16 (sh_size shdr) datas2 →
  (∃ r : Z * (Z * list stub_t) * sys,
      load_stubs {| scn_shdr := Some shdr; scn_data := datas1 |} s = Some r
      ∧ load_stubs {| scn_shdr := Some shdr; scn_data := datas2 |} s = Some r)
  ∧ (sh_entsize shdr = 16 → 0 ≤ sh_info shdr → symtab ve = None →
     ∃ r : Z * ve_t * sys,
       r.1.1 = 1
       ∧ load_symbols ve {| scn_shdr := Some shdr; scn_data := datas1 |} s
         = Some r
       ∧ load_symbols ve {| scn_shdr := Some shdr; scn_data := datas2 |} s
         = Some r).
Proof.
  intros Hbytes Hd1 Hd2. split.
  - destruct (@load_stubs_spec vita_imports_lib_t vita_imports_module_t
                vita_imports_stub_t
                {| scn_shdr := Some shdr; scn_data := datas1 |}
                shdr s eq_refl Hd1) as (st1 & Hr1 & Hl1 & Hin1).
    destruct (@load_stubs_spec vita_imports_lib_t vita_imports_module_t
                vita_imports_stub_t
                {| scn_shdr := Some shdr; scn_data := datas2 |}
                shdr s eq_refl Hd2) as (st2 & Hr2 & Hl2 & Hin2).
    simpl in *.
    assert (st1 = st2) as <-.
    { apply list_eq. intros i.
      destruct (decide (Z.of_nat i < sh_size shdr / 16)) as [Hi|Hi].
      - specialize (Hin1 (Z.of_nat i)). specialize (Hin2 (Z.of_nat i)).
        rewrite Nat2Z.id in Hin1, Hin2.
        rewrite Hin1, Hin2, Hbytes by lia. done.
      - rewrite !lookup_ge_None_2 by lia. done. }
    eexists. split; [exact Hr1|exact Hr2].
  - intros HE Hinfo Hnull.
    destruct (load_symbols_decode_16 (elf ve) shdr datas1 HE Hinfo Hd1)
      as (t1 & Hdec1 & Hl1 & Hin1).
    destruct (load_symbols_decode_16 (elf ve) shdr datas2 HE Hinfo Hd2)
      as (t2 & Hdec2 & Hl2 & Hin2).
    assert (t1 = t2) as <-.
    { apply list_eq. intros i.
      destruct (decide (Z.of_nat i < sh_size shdr / 16)) as [Hi|Hi].
      - rewrite Hin1, Hin2 by lia. unfold whole. rewrite Hbytes. done.
      - rewrite !lookup_ge_None_2 by lia. done. }
    destruct (load_symbols_run ve {| scn_shdr := Some shdr;
                                     scn_data := datas1 |} shdr s _
                Hnull eq_refl ltac:(lia) Hdec1) as (s1 & Hrun1 & Hb1 & Hf1 & He1).
    destruct (load_symbols_run ve {| scn_shdr := Some shdr;
                                     scn_data := datas2 |} shdr s _
                Hnull eq_refl ltac:(lia) Hdec2) as (s2 & Hrun2 & Hb2 & Hf2 & He2).
    assert (s1 = s2) as <-.
    { unfold load_symbols, bind, lift, calloc, add_blocks, ret in Hrun1, Hrun2.
      rewrite Hnull in Hrun1, Hrun2. simpl in Hrun1, Hrun2.
      rewrite decide_False in Hrun1, Hrun2 by lia.
      rewrite Hdec1 in Hrun1. rewrite Hdec2 in Hrun2.
      simpl in Hrun1, Hrun2. congruence. }
    eexists. split; [|split; [exact Hrun1|exact Hrun2]]. done.
Qed.

End Chunking.

(** ** The correlator *)

Section Correlator.

Context {vita_imports_lib_t vita_imports_module_t vita_imports_stub_t : Type}.

Local Abbreviation stub_t :=
  (@vita_elf_stub_t vita_imports_lib_t vita_imports_module_t
     vita_imports_stub_t).
Local Abbreviation ve_t :=
  (@vita_elf_t vita_imports_lib_t vita_imports_module_t vita_imports_stub_t).

(** The inner loop finds the first stub at the address of the symbol. *)
Lemma lookup_stub_symbols_for_spec (tab : list vita_elf_symbol_t)
    (symndx : Z) (cursym : vita_elf_symbol_t) (stubs_ndx num_stubs : Z)
    (stubs : list stub_t) (n : nat) :
  ∀ j : nat,
    (j + n)%nat = length stubs →
    lookup_stub_symbols_for tab symndx cursym stubs_ndx num_stubs
      (seqZ (Z.of_nat j) (Z.of_nat n)) stubs
    = match list_find (λ st, addr st = value cursym) (drop j stubs) with
      | None => Some (Continue (stubs, Z.max 0 num_stubs))
      | Some (i, st) =>
          match symbol st with
          | Some old =>
              o ← tab !! old;
              Some (Stop (stubs, Z.of_nat (j + i))
                      (Err_duplicate_symbols (value cursym) stubs_ndx
                         (name o) (name cursym)))
          | None =>
              Some (Continue
                      (<[(j + i)%nat :=
                           set_symbol (Some (Z.to_nat symndx)) st]> stubs,
                       Z.of_nat (j + i)))
          end
      end.
Proof.
  induction n as [|n IH]; intros j Hj.
  - rewrite seqZ_nil by lia. rewrite drop_ge by lia. done.
  - rewrite seqZ_cons by lia. cbn [lookup_stub_symbols_for].
    destruct (lookup_lt_is_Some_2 stubs j) as [st Hst]; [lia|].
    unfold load_at. rewrite decide_True by lia. rewrite Nat2Z.id, Hst.
    cbn [mbind option_bind].
    rewrite (drop_S _ _ _ Hst). cbn [list_find].
    destruct (decide (addr st = value cursym)) as [Heq|Hne].
    + rewrite decide_False by tauto. rewrite Nat.add_0_r.
      destruct (symbol st) as [old|]; [done|].
      unfold store. rewrite decide_True by lia. rewrite Nat2Z.id, Hst. done.
    + rewrite decide_True by done.
      replace (Z.pred (Z.of_nat (S n))) with (Z.of_nat n) by lia.
      replace (Z.succ (Z.of_nat j)) with (Z.of_nat (S j)) by lia.
      rewrite IH by lia.
      destruct (list_find _ (drop (S j) stubs)) as [[i st']|]; [|done].
      simpl. replace (j + S i)%nat with (S j + i)%nat by lia. done.
Qed.

(** The body of the outer loop for a symbol that passes the three filters
    and has the expected type. *)
Lemma lookup_stub_symbols_body_eq (tab : list vita_elf_symbol_t)
    (num_stubs stubs_ndx sym_type symndx : Z) (cursym : vita_elf_symbol_t)
    (stubs : list stub_t) :
  load_at tab symndx = Some cursym →
  binding cursym = STB_GLOBAL →
  type cursym = STT_FUNC ∨ type cursym = STT_OBJECT →
  shndx cursym = stubs_ndx →
  type cursym = sym_type →
  num_stubs = Z.of_nat (length stubs) →
  lookup_stub_symbols_body tab num_stubs stubs_ndx sym_type symndx stubs
  = match list_find (λ st, addr st = value cursym) stubs with
    | None =>
        Some (Stop stubs (Err_not_valid_stub (name cursym) (shndx cursym)))
    | Some (i, st) =>
        match symbol st with
        | Some old =>
            o ← tab !! old;
            Some (Stop stubs
                    (Err_duplicate_symbols (value cursym) stubs_ndx
                       (name o) (name cursym)))
        | None =>
            Some (Continue
                    (<[i := set_symbol (Some (Z.to_nat symndx)) st]> stubs))
        end
    end.
Proof.
  intros Hcur Hbind Htype Hshndx Hexp Hnum.
  unfold lookup_stub_symbols_body. rewrite Hcur. cbn [mbind option_bind].
  rewrite decide_False by tauto.
  rewrite decide_False by (intros [? ?]; destruct Htype; done).
  rewrite decide_False by tauto. rewrite decide_False by tauto.
  rewrite for_range_1, Z.sub_0_r, Hnum.
  pose proof (lookup_stub_symbols_for_spec tab symndx cursym stubs_ndx
                (Z.of_nat (length stubs)) stubs (length stubs) 0 eq_refl)
    as Hfor.
  change (Z.of_nat 0) with 0 in Hfor. rewrite Hfor, drop_0. clear Hfor.
  destruct (list_find _ stubs) as [[i st]|] eqn:Hfind.
  - apply list_find_Some in Hfind as (Hi & _ & _).
    apply lookup_lt_Some in Hi.
    destruct (symbol st) as [old|].
    + destruct (tab !! old); done.
    + cbn [mbind option_bind fst snd]. rewrite decide_False by lia. done.
  - cbn [mbind option_bind fst snd]. rewrite decide_True by lia. done.
Qed.

Lemma lookup_stub_symbols_body_step (tab : list vita_elf_symbol_t)
    (num_stubs stubs_ndx sym_type : Z) (m : nat) (stubs stubs' : list stub_t) :
  (m < length tab)%nat →
  num_stubs = Z.of_nat (length stubs) →
  attached_upto tab stubs_ndx (Z.of_nat m) stubs →
  lookup_stub_symbols_body tab num_stubs stubs_ndx sym_type (Z.of_nat m) stubs
  = Some (Continue stubs') →
  length stubs' = length stubs
  ∧ attached_upto tab stubs_ndx (Z.of_nat (S m)) stubs'.
Proof.
  intros Hm Hnum (Ha & Hb & Hc) Hrun.
  destruct (lookup_lt_is_Some_2 tab m Hm) as [cursym Hcur].
  assert (load_at tab (Z.of_nat m) = Some cursym) as Hload
    by (by rewrite load_at_nat).
  destruct (decide (qualifies stubs_ndx cursym)) as [Hq|Hq].
  - destruct Hq as (Hbind & Htype & Hshndx).
    destruct (decide (type cursym = sym_type)) as [Hexp|Hexp].
    + rewrite (lookup_stub_symbols_body_eq tab num_stubs stubs_ndx sym_type
                 (Z.of_nat m) cursym stubs) in Hrun by done.
      destruct (list_find _ stubs) as [[i st]|] eqn:Hfind; [|done].
      apply list_find_Some in Hfind as (Hi & Haddr & _).
      pose proof (lookup_lt_Some _ _ _ Hi) as Hlt.
      destruct (symbol st) as [old|] eqn:Hsym.
      { destruct (tab !! old); done. }
      injection Hrun as <-. rewrite Nat2Z.id.
      split; [apply length_insert|]. split; [|split].
      * intros j st' p Hj Hp. destruct (decide (j = i)) as [->|Hne].
        -- rewrite list_lookup_insert_eq in Hj by done.
           injection Hj as <-. simpl in Hp. injection Hp as <-.
           split; [lia|]. exists cursym. unfold qualifies. simpl. done.
        -- rewrite list_lookup_insert_ne in Hj by done.
           destruct (Ha j st' p Hj Hp) as [Hlt' Hrest]. split; [lia|done].
      * intros p sym Hp Htab Hqual. destruct (decide (p = m)) as [->|Hne].
        -- exists i, (set_symbol (Some m) st).
           by rewrite list_lookup_insert_eq.
        -- destruct (Hb p sym) as (j & st' & Hj & Hs'); [lia|done..|].
           exists j, st'. split; [|done].
           rewrite list_lookup_insert_ne; [done|]. congruence.
      * intros j1 j2 st1 st2 p Hj1 Hj2 Hp1 Hp2.
        destruct (decide (j1 = i)) as [->|Hne1];
          destruct (decide (j2 = i)) as [->|Hne2]; [done| | |].
        -- rewrite list_lookup_insert_eq in Hj1 by done.
           injection Hj1 as <-. simpl in Hp1. injection Hp1 as <-.
           rewrite list_lookup_insert_ne in Hj2 by done.
           destruct (Ha j2 st2 m Hj2 Hp2) as [? _]. lia.
        -- rewrite list_lookup_insert_eq in Hj2 by done.
           injection Hj2 as <-. simpl in Hp2. injection Hp2 as <-.
           rewrite list_lookup_insert_ne in Hj1 by done.
           destruct (Ha j1 st1 m Hj1 Hp1) as [? _]. lia.
        -- rewrite list_lookup_insert_ne in Hj1, Hj2 by done.
           by apply (Hc j1 j2 st1 st2 p).
    + unfold lookup_stub_symbols_body in Hrun. rewrite Hload in Hrun.
      cbn [mbind option_bind] in Hrun.
      rewrite decide_False in Hrun by tauto.
      rewrite decide_False in Hrun
        by (intros [? ?]; destruct Htype; done).
      rewrite decide_False in Hrun by tauto.
      rewrite decide_True in Hrun by done. done.
  - assert (stubs' = stubs) as ->.
    { unfold lookup_stub_symbols_body in Hrun. rewrite Hload in Hrun.
      cbn [mbind option_bind] in Hrun.
      repeat case_decide; try congruence.
      exfalso. apply Hq. unfold qualifies. split; [done|]. split; [|done].
      destruct (decide (type cursym = STT_FUNC)); [by left|].
      destruct (decide (type cursym = STT_OBJECT)); [by right|]. tauto. }
    split; [done|]. split; [|split].
    + intros j st' p Hj Hp. destruct (Ha j st' p Hj Hp) as [? ?].
      split; [lia|done].
    + intros p sym Hp Htab Hqual. destruct (decide (p = m)) as [->|Hne].
      * rewrite Hcur in Htab. injection Htab as <-. done.
      * apply (Hb p sym); [lia|done..].
    + exact Hc.
Qed.

Lemma lookup_stub_symbols_loop_step (tab : list vita_elf_symbol_t)
    (num_stubs stubs_ndx sym_type : Z) (n : nat) :
  ∀ (m : nat) (stubs stubs' : list stub_t),
    (m + n)%nat = length tab →
    num_stubs = Z.of_nat (length stubs) →
    attached_upto tab stubs_ndx (Z.of_nat m) stubs →
    lookup_stub_symbols_loop tab num_stubs stubs_ndx sym_type
      (seqZ (Z.of_nat m) (Z.of_nat n)) stubs = Some (Continue stubs') →
    length stubs' = length stubs
    ∧ attached_upto tab stubs_ndx (Z.of_nat (length tab)) stubs'.
Proof.
  induction n as [|n IH]; intros m stubs stubs' Hmn Hnum Hinv Hrun.
  - rewrite seqZ_nil in Hrun by lia. injection Hrun as <-.
    split; [done|]. by replace (length tab) with m by lia.
  - rewrite seqZ_cons in Hrun by lia. cbn [lookup_stub_symbols_loop] in Hrun.
    destruct (lookup_stub_symbols_body tab num_stubs stubs_ndx sym_type
                (Z.of_nat m) stubs) as [[stubs1|stubs1 d]|] eqn:Hbody;
      [|done..].
    destruct (lookup_stub_symbols_body_step tab num_stubs stubs_ndx sym_type
                m stubs stubs1) as [Hlen1 Hinv1]; [lia|done..|].
    replace (Z.pred (Z.of_nat (S n))) with (Z.of_nat n) in Hrun by lia.
    replace (Z.succ (Z.of_nat m)) with (Z.of_nat (S m)) in Hrun by lia.
    destruct (IH (S m) stubs1 stubs') as [Hlen' Hinv']; [lia|lia|done..|].
    split; [lia|done].
Qed.

End Correlator.

(** ** The import resolver *)

Section Resolver.

Context {vita_imports_t vita_imports_lib_t vita_imports_module_t
         vita_imports_stub_t : Type}.

Variable vita_imports_find_lib :
  vita_imports_t → Z → option vita_imports_lib_t.
Variable vita_imports_find_module :
  vita_imports_lib_t → Z → option vita_imports_module_t.
Variable vita_imports_find_function vita_imports_find_variable :
  vita_imports_module_t → Z → option vita_imports_stub_t.

Local Abbreviation stub_t :=
  (@vita_elf_stub_t vita_imports_lib_t vita_imports_module_t
     vita_imports_stub_t).
Local Abbreviation ve_t :=
  (@vita_elf_t vita_imports_lib_t vita_imports_module_t vita_imports_stub_t).
Local Abbreviation finder :=
  (vita_imports_module_t → Z → option vita_imports_stub_t).

(** Throughout this section [resolved_stub] and [stub_diag] are read at
    the two lookups of the section. *)
Local Abbreviation resolved_stub :=
  (resolved_stub vita_imports_find_lib vita_imports_find_module).
Local Abbreviation stub_diag :=
  (stub_diag vita_imports_find_lib vita_imports_find_module).

Lemma stub_diag_None tab imports (find_stub : finder) nm (st : stub_t) :
  stub_diag tab imports find_stub nm st = None
  ↔ fully_resolved (resolved_stub imports find_stub st).
Proof.
  unfold stub_diag, resolved_stub, fully_resolved.
  destruct (vita_imports_find_lib imports (library_nid st)) as [l|]; simpl.
  - destruct (vita_imports_find_module l (module_nid st)) as [m|]; simpl.
    + destruct (find_stub m (target_nid st)); simpl.
      * split; [eauto|done].
      * split; [done|]. intros (_ & _ & H). by destruct H.
    + split; [done|]. intros (_ & H & _). by destruct H.
  - split; [done|]. intros (H & _). by destruct H.
Qed.

Lemma lookup_stubs_body_spec tab imports find_stub nm (j : nat)
    (stubs : list stub_t) (st : stub_t) (found_all : Z) (out : list diag) :
  stubs !! j = Some st → symbol_ok tab st →
  lookup_stubs_body vita_imports_find_lib vita_imports_find_module tab
    imports find_stub nm (Z.of_nat j) (stubs, found_all, out)
  = Some (<[j := resolved_stub imports find_stub st]> stubs,
          match stub_diag tab imports find_stub nm st with
          | None => found_all | Some _ => 0 end,
          out ++ option_list (stub_diag tab imports find_stub nm st)).
Proof.
  intros Hst [sym Hsym]. pose proof (lookup_lt_Some _ _ _ Hst) as Hlt.
  unfold lookup_stubs_body, stub_diag, resolved_stub.
  rewrite load_at_nat, Hst. cbn [mbind option_bind].
  rewrite (store_nat _ _ _ st) by done. cbn [mbind option_bind].
  rewrite Hsym. cbn [mbind option_bind default].
  destruct (vita_imports_find_lib imports (library_nid st)) as [l|];
    cbn [option_list]; [|done].
  rewrite (store_nat _ _ _ (set_library (Some l) st))
    by (apply list_lookup_insert_eq; lia).
  cbn [mbind option_bind]. rewrite list_insert_insert_eq.
  destruct (vita_imports_find_module l (module_nid st)) as [m|];
    cbn [option_list]; [|done].
  rewrite (store_nat _ _ _ (set_module (Some m) (set_library (Some l) st)))
    by (apply list_lookup_insert_eq; lia).
  cbn [mbind option_bind]. rewrite list_insert_insert_eq.
  destruct (find_stub m (target_nid st)); cbn [option_list]; [|done].
  by rewrite app_nil_r.
Qed.

Lemma lookup_stubs_for_spec tab imports find_stub nm (n : nat) :
  ∀ (j : nat) (stubs : list stub_t) (found_all : Z) (out : list diag),
    (j + n)%nat = length stubs →
    Forall (symbol_ok tab) stubs →
    lookup_stubs_for vita_imports_find_lib vita_imports_find_module tab
      imports find_stub nm (seqZ (Z.of_nat j) (Z.of_nat n))
      (stubs, found_all, out)
    = Some (take j stubs
              ++ (resolved_stub imports find_stub <$> drop j stubs),
            match omap (stub_diag tab imports find_stub nm) (drop j stubs)
            with [] => found_all | _ => 0 end,
            out ++ omap (stub_diag tab imports find_stub nm) (drop j stubs)).
Proof.
  induction n as [|n IH]; intros j stubs found_all out Hj Hok.
  - rewrite seqZ_nil by lia. rewrite drop_ge by lia.
    rewrite take_ge by lia. simpl. by rewrite !app_nil_r.
  - rewrite seqZ_cons by lia. cbn [lookup_stubs_for].
    destruct (lookup_lt_is_Some_2 stubs j) as [st Hst]; [lia|].
    assert (symbol_ok tab st) as Hst_ok.
    { rewrite Forall_forall in Hok. apply Hok.
      apply list_elem_of_lookup. eauto. }
    rewrite (lookup_stubs_body_spec _ _ _ _ _ _ st) by done.
    cbn [mbind option_bind].
    replace (Z.pred (Z.of_nat (S n))) with (Z.of_nat n) by lia.
    replace (Z.succ (Z.of_nat j)) with (Z.of_nat (S j)) by lia.
    rewrite IH.
    + rewrite drop_insert_lt by lia.
      rewrite (take_S_r _ _ (resolved_stub imports find_stub st))
        by (apply list_lookup_insert_eq; lia).
      rewrite take_insert_ge by lia.
      rewrite (drop_S _ _ _ Hst). cbn [fmap list_fmap omap list_omap].
      rewrite <- !app_assoc. cbn [app].
      destruct (stub_diag tab imports find_stub nm st) as [d|];
        cbn [option_list app].
      * f_equal. f_equal. f_equal.
        by destruct (omap _ (drop (S j) stubs)).
      * done.
    + rewrite length_insert. lia.
    + apply Forall_insert; [done|].
      unfold symbol_ok, symbol_name, resolved_stub in *.
      destruct (vita_imports_find_lib imports (library_nid st)) as [l|];
        [|done].
      destruct (vita_imports_find_module l (module_nid st)); done.
Qed.

Lemma lookup_stubs_spec tab (stubs : list stub_t) (num_stubs : Z) imports
    find_stub nm (s : sys) :
  num_stubs = Z.of_nat (length stubs) →
  Forall (symbol_ok tab) stubs →
  lookup_stubs vita_imports_find_lib vita_imports_find_module tab stubs
    num_stubs imports find_stub nm s
  = Some ((match omap (stub_diag tab imports find_stub nm) stubs with
           | [] => 1 | _ => 0 end,
           resolved_stub imports find_stub <$> stubs),
          {| live_blocks := live_blocks s; open_fds := open_fds s;
             elf_handles := elf_handles s;
             stderr := stderr s
                       ++ omap (stub_diag tab imports find_stub nm) stubs |}).
Proof.
  intros Hnum Hok. unfold lookup_stubs.
  rewrite for_range_1, Z.sub_0_r, Hnum.
  pose proof (lookup_stubs_for_spec tab imports find_stub nm (length stubs)
                0 stubs 1 [] eq_refl Hok) as Hfor.
  change (Z.of_nat 0) with 0 in Hfor. rewrite Hfor, drop_0. done.
Qed.

Lemma omap_stub_diag_nil tab imports find_stub nm (stubs : list stub_t) :
  omap (stub_diag tab imports find_stub nm) stubs = []
  ↔ Forall fully_resolved (resolved_stub imports find_stub <$> stubs).
Proof.
  induction stubs as [|st rest IH]; [done|].
  cbn [omap list_omap fmap list_fmap]. rewrite Forall_cons, <- IH.
  rewrite <- (stub_diag_None tab imports find_stub nm st).
  destruct (stub_diag tab imports find_stub nm st); split; try done.
  - by intros [? ?].
  - tauto.
Qed.

Lemma elems_fmap_const {A} (p : option (list A)) (l : list A) :
  (p = None → l = []) → elems ((λ _, l) <$> p) = l.
Proof. destruct p; simpl; [done|]. intros H. by rewrite H. Qed.

Lemma vita_elf_lookup_imports_spec (ve : ve_t) imports (s : sys) :
  session_ok ve →
  ∃ ve',
    vita_elf_lookup_imports vita_imports_find_lib vita_imports_find_module
      vita_imports_find_function vita_imports_find_variable ve imports s
    = Some ((match omap (stub_diag (elems (symtab ve)) imports
                           vita_imports_find_function "function")
                     (elems (fstubs ve))
                   ++ omap (stub_diag (elems (symtab ve)) imports
                              vita_imports_find_variable "variable")
                        (elems (vstubs ve))
             with [] => 1 | _ => 0 end, ve'),
            {| live_blocks := live_blocks s; open_fds := open_fds s;
               elf_handles := elf_handles s;
               stderr := stderr s
                 ++ omap (stub_diag (elems (symtab ve)) imports
                            vita_imports_find_function "function")
                      (elems (fstubs ve))
                 ++ omap (stub_diag (elems (symtab ve)) imports
                            vita_imports_find_variable "variable")
                      (elems (vstubs ve)) |})
    ∧ elems (fstubs ve')
      = resolved_stub imports vita_imports_find_function
          <$> elems (fstubs ve)
    ∧ elems (vstubs ve')
      = resolved_stub imports vita_imports_find_variable
          <$> elems (vstubs ve)
    ∧ symtab ve' = symtab ve.
Proof.
  intros (Hnf & Hnv & Hokf & Hokv).
  unfold vita_elf_lookup_imports, bind, ret.
  rewrite (lookup_stubs_spec _ _ _ _ _ _ s Hnf Hokf).
  cbn [fst snd with_fstubs with_vstubs symtab vstubs num_vstubs fstubs].
  rewrite (lookup_stubs_spec _ _ _ _ _ _ _ Hnv Hokv).
  cbn [fst snd live_blocks open_fds elf_handles stderr].
  eexists. split; [|split; [|split]].
  - rewrite <- app_assoc. do 2 f_equal.
    destruct (omap _ (elems (fstubs ve))); simpl.
    + by destruct (omap _ (elems (vstubs ve))).
    + by destruct (omap _ (elems (vstubs ve))).
  - cbn [fstubs]. apply elems_fmap_const. unfold elems.
    by intros ->.
  - cbn [vstubs]. apply elems_fmap_const. unfold elems.
    by intros ->.
  - done.
Qed.

(** C3: [vita_elf_lookup_imports] always returns.  Every stub of both
    arrays is processed: it ends as [resolved_stub] leaves it, whatever
    happened to the stubs before it.  The diagnostics written are, in
    order, one for each stub that did not fully resolve and none for the
    others.  The value returned is 1 or 0, and it is 1 exactly when every
    stub of both arrays has its library, module and target set. *)
Theorem vita_elf_lookup_imports_total (ve : ve_t) (imports : vita_imports_t)
    (s : sys) :
  session_ok ve →
  ∃ (found_all : Z) (ve' : ve_t) (s' : sys),
    vita_elf_lookup_imports vita_imports_find_lib vita_imports_find_module
      vita_imports_find_function vita_imports_find_variable ve imports s
    = Some ((found_all, ve'), s')
    ∧ elems (fstubs ve')
      = resolved_stub imports vita_imports_find_function
          <$> elems (fstubs ve)
    ∧ elems (vstubs ve')
      = resolved_stub imports vita_imports_find_variable
          <$> elems (vstubs ve)
    ∧ stderr s'
      = stderr s
        ++ omap (stub_diag (elems (symtab ve)) imports
                   vita_imports_find_function "function")
             (elems (fstubs ve))
        ++ omap (stub_diag (elems (symtab ve)) imports
                   vita_imports_find_variable "variable")
             (elems (vstubs ve))
    ∧ (∀ (find_stub : finder) (nm : string) (st : stub_t),
         stub_diag (elems (symtab ve)) imports find_stub nm st = None
         ↔ fully_resolved (resolved_stub imports find_stub st))
    ∧ (∀ (find_stub : finder) (st : stub_t),
         vita_imports_find_lib imports (library_nid st) = None →
         library (resolved_stub imports find_stub st) = None)
    ∧ (found_all = 1 ∨ found_all = 0)
    ∧ (found_all = 1
       ↔ Forall fully_resolved (elems (fstubs ve') ++ elems (vstubs ve'))).
Proof.
  intros Hok.
  destruct (vita_elf_lookup_imports_spec ve imports s Hok)
    as (ve' & Hrun & Hf & Hv & _).
  eexists _, ve', _. split; [exact Hrun|]. split; [done|]. split; [done|].
  split; [done|]. split; [intros; apply stub_diag_None|]. split.
  { intros find_stub st Hnone. unfold resolved_stub. by rewrite Hnone. }
  rewrite Forall_app, Hf, Hv.
  rewrite <- (omap_stub_diag_nil (elems (symtab ve)) imports
                vita_imports_find_function "function").
  rewrite <- (omap_stub_diag_nil (elems (symtab ve)) imports
                vita_imports_find_variable "variable").
  destruct (omap _ (elems (fstubs ve))) as [|d l];
    destruct (omap _ (elems (vstubs ve))) as [|d' l']; simpl;
    (split; [auto|]); split; try done; intros [? ?]; done.
Qed.

(** C8: when the database has a library for the [library_nid] of every
    stub, a module of that library for its [module_nid] and, in that
    module, a function (for a function stub) or a variable (for a variable
    stub) for its [target_nid], [vita_elf_lookup_imports] returns 1, writes
    no diagnostic, and leaves every stub of both arrays with its library,
    module and target set. *)
Theorem vita_elf_lookup_imports_complete (ve : ve_t)
    (imports : vita_imports_t) (s : sys) :
  session_ok ve →
  (∀ st, st ∈ elems (fstubs ve) →
     ∃ l m t, vita_imports_find_lib imports (library_nid st) = Some l
              ∧ vita_imports_find_module l (module_nid st) = Some m
              ∧ vita_imports_find_function m (target_nid st) = Some t) →
  (∀ st, st ∈ elems (vstubs ve) →
     ∃ l m t, vita_imports_find_lib imports (library_nid st) = Some l
              ∧ vita_imports_find_module l (module_nid st) = Some m
              ∧ vita_imports_find_variable m (target_nid st) = Some t) →
  ∃ (ve' : ve_t) (s' : sys),
    vita_elf_lookup_imports vita_imports_find_lib vita_imports_find_module
      vita_imports_find_function vita_imports_find_variable ve imports s
    = Some ((1, ve'), s')
    ∧ stderr s' = stderr s
    ∧ length (elems (fstubs ve')) = length (elems (fstubs ve))
    ∧ length (elems (vstubs ve')) = length (elems (vstubs ve))
    ∧ (∀ st', st' ∈ elems (fstubs ve') ++ elems (vstubs ve') →
         is_Some (library st') ∧ is_Some (module st')
         ∧ is_Some (target st')).
Proof.
  intros Hok Hf Hv.
  destruct (vita_elf_lookup_imports_spec ve imports s Hok)
    as (ve' & Hrun & Hfs & Hvs & _).
  assert (∀ (find_stub : finder) nm (stubs : list stub_t),
            (∀ st, st ∈ stubs →
               ∃ l m t, vita_imports_find_lib imports (library_nid st) = Some l
                        ∧ vita_imports_find_module l (module_nid st) = Some m
                        ∧ find_stub m (target_nid st) = Some t) →
            omap (stub_diag (elems (symtab ve)) imports find_stub nm) stubs
            = []) as Hnil.
  { intros find_stub nm stubs Hall.
    induction stubs as [|st rest IH]; [done|].
    cbn [omap list_omap].
    destruct (Hall st) as (l & m & t & Hl & Hm & Ht);
      [apply elem_of_cons; by left|].
    unfold stub_diag at 1. rewrite Hl, Hm, Ht. apply IH.
    intros st' Hin. apply Hall. apply elem_of_cons. by right. }
  rewrite (Hnil _ _ _ Hf), (Hnil _ _ _ Hv) in Hrun. simpl in Hrun.
  rewrite app_nil_r in Hrun.
  eexists ve', _. split; [exact Hrun|]. split; [done|].
  rewrite Hfs, Hvs, !length_fmap. split; [done|]. split; [done|].
  intros st' Hin. apply elem_of_app in Hin.
  assert (Forall fully_resolved
            (resolved_stub imports vita_imports_find_function
               <$> elems (fstubs ve))) as HFf
    by (apply (omap_stub_diag_nil (elems (symtab ve)) _ _ "function"),
          Hnil, Hf).
  assert (Forall fully_resolved
            (resolved_stub imports vita_imports_find_variable
               <$> elems (vstubs ve))) as HFv
    by (apply (omap_stub_diag_nil (elems (symtab ve)) _ _ "variable"),
          Hnil, Hv).
  rewrite Forall_forall in HFf, HFv.
  destruct Hin as [Hin|Hin]; [by apply HFf|by apply HFv].
Qed.

(** C10: the annotation of a stub by [lookup_stubs] goes stage by stage.
    A stub whose library is found but whose module is not ends with the
    library set, the module cleared and the target as it was before the
    pass (so not set, if it was not).  A stub that fails at the target
    stage only ends with library and module set and the target cleared.  A
    stub whose library is not found ends with the library cleared and the
    module and the target as they were. *)
Theorem lookup_stubs_stagewise (tab : list vita_elf_symbol_t)
    (stubs : list stub_t) (num_stubs : Z) (imports : vita_imports_t)
    (find_stub : finder) (nm : string) (s : sys) :
  num_stubs = Z.of_nat (length stubs) →
  Forall (symbol_ok tab) stubs →
  ∃ (found_all : Z) (stubs' : list stub_t) (s' : sys),
    lookup_stubs vita_imports_find_lib vita_imports_find_module tab stubs
      num_stubs imports find_stub nm s
    = Some ((found_all, stubs'), s')
    ∧ length stubs' = length stubs
    ∧ ∀ (i : nat) (st : stub_t),
        stubs !! i = Some st →
        ∃ st', stubs' !! i = Some st'
          ∧ (∀ l, vita_imports_find_lib imports (library_nid st) = Some l →
                  vita_imports_find_module l (module_nid st) = None →
                  library st' = Some l ∧ module st' = None
                  ∧ target st' = target st
                  ∧ (target st = None → target st' = None))
          ∧ (∀ l m,
               vita_imports_find_lib imports (library_nid st) = Some l →
               vita_imports_find_module l (module_nid st) = Some m →
               find_stub m (target_nid st) = None →
               library st' = Some l ∧ module st' = Some m
               ∧ target st' = None)
          ∧ (vita_imports_find_lib imports (library_nid st) = None →
             library st' = None ∧ module st' = module st
             ∧ target st' = target st).
Proof.
  intros Hnum Hok.
  rewrite (lookup_stubs_spec tab stubs num_stubs imports find_stub nm s)
    by done.
  eexists _, _, _. split; [done|]. split; [apply length_fmap|].
  intros i st Hst. exists (resolved_stub imports find_stub st).
  split; [by rewrite list_lookup_fmap, Hst|].
  unfold resolved_stub. split; [|split].
  - intros l Hl Hm. rewrite Hl, Hm. simpl. auto.
  - intros l m Hl Hm Ht. rewrite Hl, Hm, Ht. simpl. auto.
  - intros Hl. rewrite Hl. simpl. auto.
Qed.

(** For a stub whose library and module are found and whose target is
    not, the diagnostic written by the iteration carries [module_nid], not
    [target_nid]. *)
Lemma lookup_stubs_target_diag (tab : list vita_elf_symbol_t)
    (stubs : list stub_t) (imports : vita_imports_t) (find_stub : finder)
    (nm : string) (i : nat) (st : stub_t) (found_all : Z) (out : list diag)
    (l : vita_imports_lib_t) (m : vita_imports_module_t) :
  stubs !! i = Some st →
  symbol_ok tab st →
  vita_imports_find_lib imports (library_nid st) = Some l →
  vita_imports_find_module l (module_nid st) = Some m →
  find_stub m (target_nid st) = None →
  ∃ stubs',
    lookup_stubs_body vita_imports_find_lib vita_imports_find_module tab
      imports find_stub nm (Z.of_nat i) (stubs, found_all, out)
    = Some (stubs', 0,
            out ++ [Warn_no_target nm (module_nid st)
                      (default None (symbol_name tab st))]).
Proof.
  intros Hst Hok Hl Hm Ht.
  rewrite (lookup_stubs_body_spec tab imports find_stub nm i stubs st)
    by done.
  unfold stub_diag. rewrite Hl, Hm, Ht. simpl. eauto.
Qed.

End Resolver.

(** ** The session assembler *)

Section Loader.

Context {vita_imports_lib_t vita_imports_module_t vita_imports_stub_t : Type}.

Local Abbreviation stub_t :=
  (@vita_elf_stub_t vita_imports_lib_t vita_imports_module_t
     vita_imports_stub_t).
Local Abbreviation ve_t :=
  (@vita_elf_t vita_imports_lib_t vita_imports_module_t vita_imports_stub_t).

Lemma vita_elf_free_spec (ve : ve_t) (s0 s : sys) :
  holds s0 s ve →
  ∃ s', vita_elf_free ve s = Some (tt, s')
        ∧ same_resources s0 s' ∧ stderr s' = stderr s.
Proof.
  intros (Hb & Hf & He).
  unfold vita_elf_free, owned_blocks, owned_fds, owned_elfs in *.
  unfold bind, free, elf_end, close, add_blocks, add_fds, add_elfs, ret.
  unfold same_resources.
  destruct (fstubs ve), (vstubs ve), (symtab ve), (elf ve),
    (decide (fd ve >= 0)); simpl; eexists; (split; [done|]); simpl;
    repeat split; lia.
Qed.

Lemma failure_spec (ve : ve_t) (s0 s : sys) :
  holds s0 s ve →
  ∃ s', failure (Some ve) s = Some (None, s')
        ∧ same_resources s0 s' ∧ stderr s' = stderr s.
Proof.
  intros H. destruct (vita_elf_free_spec ve s0 s H) as (s' & Hfree & Hres).
  exists s'. unfold failure, bind, ret. rewrite Hfree. done.
Qed.

(** The correlator cannot fault on arrays of the stated lengths whose
    [symbol] pointers lie in the table; it keeps them so. *)
Lemma lookup_stub_symbols_body_safe (tab : list vita_elf_symbol_t)
    (num_stubs stubs_ndx sym_type symndx : Z) (stubs : list stub_t) :
  0 ≤ symndx < Z.of_nat (length tab) →
  num_stubs = Z.of_nat (length stubs) →
  Forall (symbol_ok tab) stubs →
  ∃ r, lookup_stub_symbols_body tab num_stubs stubs_ndx sym_type symndx stubs
       = Some r
       ∧ length (step_state r) = length stubs
       ∧ Forall (symbol_ok tab) (step_state r).
Proof.
  intros Hndx Hnum Hok.
  destruct (load_at_Some tab symndx Hndx) as [cursym Hcur].
  destruct (decide (binding cursym = STB_GLOBAL
                    ∧ (type cursym = STT_FUNC ∨ type cursym = STT_OBJECT)
                    ∧ shndx cursym = stubs_ndx ∧ type cursym = sym_type))
    as [(Hb & Ht & Hs & He)|Hno].
  - rewrite (lookup_stub_symbols_body_eq tab num_stubs stubs_ndx sym_type
               symndx cursym stubs) by done.
    destruct (list_find _ stubs) as [[i st]|] eqn:Hfind; [|by eexists].
    apply list_find_Some in Hfind as (Hi & _ & _).
    assert (symbol_ok tab st) as Hst.
    { rewrite Forall_forall in Hok. apply Hok.
      apply list_elem_of_lookup. eauto. }
    destruct (symbol st) as [old|] eqn:Hsym.
    + destruct Hst as [x Hx]. unfold symbol_name in Hx. rewrite Hsym in Hx.
      destruct (tab !! old); [|done]. by eexists.
    + eexists. split; [done|]. simpl. split; [apply length_insert|].
      apply Forall_insert; [done|].
      unfold symbol_ok, symbol_name. simpl.
      destruct (lookup_lt_is_Some_2 tab (Z.to_nat symndx)) as [x ->]; [lia|].
      simpl. eauto.
  - unfold lookup_stub_symbols_body. rewrite Hcur. cbn [mbind option_bind].
    repeat case_decide; try (by eexists). exfalso. apply Hno.
    split; [done|]. split; [|done].
    destruct (decide (type cursym = STT_FUNC)); [by left|].
    destruct (decide (type cursym = STT_OBJECT)); [by right|]. tauto.
Qed.

Lemma lookup_stub_symbols_loop_safe (tab : list vita_elf_symbol_t)
    (num_stubs stubs_ndx sym_type : Z) (symndxs : list Z) :
  ∀ stubs : list stub_t,
    Forall (λ x, 0 ≤ x < Z.of_nat (length tab)) symndxs →
    num_stubs = Z.of_nat (length stubs) →
    Forall (symbol_ok tab) stubs →
    ∃ r, lookup_stub_symbols_loop tab num_stubs stubs_ndx sym_type symndxs
           stubs = Some r
         ∧ length (step_state r) = length stubs
         ∧ Forall (symbol_ok tab) (step_state r).
Proof.
  induction symndxs as [|x rest IH]; intros stubs Hall Hnum Hok.
  - by exists (Continue stubs).
  - apply Forall_cons in Hall as [Hx Hall].
    cbn [lookup_stub_symbols_loop].
    destruct (lookup_stub_symbols_body_safe tab num_stubs stubs_ndx sym_type
                x stubs Hx Hnum Hok) as (r & Hr & Hlen & Hok').
    rewrite Hr. destruct r as [stubs'|stubs' d]; simpl in *.
    + destruct (IH stubs' Hall) as (r' & Hr' & Hlen' & Hok''); [lia|done|].
      exists r'. split; [done|]. split; [lia|done].
    + by exists (Stop stubs' d).
Qed.

Lemma stub_entry_fresh (base : Z) (bytes : list byte) (i : Z) (st : stub_t) :
  stub_entry base bytes i = Some st → symbol st = None.
Proof.
  unfold stub_entry.
  destruct (read_le32 bytes (16 * i)); [|done].
  destruct (read_le32 bytes (16 * i + 4)); [|done].
  destruct (read_le32 bytes (16 * i + 8)); [|done].
  simpl. by intros [= <-].
Qed.

Lemma scan_stubs_spec (shdr : GElf_Shdr) (nm : string) (scn : Elf_Scn)
    (ndx : Z) (ve : ve_t) (s0 s : sys) :
  ndx ≠ 0 → scn_shdr scn = Some shdr →
  holds s0 s ve → scan_inv ve →
  (bool_decide (sh_type shdr = SHT_PROGBITS)
     && (String.eqb nm ".vitalink.fstubs" || String.eqb nm ".vitalink.vstubs")
   = true → delivery_ok 16 (sh_size shdr) (scn_data scn)) →
  ∃ ok ve' s',
    scan_stubs shdr nm scn ndx ve s = Some ((ok, ve'), s')
    ∧ holds s0 s' ve' ∧ scan_inv ve' ∧ step_err ok s s'
    ∧ step_ok
        (bool_decide (sh_type shdr = SHT_PROGBITS)
           && String.eqb nm ".vitalink.fstubs")
        (bool_decide (sh_type shdr = SHT_PROGBITS)
           && String.eqb nm ".vitalink.vstubs")
        false ok ve ve'.
Proof.
  intros Hndx Hshdr Hholds Hinv Hdel.
  unfold scan_stubs.
  destruct (bool_decide (sh_type shdr = SHT_PROGBITS)) eqn:Hty;
    cbn [andb] in *.
  2: { exists true, ve, s. unfold ret, step_ok, step_err. done. }
  destruct (String.eqb nm ".vitalink.fstubs") eqn:Enf.
  - apply String.eqb_eq in Enf as ->. cbn [String.eqb Ascii.eqb] in *.
    cbn [orb] in Hdel.
    destruct (decide (fstubs_ndx ve ≠ 0)) as [Hz|Hz].
    + exists false, ve, {| live_blocks := live_blocks s;
                          open_fds := open_fds s;
                          elf_handles := elf_handles s;
                          stderr := stderr s ++ [Err_multiple_fstubs] |}.
      split; [done|]. split; [exact Hholds|]. split; [exact Hinv|].
      split; [simpl; eauto|]. unfold step_ok. repeat split; done.
    + assert (fstubs_ndx ve = 0) as Hz0 by lia.
      destruct Hholds as (Hb & Hf & He). destruct Hinv as (Hif & Hiv & Hit).
      destruct Hif as [Hnull _]. destruct (Hnull Hz0) as [Hnull' _].
      clear Hnull. rename Hnull' into Hnull.
      destruct (@load_stubs_spec vita_imports_lib_t vita_imports_module_t
                  vita_imports_stub_t scn shdr s Hshdr (Hdel eq_refl))
        as (stubs & Hrun & Hlen & Hin).
      unfold bind. rewrite Hrun. cbn [fst snd].
      rewrite decide_False by done.
      eexists true, _, _. split; [done|].
      unfold holds, owned_blocks, owned_fds, owned_elfs in *.
      rewrite Hnull in Hb. cbn in Hb. cbn.
      split.
      { destruct (vstubs ve), (symtab ve), (elf ve), (decide (fd ve >= 0));
          repeat split; lia. }
      split; [|split; [done|]].
      * split; [|split; [exact Hiv|exact Hit]]. split; [done|].
        intros _. exists stubs. split; [done|]. split; [symmetry; exact Hlen|].
        rewrite Forall_forall. intros st Hst.
        apply list_elem_of_lookup in Hst as [i Hst].
        pose proof (lookup_lt_Some _ _ _ Hst) as Hi.
        specialize (Hin (Z.of_nat i)). rewrite Nat2Z.id, Hst in Hin.
        symmetry in Hin. apply stub_entry_fresh in Hin; [done|lia].
      * unfold step_ok. cbn. repeat split; done.
  - destruct (String.eqb nm ".vitalink.vstubs") eqn:Env.
    + cbn [orb] in Hdel. destruct (decide (vstubs_ndx ve ≠ 0)) as [Hz|Hz].
      * exists false, ve, {| live_blocks := live_blocks s;
                            open_fds := open_fds s;
                            elf_handles := elf_handles s;
                            stderr := stderr s ++ [Err_multiple_vstubs] |}.
        split; [done|]. split; [exact Hholds|]. split; [exact Hinv|].
        split; [simpl; eauto|]. unfold step_ok. repeat split; done.
      * assert (vstubs_ndx ve = 0) as Hz0 by lia.
        destruct Hholds as (Hb & Hf & He). destruct Hinv as (Hif & Hiv & Hit).
        destruct Hiv as [Hnull _]. destruct (Hnull Hz0) as [Hnull' _].
        clear Hnull. rename Hnull' into Hnull.
        destruct (@load_stubs_spec vita_imports_lib_t vita_imports_module_t
                    vita_imports_stub_t scn shdr s Hshdr (Hdel eq_refl))
          as (stubs & Hrun & Hlen & Hin).
        unfold bind. rewrite Hrun. cbn [fst snd].
        rewrite decide_False by done.
        eexists true, _, _. split; [done|].
        unfold holds, owned_blocks, owned_fds, owned_elfs in *.
        rewrite Hnull in Hb. cbn in Hb. cbn.
        split.
        { destruct (fstubs ve), (symtab ve), (elf ve), (decide (fd ve >= 0));
            repeat split; lia. }
        split; [|split; [done|]].
        -- split; [exact Hif|]. split; [|exact Hit]. split; [done|].
           intros _. exists stubs. split; [done|]. split; [symmetry; exact Hlen|].
           rewrite Forall_forall. intros st Hst.
           apply list_elem_of_lookup in Hst as [i Hst].
           pose proof (lookup_lt_Some _ _ _ Hst) as Hi.
           specialize (Hin (Z.of_nat i)). rewrite Nat2Z.id, Hst in Hin.
           symmetry in Hin. apply stub_entry_fresh in Hin; [done|lia].
        -- unfold step_ok. cbn. repeat split; done.
    + exists true, ve, s. unfold ret, step_ok, step_err. done.
Qed.

Lemma load_symbols_decode_safe (e : option Elf) (shdr : GElf_Shdr)
    (datas : list Elf_Data) :
  delivery_ok (sh_entsize shdr) (sh_size shdr) datas →
  ∃ r, load_symbols_decode e shdr datas = Some r
       ∧ Z.of_nat (length (step_state r).1) = sh_size shdr / sh_entsize shdr.
Proof.
  intros Hdel. destruct (delivery_size_multiple _ _ _ Hdel) as [HN Hsz].
  destruct Hdel as (Hpos & Hch & Hsize).
  destruct (load_symbols_while_safe e shdr Hpos datas 0 0
              (replicate (Z.to_nat (sh_size shdr / sh_entsize shdr))
                 zero_symbol, []))
    as (r & Hr & Hlen); [done|lia|lia|lia| |].
  { simpl. rewrite length_replicate. lia. }
  exists r. split; [exact Hr|]. rewrite Hlen. simpl.
  rewrite length_replicate. lia.
Qed.

Lemma scan_symtab_spec (shdr : GElf_Shdr) (scn : Elf_Scn) (ve : ve_t)
    (s0 s : sys) :
  scn_shdr scn = Some shdr →
  holds s0 s ve → scan_inv ve →
  (sh_type shdr = SHT_SYMTAB →
   delivery_ok (sh_entsize shdr) (sh_size shdr) (scn_data scn)) →
  ∃ ok ve' s',
    scan_symtab shdr scn ve s = Some ((ok, ve'), s')
    ∧ holds s0 s' ve' ∧ scan_inv ve' ∧ step_err ok s s'
    ∧ step_ok false false (bool_decide (sh_type shdr = SHT_SYMTAB)) ok
        ve ve'.
Proof.
  intros Hshdr Hholds Hinv Hdel. unfold scan_symtab.
  destruct (decide (sh_type shdr = SHT_SYMTAB)) as [Hty|Hty].
  2: { exists true, ve, s. rewrite bool_decide_eq_false_2 by done.
       unfold ret, step_ok, step_err. done. }
  rewrite bool_decide_eq_true_2 by done. specialize (Hdel Hty).
  destruct (symtab ve) as [tab|] eqn:Htab.
  - exists false, ve, {| live_blocks := live_blocks s;
                        open_fds := open_fds s;
                        elf_handles := elf_handles s;
                        stderr := stderr s ++ [Err_multiple_symtabs] |}.
    unfold bind, load_symbols. rewrite Htab. unfold bind, warnx, ret.
    simpl. split; [done|]. split; [exact Hholds|]. split; [exact Hinv|].
    split; [simpl; eauto|]. unfold step_ok. repeat split; done.
  - destruct (load_symbols_decode_safe (elf ve) shdr (scn_data scn) Hdel)
      as (r & Hdec & Hlen).
    destruct (load_symbols_run ve scn shdr s r Htab Hshdr) as
      (s' & Hrun & Hb' & Hf' & He' & Herr); [destruct Hdel; lia|done|].
    unfold bind. rewrite Hrun. cbn [fst snd].
    destruct Hholds as (Hb & Hf & He). destruct Hinv as (Hif & Hiv & Hit).
    assert (holds s0 s'
              (with_symtab ve (sh_size shdr / sh_entsize shdr)
                 (Some (step_state r).1))) as Hholds'.
    { unfold holds, owned_blocks, owned_fds, owned_elfs in *.
      rewrite Htab in Hb. cbn in Hb. cbn.
      destruct (fstubs ve), (vstubs ve), (elf ve), (decide (fd ve >= 0));
        repeat split; lia. }
    assert (scan_inv
              (with_symtab ve (sh_size shdr / sh_entsize shdr)
                 (Some (step_state r).1))) as Hinv'.
    { split; [exact Hif|]. split; [exact Hiv|].
      intros tab [= <-]. symmetry. exact Hlen. }
    destruct r as [st|st d]; cbn [step_state] in *.
    + rewrite decide_False by done.
      eexists true, _, s'. split; [done|]. split; [exact Hholds'|].
      split; [exact Hinv'|]. split.
      * simpl. rewrite Herr. apply app_nil_r.
      * unfold step_ok. cbn. repeat split; done.
    + rewrite decide_True by done.
      eexists false, _, s'. split; [done|]. split; [exact Hholds'|].
      split; [exact Hinv'|]. split.
      * simpl. eauto.
      * unfold step_ok. cbn. repeat split; done.
Qed.

Lemma step_err_trans (ok : bool) (s s1 s2 : sys) :
  stderr s1 = stderr s → step_err ok s1 s2 → step_err ok s s2.
Proof. unfold step_err. intros ->. done. Qed.

Lemma scan_section_spec (e : Elf) (shstrndx : Z) (scn : Elf_Scn) (ndx : Z)
    (ve : ve_t) (s0 s : sys) :
  ndx ≠ 0 → holds s0 s ve → scan_inv ve → scn_wf e shstrndx scn →
  ∃ ok ve' s',
    scan_section e shstrndx scn ndx ve s = Some ((ok, ve'), s')
    ∧ holds s0 s' ve' ∧ scan_inv ve' ∧ step_err ok s s'
    ∧ step_ok (is_fstubs e shstrndx scn) (is_vstubs e shstrndx scn)
        (is_symtab scn) ok ve ve'.
Proof.
  intros Hndx Hholds Hinv Hwf.
  unfold scan_section, scn_wf, is_fstubs, is_vstubs, is_symtab,
    named_progbits in *.
  destruct (scn_shdr scn) as [shdr|] eqn:Hshdr.
  2: { exists false, ve, {| live_blocks := live_blocks s;
                           open_fds := open_fds s;
                           elf_handles := elf_handles s;
                           stderr := stderr s ++ [Err_getshdr] |}.
       split; [done|]. split; [exact Hholds|]. split; [exact Hinv|].
       split; [simpl; eauto|]. unfold step_ok. done. }
  destruct (Hwf shdr eq_refl) as [Hstub Hsym]. clear Hwf.
  destruct (elf_strptr e shstrndx (sh_name shdr)) as [nm|] eqn:Hnm.
  2: { exists false, ve, {| live_blocks := live_blocks s;
                           open_fds := open_fds s;
                           elf_handles := elf_handles s;
                           stderr := stderr s ++ [Err_strptr] |}.
       split; [done|]. split; [exact Hholds|]. split; [exact Hinv|].
       split; [simpl; eauto|]. unfold step_ok.
       destruct (bool_decide (sh_type shdr = SHT_SYMTAB)); done. }
  destruct (scan_stubs_spec shdr nm scn ndx ve s0 s Hndx Hshdr Hholds Hinv)
    as (ok1 & ve1 & s1 & Hrun1 & Hholds1 & Hinv1 & Herr1 & Hstep1).
  { intros H. apply Hstub. rewrite <- andb_orb_distrib_r. exact H. }
  unfold bind. rewrite Hrun1. cbn [fst snd].
  destruct Hstep1 as (Hfd1 & Helf1 & Hf1 & Hv1 & Ht1).
  destruct ok1.
  - destruct (scan_symtab_spec shdr scn ve1 s0 s1 Hshdr Hholds1 Hinv1)
      as (ok2 & ve2 & s2 & Hrun2 & Hholds2 & Hinv2 & Herr2 & Hstep2).
    { intros H. apply Hsym. by apply bool_decide_eq_true_2. }
    exists ok2, ve2, s2. split; [exact Hrun2|]. split; [exact Hholds2|].
    split; [exact Hinv2|]. split; [by apply step_err_trans with s1|].
    destruct Hstep2 as (Hfd2 & Helf2 & Hf2 & Hv2 & Ht2).
    unfold step_ok. split; [congruence|]. split; [congruence|].
    split; [|split].
    + destruct (_ && String.eqb nm ".vitalink.fstubs").
      * intros _. rewrite Hf2. by apply Hf1.
      * congruence.
    + destruct (_ && String.eqb nm ".vitalink.vstubs").
      * intros _. rewrite Hv2. by apply Hv1.
      * congruence.
    + destruct (bool_decide (sh_type shdr = SHT_SYMTAB)).
      * intros Hok. rewrite <- Ht1. by apply Ht2.
      * congruence.
  - exists false, ve1, s1. split; [done|]. split; [exact Hholds1|].
    split; [exact Hinv1|]. split; [exact Herr1|].
    unfold step_ok. split; [done|]. split; [done|].
    split; [|split].
    + destruct (_ && String.eqb nm ".vitalink.fstubs"); done.
    + destruct (_ && String.eqb nm ".vitalink.vstubs"); done.
    + destruct (bool_decide (sh_type shdr = SHT_SYMTAB)); done.
Qed.

Lemma scan_sections_spec (e : Elf) (shstrndx : Z) (scns : list Elf_Scn) :
  ∀ (ndx : Z) (ve : ve_t) (s0 s : sys),
    0 < ndx → holds s0 s ve → scan_inv ve →
    Forall (scn_wf e shstrndx) scns →
    ∃ ok ve' s',
      scan_sections e shstrndx scns ndx ve s = Some ((ok, ve'), s')
      ∧ holds s0 s' ve' ∧ scan_inv ve' ∧ step_err ok s s'
      ∧ fd ve' = fd ve ∧ elf ve' = elf ve
      ∧ (ok = true →
         scan_ok (count_scns (is_fstubs e shstrndx) scns)
           (count_scns (is_vstubs e shstrndx) scns)
           (count_scns is_symtab scns) ve ve').
Proof.
  induction scns as [|scn rest IH]; intros ndx ve s0 s Hndx Hholds Hinv Hwf.
  - exists true, ve, s. split; [done|]. split; [done|]. split; [done|].
    split; [done|]. split; [done|]. split; [done|].
    intros _. unfold scan_ok. simpl. tauto.
  - apply Forall_cons in Hwf as [Hwf1 Hwf].
    destruct (scan_section_spec e shstrndx scn ndx ve s0 s)
      as (ok1 & ve1 & s1 & Hrun1 & Hholds1 & Hinv1 & Herr1 & Hstep1);
      [lia|done..|].
    cbn [scan_sections]. unfold bind. rewrite Hrun1. cbn [fst snd].
    destruct Hstep1 as (Hfd1 & Helf1 & Hf1 & Hv1 & Ht1).
    destruct ok1.
    + destruct (IH (ndx + 1) ve1 s0 s1)
        as (ok & ve' & s' & Hrun & Hholds' & Hinv' & Herr & Hfd & Helf & Hok);
        [lia|done..|].
      exists ok, ve', s'. split; [exact Hrun|]. split; [done|].
      split; [done|]. split; [by apply step_err_trans with s1|].
      split; [congruence|]. split; [congruence|].
      intros ->. destruct (Hok eq_refl) as (Hcf & Hcv & Hcs).
      unfold scan_ok. cbn [count_scns].
      split; [|split].
      * destruct (is_fstubs e shstrndx scn).
        -- destruct (Hf1 eq_refl) as [Hz Hnz]. right.
           destruct Hcf as [[-> Heq]|[_ [Hz' _]]]; [|done].
           split; [done|]. split; [done|]. congruence.
        -- rewrite <- Hf1. exact Hcf.
      * destruct (is_vstubs e shstrndx scn).
        -- destruct (Hv1 eq_refl) as [Hz Hnz]. right.
           destruct Hcv as [[-> Heq]|[_ [Hz' _]]]; [|done].
           split; [done|]. split; [done|]. congruence.
        -- rewrite <- Hv1. exact Hcv.
      * destruct (is_symtab scn).
        -- destruct (Ht1 eq_refl) as [Hz Hnz]. right.
           destruct Hcs as [[-> Heq]|[_ [Hz' _]]]; [|done].
           split; [done|]. split; [done|]. congruence.
        -- rewrite <- Ht1. exact Hcs.
    + exists false, ve1, s1. split; [done|]. split; [done|].
      split; [done|]. split; [done|]. split; [done|]. split; [done|].
      done.
Qed.

Lemma lookup_stub_symbols_spec (ve : ve_t) (num_stubs : Z)
    (stubs : list stub_t) (stubs_ndx sym_type : Z) (s : sys) :
  num_symbols ve = Z.of_nat (length (elems (symtab ve))) →
  num_stubs = Z.of_nat (length stubs) →
  Forall (symbol_ok (elems (symtab ve))) stubs →
  ∃ st stubs' s',
    lookup_stub_symbols ve num_stubs stubs stubs_ndx sym_type s
    = Some ((st, stubs'), s')
    ∧ length stubs' = length stubs
    ∧ Forall (symbol_ok (elems (symtab ve))) stubs'
    ∧ same_resources s s'
    ∧ step_err (negb (bool_decide (st = 0))) s s'.
Proof.
  intros Hnsym Hnum Hok. unfold lookup_stub_symbols.
  destruct (lookup_stub_symbols_loop_safe (elems (symtab ve)) num_stubs
              stubs_ndx sym_type (for_range 0 (num_symbols ve) 1) stubs)
    as (r & Hr & Hlen & Hok'); [|done..|].
  { rewrite for_range_1. apply Forall_seqZ. intros x Hx. lia. }
  unfold bind, lift. rewrite Hr.
  destruct r as [stubs'|stubs' d]; simpl in *.
  - eexists 1, stubs', s. unfold ret, same_resources, step_err. done.
  - eexists 0, stubs', _. unfold bind, warnx, ret, same_resources, step_err.
    simpl. split; [done|]. split; [done|]. split; [done|]. split; [done|].
    eauto.
Qed.

Lemma fresh_symbol_ok (tab : list vita_elf_symbol_t) (l : list stub_t) :
  Forall (λ st, symbol st = None) l → Forall (symbol_ok tab) l.
Proof.
  intros Hall. eapply Forall_impl; [exact Hall|].
  intros st H. unfold symbol_ok, symbol_name. rewrite H. eauto.
Qed.

Lemma after_scan_spec (ve : ve_t) (s0 s : sys) :
  holds s0 s ve → scan_inv ve → fd ve >= 0 → is_Some (elf ve) →
  ∃ r s',
    after_scan ve s = Some (r, s')
    ∧ match r with
      | None => same_resources s0 s' ∧ ∃ d, stderr s' = stderr s ++ [d]
      | Some ve' =>
          holds s0 s' ve' ∧ stderr s' = stderr s ∧ fully_formed ve'
          ∧ fstubs_ndx ve' = fstubs_ndx ve ∧ vstubs_ndx ve' = vstubs_ndx ve
          ∧ is_Some (symtab ve)
      end.
Proof.
  intros Hholds Hinv Hfd Helf. unfold after_scan.
  destruct (decide (fstubs_ndx ve = 0 ∧ vstubs_ndx ve = 0)) as [Hz|Hnz].
  { destruct (failure_spec ve s0
                {| live_blocks := live_blocks s; open_fds := open_fds s;
                   elf_handles := elf_handles s;
                   stderr := stderr s ++ [Err_no_stubs] |})
      as (s' & Hfail & Hres & Herr); [exact Hholds|].
    exists None, s'. unfold bind, warnx. rewrite Hfail.
    split; [done|]. split; [done|]. rewrite Herr. simpl. eauto. }
  destruct (symtab ve) as [tab|] eqn:Htab.
  2: { destruct (failure_spec ve s0
                   {| live_blocks := live_blocks s; open_fds := open_fds s;
                      elf_handles := elf_handles s;
                      stderr := stderr s ++ [Err_no_symtab] |})
         as (s' & Hfail & Hres & Herr); [exact Hholds|].
       exists None, s'. unfold bind, warnx. rewrite Hfail.
       split; [done|]. split; [done|]. rewrite Herr. simpl. eauto. }
  destruct Hinv as (Hif & Hiv & Hit). specialize (Hit tab Htab).
  (* the function stubs *)
  assert (∃ ok1 ve1 s1,
            (if decide (fstubs_ndx ve ≠ 0) then
               bind (lookup_stub_symbols ve (num_fstubs ve)
                       (elems (fstubs ve)) (fstubs_ndx ve) STT_FUNC)
                 (λ r, ret (negb (bool_decide (r.1 = 0)),
                            with_fstubs ve (num_fstubs ve)
                              ((λ _, r.2) <$> fstubs ve)))
             else ret (true, ve)) s = Some ((ok1, ve1), s1)
            ∧ holds s0 s1 ve1 ∧ step_err ok1 s s1
            ∧ fd ve1 = fd ve ∧ elf ve1 = elf ve ∧ symtab ve1 = Some tab
            ∧ num_symbols ve1 = num_symbols ve
            ∧ fstubs_ndx ve1 = fstubs_ndx ve
            ∧ vstubs_ndx ve1 = vstubs_ndx ve
            ∧ vstubs ve1 = vstubs ve ∧ num_vstubs ve1 = num_vstubs ve
            ∧ (fstubs_ndx ve ≠ 0 ↔ is_Some (fstubs ve1))
            ∧ num_fstubs ve1 = Z.of_nat (length (elems (fstubs ve1)))
            ∧ Forall (symbol_ok tab) (elems (fstubs ve1)))
    as (ok1 & ve1 & s1 & Hrun1 & Hholds1 & Herr1 & Hfd1 & Helf1 & Htab1
        & Hns1 & Hfn1 & Hvn1 & Hvs1 & Hnv1 & Hfs1 & Hnf1 & Hok1).
  { destruct (decide (fstubs_ndx ve ≠ 0)) as [Hf|Hf].
    - destruct Hif as [_ Hif]. destruct (Hif Hf) as (l & Hl & Hnum & Hfresh).
      destruct (lookup_stub_symbols_spec ve (num_fstubs ve) l
                  (fstubs_ndx ve) STT_FUNC s)
        as (st & l' & s1 & Hrun & Hlen & Hok & Hres & Herr).
      { rewrite Htab. exact Hit. }
      { exact Hnum. }
      { apply fresh_symbol_ok. exact Hfresh. }
      rewrite Hl. change (elems (Some l)) with l. unfold bind. rewrite Hrun.
      cbn [fst snd fmap option_fmap option_map]. unfold ret.
      eexists _, _, s1. split; [done|]. rewrite Htab in Hok.
      destruct Hres as (Hb & Hf' & He'). destruct Hholds as (Hb0 & Hf0 & He0).
      unfold holds, owned_blocks, owned_fds, owned_elfs in *.
      rewrite Hl in Hb0. cbn.
      split.
      { destruct (vstubs ve), (symtab ve), (elf ve), (decide (fd ve >= 0));
          repeat split; lia. }
      split; [exact Herr|]. repeat split; try done; eauto; lia.
    - exists true, ve, s. unfold ret. split; [done|]. split; [exact Hholds|].
      split; [done|]. assert (fstubs_ndx ve = 0) as Hz by lia.
      destruct Hif as [Hnull _]. destruct (Hnull Hz) as [-> ->]. cbn.
      repeat split; try done; intros [? ?]; done. }
  unfold bind in *. rewrite Hrun1. cbn [fst snd].
  destruct ok1.
  2: { destruct (failure_spec ve1 s0 s1 Hholds1) as (s' & Hfail & Hres & Herr).
       exists None, s'. rewrite Hfail. split; [done|]. split; [done|].
       destruct Herr1 as [d Hd]. rewrite Herr, Hd. eauto. }
  simpl in Herr1.
  (* the variable stubs *)
  assert (∃ ok2 ve2 s2,
            (if decide (vstubs_ndx ve1 ≠ 0) then
               bind (lookup_stub_symbols ve1 (num_vstubs ve1)
                       (elems (vstubs ve1)) (vstubs_ndx ve1) STT_OBJECT)
                 (λ r, ret (negb (bool_decide (r.1 = 0)),
                            with_vstubs ve1 (num_vstubs ve1)
                              ((λ _, r.2) <$> vstubs ve1)))
             else ret (true, ve1)) s1 = Some ((ok2, ve2), s2)
            ∧ holds s0 s2 ve2 ∧ step_err ok2 s1 s2
            ∧ fd ve2 = fd ve1 ∧ elf ve2 = elf ve1 ∧ symtab ve2 = Some tab
            ∧ num_symbols ve2 = num_symbols ve1
            ∧ fstubs_ndx ve2 = fstubs_ndx ve1
            ∧ vstubs_ndx ve2 = vstubs_ndx ve1
            ∧ fstubs ve2 = fstubs ve1 ∧ num_fstubs ve2 = num_fstubs ve1
            ∧ (vstubs_ndx ve ≠ 0 ↔ is_Some (vstubs ve2))
            ∧ num_vstubs ve2 = Z.of_nat (length (elems (vstubs ve2)))
            ∧ Forall (symbol_ok tab) (elems (vstubs ve2)))
    as (ok2 & ve2 & s2 & Hrun2 & Hholds2 & Herr2 & Hfd2 & Helf2 & Htab2
        & Hns2 & Hfn2 & Hvn2 & Hfs2 & Hnf2 & Hvs2 & Hnv2 & Hok2).
  { rewrite Hvn1, Hvs1, Hnv1.
    destruct (decide (vstubs_ndx ve ≠ 0)) as [Hv|Hv].
    - destruct Hiv as [_ Hiv]. destruct (Hiv Hv) as (l & Hl & Hnum & Hfresh).
      destruct (lookup_stub_symbols_spec ve1 (num_vstubs ve) l
                  (vstubs_ndx ve) STT_OBJECT s1)
        as (st & l' & s2 & Hrun & Hlen & Hok & Hres & Herr).
      { rewrite Htab1, Hns1. exact Hit. }
      { exact Hnum. }
      { apply fresh_symbol_ok. exact Hfresh. }
      rewrite Hl. change (elems (Some l)) with l. unfold bind. rewrite Hrun.
      cbn [fst snd fmap option_fmap option_map]. unfold ret.
      eexists _, _, s2. split; [done|]. rewrite Htab1 in Hok.
      destruct Hres as (Hb & Hf' & He'). destruct Hholds1 as (Hb0 & Hf0 & He0).
      unfold holds, owned_blocks, owned_fds, owned_elfs in *.
      rewrite Hvs1, Hl in Hb0. cbn.
      split.
      { destruct (fstubs ve1), (symtab ve1), (elf ve1),
          (decide (fd ve1 >= 0)); repeat split; lia. }
      split; [exact Herr|]. repeat split; try done; eauto; lia.
    - exists true, ve1, s1. unfold ret. split; [done|].
      split; [exact Hholds1|]. split; [done|].
      assert (vstubs_ndx ve = 0) as Hz by lia.
      destruct Hiv as [Hnull _]. destruct (Hnull Hz) as [Hn1 Hn2].
      rewrite Hvs1, Hnv1, Hn1, Hn2. cbn.
      repeat split; try done; intros [? ?]; done. }
  unfold bind in Hrun2. rewrite Hrun2. cbn [fst snd].
  destruct ok2.
  2: { destruct (failure_spec ve2 s0 s2 Hholds2) as (s' & Hfail & Hres & Herr).
       exists None, s'. rewrite Hfail. split; [done|]. split; [done|].
       destruct Herr2 as [d Hd]. rewrite Herr, Hd, Herr1. eauto. }
  simpl in Herr2.
  exists (Some ve2), s2. split; [done|]. split; [exact Hholds2|].
  split; [congruence|]. split.
  { unfold fully_formed, session_ok.
    rewrite Hfd2, Hfd1, Helf2, Helf1, Htab2, Hns2, Hns1, Hfn2, Hfn1, Hvn2,
      Hvn1, Hfs2, Hnf2. cbn [elems default].
    split; [done|]. split; [done|]. split; [eauto|]. split; [done|].
    split; [lia|]. split; [done|]. split; [done|].
    split; [done|]. split; [done|]. split; [done|done]. }
  split; [congruence|]. split; [congruence|]. eauto.
Qed.

(** Every run of [vita_elf_load] on well-delivered sections: it returns;
    when it returns NULL the process holds what it held before and one
    diagnostic was written; when it returns a session the process holds
    what the session owns besides, the session is fully formed, and the
    scan saw at most one stub section of each kind, at least one in all,
    and exactly one symbol table. *)
Lemma vita_elf_load_spec (env : Env) (filename : string) (s : sys) :
  env_wf env filename →
  ∃ (r : option ve_t) (s' : sys),
    vita_elf_load env filename s = Some (r, s')
    ∧ match r with
      | None => same_resources s s' ∧ ∃ d, stderr s' = stderr s ++ [d]
      | Some ve =>
          holds s s' ve ∧ stderr s' = stderr s ∧ fully_formed ve
          ∧ ∃ e shstrndx,
              env_elf_begin env (env_open env filename) = Some e
              ∧ elf_shdrstrndx e = Some shstrndx
              ∧ (count_scns (is_fstubs e shstrndx) (elf_scns e) ≤ 1)%nat
              ∧ (count_scns (is_vstubs e shstrndx) (elf_scns e) ≤ 1)%nat
              ∧ (1 ≤ count_scns (is_fstubs e shstrndx) (elf_scns e)
                     + count_scns (is_vstubs e shstrndx) (elf_scns e))%nat
              ∧ count_scns is_symtab (elf_scns e) = 1%nat
      end.
Proof.
  intros Hwf. unfold vita_elf_load.
  assert (∀ s1 d, same_resources s s1 → stderr s1 = stderr s →
            ∃ s', (warnx d ;; @failure vita_imports_lib_t
                                 vita_imports_module_t vita_imports_stub_t
                                 None)%M s1 = Some (None, s')
                  ∧ same_resources s s'
                  ∧ ∃ d, stderr s' = stderr s ++ [d]) as Hfail0.
  { intros s1 d Hres Herr. eexists. unfold bind, warnx, failure, ret. simpl.
    split; [done|]. split; [exact Hres|]. rewrite Herr. eauto. }
  assert (∀ (ve : ve_t) s1 d, holds s s1 ve → stderr s1 = stderr s →
            ∃ s', (warnx d ;; failure (Some ve))%M s1 = Some (None, s')
                  ∧ same_resources s s'
                  ∧ ∃ d, stderr s' = stderr s ++ [d]) as Hfail.
  { intros ve s1 d Hholds Herr.
    destruct (failure_spec ve s
                {| live_blocks := live_blocks s1; open_fds := open_fds s1;
                   elf_handles := elf_handles s1;
                   stderr := stderr s1 ++ [d] |} Hholds)
      as (s' & Hf & Hres & Herr').
    exists s'. unfold bind, warnx. rewrite Hf. split; [done|].
    split; [done|]. rewrite Herr'. simpl. rewrite Herr. eauto. }
  case_decide as Hver.
  { destruct (Hfail0 s Err_elf_init) as (s' & ? & ? & ?); [done..|].
    exists None, s'. done. }
  destruct (env_calloc_ve env); cbn [negb].
  2: { destruct (Hfail0 s Err_assert_ve) as (s' & ? & ? & ?); [done..|].
       exists None, s'. done. }
  unfold bind at 1. unfold add_blocks at 1. cbn [fd with_fd].
  set (s1 := {| live_blocks := live_blocks s + 1; open_fds := open_fds s;
                elf_handles := elf_handles s; stderr := stderr s |}).
  destruct (decide (env_open env filename < 0)) as [Hopen|Hopen].
  { destruct (Hfail (with_fd (with_fd zero_ve (-1)) (env_open env filename))
                s1 (Err_open filename)) as (s' & ? & ? & ?); [|done|].
    - unfold holds, owned_blocks, owned_fds, owned_elfs. simpl.
      rewrite decide_False by lia. repeat split; lia.
    - exists None, s'. done. }
  unfold bind at 1. unfold add_fds at 1.
  set (s2 := {| live_blocks := live_blocks s1; open_fds := open_fds s1 + 1;
                elf_handles := elf_handles s1; stderr := stderr s1 |}).
  set (ve0 := with_fd (with_fd zero_ve (-1)) (env_open env filename)).
  assert (holds s s2 ve0) as Hholds0.
  { unfold holds, owned_blocks, owned_fds, owned_elfs. simpl.
    rewrite decide_True by lia. repeat split; lia. }
  destruct (env_elf_begin env (env_open env filename)) as [e|] eqn:Hbegin.
  2: { destruct (Hfail ve0 s2 Err_elf_begin) as (s' & ? & ? & ?); [done..|].
       exists None, s'. done. }
  unfold bind at 1. unfold add_elfs at 1.
  set (s3 := {| live_blocks := live_blocks s2; open_fds := open_fds s2;
                elf_handles := elf_handles s2 + 1; stderr := stderr s2 |}).
  set (ve1 := with_elf ve0 (Some e)).
  assert (holds s s3 ve1) as Hholds1.
  { unfold holds, owned_blocks, owned_fds, owned_elfs. simpl.
    rewrite decide_True by lia. repeat split; lia. }
  case_decide as Hkind.
  { destruct (Hfail ve1 s3 (Err_not_elf filename)) as (s' & ? & ? & ?);
      [done..|]. exists None, s'. done. }
  destruct (elf_ehdr e) as [ehdr|].
  2: { destruct (Hfail ve1 s3 Err_getehdr) as (s' & ? & ? & ?); [done..|].
       exists None, s'. done. }
  case_decide as Hmach.
  { destruct (Hfail ve1 s3 (Err_not_arm filename)) as (s' & ? & ? & ?);
      [done..|]. exists None, s'. done. }
  case_decide as Hcls.
  { destruct (Hfail ve1 s3 (Err_not_32le filename)) as (s' & ? & ? & ?);
      [done..|]. exists None, s'. done. }
  destruct (elf_shdrstrndx e) as [shstrndx|] eqn:Hstr.
  2: { destruct (Hfail ve1 s3 Err_getshdrstrndx) as (s' & ? & ? & ?);
         [done..|]. exists None, s'. done. }
  assert (scan_inv ve1) as Hinv1.
  { unfold scan_inv, stubs_inv. simpl. repeat split; try done. }
  destruct (scan_sections_spec e shstrndx (elf_scns e) 1 ve1 s s3)
    as (ok & ve2 & s4 & Hscan & Hholds2 & Hinv2 & Herr2 & Hfd2 & Helf2 & Hcnt);
    [lia|done|done|by apply Hwf|].
  unfold bind. rewrite Hscan. cbn [fst snd].
  destruct ok.
  2: { destruct (failure_spec ve2 s s4 Hholds2) as (s' & Hf & Hres & Herr).
       exists None, s'. split; [done|]. split; [done|].
       destruct Herr2 as [d Hd]. rewrite Herr, Hd. simpl. eauto. }
  simpl in Herr2.
  destruct (after_scan_spec ve2 s s4 Hholds2 Hinv2)
    as (r & s' & Hafter & Hr).
  { rewrite Hfd2. simpl. lia. }
  { rewrite Helf2. simpl. eauto. }
  exists r, s'. split; [exact Hafter|].
  destruct r as [ve3|].
  - destruct Hr as (Hholds3 & Herr3 & Hff & Hfn & Hvn & Hst).
    split; [done|]. split; [by rewrite Herr3, Herr2|]. split; [done|].
    exists e, shstrndx. split; [done|]. split; [done|].
    destruct (Hcnt eq_refl) as (Hcf & Hcv & Hcs).
    destruct Hff as (_ & _ & _ & _ & Hnz & _).
    rewrite Hfn, Hvn in Hnz. simpl in Hcf, Hcv, Hcs.
    destruct Hst as [tab Htab]. rewrite Htab in Hcs.
    destruct Hcf as [[Hcf ?]|[Hcf ?]], Hcv as [[Hcv ?]|[Hcv ?]],
      Hcs as [[Hcs ?]|[Hcs ?]]; try done; rewrite Hcf, Hcv, Hcs;
      repeat split; try lia.
    all: exfalso; destruct Hnz; congruence.
  - destruct Hr as (Hres & d & Hd). split; [done|].
    exists d. by rewrite Hd, Herr2.
Qed.

End Loader.

(** ** Further properties of the symbol loader *)

Lemma gelf_getsym_window (bytes : list byte) (i : Z) :
  0 ≤ i → 16 * i + 16 ≤ Z.of_nat (length bytes) →
  ∃ b0 b1 b2 b3 b4 b5 b6 b7 b8 b9 b10 b11 b12 b13 b14 b15,
    take 16 (drop (Z.to_nat (16 * i)) bytes)
    = [b0; b1; b2; b3; b4; b5; b6; b7; b8; b9; b10; b11; b12; b13; b14; b15]
    ∧ gelf_getsym {| d_buf := bytes; d_off := 0 |} i
      = Some {| st_name := le32 b0 b1 b2 b3; st_value := le32 b4 b5 b6 b7;
                st_info := byte_val b12; st_shndx := le16 b14 b15 |}.
Proof.
  intros Hi Hlen.
  destruct (list_of_length_16 (take 16 (drop (Z.to_nat (16 * i)) bytes)))
    as (b0 & b1 & b2 & b3 & b4 & b5 & b6 & b7 & b8 & b9 & b10 & b11 & b12
        & b13 & b14 & b15 & Hw).
  { rewrite length_take, length_drop. lia. }
  exists b0, b1, b2, b3, b4, b5, b6, b7, b8, b9, b10, b11, b12, b13, b14, b15.
  split; [done|].
  assert (∀ (c : nat) (z : Z), z = 16 * i + Z.of_nat c → (c < 16)%nat →
            read_byte bytes z
            = [b0; b1; b2; b3; b4; b5; b6; b7; b8; b9; b10; b11; b12; b13;
               b14; b15] !! c) as R.
  { intros c z -> Hc. rewrite read_byte_window by lia. by rewrite Hw. }
  unfold gelf_getsym, d_size. cbn [d_buf].
  rewrite decide_True by lia. unfold read_le32, read_le16.
  rewrite (R 0%nat (16 * i)), (R 1%nat (16 * i + 1)),
    (R 2%nat (16 * i + 2)), (R 3%nat (16 * i + 3)) by lia.
  rewrite (R 4%nat (16 * i + 4)), (R 5%nat (16 * i + 4 + 1)),
    (R 6%nat (16 * i + 4 + 2)), (R 7%nat (16 * i + 4 + 3)) by lia.
  rewrite (R 12%nat (16 * i + 12)) by lia.
  rewrite (R 14%nat (16 * i + 14)), (R 15%nat (16 * i + 14 + 1)) by lia.
  reflexivity.
Qed.

Section SymbolRecords.

Context {vita_imports_lib_t vita_imports_module_t vita_imports_stub_t : Type}.

Local Abbreviation ve_t :=
  (@vita_elf_t vita_imports_lib_t vita_imports_module_t vita_imports_stub_t).

(** X1: a symbol table with 16-byte entries that is delivered in whole
    records is decoded entry by entry.  [load_symbols] returns 1 and writes
    nothing; the table has [sh_size / 16] entries; an entry below [sh_info]
    is left zeroed; and entry [i] from [sh_info] on holds the fields of the
    [Elf32_Sym] at bytes [16 * i] to [16 * i + 15] of the section: the name
    that [elf_strptr] gives in section [sh_link] for the little-endian word
    at byte 0 (NULL when it gives none: the result is not tested), the
    value from the word at byte 4, type and binding from the low and the
    high four bits of byte 12, and the section index from the half-word at
    byte 14. *)
Theorem load_symbols_records (ve : ve_t) (scn : Elf_Scn) (shdr : GElf_Shdr)
    (s : sys) :
  symtab ve = None →
  scn_shdr scn = Some shdr →
  sh_entsize shdr = 16 →
  0 ≤ sh_info shdr →
  delivery_ok 16 (sh_size shdr) (scn_data scn) →
  ∃ (tab : list vita_elf_symbol_t) (s' : sys),
    load_symbols ve scn s
    = Some ((1, with_symtab ve (sh_size shdr / 16) (Some tab)), s')
    ∧ stderr s' = stderr s
    ∧ Z.of_nat (length tab) = sh_size shdr / 16
    ∧ (∀ i : nat, (i < length tab)%nat → Z.of_nat i < sh_info shdr →
         tab !! i = Some zero_symbol)
    ∧ (∀ i, sh_info shdr ≤ i < sh_size shdr / 16 →
         ∃ b0 b1 b2 b3 b4 b5 b6 b7 b8 b9 b10 b11 b12 b13 b14 b15,
           take 16 (drop (Z.to_nat (16 * i)) (section_bytes (scn_data scn)))
           = [b0; b1; b2; b3; b4; b5; b6; b7; b8; b9; b10; b11; b12; b13;
              b14; b15]
           ∧ tab !! Z.to_nat i
             = Some {| name := strptr (elf ve) (sh_link shdr)
                                 (le32 b0 b1 b2 b3);
                       value := le32 b4 b5 b6 b7;
                       type := Z.land (byte_val b12) 15;
                       binding := Z.shiftr (byte_val b12) 4;
                       shndx := le16 b14 b15 |}).
Proof.
  intros Hnull Hshdr HE Hinfo Hdel.
  destruct (load_symbols_decode_16 (elf ve) shdr (scn_data scn) HE Hinfo Hdel)
    as (tab & Hdec & Hlen & Hin).
  destruct (load_symbols_run ve scn shdr s _ Hnull Hshdr ltac:(lia) Hdec)
    as (s' & Hrun & _ & _ & _ & Herr).
  rewrite HE in Hrun. simpl in Hrun, Herr. rewrite app_nil_r in Herr.
  exists tab, s'. split; [exact Hrun|]. split; [done|]. split; [done|].
  split.
  - intros i Hi Hlt. rewrite Hin by done. by rewrite decide_True.
  - intros i Hi. destruct Hdel as (_ & _ & Hsize).
    pose proof (Z.mul_div_le (sh_size shdr) 16 ltac:(lia)) as Hle.
    destruct (gelf_getsym_window (section_bytes (scn_data scn)) i)
      as (b0 & b1 & b2 & b3 & b4 & b5 & b6 & b7 & b8 & b9 & b10 & b11 & b12
          & b13 & b14 & b15 & Hw & Hg); [lia..|].
    exists b0, b1, b2, b3, b4, b5, b6, b7, b8, b9, b10, b11, b12, b13, b14, b15.
    split; [done|].
    specialize (Hin (Z.to_nat i)). rewrite Z2Nat.id in Hin by lia.
    rewrite Hin by lia. rewrite decide_False by lia.
    unfold whole. rewrite Hg. reflexivity.
Qed.

End SymbolRecords.

(** ** Further properties of the stub loader *)

Lemma for_range_16_length (d : Z) :
  0 ≤ d → Z.of_nat (length (for_range 0 d 16)) = (d + 15) / 16.
Proof.
  intros Hd. unfold for_range. rewrite length_fmap, length_seqZ.
  replace (d - 0 + 16 - 1) with (d + 15) by lia.
  pose proof (Z.div_pos (d + 15) 16). lia.
Qed.

Lemma section_bytes_empty (datas : list Elf_Data) :
  length (section_bytes datas) = 0%nat → Forall (λ data, d_size data = 0) datas.
Proof.
  induction datas as [|data rest IH]; intros H; [constructor|].
  pose proof (length_section_bytes_cons data rest) as E. rewrite H in E.
  unfold d_size in *. constructor; [lia|]. apply IH. lia.
Qed.

Section StubOverrun.

Context {vita_imports_lib_t vita_imports_module_t vita_imports_stub_t : Type}.

Local Abbreviation stub_t :=
  (@vita_elf_stub_t vita_imports_lib_t vita_imports_module_t
     vita_imports_stub_t).

Lemma load_stubs_for_count (shdr : GElf_Shdr) (data : Elf_Data)
    (offs : list Z) :
  ∀ (arr arr' : list stub_t) (k k' : Z),
    load_stubs_for shdr data offs (arr, k) = Some (arr', k') →
    length arr' = length arr
    ∧ k' = k + Z.of_nat (length offs)
    ∧ (offs ≠ [] → 0 ≤ k ∧ k' ≤ Z.of_nat (length arr)).
Proof.
  induction offs as [|o offs IH]; intros arr arr' k k' H.
  - injection H as <- <-. split; [done|]. split; [simpl; lia|done].
  - cbn [load_stubs_for] in H.
    destruct (load_stubs_body shdr data o (arr, k)) as [[arr1 k1]|] eqn:Hb;
      [|done].
    cbn [mbind option_bind] in H. apply IH in H as (Hl & Hk & Hne).
    unfold load_stubs_body in Hb.
    destruct (read_le32 (d_buf data) o); [|done].
    destruct (read_le32 (d_buf data) (o + 4)); [|done].
    destruct (read_le32 (d_buf data) (o + 8)); [|done].
    cbn [mbind option_bind] in Hb.
    destruct (store arr k _) as [arr2|] eqn:Hs; [|done].
    cbn [mbind option_bind] in Hb. injection Hb as <- <-.
    apply store_inv in Hs as (Hr & old & _ & ->).
    rewrite length_insert in Hl, Hne.
    split; [done|]. split; [simpl length; lia|]. intros _.
    destruct offs; [simpl in *; lia|]. destruct Hne; [done|]. lia.
Qed.

Lemma load_stubs_while_count (shdr : GElf_Shdr) :
  ∀ (datas : list Elf_Data) (total_bytes : Z) (arr arr' : list stub_t)
    (k k' : Z),
    0 ≤ k ≤ Z.of_nat (length arr) →
    total_bytes + Z.of_nat (length (section_bytes datas)) = sh_size shdr →
    load_stubs_while shdr datas total_bytes (arr, k) = Some (arr', k') →
    k ≤ k' ≤ Z.of_nat (length arr)
    ∧ Z.of_nat (length (section_bytes datas)) ≤ 16 * (k' - k)
    ∧ (Exists (λ data, d_size data mod 16 ≠ 0) datas →
       Z.of_nat (length (section_bytes datas)) < 16 * (k' - k)).
Proof.
  induction datas as [|data rest IH]; intros tb arr arr' k k' Hk Hsum H.
  - injection H as <- <-. simpl. split; [lia|]. split; [lia|].
    intros Hex. by apply Exists_nil in Hex.
  - cbn [load_stubs_while] in H.
    rewrite length_section_bytes_cons in *.
    destruct (decide (tb < sh_size shdr)) as [Hlt|Hge].
    + destruct (load_stubs_for shdr data _ (arr, k)) as [[arr1 k1]|] eqn:Hf;
        [|done].
      cbn [mbind option_bind] in H.
      apply load_stubs_for_count in Hf as (Hl1 & Hk1 & Hne).
      assert (0 ≤ d_size data) as Hd by (unfold d_size; lia).
      pose proof (for_range_16_length (d_size data) Hd) as Hn.
      pose proof (Z.div_mod (d_size data + 15) 16 ltac:(lia)) as Hdm.
      pose proof (Z.mod_pos_bound (d_size data + 15) 16 ltac:(lia)) as Hmb.
      assert (k1 ≤ Z.of_nat (length arr)) as Hk1le.
      { destruct (for_range 0 (d_size data) 16) eqn:Hfr.
        - simpl in Hk1. lia.
        - destruct Hne; [done|]. lia. }
      apply IH in H as (Hkk & Hsz & Hex); [|lia|lia].
      rewrite Hl1 in Hkk.
      split; [lia|]. split; [lia|]. intros Hx.
      apply Exists_cons in Hx as [Hx|Hx]; [|specialize (Hex Hx); lia].
      assert (16 * ((d_size data + 15) / 16) ≠ d_size data) as Hneq.
      { intros Heq. apply Hx. rewrite <- Heq, Z.mul_comm.
        apply Z.mod_mul. lia. }
      lia.
    + injection H as <- <-.
      assert (length (section_bytes (data :: rest)) = 0%nat) as H0.
      { pose proof (length_section_bytes_cons data rest).
        unfold d_size in *. lia. }
      apply section_bytes_empty in H0.
      assert (d_size data = 0) as Hd0 by (by inversion H0).
      assert (length (section_bytes rest) = 0%nat) as Hr0.
      { unfold d_size in *. lia. }
      split; [lia|]. split; [lia|]. intros Hx. exfalso.
      apply Exists_exists in Hx as (x & Hin & Hx).
      rewrite Forall_forall in H0. apply Hx. rewrite (H0 x Hin). done.
Qed.

(** X2: [load_stubs] needs its section in whole records.  When the
    descriptors together hold [sh_size] bytes and one of them has a size
    that is not a multiple of 16, the loops make more stores than the
    [sh_size / 16] stubs that were allocated (or read past the end of a
    descriptor): the call has no defined behaviour. *)
Theorem load_stubs_overrun (scn : Elf_Scn) (shdr : GElf_Shdr) (s : sys) :
  scn_shdr scn = Some shdr →
  Z.of_nat (length (section_bytes (scn_data scn))) = sh_size shdr →
  Exists (λ data, d_size data mod 16 ≠ 0) (scn_data scn) →
  @load_stubs vita_imports_lib_t vita_imports_module_t vita_imports_stub_t
    scn s = None.
Proof.
  intros Hshdr Hsize Hex.
  unfold load_stubs, bind, lift, calloc, add_blocks, ret. rewrite Hshdr.
  destruct (load_stubs_while shdr (scn_data scn) 0 _) as [[arr' k']|] eqn:Hw;
    [|done].
  exfalso.
  apply load_stubs_while_count in Hw as (Hk & _ & Hlt);
    [|rewrite length_replicate; lia|lia].
  specialize (Hlt Hex). rewrite length_replicate in Hk.
  pose proof (Z.mul_div_le (sh_size shdr) 16 ltac:(lia)).
  pose proof (Z.div_pos (sh_size shdr) 16). lia.
Qed.

End StubOverrun.

(** ** Further properties of the correlator *)

Section Correlation.

Context {vita_imports_lib_t vita_imports_module_t vita_imports_stub_t : Type}.

Local Abbreviation stub_t :=
  (@vita_elf_stub_t vita_imports_lib_t vita_imports_module_t
     vita_imports_stub_t).
Local Abbreviation ve_t :=
  (@vita_elf_t vita_imports_lib_t vita_imports_module_t vita_imports_stub_t).

Lemma correlated_refl (st : stub_t) : correlated st st.
Proof. unfold correlated. tauto. Qed.

Lemma correlated_trans (a b c : stub_t) :
  correlated a b → correlated b c → correlated a c.
Proof.
  unfold correlated.
  intros (-> & -> & -> & -> & -> & -> & -> & H1)
         (-> & -> & -> & -> & -> & -> & -> & H2).
  repeat (split; [done|]). intros Hs. rewrite H2; [by apply H1|].
  by rewrite H1.
Qed.

Lemma Forall2_correlated_refl (stubs : list stub_t) :
  Forall2 correlated stubs stubs.
Proof. apply Forall_Forall2_diag, Forall_true, correlated_refl. Qed.

Lemma Forall2_correlated_trans (l1 l2 l3 : list stub_t) :
  Forall2 correlated l1 l2 → Forall2 correlated l2 l3 →
  Forall2 correlated l1 l3.
Proof.
  intros H. revert l3. induction H as [|a b l1 l2 Hab _ IH]; intros l3 H3.
  - by inversion H3.
  - inversion H3 as [|? c ? l3' Hbc Hrest]; subst. constructor.
    + by apply correlated_trans with b.
    + by apply IH.
Qed.

(** The filters of the outer loop, as one test. *)
Lemma lookup_stub_symbols_body_skip (tab : list vita_elf_symbol_t)
    (num_stubs stubs_ndx sym_type symndx : Z) (cursym : vita_elf_symbol_t)
    (stubs : list stub_t) :
  load_at tab symndx = Some cursym →
  ¬ qualifies stubs_ndx cursym →
  lookup_stub_symbols_body tab num_stubs stubs_ndx sym_type symndx stubs
  = Some (Continue stubs).
Proof.
  intros Hload Hq. unfold lookup_stub_symbols_body. rewrite Hload.
  cbn [mbind option_bind].
  case_decide as H1; [done|]. case_decide as H2; [done|].
  case_decide as H3; [done|].
  exfalso. apply Hq. unfold qualifies.
  split; [by destruct (decide (binding cursym = STB_GLOBAL))|].
  split; [|by destruct (decide (shndx cursym = stubs_ndx))].
  destruct (decide (type cursym = STT_FUNC)); [by left|].
  destruct (decide (type cursym = STT_OBJECT)); [by right|]. tauto.
Qed.

Lemma lookup_stub_symbols_body_mismatch (tab : list vita_elf_symbol_t)
    (num_stubs stubs_ndx sym_type symndx : Z) (cursym : vita_elf_symbol_t)
    (stubs : list stub_t) :
  load_at tab symndx = Some cursym →
  qualifies stubs_ndx cursym →
  type cursym ≠ sym_type →
  lookup_stub_symbols_body tab num_stubs stubs_ndx sym_type symndx stubs
  = Some (Stop stubs
            (Err_symbol_type (name cursym) stubs_ndx sym_type (type cursym))).
Proof.
  intros Hload (Hb & Ht & Hs) Hne. unfold lookup_stub_symbols_body.
  rewrite Hload. cbn [mbind option_bind].
  rewrite decide_False by tauto.
  rewrite decide_False by (intros [? ?]; destruct Ht; done).
  rewrite decide_False by tauto. by rewrite decide_True.
Qed.

Lemma lookup_stub_symbols_body_correlated (tab : list vita_elf_symbol_t)
    (num_stubs stubs_ndx sym_type symndx : Z) (stubs : list stub_t)
    (r : step (list stub_t)) :
  num_stubs = Z.of_nat (length stubs) →
  lookup_stub_symbols_body tab num_stubs stubs_ndx sym_type symndx stubs
  = Some r →
  Forall2 correlated stubs (step_state r).
Proof.
  intros Hnum Hrun.
  destruct (load_at tab symndx) as [cursym|] eqn:Hload;
    [|by unfold lookup_stub_symbols_body in Hrun; rewrite Hload in Hrun].
  destruct (decide (qualifies stubs_ndx cursym)) as [Hq|Hq].
  - destruct (decide (type cursym = sym_type)) as [Hexp|Hexp].
    + destruct Hq as (Hb & Ht & Hs).
      rewrite (lookup_stub_symbols_body_eq tab num_stubs stubs_ndx sym_type
                 symndx cursym stubs) in Hrun by done.
      destruct (list_find _ stubs) as [[i st]|] eqn:Hfind.
      * apply list_find_Some in Hfind as (Hi & _ & _).
        destruct (symbol st) as [old|] eqn:Hsym.
        -- destruct (tab !! old); [|done]. injection Hrun as <-.
           apply Forall2_correlated_refl.
        -- injection Hrun as <-. simpl.
           rewrite <- (list_insert_id stubs i st Hi) at 1.
           apply Forall2_insert; [apply Forall2_correlated_refl|].
           unfold correlated. simpl. repeat (split; [done|]).
           rewrite Hsym. by intros [? ?].
      * injection Hrun as <-. apply Forall2_correlated_refl.
    + rewrite (lookup_stub_symbols_body_mismatch tab num_stubs stubs_ndx
                 sym_type symndx cursym stubs) in Hrun by done.
      injection Hrun as <-. apply Forall2_correlated_refl.
  - rewrite (lookup_stub_symbols_body_skip tab num_stubs stubs_ndx sym_type
               symndx cursym stubs) in Hrun by done.
    injection Hrun as <-. apply Forall2_correlated_refl.
Qed.

Lemma lookup_stub_symbols_loop_correlated (tab : list vita_elf_symbol_t)
    (num_stubs stubs_ndx sym_type : Z) (symndxs : list Z) :
  ∀ (stubs : list stub_t) (r : step (list stub_t)),
    num_stubs = Z.of_nat (length stubs) →
    lookup_stub_symbols_loop tab num_stubs stubs_ndx sym_type symndxs stubs
    = Some r →
    Forall2 correlated stubs (step_state r).
Proof.
  induction symndxs as [|x rest IH]; intros stubs r Hnum Hrun.
  - injection Hrun as <-. apply Forall2_correlated_refl.
  - cbn [lookup_stub_symbols_loop] in Hrun.
    destruct (lookup_stub_symbols_body tab num_stubs stubs_ndx sym_type x
                stubs) as [r1|] eqn:Hbody; [|done].
    pose proof (lookup_stub_symbols_body_correlated _ _ _ _ _ _ _ Hnum Hbody)
      as H1.
    destruct r1 as [stubs1|stubs1 d].
    + simpl in H1. apply Forall2_correlated_trans with stubs1; [done|].
      apply IH; [|done]. rewrite Hnum. f_equal.
      by apply Forall2_length in H1.
    + by injection Hrun as <-.
Qed.

(** X3: the correlator changes nothing in a stub but [symbol].  On a
    session whose counts are the lengths of its arrays,
    [lookup_stub_symbols] returns 1 or 0, and in both cases every stub has
    the address, the NIDs and the annotations it had, a stub that had a
    symbol still has that symbol, and no resource was acquired or
    released. *)
Theorem lookup_stub_symbols_correlated (ve : ve_t) (num_stubs : Z)
    (stubs : list stub_t) (stubs_ndx sym_type : Z) (s : sys) :
  num_symbols ve = Z.of_nat (length (elems (symtab ve))) →
  num_stubs = Z.of_nat (length stubs) →
  Forall (symbol_ok (elems (symtab ve))) stubs →
  ∃ (status : Z) (stubs' : list stub_t) (s' : sys),
    lookup_stub_symbols ve num_stubs stubs stubs_ndx sym_type s
    = Some ((status, stubs'), s')
    ∧ (status = 0 ∨ status = 1)
    ∧ Forall2 correlated stubs stubs'
    ∧ same_resources s s'.
Proof.
  intros Hsyms Hnum Hok.
  destruct (lookup_stub_symbols_spec ve num_stubs stubs stubs_ndx sym_type s
              Hsyms Hnum Hok) as (st & stubs' & s' & Hrun & _ & _ & Hres & _).
  exists st, stubs', s'. split; [done|].
  unfold lookup_stub_symbols, bind, lift, warnx, ret in Hrun.
  destruct (lookup_stub_symbols_loop _ _ _ _ _ stubs) as [r|] eqn:Hloop;
    [|done].
  pose proof (lookup_stub_symbols_loop_correlated _ _ _ _ _ _ _ Hnum Hloop)
    as Hc.
  destruct r as [l|l d]; injection Hrun as <- <- <-; simpl in Hc; auto.
Qed.

Lemma lookup_stub_symbols_loop_skip (tab : list vita_elf_symbol_t)
    (num_stubs stubs_ndx sym_type : Z) (stubs : list stub_t) (n : nat) :
  ∀ m : nat,
    (∀ (p : nat) sym, (m ≤ p < m + n)%nat → tab !! p = Some sym →
       ¬ qualifies stubs_ndx sym) →
    (m + n ≤ length tab)%nat →
    lookup_stub_symbols_loop tab num_stubs stubs_ndx sym_type
      (seqZ (Z.of_nat m) (Z.of_nat n)) stubs = Some (Continue stubs).
Proof.
  induction n as [|n IH]; intros m Hq Hlen.
  - by rewrite seqZ_nil by lia.
  - rewrite seqZ_cons by lia. cbn [lookup_stub_symbols_loop].
    destruct (lookup_lt_is_Some_2 tab m) as [sym Hsym]; [lia|].
    rewrite (lookup_stub_symbols_body_skip tab num_stubs stubs_ndx sym_type
               (Z.of_nat m) sym stubs);
      [|by rewrite load_at_nat|apply (Hq m); [lia|done]].
    replace (Z.pred (Z.of_nat (S n))) with (Z.of_nat n) by lia.
    replace (Z.succ (Z.of_nat m)) with (Z.of_nat (S m)) by lia.
    apply IH; [|lia]. intros p sym' Hp. apply Hq. lia.
Qed.

Lemma lookup_stub_symbols_loop_app (tab : list vita_elf_symbol_t)
    (num_stubs stubs_ndx sym_type : Z) (l1 l2 : list Z) :
  ∀ stubs : list stub_t,
    lookup_stub_symbols_loop tab num_stubs stubs_ndx sym_type (l1 ++ l2) stubs
    = match lookup_stub_symbols_loop tab num_stubs stubs_ndx sym_type l1 stubs
      with
      | Some (Continue stubs') =>
          lookup_stub_symbols_loop tab num_stubs stubs_ndx sym_type l2 stubs'
      | r => r
      end.
Proof.
  induction l1 as [|x l1 IH]; intros stubs; [done|].
  cbn [app lookup_stub_symbols_loop].
  destruct (lookup_stub_symbols_body tab num_stubs stubs_ndx sym_type x stubs)
    as [[stubs1|stubs1 d]|]; [apply IH|done..].
Qed.

(** X4: symbols that are not global, or of a kind other than Function and
    Object, or defined in another section, are passed over.  When no symbol
    of the table passes these three filters, [lookup_stub_symbols] returns
    1, leaves the stub array as it is and writes nothing, whatever the stubs
    are. *)
Theorem lookup_stub_symbols_skips (ve : ve_t) (num_stubs : Z)
    (stubs : list stub_t) (stubs_ndx sym_type : Z) (s : sys) :
  num_symbols ve = Z.of_nat (length (elems (symtab ve))) →
  (∀ sym, sym ∈ elems (symtab ve) → ¬ qualifies stubs_ndx sym) →
  lookup_stub_symbols ve num_stubs stubs stubs_ndx sym_type s
  = Some ((1, stubs), s).
Proof.
  intros Hsyms Hq. unfold lookup_stub_symbols, bind, lift, ret.
  rewrite for_range_1, Z.sub_0_r, Hsyms.
  pose proof (lookup_stub_symbols_loop_skip (elems (symtab ve)) num_stubs
                stubs_ndx sym_type stubs (length (elems (symtab ve))) 0)
    as Hloop.
  change (Z.of_nat 0) with 0 in Hloop. rewrite Hloop; [done| |lia].
  intros p sym _ Hp. apply Hq. apply list_elem_of_lookup. eauto.
Qed.

(** X5: a global symbol of kind Function or Object that lies in the stub
    section but has not the expected type stops the correlation.  When it
    is the first symbol of the table that passes the three filters,
    [lookup_stub_symbols] returns 0, has attached nothing, and the one
    diagnostic it writes names the symbol, the section, the expected type
    and the type found. *)
Theorem lookup_stub_symbols_type (ve : ve_t) (num_stubs : Z)
    (stubs : list stub_t) (stubs_ndx sym_type : Z) (s : sys) (m : nat)
    (cursym : vita_elf_symbol_t) :
  num_symbols ve = Z.of_nat (length (elems (symtab ve))) →
  elems (symtab ve) !! m = Some cursym →
  qualifies stubs_ndx cursym →
  type cursym ≠ sym_type →
  (∀ (p : nat) sym, (p < m)%nat → elems (symtab ve) !! p = Some sym →
     ¬ qualifies stubs_ndx sym) →
  ∃ s',
    lookup_stub_symbols ve num_stubs stubs stubs_ndx sym_type s
    = Some ((0, stubs), s')
    ∧ stderr s'
      = stderr s ++ [Err_symbol_type (name cursym) stubs_ndx sym_type
                       (type cursym)]
    ∧ same_resources s s'.
Proof.
  intros Hsyms Hcur Hq Hne Hbefore.
  pose proof (lookup_lt_Some _ _ _ Hcur) as Hm.
  unfold lookup_stub_symbols, bind, lift, warnx, ret.
  rewrite for_range_1, Z.sub_0_r, Hsyms.
  replace (Z.of_nat (length (elems (symtab ve))))
    with (Z.of_nat m + Z.of_nat (S (length (elems (symtab ve)) - S m)))
    by lia.
  rewrite seqZ_app by lia. rewrite lookup_stub_symbols_loop_app.
  pose proof (lookup_stub_symbols_loop_skip (elems (symtab ve)) num_stubs
                stubs_ndx sym_type stubs m 0) as Hloop.
  change (Z.of_nat 0) with 0 in Hloop. rewrite Hloop; [| |lia].
  2:{ intros p sym Hp. apply Hbefore. lia. }
  rewrite seqZ_cons by lia. cbn [lookup_stub_symbols_loop].
  rewrite Z.add_0_l.
  rewrite (lookup_stub_symbols_body_mismatch (elems (symtab ve)) num_stubs
             stubs_ndx sym_type (Z.of_nat m) cursym stubs);
    [|by rewrite load_at_nat|done..].
  eexists. split; [done|]. done.
Qed.

(** X6: when the correlation succeeds.  On fresh stubs, if every symbol
    that passes the three filters has the expected type and the address of
    some stub as its value, and no two of them have the same value, then
    [lookup_stub_symbols] returns 1 and writes nothing; the stubs differ
    from what they were in [symbol] only, each of these symbols is attached
    to a stub at its value, and no symbol is attached twice. *)
Theorem lookup_stub_symbols_succeeds (ve : ve_t) (num_stubs : Z)
    (stubs : list stub_t) (stubs_ndx sym_type : Z) (s : sys) :
  num_symbols ve = Z.of_nat (length (elems (symtab ve))) →
  num_stubs = Z.of_nat (length stubs) →
  Forall (λ st, symbol st = None) stubs →
  (∀ sym, sym ∈ elems (symtab ve) → qualifies stubs_ndx sym →
     type sym = sym_type ∧ ∃ st, st ∈ stubs ∧ addr st = value sym) →
  (∀ (p q : nat) sp sq,
     elems (symtab ve) !! p = Some sp → elems (symtab ve) !! q = Some sq →
     qualifies stubs_ndx sp → qualifies stubs_ndx sq →
     value sp = value sq → p = q) →
  ∃ stubs' : list stub_t,
    lookup_stub_symbols ve num_stubs stubs stubs_ndx sym_type s
    = Some ((1, stubs'), s)
    ∧ Forall2 correlated stubs stubs'
    ∧ attached_upto (elems (symtab ve)) stubs_ndx
        (Z.of_nat (length (elems (symtab ve)))) stubs'.
Proof.
  intros Hsyms Hnum Hfresh Hgood Hinj.
  set (tab := elems (symtab ve)) in *.
  assert (∀ (n m : nat) (l : list stub_t),
            (m + n)%nat = length tab →
            Forall2 correlated stubs l →
            attached_upto tab stubs_ndx (Z.of_nat m) l →
            ∃ l',
              lookup_stub_symbols_loop tab num_stubs stubs_ndx sym_type
                (seqZ (Z.of_nat m) (Z.of_nat n)) l = Some (Continue l')
              ∧ Forall2 correlated stubs l'
              ∧ attached_upto tab stubs_ndx (Z.of_nat (length tab)) l')
    as Hloop.
  { induction n as [|n IH]; intros m l Hmn Hcor Hinv.
    - rewrite seqZ_nil by lia. exists l. split; [done|]. split; [done|].
      by replace (length tab) with m by lia.
    - rewrite seqZ_cons by lia. cbn [lookup_stub_symbols_loop].
      pose proof (Forall2_length _ _ _ Hcor) as Hlen.
      assert (num_stubs = Z.of_nat (length l)) as Hnum' by lia.
      destruct (lookup_lt_is_Some_2 tab m) as [cursym Hcur]; [lia|].
      assert (load_at tab (Z.of_nat m) = Some cursym) as Hload
        by (by rewrite load_at_nat).
      assert (∃ l1, lookup_stub_symbols_body tab num_stubs stubs_ndx sym_type
                      (Z.of_nat m) l = Some (Continue l1)) as [l1 Hbody].
      { destruct (decide (qualifies stubs_ndx cursym)) as [Hq|Hq].
        - destruct (Hgood cursym) as (Hexp & st0 & Hin0 & Haddr0);
            [apply list_elem_of_lookup; eauto|done|].
          pose proof Hq as (Hb & Ht & Hs).
          rewrite (lookup_stub_symbols_body_eq tab num_stubs stubs_ndx
                     sym_type (Z.of_nat m) cursym l) by done.
          destruct (list_find _ l) as [[i st]|] eqn:Hfind.
          + apply list_find_Some in Hfind as (Hi & Haddr & _).
            destruct (symbol st) as [old|] eqn:Hsym; [|eauto].
            exfalso. destruct Hinv as (Ha & _ & _).
            destruct (Ha i st old Hi Hsym)
              as (Hold & sym' & Hsym' & Hq' & Hv').
            assert (old = m) as ->; [|lia].
            apply (Hinj old m sym' cursym); try done. congruence.
          + exfalso. apply list_find_None in Hfind.
            apply list_elem_of_lookup in Hin0 as [i0 Hi0].
            destruct (Forall2_lookup_l _ _ _ _ _ Hcor Hi0)
              as (st1 & Hst1 & Hc1).
            rewrite Forall_forall in Hfind. apply (Hfind st1).
            * apply list_elem_of_lookup. eauto.
            * destruct Hc1 as (-> & _). done.
        - exists l. by apply lookup_stub_symbols_body_skip with cursym. }
      rewrite Hbody.
      destruct (lookup_stub_symbols_body_step tab num_stubs stubs_ndx
                  sym_type m l l1) as [Hlen1 Hinv1]; [lia|done..|].
      pose proof (lookup_stub_symbols_body_correlated _ _ _ _ _ _ _ Hnum'
                    Hbody) as Hc1. simpl in Hc1.
      replace (Z.pred (Z.of_nat (S n))) with (Z.of_nat n) by lia.
      replace (Z.succ (Z.of_nat m)) with (Z.of_nat (S m)) by lia.
      apply IH; [lia| |done].
      by apply Forall2_correlated_trans with l. }
  destruct (Hloop (length tab) 0%nat stubs) as (l' & Hrun & Hcor & Hinv).
  - done.
  - apply Forall2_correlated_refl.
  - split; [|split].
    + intros i st p Hi Hp. rewrite Forall_forall in Hfresh.
      rewrite Hfresh in Hp; [done|]. apply list_elem_of_lookup. eauto.
    + intros p sym Hp. lia.
    + intros i j st st' p Hi Hj Hp. rewrite Forall_forall in Hfresh.
      rewrite Hfresh in Hp; [done|]. apply list_elem_of_lookup. eauto.
  - exists l'. split; [|done].
    unfold lookup_stub_symbols, bind, lift, ret.
    rewrite for_range_1, Z.sub_0_r, Hsyms. change (Z.of_nat 0) with 0 in Hrun.
    fold tab. by rewrite Hrun.
Qed.

End Correlation.

(** ** The correlation, symbol by symbol *)

Section CorrelatorRun.

Context {vita_imports_lib_t vita_imports_module_t vita_imports_stub_t : Type}.

Local Abbreviation stub_t :=
  (@vita_elf_stub_t vita_imports_lib_t vita_imports_module_t
     vita_imports_stub_t).
Local Abbreviation ve_t :=
  (@vita_elf_t vita_imports_lib_t vita_imports_module_t vita_imports_stub_t).

(** The step of the correlator for a symbol whose first stub is free. *)
Lemma lookup_stub_symbols_body_attach (tab : list vita_elf_symbol_t)
    (num_stubs stubs_ndx sym_type : Z) (m : nat) (cursym : vita_elf_symbol_t)
    (l : list stub_t) (i : nat) (st : stub_t) :
  tab !! m = Some cursym →
  qualifies stubs_ndx cursym →
  type cursym = sym_type →
  num_stubs = Z.of_nat (length l) →
  l !! i = Some st → addr st = value cursym → symbol st = None →
  (∀ (j : nat) st', (j < i)%nat → l !! j = Some st' →
     addr st' ≠ value cursym) →
  lookup_stub_symbols_body tab num_stubs stubs_ndx sym_type (Z.of_nat m) l
  = Some (Continue (<[i := set_symbol (Some m) st]> l)).
Proof.
  intros Hcur (Hb & Ht & Hs) Hexp Hnum Hi Haddr Hsym Hfirst.
  rewrite (lookup_stub_symbols_body_eq tab num_stubs stubs_ndx sym_type
             (Z.of_nat m) cursym l); [|by rewrite load_at_nat|done..].
  assert (list_find (λ st : stub_t, addr st = value cursym) l = Some (i, st))
    as ->.
  { apply list_find_Some. split; [done|]. split; [done|].
    intros j y Hj Hlt. by apply (Hfirst j). }
  rewrite Hsym, Nat2Z.id. done.
Qed.

(** The symbols that the stubs hold after the loop were held before, or
    are among those that the loop went through. *)
Lemma lookup_stub_symbols_body_origin (tab : list vita_elf_symbol_t)
    (num_stubs stubs_ndx sym_type symndx : Z) (l : list stub_t)
    (r : step (list stub_t)) :
  num_stubs = Z.of_nat (length l) →
  lookup_stub_symbols_body tab num_stubs stubs_ndx sym_type symndx l
  = Some r →
  ∀ (j : nat) st' (p : nat),
    step_state r !! j = Some st' → symbol st' = Some p →
    (∃ st0, l !! j = Some st0 ∧ symbol st0 = Some p) ∨ Z.of_nat p = symndx.
Proof.
  intros Hnum Hrun j st' p Hj Hp.
  destruct (load_at tab symndx) as [cursym|] eqn:Hload;
    [|by unfold lookup_stub_symbols_body in Hrun; rewrite Hload in Hrun].
  assert (0 ≤ symndx) as Hnn.
  { unfold load_at in Hload. by case_decide. }
  destruct (decide (qualifies stubs_ndx cursym)) as [Hq|Hq].
  - destruct (decide (type cursym = sym_type)) as [Hexp|Hexp].
    + destruct Hq as (Hb & Ht & Hs).
      rewrite (lookup_stub_symbols_body_eq tab num_stubs stubs_ndx sym_type
                 symndx cursym l) in Hrun by done.
      destruct (list_find _ l) as [[i st]|] eqn:Hfind.
      * apply list_find_Some in Hfind as (Hi & _ & _).
        destruct (symbol st) as [old|] eqn:Hsym.
        -- destruct (tab !! old); [|done]. injection Hrun as <-. eauto.
        -- injection Hrun as <-. simpl in Hj.
           destruct (decide (j = i)) as [->|Hne].
           ++ rewrite list_lookup_insert_eq in Hj
                by (by apply lookup_lt_Some in Hi).
              injection Hj as <-. simpl in Hp. injection Hp as <-.
              right. lia.
           ++ rewrite list_lookup_insert_ne in Hj by done. eauto.
      * injection Hrun as <-. eauto.
    + rewrite (lookup_stub_symbols_body_mismatch tab num_stubs stubs_ndx
                 sym_type symndx cursym l) in Hrun by done.
      injection Hrun as <-. eauto.
  - rewrite (lookup_stub_symbols_body_skip tab num_stubs stubs_ndx sym_type
               symndx cursym l) in Hrun by done.
    injection Hrun as <-. eauto.
Qed.

Lemma lookup_stub_symbols_loop_origin (tab : list vita_elf_symbol_t)
    (num_stubs stubs_ndx sym_type : Z) (symndxs : list Z) :
  ∀ (l : list stub_t) (r : step (list stub_t)),
    num_stubs = Z.of_nat (length l) →
    lookup_stub_symbols_loop tab num_stubs stubs_ndx sym_type symndxs l
    = Some r →
    ∀ (j : nat) st' (p : nat),
      step_state r !! j = Some st' → symbol st' = Some p →
      (∃ st0, l !! j = Some st0 ∧ symbol st0 = Some p)
      ∨ Z.of_nat p ∈ symndxs.
Proof.
  induction symndxs as [|x rest IH]; intros l r Hnum Hrun j st' p Hj Hp.
  - injection Hrun as <-. eauto.
  - cbn [lookup_stub_symbols_loop] in Hrun.
    destruct (lookup_stub_symbols_body tab num_stubs stubs_ndx sym_type x l)
      as [r1|] eqn:Hbody; [|done].
    pose proof (lookup_stub_symbols_body_origin _ _ _ _ _ _ _ Hnum Hbody)
      as Ho.
    pose proof (lookup_stub_symbols_body_correlated _ _ _ _ _ _ _ Hnum Hbody)
      as Hc.
    destruct r1 as [l1|l1 d].
    + simpl in Ho, Hc.
      destruct (IH l1 r) with (j := j) (st' := st') (p := p)
        as [(st1 & Hj1 & Hp1)|Hin]; [|done..| |].
      * rewrite Hnum. f_equal. by apply Forall2_length in Hc.
      * destruct (Ho j st1 p Hj1 Hp1) as [?|<-]; [by left|].
        right. apply list_elem_of_here.
      * right. by apply list_elem_of_further.
    + injection Hrun as <-.
      destruct (Ho j st' p Hj Hp) as [?|<-]; [by left|].
      right. apply list_elem_of_here.
Qed.

(** The correlation of fresh stubs up to [m], when the symbols below [m]
    can all be attached. *)
Lemma lookup_stub_symbols_loop_prefix (tab : list vita_elf_symbol_t)
    (num_stubs stubs_ndx sym_type : Z) (stubs : list stub_t) (m : nat) :
  num_stubs = Z.of_nat (length stubs) →
  Forall (λ st, symbol st = None) stubs →
  (m ≤ length tab)%nat →
  correlatable tab stubs_ndx sym_type stubs m →
  ∃ l : list stub_t,
    lookup_stub_symbols_loop tab num_stubs stubs_ndx sym_type
      (seqZ 0 (Z.of_nat m)) stubs = Some (Continue l)
    ∧ Forall2 correlated stubs l
    ∧ attached_upto tab stubs_ndx (Z.of_nat m) l.
Proof.
  intros Hnum Hfresh. rewrite Forall_forall in Hfresh.
  induction m as [|m IH]; intros Hm (Hgood & Hinj).
  - exists stubs. split; [done|]. split; [apply Forall2_correlated_refl|].
    split; [|split].
    + intros i st p Hi Hp.
      rewrite Hfresh in Hp; [done|]. apply list_elem_of_lookup. eauto.
    + intros p sym Hp. lia.
    + intros i j st st' p Hi Hj Hp.
      rewrite Hfresh in Hp; [done|]. apply list_elem_of_lookup. eauto.
  - destruct IH as (l & Hrun & Hcor & Hinv); [lia| |].
    { split.
      - intros p sym Hp. apply Hgood. lia.
      - intros p q sp sq Hp Hq. apply Hinj; lia. }
    replace (Z.of_nat (S m)) with (Z.of_nat m + 1) by lia.
    rewrite seqZ_app by lia. rewrite lookup_stub_symbols_loop_app, Hrun.
    rewrite Z.add_0_l.
    change (seqZ (Z.of_nat m) 1) with [Z.of_nat m].
    cbn [lookup_stub_symbols_loop].
    pose proof (Forall2_length _ _ _ Hcor) as Hlen.
    assert (num_stubs = Z.of_nat (length l)) as Hnum' by lia.
    destruct (lookup_lt_is_Some_2 tab m) as [cursym Hcur]; [lia|].
    assert (load_at tab (Z.of_nat m) = Some cursym) as Hload
      by (by rewrite load_at_nat).
    assert (∃ l1, lookup_stub_symbols_body tab num_stubs stubs_ndx sym_type
                    (Z.of_nat m) l = Some (Continue l1)) as (l1 & Hbody).
    { destruct (decide (qualifies stubs_ndx cursym)) as [Hq|Hq].
      - destruct (Hgood m cursym) as (Hexp & st0 & Hin0 & Haddr0);
          [lia|done..|].
        destruct (list_find (λ st : stub_t, addr st = value cursym) l)
          as [[i st]|] eqn:Hfind.
        + apply list_find_Some in Hfind as (Hi & Haddr & Hbefore).
          assert (symbol st = None) as Hsym.
          { destruct (symbol st) as [old|] eqn:Hsym; [|done].
            exfalso. destruct Hinv as (Ha & _ & _).
            destruct (Ha i st old Hi Hsym)
              as (Hold & sym' & Hsym' & Hq' & Hv').
            assert (old = m) as ->; [|lia].
            apply (Hinj old m sym' cursym); try done; try lia; congruence. }
          exists (<[i := set_symbol (Some m) st]> l).
          apply lookup_stub_symbols_body_attach with cursym; try done.
          intros j st' Hj Hl. by apply (Hbefore j).
        + exfalso. apply list_find_None in Hfind.
          apply list_elem_of_lookup in Hin0 as [i0 Hi0].
          destruct (Forall2_lookup_l _ _ _ _ _ Hcor Hi0)
            as (st1 & Hst1 & Hc1).
          rewrite Forall_forall in Hfind. apply (Hfind st1).
          * apply list_elem_of_lookup. eauto.
          * destruct Hc1 as (-> & _). done.
      - exists l. by apply lookup_stub_symbols_body_skip with cursym. }
    rewrite Hbody. exists l1.
    destruct (lookup_stub_symbols_body_step tab num_stubs stubs_ndx
                sym_type m l l1) as [Hlen1 Hinv1]; [lia|done..|].
    pose proof (lookup_stub_symbols_body_correlated _ _ _ _ _ _ _ Hnum'
                  Hbody) as Hc1. simpl in Hc1.
    split; [done|]. split; [by apply Forall2_correlated_trans with l|].
    by replace (Z.of_nat m + 1) with (Z.of_nat (S m)) by lia.
Qed.


End CorrelatorRun.

(** ** Further properties of the import resolver *)

Section Resolution.

Context {vita_imports_t vita_imports_lib_t vita_imports_module_t
         vita_imports_stub_t : Type}.

Variable vita_imports_find_lib :
  vita_imports_t → Z → option vita_imports_lib_t.
Variable vita_imports_find_module :
  vita_imports_lib_t → Z → option vita_imports_module_t.
Variable vita_imports_find_function vita_imports_find_variable :
  vita_imports_module_t → Z → option vita_imports_stub_t.

Local Abbreviation stub_t :=
  (@vita_elf_stub_t vita_imports_lib_t vita_imports_module_t
     vita_imports_stub_t).
Local Abbreviation ve_t :=
  (@vita_elf_t vita_imports_lib_t vita_imports_module_t vita_imports_stub_t).
Local Abbreviation finder :=
  (vita_imports_module_t → Z → option vita_imports_stub_t).

Local Abbreviation resolved_stub :=
  (resolved_stub vita_imports_find_lib vita_imports_find_module).
Local Abbreviation stub_diag :=
  (stub_diag vita_imports_find_lib vita_imports_find_module).
Local Abbreviation run :=
  (vita_elf_lookup_imports vita_imports_find_lib vita_imports_find_module
     vita_imports_find_function vita_imports_find_variable).

Lemma resolved_stub_annotated imports (find_stub : finder) (st : stub_t) :
  annotated st (resolved_stub imports find_stub st).
Proof.
  unfold annotated, resolved_stub.
  destruct (vita_imports_find_lib imports (library_nid st)) as [l|]; [|done].
  destruct (vita_imports_find_module l (module_nid st)); done.
Qed.

Lemma resolved_stub_twice imports (find_stub : finder) (st : stub_t) :
  resolved_stub imports find_stub (resolved_stub imports find_stub st)
  = resolved_stub imports find_stub st.
Proof.
  unfold resolved_stub.
  destruct (vita_imports_find_lib imports (library_nid st)) as [l|] eqn:Hl;
    simpl; [|by rewrite Hl].
  destruct (vita_imports_find_module l (module_nid st)) as [m|] eqn:Hm;
    simpl; rewrite Hl; simpl; by rewrite Hm.
Qed.

Lemma stub_diag_resolved tab imports (find_stub : finder) nm (st : stub_t) :
  stub_diag tab imports find_stub nm (resolved_stub imports find_stub st)
  = stub_diag tab imports find_stub nm st.
Proof.
  pose proof (resolved_stub_annotated imports find_stub st)
    as (Ha & Hl & Hm & Ht & Hs).
  unfold stub_diag, symbol_name. by rewrite Hl, Hm, Ht, Hs.
Qed.

Lemma symbol_ok_resolved tab imports (find_stub : finder) (st : stub_t) :
  symbol_ok tab st → symbol_ok tab (resolved_stub imports find_stub st).
Proof.
  pose proof (resolved_stub_annotated imports find_stub st)
    as (_ & _ & _ & _ & Hs).
  unfold symbol_ok, symbol_name. by rewrite Hs.
Qed.

(** The session that the resolver leaves. *)
Lemma vita_elf_lookup_imports_session (ve : ve_t) imports (s : sys) :
  session_ok ve →
  ∃ (found_all : Z) (s' : sys),
    run ve imports s
    = Some ((found_all,
             with_vstubs
               (with_fstubs ve (num_fstubs ve)
                  ((λ l : list stub_t,
                      resolved_stub imports vita_imports_find_function <$> l)
                     <$> fstubs ve))
               (num_vstubs ve)
               ((λ l : list stub_t,
                   resolved_stub imports vita_imports_find_variable <$> l)
                  <$> vstubs ve)), s')
    ∧ found_all
      = match omap (stub_diag (elems (symtab ve)) imports
                      vita_imports_find_function "function")
                (elems (fstubs ve))
              ++ omap (stub_diag (elems (symtab ve)) imports
                         vita_imports_find_variable "variable")
                   (elems (vstubs ve))
        with [] => 1 | _ => 0 end
    ∧ same_resources s s'
    ∧ stderr s'
      = stderr s
        ++ omap (stub_diag (elems (symtab ve)) imports
                   vita_imports_find_function "function")
             (elems (fstubs ve))
        ++ omap (stub_diag (elems (symtab ve)) imports
                   vita_imports_find_variable "variable")
             (elems (vstubs ve)).
Proof.
  intros (Hnf & Hnv & Hokf & Hokv).
  unfold vita_elf_lookup_imports, bind, ret.
  rewrite (lookup_stubs_spec _ _ _ _ _ _ _ _ s Hnf Hokf).
  cbn [fst snd with_fstubs with_vstubs symtab vstubs num_vstubs fstubs].
  rewrite (lookup_stubs_spec _ _ _ _ _ _ _ _ _ Hnv Hokv).
  cbn [fst snd live_blocks open_fds elf_handles stderr].
  eexists _, _. split; [|split; [|split]].
  - do 3 f_equal.
    + unfold with_fstubs, with_vstubs. cbn. f_equal.
      * by destruct (fstubs ve).
      * by destruct (vstubs ve).
  - destruct (omap _ (elems (fstubs ve))); simpl.
    + by destruct (omap _ (elems (vstubs ve))).
    + by destruct (omap _ (elems (vstubs ve))).
  - done.
  - simpl. by rewrite <- app_assoc.
Qed.

(** The session that the resolver leaves satisfies the hypotheses of the
    resolver again. *)
Lemma session_ok_resolved (ve : ve_t) imports :
  session_ok ve →
  session_ok
    (with_vstubs
       (with_fstubs ve (num_fstubs ve)
          ((λ l : list stub_t,
              resolved_stub imports vita_imports_find_function <$> l)
             <$> fstubs ve))
       (num_vstubs ve)
       ((λ l : list stub_t,
           resolved_stub imports vita_imports_find_variable <$> l)
          <$> vstubs ve)).
Proof.
  intros (Hnf & Hnv & Hokf & Hokv). unfold session_ok. cbn.
  destruct (fstubs ve) as [lf|]; destruct (vstubs ve) as [lv|]; cbn in *;
    rewrite ?length_fmap; repeat split; try done;
    try (apply Forall_fmap; eapply Forall_impl; [eassumption|];
         intros st Hst; by apply symbol_ok_resolved).
Qed.

(** X7: the resolver changes nothing but the annotations of the stubs.
    After [vita_elf_lookup_imports] the session has the descriptor, the
    handle, the section indices, the counts and the symbol table it had, an
    array is NULL exactly when it was, every stub has the address, the
    NIDs and the symbol it had, the session still satisfies the hypotheses
    of the resolver, and the process holds what it held. *)
Theorem vita_elf_lookup_imports_keeps (ve : ve_t) (imports : vita_imports_t)
    (s : sys) :
  session_ok ve →
  ∃ (found_all : Z) (ve' : ve_t) (s' : sys),
    run ve imports s = Some ((found_all, ve'), s')
    ∧ same_session ve ve'
    ∧ session_ok ve'
    ∧ same_resources s s'.
Proof.
  intros Hok.
  destruct (vita_elf_lookup_imports_session ve imports s Hok)
    as (fa & s' & Hrun & _ & Hres & _).
  eexists _, _, _. split; [exact Hrun|]. split; [|split; [|done]].
  - unfold same_session. cbn. repeat (split; [done|]).
    split; [by destruct (fstubs ve)|]. split; [by destruct (vstubs ve)|].
    split.
    + destruct (fstubs ve) as [l|]; cbn; [|constructor].
      apply Forall2_fmap_r, Forall_Forall2_diag, Forall_true.
      intros st. apply resolved_stub_annotated.
    + destruct (vstubs ve) as [l|]; cbn; [|constructor].
      apply Forall2_fmap_r, Forall_Forall2_diag, Forall_true.
      intros st. apply resolved_stub_annotated.
  - by apply session_ok_resolved.
Qed.

(** X8: resolving again against the same database changes nothing.  A
    second call of [vita_elf_lookup_imports] on the session that the first
    one left returns the same value and leaves the same session; it writes
    the diagnostics of the first call once more. *)
Theorem vita_elf_lookup_imports_twice (ve : ve_t) (imports : vita_imports_t)
    (s : sys) :
  session_ok ve →
  ∃ (found_all : Z) (ve' : ve_t) (s1 s2 : sys) (out : list diag),
    run ve imports s = Some ((found_all, ve'), s1)
    ∧ run ve' imports s1 = Some ((found_all, ve'), s2)
    ∧ stderr s1 = stderr s ++ out
    ∧ stderr s2 = stderr s1 ++ out.
Proof.
  intros Hok.
  pose proof (session_ok_resolved ve imports Hok) as Hok'.
  destruct (vita_elf_lookup_imports_session ve imports s Hok)
    as (fa & s1 & Hrun & Hfa & _ & Herr).
  destruct (vita_elf_lookup_imports_session _ imports s1 Hok')
    as (fa' & s2 & Hrun' & Hfa' & _ & Herr').
  assert (∀ (find_stub : finder) nm (p : option (list stub_t)),
            omap (stub_diag (elems (symtab ve)) imports find_stub nm)
              (elems ((λ l : list stub_t,
                         resolved_stub imports find_stub <$> l) <$> p))
            = omap (stub_diag (elems (symtab ve)) imports find_stub nm)
                (elems p)) as Hdiag.
  { intros find_stub nm [l|]; cbn; [|done].
    induction l as [|st l IH]; [done|]. cbn.
    rewrite stub_diag_resolved. by rewrite IH. }
  cbn [with_fstubs with_vstubs symtab fstubs vstubs] in Hfa', Herr'.
  rewrite !Hdiag in Hfa', Herr'.
  eexists fa, _, s1, s2, _. split; [exact Hrun|]. split; [|split].
  - rewrite Hrun'. rewrite Hfa', <- Hfa. do 3 f_equal.
    unfold with_fstubs, with_vstubs. cbn. f_equal.
    + destruct (fstubs ve) as [l|]; cbn; [|done]. f_equal.
      rewrite <- list_fmap_compose. apply list_fmap_ext.
      intros i st _. apply resolved_stub_twice.
    + destruct (vstubs ve) as [l|]; cbn; [|done]. f_equal.
      rewrite <- list_fmap_compose. apply list_fmap_ext.
      intros i st _. apply resolved_stub_twice.
  - exact Herr.
  - exact Herr'.
Qed.

End Resolution.

(** ** Further properties of the session assembler *)

Section Assembly.

Context {vita_imports_lib_t vita_imports_module_t vita_imports_stub_t : Type}.

Local Abbreviation stub_t :=
  (@vita_elf_stub_t vita_imports_lib_t vita_imports_module_t
     vita_imports_stub_t).
Local Abbreviation ve_t :=
  (@vita_elf_t vita_imports_lib_t vita_imports_module_t vita_imports_stub_t).
Local Open Scope M_scope.

Lemma holds_session0 (s : sys) (fd : Z) (e : Elf) :
  0 ≤ fd → holds s (opened s) (session0 fd e : ve_t).
Proof.
  intros Hfd. unfold holds, owned_blocks, owned_fds, owned_elfs, opened.
  simpl. rewrite decide_True by lia. repeat split; lia.
Qed.

Lemma warnx_failure_rejects (ve : ve_t) (s s1 : sys) (d : diag) :
  holds s s1 ve → stderr s1 = stderr s →
  ∃ s', (warnx d ;; failure (Some ve)) s1 = Some (None, s')
        ∧ stderr s' = stderr s ++ [d] ∧ same_resources s s'.
Proof.
  intros Hholds Herr.
  destruct (failure_spec ve s
              {| live_blocks := live_blocks s1; open_fds := open_fds s1;
                 elf_handles := elf_handles s1;
                 stderr := stderr s1 ++ [d] |} Hholds)
    as (s' & Hf & Hres & Herr').
  exists s'. unfold bind, warnx. rewrite Hf. split; [done|].
  split; [|done]. rewrite Herr'. simpl. by rewrite Herr.
Qed.

(** With the checks passed, [vita_elf_load] is the scan of the sections
    followed by the checks and the correlation after it. *)
Lemma vita_elf_load_scan (env : Env) (filename : string) (e : Elf)
    (shstrndx : Z) (s : sys) :
  header_ok env filename e shstrndx →
  @vita_elf_load vita_imports_lib_t vita_imports_module_t vita_imports_stub_t
    env filename s
  = (r <- scan_sections e shstrndx (elf_scns e) 1
            (session0 (env_open env filename) e) ;;
     if r.1 then after_scan r.2 else failure (Some r.2)) (opened s).
Proof.
  intros (Hver & Hcal & Hfd & Hbegin & Hkind & (ehdr & Hehdr & Hm & Hc & Hd)
          & Hstr).
  unfold vita_elf_load. rewrite decide_False by done. rewrite Hcal.
  cbn [negb fd with_fd]. unfold bind at 1. unfold add_blocks at 1.
  rewrite decide_False by lia. unfold bind at 1. unfold add_fds at 1.
  cbn [live_blocks open_fds elf_handles stderr]. rewrite Hbegin.
  unfold bind at 1. unfold add_elfs at 1.
  cbn [live_blocks open_fds elf_handles stderr].
  rewrite decide_False by (by intros ?). rewrite Hehdr.
  rewrite decide_False by (by intros ?).
  rewrite decide_False by (intros [?|?]; done). rewrite Hstr. reflexivity.
Qed.

Lemma failure_returns_None (x : option ve_t) (s s' : sys)
    (r : option ve_t) :
  failure x s = Some (r, s') → r = None.
Proof.
  unfold failure, bind, ret. destruct x as [v|].
  - destruct (vita_elf_free v s) as [[[] s1]|]; [|done]. by intros [= <- _].
  - by intros [= <- _].
Qed.

Lemma warnx_failure_returns_None (d : diag) (x : option ve_t) (s s' : sys)
    (r : option ve_t) :
  (warnx d ;; failure x) s = Some (r, s') → r = None.
Proof. unfold bind at 1. unfold warnx. apply failure_returns_None. Qed.

(** A run that returns a session passed every check before the scan, went
    through the scan and through what follows it. *)
Lemma vita_elf_load_inv (env : Env) (filename : string) (s s' : sys)
    (ve : ve_t) :
  vita_elf_load env filename s = Some (Some ve, s') →
  ∃ e shstrndx ve1 s1,
    header_ok env filename e shstrndx
    ∧ scan_sections e shstrndx (elf_scns e) 1
        (session0 (env_open env filename) e) (opened s)
      = Some ((true, ve1), s1)
    ∧ after_scan ve1 s1 = Some (Some ve, s').
Proof.
  intros Hrun.
  assert (∀ d x s1, (warnx d ;; @failure vita_imports_lib_t
                       vita_imports_module_t vita_imports_stub_t x) s1
                    ≠ Some (Some ve, s')) as Hno.
  { intros d x s1 H. by apply warnx_failure_returns_None in H. }
  destruct (decide (env_elf_version env = EV_NONE)) as [Hver|Hver].
  { unfold vita_elf_load in Hrun. rewrite decide_True in Hrun by done.
    by apply Hno in Hrun. }
  destruct (env_calloc_ve env) eqn:Hcal.
  2: { unfold vita_elf_load in Hrun. rewrite decide_False in Hrun by done.
       rewrite Hcal in Hrun. by apply Hno in Hrun. }
  destruct (decide (env_open env filename < 0)) as [Hfd|Hfd].
  { unfold vita_elf_load in Hrun. rewrite decide_False in Hrun by done.
    rewrite Hcal in Hrun. cbn [negb fd with_fd] in Hrun.
    unfold bind at 1 in Hrun. unfold add_blocks at 1 in Hrun.
    rewrite decide_True in Hrun by done. by apply Hno in Hrun. }
  destruct (env_elf_begin env (env_open env filename)) as [e|] eqn:Hbegin.
  2: { unfold vita_elf_load in Hrun. rewrite decide_False in Hrun by done.
       rewrite Hcal in Hrun. cbn [negb fd with_fd] in Hrun.
       unfold bind at 1 in Hrun. unfold add_blocks at 1 in Hrun.
       rewrite decide_False in Hrun by done.
       unfold bind at 1 in Hrun. unfold add_fds at 1 in Hrun.
       rewrite Hbegin in Hrun. by apply Hno in Hrun. }
  set (ve0 := session0 (env_open env filename) e : ve_t).
  assert (vita_elf_load env filename s
          = (if decide (elf_kind e ≠ ELF_K_ELF) then
               warnx (Err_not_elf filename) ;; failure (Some ve0)
             else match elf_ehdr e with
             | None => warnx Err_getehdr ;; failure (Some ve0)
             | Some ehdr =>
                 if decide (e_machine ehdr ≠ EM_ARM) then
                   warnx (Err_not_arm filename) ;; failure (Some ve0)
                 else if decide (ei_class ehdr ≠ ELFCLASS32
                                 ∨ ei_data ehdr ≠ ELFDATA2LSB) then
                   warnx (Err_not_32le filename) ;; failure (Some ve0)
                 else match elf_shdrstrndx e with
                 | None => warnx Err_getshdrstrndx ;; failure (Some ve0)
                 | Some shstrndx =>
                     r <- scan_sections e shstrndx (elf_scns e) 1 ve0 ;;
                     if r.1 then after_scan r.2 else failure (Some r.2)
                 end
             end) (opened s)) as Heq.
  { unfold vita_elf_load. rewrite decide_False by done.
    rewrite Hcal. cbn [negb fd with_fd]. unfold bind at 1.
    unfold add_blocks at 1. rewrite decide_False by done.
    unfold bind at 1. unfold add_fds at 1.
    cbn [live_blocks open_fds elf_handles stderr]. rewrite Hbegin.
    unfold bind at 1. unfold add_elfs at 1. reflexivity. }
  rewrite Heq in Hrun. clear Heq.
  destruct (decide (elf_kind e ≠ ELF_K_ELF)) as [Hkind|Hkind];
    [by apply Hno in Hrun|].
  destruct (elf_ehdr e) as [ehdr|] eqn:Hehdr; [|by apply Hno in Hrun].
  destruct (decide (e_machine ehdr ≠ EM_ARM)) as [Hm|Hm];
    [by apply Hno in Hrun|].
  destruct (decide (ei_class ehdr ≠ ELFCLASS32 ∨ ei_data ehdr ≠ ELFDATA2LSB))
    as [Hc|Hc]; [by apply Hno in Hrun|].
  destruct (elf_shdrstrndx e) as [shstrndx|] eqn:Hstr;
    [|by apply Hno in Hrun].
  unfold bind in Hrun.
  destruct (scan_sections e shstrndx (elf_scns e) 1 ve0 (opened s))
    as [[[ok ve1] s1]|] eqn:Hscan; [|done].
  cbn [fst snd] in Hrun. destruct ok.
  2: { by apply failure_returns_None in Hrun. }
  exists e, shstrndx, ve1, s1. split; [|done].
  unfold header_ok. split; [done|]. split; [done|]. split; [lia|].
  split; [done|].
  split; [by destruct (decide (elf_kind e = ELF_K_ELF)); [|tauto]|].
  split; [|done]. exists ehdr. split; [done|].
  split; [by destruct (decide (e_machine ehdr = EM_ARM)); [|tauto]|].
  split.
  - destruct (decide (ei_class ehdr = ELFCLASS32)); [done|]. tauto.
  - destruct (decide (ei_data ehdr = ELFDATA2LSB)); [done|]. tauto.
Qed.

(** X9: the checks of [vita_elf_load] before the scan, in their order.
    Each one that fails makes the call return NULL with its own diagnostic
    and nothing else written, whatever the sections of the file hold, and
    with the session, the descriptor and the handle released as far as
    they were acquired: libelf not initialised; no memory for the session;
    the file not opened; no ELF handle; not an ELF file; no ELF header; not
    an ARM binary; not 32-bit little-endian; no section name table. *)
Theorem vita_elf_load_header (env : Env) (filename : string) (s : sys) :
  (env_elf_version env = EV_NONE →
   rejects (@vita_elf_load vita_imports_lib_t vita_imports_module_t
              vita_imports_stub_t env filename) s Err_elf_init)
  ∧ (env_elf_version env ≠ EV_NONE → env_calloc_ve env = false →
     rejects (@vita_elf_load vita_imports_lib_t vita_imports_module_t
                vita_imports_stub_t env filename) s Err_assert_ve)
  ∧ (env_elf_version env ≠ EV_NONE → env_calloc_ve env = true →
     (env_open env filename < 0 →
      rejects (@vita_elf_load vita_imports_lib_t vita_imports_module_t
                 vita_imports_stub_t env filename) s (Err_open filename))
     ∧ (0 ≤ env_open env filename →
        env_elf_begin env (env_open env filename) = None →
        rejects (@vita_elf_load vita_imports_lib_t vita_imports_module_t
                   vita_imports_stub_t env filename) s Err_elf_begin)
     ∧ ∀ e, 0 ≤ env_open env filename →
         env_elf_begin env (env_open env filename) = Some e →
         (elf_kind e ≠ ELF_K_ELF →
          rejects (@vita_elf_load vita_imports_lib_t vita_imports_module_t
                     vita_imports_stub_t env filename) s
            (Err_not_elf filename))
         ∧ (elf_kind e = ELF_K_ELF → elf_ehdr e = None →
            rejects (@vita_elf_load vita_imports_lib_t vita_imports_module_t
                       vita_imports_stub_t env filename) s Err_getehdr)
         ∧ ∀ ehdr, elf_kind e = ELF_K_ELF → elf_ehdr e = Some ehdr →
             (e_machine ehdr ≠ EM_ARM →
              rejects (@vita_elf_load vita_imports_lib_t
                         vita_imports_module_t vita_imports_stub_t env
                         filename) s (Err_not_arm filename))
             ∧ (e_machine ehdr = EM_ARM →
                ei_class ehdr ≠ ELFCLASS32 ∨ ei_data ehdr ≠ ELFDATA2LSB →
                rejects (@vita_elf_load vita_imports_lib_t
                           vita_imports_module_t vita_imports_stub_t env
                           filename) s (Err_not_32le filename))
             ∧ (e_machine ehdr = EM_ARM → ei_class ehdr = ELFCLASS32 →
                ei_data ehdr = ELFDATA2LSB → elf_shdrstrndx e = None →
                rejects (@vita_elf_load vita_imports_lib_t
                           vita_imports_module_t vita_imports_stub_t env
                           filename) s Err_getshdrstrndx)).
Proof.
  assert (∀ d s1, same_resources s s1 → stderr s1 = stderr s →
            ∃ s', (warnx d ;; @failure vita_imports_lib_t
                                 vita_imports_module_t vita_imports_stub_t
                                 None) s1 = Some (None, s')
                  ∧ stderr s' = stderr s ++ [d] ∧ same_resources s s')
    as Hfail0.
  { intros d s1 Hres Herr. eexists. unfold bind, warnx, failure, ret. simpl.
    split; [done|]. split; [by rewrite Herr|exact Hres]. }
  split; [|split].
  - intros Hver. unfold rejects, vita_elf_load. rewrite decide_True by done.
    by apply Hfail0.
  - intros Hver Hcal. unfold rejects, vita_elf_load.
    rewrite decide_False by done. rewrite Hcal. by apply Hfail0.
  - intros Hver Hcal.
    split; [|split].
    + intros Hfd. unfold rejects, vita_elf_load. rewrite decide_False by done.
      rewrite Hcal. cbn [negb fd with_fd]. unfold bind at 1.
      unfold add_blocks at 1. rewrite decide_True by done.
      apply warnx_failure_rejects; [|done].
      unfold holds, owned_blocks, owned_fds, owned_elfs. simpl.
      rewrite decide_False by lia. repeat split; lia.
    + intros Hfd Hbegin. unfold rejects, vita_elf_load.
      rewrite decide_False by done.
      rewrite Hcal. cbn [negb fd with_fd]. unfold bind at 1.
      unfold add_blocks at 1. rewrite decide_False by lia.
      unfold bind at 1. unfold add_fds at 1. rewrite Hbegin.
      apply warnx_failure_rejects; [|done].
      unfold holds, owned_blocks, owned_fds, owned_elfs. simpl.
      rewrite decide_True by lia. repeat split; lia.
    + intros e Hfd Hbegin.
      set (ve0 := session0 (env_open env filename) e : ve_t).
      assert (vita_elf_load env filename s
              = (if decide (elf_kind e ≠ ELF_K_ELF) then
                   warnx (Err_not_elf filename) ;; failure (Some ve0)
                 else match elf_ehdr e with
                 | None => warnx Err_getehdr ;; failure (Some ve0)
                 | Some ehdr =>
                     if decide (e_machine ehdr ≠ EM_ARM) then
                       warnx (Err_not_arm filename) ;; failure (Some ve0)
                     else if decide (ei_class ehdr ≠ ELFCLASS32
                                     ∨ ei_data ehdr ≠ ELFDATA2LSB) then
                       warnx (Err_not_32le filename) ;; failure (Some ve0)
                     else match elf_shdrstrndx e with
                     | None => warnx Err_getshdrstrndx ;; failure (Some ve0)
                     | Some shstrndx =>
                         r <- scan_sections e shstrndx (elf_scns e) 1 ve0 ;;
                         if r.1 then after_scan r.2 else failure (Some r.2)
                     end
                 end) (opened s)) as Heq.
      { unfold vita_elf_load. rewrite decide_False by done.
        rewrite Hcal. cbn [negb fd with_fd]. unfold bind at 1.
        unfold add_blocks at 1. rewrite decide_False by lia.
        unfold bind at 1. unfold add_fds at 1.
        cbn [live_blocks open_fds elf_handles stderr]. rewrite Hbegin.
        unfold bind at 1. unfold add_elfs at 1. reflexivity. }
      pose proof (holds_session0 s (env_open env filename) e Hfd) as Hholds.
      fold ve0 in Hholds.
      unfold rejects. rewrite Heq. clear Heq.
      split; [|split].
      * intros Hkind. rewrite decide_True by done.
        by apply warnx_failure_rejects.
      * intros Hkind Hehdr. rewrite decide_False by (by intros ?).
        rewrite Hehdr. by apply warnx_failure_rejects.
      * intros ehdr Hkind Hehdr. rewrite decide_False by (by intros ?).
        rewrite Hehdr. split; [|split].
        -- intros Hm. rewrite decide_True by done.
           by apply warnx_failure_rejects.
        -- intros Hm Hc. rewrite decide_False by (by intros ?).
           rewrite decide_True by done. by apply warnx_failure_rejects.
        -- intros Hm Hc Hd Hstr. rewrite decide_False by (by intros ?).
           rewrite decide_False by (intros [?|?]; done). rewrite Hstr.
           by apply warnx_failure_rejects.
Qed.

(** X10: [vita_elf_load] is silent when it succeeds and writes exactly
    one diagnostic when it returns NULL. *)
Theorem vita_elf_load_diagnostics (env : Env) (filename : string) (s : sys) :
  env_wf env filename →
  ∃ (r : option ve_t) (s' : sys),
    vita_elf_load env filename s = Some (r, s')
    ∧ match r with
      | Some _ => stderr s' = stderr s
      | None => ∃ d, stderr s' = stderr s ++ [d]
      end.
Proof.
  intros Hwf.
  destruct (@vita_elf_load_spec vita_imports_lib_t vita_imports_module_t
              vita_imports_stub_t env filename s Hwf)
    as (r & s' & Hrun & Hr).
  exists r, s'. split; [exact Hrun|].
  destruct r as [ve|]; [by destruct Hr as (_ & ? & _)|by destruct Hr].
Qed.

Lemma is_symtab_not_stubs (e : Elf) (shstrndx : Z) (scn : Elf_Scn) :
  is_symtab scn = true →
  is_fstubs e shstrndx scn = false ∧ is_vstubs e shstrndx scn = false.
Proof.
  unfold is_symtab, is_fstubs, is_vstubs, named_progbits.
  destruct (scn_shdr scn) as [shdr|]; [|done].
  intros H%bool_decide_eq_true.
  destruct (elf_strptr e shstrndx (sh_name shdr)); [|done].
  rewrite bool_decide_eq_false_2; [done|]. rewrite H. done.
Qed.

(** A readable, well-delivered section that is not a second one of its
    kind goes through. *)
Lemma scan_section_ok (e : Elf) (shstrndx : Z) (scn : Elf_Scn) (ndx : Z)
    (ve : ve_t) (s0 s : sys) :
  ndx ≠ 0 → holds s0 s ve → scan_inv ve →
  scn_wf e shstrndx scn → scn_readable e shstrndx scn →
  (is_fstubs e shstrndx scn = true → fstubs_ndx ve = 0) →
  (is_vstubs e shstrndx scn = true → vstubs_ndx ve = 0) →
  (is_symtab scn = true → symtab ve = None) →
  ∃ ve' s',
    scan_section e shstrndx scn ndx ve s = Some ((true, ve'), s')
    ∧ holds s0 s' ve' ∧ scan_inv ve' ∧ stderr s' = stderr s
    ∧ step_ok (is_fstubs e shstrndx scn) (is_vstubs e shstrndx scn)
        (is_symtab scn) true ve ve'.
Proof.
  intros Hndx Hholds Hinv Hwf (shdr & Hshdr & [nm Hnm] & Hsym) Hf Hv Ht.
  destruct (scan_section_spec e shstrndx scn ndx ve s0 s Hndx Hholds Hinv Hwf)
    as (ok & ve' & s' & Hrun & Hholds' & Hinv' & Herr & Hstep).
  assert (ok = true) as ->; [|by exists ve', s'].
  destruct (Hwf shdr Hshdr) as [Hdstub Hdsym].
  unfold is_fstubs, is_vstubs, is_symtab, named_progbits in *.
  rewrite Hshdr in *. rewrite Hnm in *.
  unfold scan_section in Hrun. rewrite Hshdr, Hnm in Hrun.
  unfold bind in Hrun.
  destruct (decide (sh_type shdr = SHT_SYMTAB)) as [Hty|Hty].
  - (* a symbol table *)
    unfold scan_stubs in Hrun.
    rewrite (bool_decide_eq_false_2 (sh_type shdr = SHT_PROGBITS)) in Hrun
      by (by rewrite Hty).
    cbn [andb] in Hrun. unfold ret in Hrun. cbn [fst snd] in Hrun.
    unfold scan_symtab in Hrun. rewrite decide_True in Hrun by done.
    destruct (Hsym Hty) as [HE Hinfo].
    destruct (load_symbols_decode_spec (elf ve) shdr (scn_data scn) HE Hinfo)
      as (tab & Hdec & _).
    { apply Hdsym. by apply bool_decide_eq_true_2. }
    destruct (load_symbols_run ve scn shdr s _
                (Ht (bool_decide_eq_true_2 _ Hty)) Hshdr ltac:(lia) Hdec)
      as (s1 & Hload & _).
    cbn [step_state fst] in Hload.
    unfold bind in Hrun. rewrite Hload in Hrun. cbn [fst snd] in Hrun.
    rewrite decide_False in Hrun by done. unfold ret in Hrun. congruence.
  - (* not a symbol table *)
    assert (∀ (v : ve_t) s1,
              scan_symtab shdr scn v s1 = Some ((true, v), s1)) as Hsymtab.
    { intros v s1. unfold scan_symtab. by rewrite decide_False. }
    unfold scan_stubs in Hrun.
    destruct (bool_decide (sh_type shdr = SHT_PROGBITS)
              && String.eqb nm ".vitalink.fstubs") eqn:Hisf.
    + rewrite decide_False in Hrun by (intros H; by apply H, Hf).
      destruct (@load_stubs_spec vita_imports_lib_t vita_imports_module_t
                  vita_imports_stub_t scn shdr s Hshdr)
        as (stubs & Hload & _).
      { by apply Hdstub. }
      unfold bind in Hrun. rewrite Hload in Hrun. cbn [fst snd] in Hrun.
      rewrite decide_False in Hrun by done. unfold ret in Hrun.
      cbn [fst snd] in Hrun. rewrite Hsymtab in Hrun. congruence.
    + destruct (bool_decide (sh_type shdr = SHT_PROGBITS)
                && String.eqb nm ".vitalink.vstubs") eqn:Hisv.
      * rewrite decide_False in Hrun by (intros H; by apply H, Hv).
        destruct (@load_stubs_spec vita_imports_lib_t vita_imports_module_t
                    vita_imports_stub_t scn shdr s Hshdr)
          as (stubs & Hload & _).
        { by apply Hdstub. }
        unfold bind in Hrun. rewrite Hload in Hrun. cbn [fst snd] in Hrun.
        rewrite decide_False in Hrun by done. unfold ret in Hrun.
        cbn [fst snd] in Hrun. rewrite Hsymtab in Hrun. congruence.
      * unfold ret in Hrun. cbn [fst snd] in Hrun.
        rewrite Hsymtab in Hrun. congruence.
Qed.

Lemma scan_sections_ok (e : Elf) (shstrndx : Z) (scns : list Elf_Scn) :
  ∀ (ndx : Z) (ve : ve_t) (s0 s : sys),
    0 < ndx → holds s0 s ve → scan_inv ve →
    Forall (scn_wf e shstrndx) scns →
    Forall (scn_readable e shstrndx) scns →
    (count_scns (is_fstubs e shstrndx) scns
     + (if decide (fstubs_ndx ve = 0%Z) then 0 else 1) ≤ 1)%nat →
    (count_scns (is_vstubs e shstrndx) scns
     + (if decide (vstubs_ndx ve = 0%Z) then 0 else 1) ≤ 1)%nat →
    (count_scns is_symtab scns
     + (if symtab ve is Some _ then 1 else 0) ≤ 1)%nat →
    ∃ ve' s',
      scan_sections e shstrndx scns ndx ve s = Some ((true, ve'), s')
      ∧ holds s0 s' ve' ∧ scan_inv ve' ∧ stderr s' = stderr s
      ∧ fd ve' = fd ve ∧ elf ve' = elf ve
      ∧ scan_ok (count_scns (is_fstubs e shstrndx) scns)
          (count_scns (is_vstubs e shstrndx) scns)
          (count_scns is_symtab scns) ve ve'.
Proof.
  induction scns as [|scn rest IH];
    intros ndx ve s0 s Hndx Hholds Hinv Hwf Hrd Hcf Hcv Hcs.
  - exists ve, s. unfold scan_ok. simpl. tauto.
  - apply Forall_cons in Hwf as [Hwf1 Hwf].
    apply Forall_cons in Hrd as [Hrd1 Hrd].
    cbn [count_scns] in Hcf, Hcv, Hcs.
    destruct (scan_section_ok e shstrndx scn ndx ve s0 s)
      as (ve1 & s1 & Hrun1 & Hholds1 & Hinv1 & Herr1 & Hstep1);
      [lia|done..| | | |].
    { intros H. rewrite H in Hcf.
      destruct (decide (fstubs_ndx ve = 0)); [done|simpl in Hcf; lia]. }
    { intros H. rewrite H in Hcv.
      destruct (decide (vstubs_ndx ve = 0)); [done|simpl in Hcv; lia]. }
    { intros H. rewrite H in Hcs.
      destruct (symtab ve); [simpl in Hcs; lia|done]. }
    destruct Hstep1 as (Hfd1 & Helf1 & Hf1 & Hv1 & Ht1).
    destruct (IH (ndx + 1) ve1 s0 s1)
      as (ve' & s' & Hrun & Hholds' & Hinv' & Herr & Hfd & Helf & Hok);
      [lia|done..| | | |].
    { destruct (is_fstubs e shstrndx scn).
      - destruct (Hf1 eq_refl) as [_ Hnz]. rewrite decide_False by done. lia.
      - rewrite Hf1. lia. }
    { destruct (is_vstubs e shstrndx scn).
      - destruct (Hv1 eq_refl) as [_ Hnz]. rewrite decide_False by done. lia.
      - rewrite Hv1. lia. }
    { destruct (is_symtab scn).
      - destruct (Ht1 eq_refl) as [_ Hnz]. destruct (symtab ve1); [lia|done].
      - rewrite Ht1. lia. }
    exists ve', s'. cbn [scan_sections]. unfold bind. rewrite Hrun1.
    cbn [fst snd]. split; [exact Hrun|]. split; [done|]. split; [done|].
    split; [congruence|]. split; [congruence|]. split; [congruence|].
    destruct Hok as (Hkf & Hkv & Hks). unfold scan_ok. cbn [count_scns].
    split; [|split].
    + destruct (is_fstubs e shstrndx scn).
      * destruct (Hf1 eq_refl) as [Hz Hnz]. right.
        destruct Hkf as [[-> Heq]|[_ [Hz' _]]]; [|done].
        split; [done|]. split; [done|]. congruence.
      * rewrite <- Hf1. exact Hkf.
    + destruct (is_vstubs e shstrndx scn).
      * destruct (Hv1 eq_refl) as [Hz Hnz]. right.
        destruct Hkv as [[-> Heq]|[_ [Hz' _]]]; [|done].
        split; [done|]. split; [done|]. congruence.
      * rewrite <- Hv1. exact Hkv.
    + destruct (is_symtab scn).
      * destruct (Ht1 eq_refl) as [Hz Hnz]. right.
        destruct Hks as [[-> Heq]|[_ [Hz' _]]]; [|done].
        split; [done|]. split; [done|]. congruence.
      * rewrite <- Ht1. exact Hks.
Qed.

Lemma scan_sections_app (e : Elf) (shstrndx : Z) (l1 l2 : list Elf_Scn) :
  ∀ (ndx : Z) (ve : ve_t) (s : sys),
    scan_sections e shstrndx (l1 ++ l2) ndx ve s
    = match scan_sections e shstrndx l1 ndx ve s with
      | Some ((true, ve1), s1) =>
          scan_sections e shstrndx l2 (ndx + Z.of_nat (length l1)) ve1 s1
      | r => r
      end.
Proof.
  induction l1 as [|scn l1 IH]; intros ndx ve s.
  - simpl. unfold ret. by rewrite Z.add_0_r.
  - cbn [app scan_sections]. unfold bind.
    destruct (scan_section e shstrndx scn ndx ve s) as [[[ok ve1] s1]|];
      [|done].
    cbn [fst snd]. destruct ok; [|done]. rewrite IH.
    destruct (scan_sections e shstrndx l1 (ndx + 1) ve1 s1)
      as [[[ok2 ve2] s2]|]; [|done].
    destruct ok2; [|done]. f_equal. simpl length. lia.
Qed.

(** X11: a symbol table whose header has [sh_entsize] 0 makes
    [vita_elf_load] divide by zero.  When the checks before the scan pass,
    the sections before the table go through the scan and hold no symbol
    table, and the table has a header and a name, the call has no defined
    behaviour: [load_symbols] computes [sh_size / sh_entsize] without a
    test. *)
Theorem vita_elf_load_entsize_zero (env : Env) (filename : string) (s : sys)
    (e : Elf) (shstrndx : Z) (pre post : list Elf_Scn) (scn : Elf_Scn)
    (shdr : GElf_Shdr) :
  header_ok env filename e shstrndx →
  elf_scns e = pre ++ scn :: post →
  Forall (scn_wf e shstrndx) pre →
  Forall (scn_readable e shstrndx) pre →
  (count_scns (is_fstubs e shstrndx) pre ≤ 1)%nat →
  (count_scns (is_vstubs e shstrndx) pre ≤ 1)%nat →
  count_scns is_symtab pre = 0%nat →
  scn_shdr scn = Some shdr →
  is_Some (elf_strptr e shstrndx (sh_name shdr)) →
  sh_type shdr = SHT_SYMTAB →
  sh_entsize shdr = 0 →
  @vita_elf_load vita_imports_lib_t vita_imports_module_t vita_imports_stub_t
    env filename s = None.
Proof.
  intros Hhdr Hscns Hwf Hrd Hcf Hcv Hcs Hshdr [nm Hnm] Hty HE.
  rewrite (vita_elf_load_scan env filename e shstrndx s Hhdr).
  pose proof Hhdr as (_ & _ & Hfd & _).
  destruct (scan_sections_ok e shstrndx pre 1
              (session0 (env_open env filename) e) s (opened s))
    as (ve1 & s1 & Hrun & _ & _ & _ & _ & _ & (_ & _ & Hks));
    [lia|by apply holds_session0| |done|done|simpl; lia..|].
  { unfold scan_inv, stubs_inv. simpl. repeat split; try done. }
  assert (symtab ve1 = None) as Hnull.
  { rewrite Hcs in Hks. destruct Hks as [[_ ->]|[? _]]; done. }
  unfold bind. rewrite Hscns, scan_sections_app, Hrun.
  cbn [scan_sections]. unfold bind at 1.
  assert (scan_section e shstrndx scn (1 + Z.of_nat (length pre)) ve1 s1
          = None) as ->; [|done].
  unfold scan_section. rewrite Hshdr, Hnm. unfold bind, scan_stubs.
  rewrite (bool_decide_eq_false_2 (sh_type shdr = SHT_PROGBITS))
    by (by rewrite Hty).
  cbn [andb]. unfold ret. cbn [fst snd]. unfold scan_symtab.
  rewrite decide_True by done. unfold bind, load_symbols.
  rewrite Hnull. unfold bind, lift. rewrite Hshdr.
  by rewrite decide_True.
Qed.

Lemma scan_section_from (e : Elf) (shstrndx : Z) (all : list Elf_Scn)
    (scn : Elf_Scn) (ndx : Z) (ve ve' : ve_t) (s s' : sys) :
  0 < ndx → all !! Z.to_nat (ndx - 1) = Some scn →
  scn_wf e shstrndx scn →
  scan_section e shstrndx scn ndx ve s = Some ((true, ve'), s') →
  session_from all e shstrndx ve → session_from all e shstrndx ve'.
Proof.
  intros Hndx Hall Hwf Hrun (Helf & Hfrom_f & Hfrom_v & Hfrom_t).
  unfold scan_section in Hrun.
  destruct (scn_shdr scn) as [shdr|] eqn:Hshdr; [|done].
  destruct (elf_strptr e shstrndx (sh_name shdr)) as [nm|] eqn:Hnm; [|done].
  destruct (Hwf shdr Hshdr) as [Hdstub Hdsym].
  unfold is_fstubs, is_vstubs, is_symtab, named_progbits in Hdstub, Hdsym.
  rewrite Hshdr, Hnm in Hdstub. rewrite Hshdr in Hdsym.
  destruct (decide (sh_type shdr = SHT_SYMTAB)) as [Hty|Hty].
  - (* a symbol table *)
    unfold bind, scan_stubs in Hrun.
    rewrite (bool_decide_eq_false_2 (sh_type shdr = SHT_PROGBITS)) in Hrun
      by (by rewrite Hty).
    cbn [andb] in Hrun. unfold ret in Hrun. cbn [fst snd] in Hrun.
    unfold scan_symtab in Hrun. rewrite decide_True in Hrun by done.
    unfold bind, load_symbols in Hrun.
    destruct (symtab ve) as [old|] eqn:Hold; [done|].
    unfold bind, lift in Hrun. rewrite Hshdr in Hrun.
    destruct (decide (sh_entsize shdr = 0)) as [HE|HE]; [done|].
    unfold calloc, add_blocks in Hrun.
    destruct (load_symbols_decode (elf ve) shdr (scn_data scn))
      as [r|] eqn:Hdec; [|done].
    destruct r as [st|st d]; [|done].
    unfold ret in Hrun. cbn [fst snd] in Hrun.
    rewrite decide_False in Hrun by done. injection Hrun as <- <-.
    specialize (Hdsym (bool_decide_eq_true_2 _ Hty)).
    split; [done|]. split; [done|]. split; [done|].
    intros t [= <-]. exists (Z.to_nat (ndx - 1)), scn, shdr.
    split; [done|]. split.
    { unfold is_symtab. rewrite Hshdr. by apply bool_decide_eq_true_2. }
    split; [done|]. split; [done|]. split; [done|].
    destruct (load_symbols_decode_safe (elf ve) shdr (scn_data scn) Hdsym)
      as (r & Hr & Hlen).
    rewrite Hdec in Hr. injection Hr as <-. cbn [step_state] in Hlen.
    split; [done|]. intros HE16 Hinfo.
    destruct (load_symbols_decode_16 (elf ve) shdr (scn_data scn) HE16 Hinfo)
      as (tab & Hdec' & _ & Hin); [by rewrite <- HE16|].
    rewrite Hdec in Hdec'. injection Hdec' as ->. cbn [fst].
    rewrite <- Helf. exact Hin.
  - (* not a symbol table *)
    assert (∀ (v : ve_t) s1,
              scan_symtab shdr scn v s1 = Some ((true, v), s1)) as Hsymtab.
    { intros v s1. unfold scan_symtab. by rewrite decide_False. }
    unfold bind, scan_stubs in Hrun.
    destruct (bool_decide (sh_type shdr = SHT_PROGBITS)
              && String.eqb nm ".vitalink.fstubs") eqn:Hisf.
    + destruct (decide (fstubs_ndx ve ≠ 0)) as [Hz|Hz]; [done|].
      destruct (@load_stubs_spec vita_imports_lib_t vita_imports_module_t
                  vita_imports_stub_t scn shdr s Hshdr)
        as (stubs & Hload & Hlen & Hin); [by apply Hdstub|].
      unfold bind in Hrun. rewrite Hload in Hrun. cbn [fst snd] in Hrun.
      rewrite decide_False in Hrun by done. unfold ret in Hrun.
      cbn [fst snd] in Hrun. rewrite Hsymtab in Hrun.
      injection Hrun as <- <-.
      split; [done|]. split; [|split; [done|done]].
      split; [cbn; lia|]. intros _. exists scn, shdr, stubs, stubs. cbn.
      split; [done|]. split; [done|]. split.
      { unfold is_fstubs, named_progbits. by rewrite Hshdr, Hnm. }
      repeat (split; [done|]). apply Forall2_correlated_refl.
    + destruct (bool_decide (sh_type shdr = SHT_PROGBITS)
                && String.eqb nm ".vitalink.vstubs") eqn:Hisv.
      * destruct (decide (vstubs_ndx ve ≠ 0)) as [Hz|Hz]; [done|].
        destruct (@load_stubs_spec vita_imports_lib_t vita_imports_module_t
                    vita_imports_stub_t scn shdr s Hshdr)
          as (stubs & Hload & Hlen & Hin); [by apply Hdstub|].
        unfold bind in Hrun. rewrite Hload in Hrun. cbn [fst snd] in Hrun.
        rewrite decide_False in Hrun by done. unfold ret in Hrun.
        cbn [fst snd] in Hrun. rewrite Hsymtab in Hrun.
        injection Hrun as <- <-.
        split; [done|]. split; [done|]. split; [|done].
        split; [cbn; lia|]. intros _. exists scn, shdr, stubs, stubs. cbn.
        split; [done|]. split; [done|]. split.
        { unfold is_vstubs, named_progbits. by rewrite Hshdr, Hnm. }
        repeat (split; [done|]). apply Forall2_correlated_refl.
      * unfold ret in Hrun. cbn [fst snd] in Hrun.
        rewrite Hsymtab in Hrun. injection Hrun as <- <-. done.
Qed.

Lemma scan_sections_from (e : Elf) (shstrndx : Z) (all : list Elf_Scn) :
  ∀ (scns : list Elf_Scn) (ndx : Z) (ve ve' : ve_t) (s s' : sys),
    0 < ndx →
    (∀ (k : nat) scn, scns !! k = Some scn →
       all !! (Z.to_nat (ndx - 1) + k)%nat = Some scn) →
    Forall (scn_wf e shstrndx) scns →
    scan_sections e shstrndx scns ndx ve s = Some ((true, ve'), s') →
    session_from all e shstrndx ve → session_from all e shstrndx ve'.
Proof.
  induction scns as [|scn rest IH];
    intros ndx ve ve' s s' Hndx Hall Hwf Hrun Hfrom.
  - by injection Hrun as <- <-.
  - apply Forall_cons in Hwf as [Hwf1 Hwf].
    cbn [scan_sections] in Hrun. unfold bind in Hrun.
    destruct (scan_section e shstrndx scn ndx ve s)
      as [[[ok ve1] s1]|] eqn:Hrun1; [|done].
    cbn [fst snd] in Hrun. destruct ok; [|done].
    apply (IH (ndx + 1) ve1 ve' s1 s'); [lia| |done|done|].
    + intros k scn' Hk. specialize (Hall (S k) scn' Hk).
      rewrite <- Hall. f_equal. lia.
    + apply (scan_section_from e shstrndx all scn ndx ve ve1 s s1);
        [done| |done..].
      specialize (Hall 0%nat scn eq_refl). by rewrite Nat.add_0_r in Hall.
Qed.

Lemma lookup_stub_symbols_loop_typed (tab : list vita_elf_symbol_t)
    (num_stubs stubs_ndx sym_type : Z) (n : nat) :
  ∀ (m : nat) (stubs stubs' : list stub_t),
    (m + n ≤ length tab)%nat →
    lookup_stub_symbols_loop tab num_stubs stubs_ndx sym_type
      (seqZ (Z.of_nat m) (Z.of_nat n)) stubs = Some (Continue stubs') →
    ∀ (p : nat) sym, (m ≤ p < m + n)%nat → tab !! p = Some sym →
      qualifies stubs_ndx sym → type sym = sym_type.
Proof.
  induction n as [|n IH]; intros m stubs stubs' Hmn Hrun p sym Hp Hsym Hq;
    [lia|].
  rewrite seqZ_cons in Hrun by lia. cbn [lookup_stub_symbols_loop] in Hrun.
  destruct (lookup_stub_symbols_body tab num_stubs stubs_ndx sym_type
              (Z.of_nat m) stubs) as [[stubs1|stubs1 d]|] eqn:Hbody;
    [|done..].
  replace (Z.pred (Z.of_nat (S n))) with (Z.of_nat n) in Hrun by lia.
  replace (Z.succ (Z.of_nat m)) with (Z.of_nat (S m)) in Hrun by lia.
  destruct (decide (p = m)) as [->|Hne].
  - destruct (decide (type sym = sym_type)) as [|Hty]; [done|].
    rewrite (lookup_stub_symbols_body_mismatch tab num_stubs stubs_ndx
               sym_type (Z.of_nat m) sym stubs) in Hbody;
      [done|by rewrite load_at_nat|done..].
  - apply (IH (S m) stubs1 stubs' ltac:(lia) Hrun p sym); [lia|done..].
Qed.

(** One successful pass of the correlator over fresh stubs. *)
Lemma lookup_stub_symbols_pass (ve : ve_t) (num_stubs : Z)
    (stubs stubs' : list stub_t) (stubs_ndx sym_type status : Z)
    (s s' : sys) :
  num_symbols ve = Z.of_nat (length (elems (symtab ve))) →
  num_stubs = Z.of_nat (length stubs) →
  Forall (λ st, symbol st = None) stubs →
  lookup_stub_symbols ve num_stubs stubs stubs_ndx sym_type s
  = Some ((status, stubs'), s') →
  status ≠ 0 →
  s' = s ∧ Forall2 correlated stubs stubs'
  ∧ attached (elems (symtab ve)) stubs_ndx sym_type stubs'.
Proof.
  intros Hsyms Hnum Hfresh Hrun Hst.
  unfold lookup_stub_symbols, bind, lift, warnx, ret in Hrun.
  rewrite for_range_1, Z.sub_0_r, Hsyms in Hrun.
  destruct (lookup_stub_symbols_loop _ _ _ _ _ stubs) as [r|] eqn:Hloop;
    [|done].
  destruct r as [l|l d]; injection Hrun as <- <- <-; [|done].
  split; [done|]. split.
  { by apply (lookup_stub_symbols_loop_correlated _ _ _ _ _ _ _ Hnum Hloop). }
  change 0 with (Z.of_nat 0) in Hloop. split.
  - apply (lookup_stub_symbols_loop_step (elems (symtab ve)) num_stubs
             stubs_ndx sym_type (length (elems (symtab ve))) 0 stubs l
             eq_refl Hnum) in Hloop as [_ H]; [done|].
    split; [|split].
    + intros i st p Hi Hp. rewrite Forall_forall in Hfresh.
      rewrite Hfresh in Hp; [done|]. apply list_elem_of_lookup. eauto.
    + intros p sym Hp. lia.
    + intros i j st st' p Hi Hj Hp. rewrite Forall_forall in Hfresh.
      rewrite Hfresh in Hp; [done|]. apply list_elem_of_lookup. eauto.
  - intros sym Hin Hq. apply list_elem_of_lookup in Hin as [p Hp].
    pose proof (lookup_lt_Some _ _ _ Hp).
    apply (lookup_stub_symbols_loop_typed (elems (symtab ve)) num_stubs
             stubs_ndx sym_type (length (elems (symtab ve))) 0 stubs l
             (Nat.le_refl _) Hloop p sym); [lia|done..].
Qed.

Lemma stubs_from_correlated (scns : list Elf_Scn) (is_x : Elf_Scn → bool)
    (ndx num : Z) (l l' : list stub_t) :
  stubs_from scns is_x ndx num (Some l) → Forall2 correlated l l' →
  stubs_from scns is_x ndx num (Some l').
Proof.
  intros [H0 H1] Hc. split.
  - intros Hz. by destruct (H0 Hz).
  - intros Hnz.
    destruct (H1 Hnz)
      as (scn & shdr & stubs0 & stubs & ? & ? & ? & ? & ? & [= <-] & ? & ?
          & Hc0).
    exists scn, shdr, stubs0, l'. repeat (split; [done|]).
    by apply Forall2_correlated_trans with l.
Qed.

Lemma after_scan_from (e : Elf) (shstrndx : Z) (all : list Elf_Scn)
    (ve ve' : ve_t) (s s' : sys) :
  scan_inv ve →
  after_scan ve s = Some (Some ve', s') →
  session_from all e shstrndx ve →
  session_from all e shstrndx ve'
  ∧ fd ve' = fd ve
  ∧ (fstubs_ndx ve' ≠ 0 →
     attached (elems (symtab ve')) (fstubs_ndx ve') STT_FUNC
       (elems (fstubs ve')))
  ∧ (vstubs_ndx ve' ≠ 0 →
     attached (elems (symtab ve')) (vstubs_ndx ve') STT_OBJECT
       (elems (vstubs ve'))).
Proof.
  intros (Hif & Hiv & Hit) Hrun (Helf & Hff & Hfv & Hft).
  unfold after_scan in Hrun.
  destruct (decide (fstubs_ndx ve = 0 ∧ vstubs_ndx ve = 0)) as [Hz|Hnz].
  { by apply warnx_failure_returns_None in Hrun. }
  destruct (symtab ve) as [tab|] eqn:Htab.
  2: { by apply warnx_failure_returns_None in Hrun. }
  specialize (Hit tab eq_refl).
  unfold bind at 1 in Hrun.
  match type of Hrun with
  | match ?m s with _ => _ end = _ =>
      destruct (m s) as [[[ok1 ve1] s1]|] eqn:Hrun1; [|done]
  end.
  cbn [fst snd] in Hrun.
  destruct ok1; [|by apply failure_returns_None in Hrun].
  cbv zeta in Hrun. unfold bind at 1 in Hrun.
  match type of Hrun with
  | match ?m s1 with _ => _ end = _ =>
      destruct (m s1) as [[[ok2 ve2] s2]|] eqn:Hrun2; [|done]
  end.
  cbn [fst snd] in Hrun.
  destruct ok2; [|by apply failure_returns_None in Hrun].
  unfold ret in Hrun. injection Hrun as -> ->.
  (* the function stubs *)
  assert (s1 = s ∧ fd ve1 = fd ve ∧ elf ve1 = elf ve ∧ symtab ve1 = Some tab
          ∧ num_symbols ve1 = num_symbols ve
          ∧ fstubs_ndx ve1 = fstubs_ndx ve
          ∧ vstubs_ndx ve1 = vstubs_ndx ve
          ∧ vstubs ve1 = vstubs ve ∧ num_vstubs ve1 = num_vstubs ve
          ∧ stubs_from all (is_fstubs e shstrndx) (fstubs_ndx ve1)
              (num_fstubs ve1) (fstubs ve1)
          ∧ (fstubs_ndx ve ≠ 0 →
             attached tab (fstubs_ndx ve) STT_FUNC (elems (fstubs ve1))))
    as (-> & Hfd1 & Helf1 & Htab1 & Hns1 & Hfn1 & Hvn1 & Hvs1 & Hnv1
        & Hff1 & Hat1).
  { destruct (decide (fstubs_ndx ve ≠ 0)) as [Hf|Hf].
    - destruct Hif as [_ Hif]. destruct (Hif Hf) as (l & Hl & Hnum & Hfresh).
      rewrite Hl in Hrun1. change (elems (Some l)) with l in Hrun1.
      unfold bind in Hrun1.
      destruct (lookup_stub_symbols ve (num_fstubs ve) l (fstubs_ndx ve)
                  STT_FUNC s) as [[[st l'] s0]|] eqn:Hpass; [|done].
      unfold ret in Hrun1. cbn [fst snd fmap option_fmap option_map] in Hrun1.
      destruct (decide (st = 0)) as [Hst|Hst].
      { by rewrite bool_decide_eq_true_2 in Hrun1 by done. }
      rewrite bool_decide_eq_false_2 in Hrun1 by done. cbn [negb] in Hrun1.
      injection Hrun1 as <- <-.
      destruct (lookup_stub_symbols_pass ve (num_fstubs ve) l l'
                  (fstubs_ndx ve) STT_FUNC st s s0)
        as (-> & Hcor & Hatt); [by rewrite Htab|done..|].
      rewrite Htab in Hatt. change (elems (Some tab)) with tab in Hatt.
      cbn. repeat (split; [done|]). split; [|done].
      rewrite Hl in Hff. by apply stubs_from_correlated with l.
    - unfold ret in Hrun1. injection Hrun1 as <- <-.
      repeat (split; [done|]). done. }
  (* the variable stubs *)
  rewrite Hvn1, Hvs1, Hnv1 in Hrun2.
  destruct (decide (vstubs_ndx ve ≠ 0)) as [Hv|Hv].
  - destruct Hiv as [_ Hiv]. destruct (Hiv Hv) as (l & Hl & Hnum & Hfresh).
    rewrite Hl in Hrun2. change (elems (Some l)) with l in Hrun2.
    unfold bind in Hrun2.
    destruct (lookup_stub_symbols ve1 (num_vstubs ve) l (vstubs_ndx ve)
                STT_OBJECT s) as [[[st l'] s0]|] eqn:Hpass; [|done].
    unfold ret in Hrun2. cbn [fst snd fmap option_fmap option_map] in Hrun2.
    destruct (decide (st = 0)) as [Hst|Hst].
    { by rewrite bool_decide_eq_true_2 in Hrun2 by done. }
    rewrite bool_decide_eq_false_2 in Hrun2 by done. cbn [negb] in Hrun2.
    injection Hrun2 as <- <-.
    destruct (lookup_stub_symbols_pass ve1 (num_vstubs ve) l l'
                (vstubs_ndx ve) STT_OBJECT st s s0)
      as (_ & Hcor & Hatt); [by rewrite Htab1, Hns1|done..|].
    rewrite Htab1 in Hatt. change (elems (Some tab)) with tab in Hatt.
    cbn [fd fstubs_ndx vstubs_ndx symtab fstubs vstubs with_vstubs].
    rewrite Htab1, Hfn1, Hvn1. change (elems (Some tab)) with tab.
    change (elems (Some l')) with l'.
    split; [|split; [done|split; [done|done]]].
    unfold session_from.
    cbn [elf fstubs_ndx vstubs_ndx num_fstubs num_vstubs num_symbols symtab
         fstubs vstubs with_vstubs].
    split; [congruence|]. split; [exact Hff1|]. split.
    + rewrite Hvn1. rewrite Hl in Hfv.
      by apply stubs_from_correlated with l.
    + by rewrite Hns1, Htab1.
  - unfold ret in Hrun2. injection Hrun2 as <- <-.
    rewrite Htab1, Hfn1, Hvn1. change (elems (Some tab)) with tab.
    split; [|split; [done|split; [done|done]]].
    unfold session_from.
    split; [congruence|]. split; [exact Hff1|].
    split; [by rewrite Hvn1, Hvs1, Hnv1|]. by rewrite Hns1, Htab1.
Qed.

(** A run of [vita_elf_load] that returns a session, with what it went
    through on the way. *)
Lemma vita_elf_load_from (env : Env) (filename : string) (s s' : sys)
    (ve : ve_t) :
  env_wf env filename →
  vita_elf_load env filename s = Some (Some ve, s') →
  ∃ e shstrndx,
    header_ok env filename e shstrndx
    ∧ fd ve = env_open env filename
    ∧ session_from (elf_scns e) e shstrndx ve
    ∧ (fstubs_ndx ve ≠ 0 →
       attached (elems (symtab ve)) (fstubs_ndx ve) STT_FUNC
         (elems (fstubs ve)))
    ∧ (vstubs_ndx ve ≠ 0 →
       attached (elems (symtab ve)) (vstubs_ndx ve) STT_OBJECT
         (elems (vstubs ve))).
Proof.
  intros Hwf Hrun.
  destruct (vita_elf_load_inv env filename s s' ve Hrun)
    as (e & shstrndx & ve1 & s1 & Hhdr & Hscan & Hafter).
  pose proof Hhdr as (_ & _ & Hfd & Hbegin & _ & _ & Hstr).
  set (ve0 := session0 (env_open env filename) e : ve_t) in *.
  assert (scan_inv ve0) as Hinv0.
  { unfold scan_inv, stubs_inv. simpl. repeat split; try done. }
  assert (session_from (elf_scns e) e shstrndx ve0) as Hfrom0.
  { split; [done|]. unfold stubs_from, symtab_from. simpl.
    repeat split; try done. }
  destruct (scan_sections_spec e shstrndx (elf_scns e) 1 ve0 s (opened s))
    as (ok & ve2 & s2 & Hscan' & _ & Hinv2 & _ & Hfd2 & _);
    [lia|by apply holds_session0|done|by apply Hwf|].
  rewrite Hscan in Hscan'. injection Hscan' as <- <- <-.
  pose proof (scan_sections_from e shstrndx (elf_scns e) (elf_scns e) 1
                ve0 ve1 (opened s) s1) as Hfrom1.
  destruct (after_scan_from e shstrndx (elf_scns e) ve1 ve s1 s' Hinv2 Hafter)
    as (Hfrom & Hfd' & Hatf & Hatv).
  { apply Hfrom1; [lia| |by apply Hwf|done..]. intros k scn Hk. exact Hk. }
  exists e, shstrndx. split; [done|]. split; [by rewrite Hfd', Hfd2|].
  done.
Qed.

Lemma lookup_stub_symbols_for_diag (tab : list vita_elf_symbol_t)
    (symndx : Z) (cursym : vita_elf_symbol_t) (stubs_ndx num_stubs : Z)
    (idxs : list Z) (stubs : list stub_t) st d :
  lookup_stub_symbols_for tab symndx cursym stubs_ndx num_stubs idxs stubs
  = Some (Stop st d) →
  correlation_diag d.
Proof.
  induction idxs as [|x rest IH]; [done|].
  cbn [lookup_stub_symbols_for].
  destruct (load_at stubs x) as [s0|]; [|done]. cbn [mbind option_bind].
  case_decide; [exact IH|].
  destruct (symbol s0) as [old|].
  - destruct (tab !! old); [|done]. cbn [mbind option_bind].
    by intros [= _ <-].
  - destruct (store stubs x _); done.
Qed.

Lemma lookup_stub_symbols_loop_diag (tab : list vita_elf_symbol_t)
    (num_stubs stubs_ndx sym_type : Z) (symndxs : list Z) :
  ∀ (stubs l : list stub_t) d,
    lookup_stub_symbols_loop tab num_stubs stubs_ndx sym_type symndxs stubs
    = Some (Stop l d) →
    correlation_diag d.
Proof.
  induction symndxs as [|x rest IH]; intros stubs l d Hrun; [done|].
  cbn [lookup_stub_symbols_loop] in Hrun.
  destruct (lookup_stub_symbols_body tab num_stubs stubs_ndx sym_type x stubs)
    as [[stubs1|stubs1 d1]|] eqn:Hbody; [by apply IH in Hrun| |done].
  injection Hrun as <- <-. unfold lookup_stub_symbols_body in Hbody.
  destruct (load_at tab x) as [cursym|]; [|done].
  cbn [mbind option_bind] in Hbody.
  case_decide; [done|]. case_decide; [done|]. case_decide; [done|].
  case_decide; [by injection Hbody as <- <-|].
  destruct (lookup_stub_symbols_for tab x cursym stubs_ndx num_stubs _ stubs)
    as [[st|st d0]|] eqn:Hfor; [| |done]; cbn [mbind option_bind] in Hbody.
  - case_decide; [|done]. by injection Hbody as <- <-.
  - injection Hbody as <- <-.
    by apply lookup_stub_symbols_for_diag in Hfor.
Qed.

Lemma lookup_stub_symbols_diag (ve : ve_t) (num_stubs : Z)
    (stubs l : list stub_t) (stubs_ndx sym_type : Z) (s s' : sys) :
  lookup_stub_symbols ve num_stubs stubs stubs_ndx sym_type s
  = Some ((0, l), s') →
  ∃ d, stderr s' = stderr s ++ [d] ∧ correlation_diag d.
Proof.
  unfold lookup_stub_symbols, bind, lift, warnx, ret.
  destruct (lookup_stub_symbols_loop _ _ _ _ _ stubs) as [[l0|l0 d]|] eqn:Hloop;
    [done| |done].
  intros [= <- <-]. exists d. split; [done|].
  by apply lookup_stub_symbols_loop_diag in Hloop.
Qed.

Lemma vita_elf_free_stderr (ve : ve_t) (s s' : sys) :
  vita_elf_free ve s = Some (tt, s') → stderr s' = stderr s.
Proof.
  unfold vita_elf_free, bind, free, elf_end, close, add_blocks, add_fds,
    add_elfs, ret.
  destruct (fstubs ve), (vstubs ve), (symtab ve), (elf ve),
    (decide (fd ve >= 0)); simpl; by intros [= <-].
Qed.

Lemma failure_stderr (x : option ve_t) (s s' : sys) r :
  failure x s = Some (r, s') → stderr s' = stderr s.
Proof.
  unfold failure, bind, ret. destruct x as [v|]; [|by intros [= _ <-]].
  destruct (vita_elf_free v s) as [[[] s1]|] eqn:Hfree; [|done].
  intros [= _ <-]. by apply vita_elf_free_stderr in Hfree.
Qed.

(** X12: a binary that passes the checks before the scan, whose sections
    are readable and well delivered, with at most one stub section of each
    kind, at least one in all, and exactly one symbol table, is rejected
    by the correlation only: [vita_elf_load] returns a session and writes
    nothing, or returns NULL with one diagnostic, which is one of the three
    of [lookup_stub_symbols] (unexpected type, duplicate symbols, no valid
    stub). *)
Theorem vita_elf_load_correlation_only (env : Env) (filename : string)
    (s : sys) (e : Elf) (shstrndx : Z) :
  header_ok env filename e shstrndx →
  Forall (scn_wf e shstrndx) (elf_scns e) →
  Forall (scn_readable e shstrndx) (elf_scns e) →
  (count_scns (is_fstubs e shstrndx) (elf_scns e) ≤ 1)%nat →
  (count_scns (is_vstubs e shstrndx) (elf_scns e) ≤ 1)%nat →
  (1 ≤ count_scns (is_fstubs e shstrndx) (elf_scns e)
       + count_scns (is_vstubs e shstrndx) (elf_scns e))%nat →
  count_scns is_symtab (elf_scns e) = 1%nat →
  ∃ (r : option ve_t) (s' : sys),
    vita_elf_load env filename s = Some (r, s')
    ∧ match r with
      | Some _ => stderr s' = stderr s
      | None => ∃ d, stderr s' = stderr s ++ [d] ∧ correlation_diag d
      end.
Proof.
  intros Hhdr Hwf Hrd Hcf Hcv Hcfv Hcs.
  rewrite (vita_elf_load_scan env filename e shstrndx s Hhdr).
  pose proof Hhdr as (_ & _ & Hfd & _).
  set (ve0 := session0 (env_open env filename) e : ve_t).
  destruct (scan_sections_ok e shstrndx (elf_scns e) 1 ve0 s (opened s))
    as (ve1 & s1 & Hscan & Hholds1 & Hinv1 & Herr1 & Hfd1 & Helf1
        & (Hkf & Hkv & Hks));
    [lia|by apply holds_session0| |done|done|simpl; lia..|].
  { unfold scan_inv, stubs_inv. simpl. repeat split; try done. }
  unfold bind at 1. rewrite Hscan. cbn [fst snd].
  change (stderr (opened s)) with (stderr s) in Herr1.
  destruct (after_scan_spec ve1 s s1 Hholds1 Hinv1)
    as (r & s' & Hafter & Hr).
  { rewrite Hfd1. simpl. lia. }
  { rewrite Helf1. simpl. eauto. }
  exists r, s'. split; [exact Hafter|].
  destruct r as [ve2|].
  { destruct Hr as (_ & Herr & _). by rewrite Herr. }
  rewrite <- Herr1. clear Hr.
  (* the two checks after the scan pass *)
  assert (¬ (fstubs_ndx ve1 = 0 ∧ vstubs_ndx ve1 = 0)) as Hnz.
  { intros [Hzf Hzv]. simpl in Hkf, Hkv.
    destruct Hkf as [[Hkf _]|[_ [_ ?]]]; [|done].
    destruct Hkv as [[Hkv _]|[_ [_ ?]]]; [|done]. lia. }
  assert (is_Some (symtab ve1)) as [tab Htab].
  { rewrite Hcs in Hks. destruct Hks as [[? _]|[_ [_ Hne]]]; [done|].
    by destruct (symtab ve1); [eexists|]. }
  unfold after_scan in Hafter. rewrite decide_False in Hafter by done.
  rewrite Htab in Hafter.
  unfold bind at 1 in Hafter.
  match type of Hafter with
  | match ?m s1 with _ => _ end = _ =>
      destruct (m s1) as [[[ok1 ve2] s2]|] eqn:Hrun1; [|done]
  end.
  cbn [fst snd] in Hafter.
  assert (if ok1 then s2 = s1
          else ∃ d, stderr s2 = stderr s1 ++ [d] ∧ correlation_diag d)
    as Hok1.
  { destruct (decide (fstubs_ndx ve1 ≠ 0)).
    - unfold bind in Hrun1.
      destruct (lookup_stub_symbols ve1 _ _ _ _ s1)
        as [[[st l] s0]|] eqn:Hpass; [|done].
      unfold ret in Hrun1. cbn [fst snd] in Hrun1.
      injection Hrun1 as <- <- <-.
      destruct (decide (st = 0)) as [->|Hst].
      + by apply lookup_stub_symbols_diag in Hpass.
      + rewrite bool_decide_eq_false_2 by done. cbn [negb].
        unfold lookup_stub_symbols, bind, lift, warnx, ret in Hpass.
        destruct (lookup_stub_symbols_loop _ _ _ _ _ _) as [[?|? ?]|];
          [by injection Hpass|by injection Hpass as <-|done].
    - unfold ret in Hrun1. by injection Hrun1 as <- <- <-. }
  destruct ok1.
  2: { destruct Hok1 as (d & Hd & Hcd). apply failure_stderr in Hafter.
       exists d. by rewrite Hafter. }
  subst s2. cbv zeta in Hafter. unfold bind at 1 in Hafter.
  match type of Hafter with
  | match ?m s1 with _ => _ end = _ =>
      destruct (m s1) as [[[ok2 ve3] s3]|] eqn:Hrun2; [|done]
  end.
  cbn [fst snd] in Hafter.
  destruct ok2; [done|].
  assert (∃ d, stderr s3 = stderr s1 ++ [d] ∧ correlation_diag d)
    as (d & Hd & Hcd).
  { destruct (decide (vstubs_ndx ve2 ≠ 0)).
    - unfold bind in Hrun2.
      destruct (lookup_stub_symbols ve2 _ _ _ _ s1)
        as [[[st l] s0]|] eqn:Hpass; [|done].
      unfold ret in Hrun2. cbn [fst snd] in Hrun2.
      injection Hrun2 as Hst _ <-.
      destruct (decide (st = 0)) as [->|Hne].
      + by apply lookup_stub_symbols_diag in Hpass.
      + by rewrite bool_decide_eq_false_2 in Hst by done.
    - unfold ret in Hrun2. by injection Hrun2. }
  apply failure_stderr in Hafter. exists d. by rewrite Hafter.
Qed.

(** X13: what a session returned by [vita_elf_load] holds, when the stub
    sections and the symbol tables are delivered in whole records.  The
    checks before the scan passed; [fd] is the descriptor [open] returned
    and [elf]
    the handle of [elf_begin]; [fstubs_ndx] is 0 with no array, or the
    libelf index of a PROGBITS section named [.vitalink.fstubs], with
    [num_fstubs] the size of that section in 16-byte records and the stubs
    its records (address and NIDs), up to the symbols attached; likewise
    for the variable stubs; and the symbol table is that of a section of
    type [SHT_SYMTAB], decoded from [sh_info] on when its entries have 16
    bytes. *)
Theorem vita_elf_load_content (env : Env) (filename : string) (s s' : sys)
    (ve : ve_t) :
  env_wf env filename →
  vita_elf_load env filename s = Some (Some ve, s') →
  ∃ e shstrndx,
    header_ok env filename e shstrndx
    ∧ fd ve = env_open env filename
    ∧ session_from (elf_scns e) e shstrndx ve.
Proof.
  intros Hwf Hrun.
  destruct (vita_elf_load_from env filename s s' ve Hwf Hrun)
    as (e & shstrndx & Hhdr & Hfd & Hfrom & _).
  by exists e, shstrndx.
Qed.

(** X14: in a session returned by [vita_elf_load] the stubs of each kind
    and the global symbols of kind Function or Object defined in their
    section are attached one to one by address: a stub with a symbol points
    to such a symbol whose value is the address of the stub, every such
    symbol is attached to a stub, none to two, and all of them have the
    type of the kind ([STT_FUNC] for function stubs, [STT_OBJECT] for
    variable stubs). *)
Theorem vita_elf_load_attached (env : Env) (filename : string) (s s' : sys)
    (ve : ve_t) :
  env_wf env filename →
  vita_elf_load env filename s = Some (Some ve, s') →
  (fstubs_ndx ve ≠ 0 →
   attached (elems (symtab ve)) (fstubs_ndx ve) STT_FUNC (elems (fstubs ve)))
  ∧ (vstubs_ndx ve ≠ 0 →
     attached (elems (symtab ve)) (vstubs_ndx ve) STT_OBJECT
       (elems (vstubs ve))).
Proof.
  intros Hwf Hrun.
  destruct (vita_elf_load_from env filename s s' ve Hwf Hrun)
    as (e & shstrndx & _ & _ & _ & Hf & Hv).
  done.
Qed.

End Assembly.

(** ** The session assembler, for every delivery *)

Section Atomicity.

Context {vita_imports_lib_t vita_imports_module_t vita_imports_stub_t : Type}.

Local Abbreviation stub_t :=
  (@vita_elf_stub_t vita_imports_lib_t vita_imports_module_t
     vita_imports_stub_t).
Local Abbreviation ve_t :=
  (@vita_elf_t vita_imports_lib_t vita_imports_module_t vita_imports_stub_t).

Local Open Scope M_scope.

Lemma scan_inv_scan_inv0 (ve : ve_t) : scan_inv ve → scan_inv0 ve.
Proof.
  intros ([Hf _] & [Hv _] & _). split; intros Hz.
  - by destruct (Hf Hz).
  - by destruct (Hv Hz).
Qed.

(** What the stub loader keeps when it returns, whatever the delivery:
    the length of the array, and that no stub has a symbol. *)
Lemma load_stubs_for_keeps (shdr : GElf_Shdr) (data : Elf_Data)
    (offs : list Z) :
  ∀ (arr arr' : list stub_t) (k k' : Z),
    load_stubs_for shdr data offs (arr, k) = Some (arr', k') →
    length arr' = length arr
    ∧ (Forall (λ st, symbol st = None) arr →
       Forall (λ st, symbol st = None) arr').
Proof.
  induction offs as [|off rest IH]; intros arr arr' k k' Hrun.
  - injection Hrun as <- <-. done.
  - cbn [load_stubs_for] in Hrun.
    destruct (load_stubs_body shdr data off (arr, k)) as [[arr1 k1]|]
      eqn:Hbody; [|done].
    cbn [mbind option_bind] in Hrun. apply IH in Hrun as [Hlen Hfresh].
    unfold load_stubs_body in Hbody.
    destruct (read_le32 (d_buf data) off) as [w0|]; [|done].
    destruct (read_le32 (d_buf data) (off + 4)) as [w1|]; [|done].
    destruct (read_le32 (d_buf data) (off + 8)) as [w2|]; [|done].
    cbn [mbind option_bind] in Hbody.
    destruct (store arr k _) as [arr2|] eqn:Hst; [|done].
    injection Hbody as <- <-.
    apply store_inv in Hst as (_ & old & Hold & ->).
    rewrite length_insert in Hlen. split; [done|].
    intros Hf. apply Hfresh. apply Forall_insert; [done|]. simpl.
    rewrite Forall_forall in Hf. apply Hf. apply list_elem_of_lookup. eauto.
Qed.

Lemma load_stubs_while_keeps (shdr : GElf_Shdr) (datas : list Elf_Data) :
  ∀ (total_bytes : Z) (arr arr' : list stub_t) (k k' : Z),
    load_stubs_while shdr datas total_bytes (arr, k) = Some (arr', k') →
    length arr' = length arr
    ∧ (Forall (λ st, symbol st = None) arr →
       Forall (λ st, symbol st = None) arr').
Proof.
  induction datas as [|data rest IH]; intros tb arr arr' k k' Hrun.
  - injection Hrun as <- <-. done.
  - cbn [load_stubs_while] in Hrun. case_decide.
    + destruct (load_stubs_for shdr data _ (arr, k)) as [[arr1 k1]|]
        eqn:Hfor; [|done].
      cbn [mbind option_bind] in Hrun.
      apply load_stubs_for_keeps in Hfor as [Hlen1 Hf1].
      apply IH in Hrun as [Hlen Hf]. split; [lia|]. auto.
    + injection Hrun as <- <-. done.
Qed.

Lemma load_stubs_returns (scn : Elf_Scn) (shdr : GElf_Shdr) (s s' : sys)
    (r : Z * (Z * list stub_t)) :
  scn_shdr scn = Some shdr →
  load_stubs scn s = Some (r, s') →
  ∃ stubs : list stub_t,
    r = (1, (sh_size shdr / 16, stubs))
    ∧ s' = {| live_blocks := live_blocks s + 1; open_fds := open_fds s;
              elf_handles := elf_handles s; stderr := stderr s |}
    ∧ length stubs = Z.to_nat (sh_size shdr / 16)
    ∧ Forall (λ st, symbol st = None) stubs.
Proof.
  intros Hshdr. unfold load_stubs, bind, lift, calloc, add_blocks, ret.
  rewrite Hshdr.
  destruct (load_stubs_while shdr (scn_data scn) 0 _) as [[arr k]|] eqn:Hw;
    [|done].
  intros [= <- <-]. apply load_stubs_while_keeps in Hw as [Hlen Hfresh].
  exists arr. split; [done|]. split; [done|].
  rewrite length_replicate in Hlen. split; [done|].
  apply Hfresh. by apply Forall_replicate.
Qed.

(** What the symbol loader keeps when it returns: the length of the
    table. *)
Lemma load_symbols_for_length (e : option Elf) (shdr : GElf_Shdr)
    (data : Elf_Data) (data_beginsym : Z) (symndxs : list Z) :
  ∀ (st : list vita_elf_symbol_t * list Z) r,
    load_symbols_for e shdr data data_beginsym symndxs st = Some r →
    length (step_state r).1 = length st.1.
Proof.
  induction symndxs as [|x rest IH]; intros st r Hrun.
  - by injection Hrun as <-.
  - cbn [load_symbols_for] in Hrun.
    destruct (load_symbols_body e shdr data data_beginsym x st)
      as [r1|] eqn:Hbody; [|done].
    assert (length (step_state r1).1 = length st.1) as H1.
    { unfold load_symbols_body in Hbody.
      destruct (gelf_getsym data x) as [sym|]; [|by injection Hbody as <-].
      destruct (store st.1 _ _) as [tab|] eqn:Hst; [|done].
      injection Hbody as <-. apply store_inv in Hst as (_ & old & _ & ->).
      simpl. apply length_insert. }
    destruct r1 as [st1|st1 d].
    + apply IH in Hrun. simpl in H1. lia.
    + by injection Hrun as <-.
Qed.

Lemma load_symbols_while_length (e : option Elf) (shdr : GElf_Shdr)
    (datas : list Elf_Data) :
  ∀ (total_bytes : Z) (st : list vita_elf_symbol_t * list Z) r,
    load_symbols_while e shdr datas total_bytes st = Some r →
    length (step_state r).1 = length st.1.
Proof.
  induction datas as [|data rest IH]; intros tb st r Hrun.
  - by injection Hrun as <-.
  - cbn [load_symbols_while] in Hrun. case_decide.
    + cbv zeta in Hrun.
      destruct (load_symbols_for e shdr data _ _ st) as [r1|] eqn:Hfor;
        [|done].
      apply load_symbols_for_length in Hfor.
      destruct r1 as [st1|st1 d].
      * apply IH in Hrun. simpl in Hfor. lia.
      * by injection Hrun as <-.
    + by injection Hrun as <-.
Qed.

Lemma load_symbols_returns (ve ve' : ve_t) (scn : Elf_Scn) (s s' : sys)
    (status : Z) :
  symtab ve = None →
  load_symbols ve scn s = Some ((status, ve'), s') →
  ∃ shdr tab,
    scn_shdr scn = Some shdr ∧ sh_entsize shdr ≠ 0
    ∧ ve' = with_symtab ve (sh_size shdr / sh_entsize shdr) (Some tab)
    ∧ length tab = Z.to_nat (sh_size shdr / sh_entsize shdr)
    ∧ live_blocks s' = live_blocks s + 1
    ∧ open_fds s' = open_fds s ∧ elf_handles s' = elf_handles s
    ∧ (status = 1 ∧ stderr s' = stderr s
       ∨ status = 0 ∧ ∃ d, stderr s' = stderr s ++ [d]).
Proof.
  intros Hnull Hrun.
  unfold load_symbols, bind, lift, calloc, add_blocks, warnx, ret in Hrun.
  rewrite Hnull in Hrun.
  destruct (scn_shdr scn) as [shdr|]; [|done].
  case_decide as HE; [done|]. cbn in Hrun.
  destruct (load_symbols_decode (elf ve) shdr (scn_data scn)) as [r|]
    eqn:Hdec; [|done].
  unfold load_symbols_decode in Hdec.
  apply load_symbols_while_length in Hdec. simpl in Hdec.
  rewrite length_replicate in Hdec.
  exists shdr, (step_state r).1. split; [done|]. split; [done|].
  destruct r as [st|st d]; injection Hrun as <- <- <-; simpl;
    repeat (split; [done|]); eauto.
Qed.

(** ** The scan, for every delivery

    What a step of the scan that returns has done, whatever the sections
    hold: the count of the resources, the diagnostics and the bookkeeping
    of the section indices do not depend on the deliveries. *)
Lemma scan_stubs_returns (shdr : GElf_Shdr) (nm : string) (scn : Elf_Scn)
    (ndx : Z) (ve ve' : ve_t) (s0 s s' : sys) (ok : bool) :
  ndx ≠ 0 → scn_shdr scn = Some shdr →
  holds s0 s ve → scan_inv0 ve →
  scan_stubs shdr nm scn ndx ve s = Some ((ok, ve'), s') →
  holds s0 s' ve' ∧ scan_inv0 ve' ∧ step_err ok s s'
  ∧ step_ok
      (bool_decide (sh_type shdr = SHT_PROGBITS)
         && String.eqb nm ".vitalink.fstubs")
      (bool_decide (sh_type shdr = SHT_PROGBITS)
         && String.eqb nm ".vitalink.vstubs")
      false ok ve ve'
  ∧ (0 ≤ sh_size shdr → scan_inv ve → scan_inv ve').
Proof.
  intros Hndx Hshdr Hholds Hinv0 Hrun.
  unfold scan_stubs in Hrun.
  destruct (bool_decide (sh_type shdr = SHT_PROGBITS)) eqn:Hty;
    cbn [andb] in *.
  2: { injection Hrun as <- <- <-. unfold step_ok, step_err. done. }
  destruct (String.eqb nm ".vitalink.fstubs") eqn:Enf.
  - apply String.eqb_eq in Enf as ->. cbn [String.eqb Ascii.eqb] in *.
    destruct (decide (fstubs_ndx ve ≠ 0)) as [Hz|Hz].
    + injection Hrun as <- <- <-.
      split; [exact Hholds|]. split; [exact Hinv0|].
      split; [simpl; eauto|]. split; [|done].
      unfold step_ok. repeat split; done.
    + assert (fstubs_ndx ve = 0) as Hz0 by lia.
      destruct Hholds as (Hb & Hf & He). pose proof Hinv0 as [Hnull Hiv0].
      specialize (Hnull Hz0).
      unfold bind in Hrun.
      destruct (load_stubs scn s) as [[r s1]|] eqn:Hload; [|done].
      destruct (load_stubs_returns scn shdr s s1 r Hshdr Hload)
        as (stubs & -> & -> & Hlen & Hfresh).
      cbn [fst snd] in Hrun. rewrite decide_False in Hrun by done.
      injection Hrun as <- <- <-.
      unfold holds, owned_blocks, owned_fds, owned_elfs in *.
      rewrite Hnull in Hb. cbn in Hb. cbn.
      split.
      { destruct (vstubs ve), (symtab ve), (elf ve), (decide (fd ve >= 0));
          repeat split; lia. }
      split; [split; [done|exact Hiv0]|]. split; [done|].
      split; [unfold step_ok; cbn; repeat split; done|].
      intros Hsize (Hif & Hiv & Hit).
      split; [|split; [exact Hiv|exact Hit]]. split; [done|].
      intros _. exists stubs. split; [done|]. split; [|done].
      rewrite Hlen, Z2Nat.id; [done|]. apply Z.div_pos; lia.
  - destruct (String.eqb nm ".vitalink.vstubs") eqn:Env.
    + destruct (decide (vstubs_ndx ve ≠ 0)) as [Hz|Hz].
      * injection Hrun as <- <- <-.
        split; [exact Hholds|]. split; [exact Hinv0|].
        split; [simpl; eauto|]. split; [|done].
        unfold step_ok. repeat split; done.
      * assert (vstubs_ndx ve = 0) as Hz0 by lia.
        destruct Hholds as (Hb & Hf & He). pose proof Hinv0 as [Hif0 Hnull].
        specialize (Hnull Hz0).
        unfold bind in Hrun.
        destruct (load_stubs scn s) as [[r s1]|] eqn:Hload; [|done].
        destruct (load_stubs_returns scn shdr s s1 r Hshdr Hload)
          as (stubs & -> & -> & Hlen & Hfresh).
        cbn [fst snd] in Hrun. rewrite decide_False in Hrun by done.
        injection Hrun as <- <- <-.
        unfold holds, owned_blocks, owned_fds, owned_elfs in *.
        rewrite Hnull in Hb. cbn in Hb. cbn.
        split.
        { destruct (fstubs ve), (symtab ve), (elf ve), (decide (fd ve >= 0));
            repeat split; lia. }
        split; [split; [exact Hif0|done]|]. split; [done|].
        split; [unfold step_ok; cbn; repeat split; done|].
        intros Hsize (Hif & Hiv & Hit).
        split; [exact Hif|]. split; [|exact Hit]. split; [done|].
        intros _. exists stubs. split; [done|]. split; [|done].
        rewrite Hlen, Z2Nat.id; [done|]. apply Z.div_pos; lia.
    + injection Hrun as <- <- <-. unfold step_ok, step_err. done.
Qed.

Lemma scan_symtab_returns (shdr : GElf_Shdr) (scn : Elf_Scn)
    (ve ve' : ve_t) (s0 s s' : sys) (ok : bool) :
  scn_shdr scn = Some shdr →
  holds s0 s ve → scan_inv0 ve →
  scan_symtab shdr scn ve s = Some ((ok, ve'), s') →
  holds s0 s' ve' ∧ scan_inv0 ve' ∧ step_err ok s s'
  ∧ step_ok false false (bool_decide (sh_type shdr = SHT_SYMTAB)) ok ve ve'
  ∧ (0 ≤ sh_size shdr → 0 ≤ sh_entsize shdr → scan_inv ve → scan_inv ve').
Proof.
  intros Hshdr Hholds Hinv0 Hrun. unfold scan_symtab in Hrun.
  destruct (decide (sh_type shdr = SHT_SYMTAB)) as [Hty|Hty].
  2: { injection Hrun as <- <- <-. rewrite bool_decide_eq_false_2 by done.
       unfold step_ok, step_err. done. }
  rewrite bool_decide_eq_true_2 by done.
  unfold bind in Hrun.
  destruct (load_symbols ve scn s) as [[[st ve1] s1]|] eqn:Hload; [|done].
  cbn [fst snd] in Hrun.
  destruct (symtab ve) as [tab|] eqn:Htab.
  - unfold load_symbols in Hload. rewrite Htab in Hload.
    unfold bind, warnx, ret in Hload. injection Hload as <- <- <-.
    rewrite decide_True in Hrun by done. injection Hrun as <- <- <-.
    split; [exact Hholds|]. split; [exact Hinv0|].
    split; [simpl; eauto|]. split; [|done].
    unfold step_ok. repeat split; done.
  - destruct (load_symbols_returns ve ve1 scn s s1 st Htab Hload)
      as (shdr' & tab & Hshdr' & HE & -> & Hlen & Hb' & Hf' & He' & Hst).
    rewrite Hshdr in Hshdr'. injection Hshdr' as <-.
    destruct Hholds as (Hb & Hf & He).
    assert (holds s0 s1
              (with_symtab ve (sh_size shdr / sh_entsize shdr) (Some tab)))
      as Hholds'.
    { unfold holds, owned_blocks, owned_fds, owned_elfs in *.
      rewrite Htab in Hb. cbn in Hb. cbn.
      destruct (fstubs ve), (vstubs ve), (elf ve), (decide (fd ve >= 0));
        repeat split; lia. }
    assert (0 ≤ sh_size shdr → 0 ≤ sh_entsize shdr → scan_inv ve →
            scan_inv
              (with_symtab ve (sh_size shdr / sh_entsize shdr) (Some tab)))
      as Hinv'.
    { intros Hsize Hent (Hif & Hiv & Hit).
      split; [exact Hif|]. split; [exact Hiv|].
      intros t [= <-]. cbn. rewrite Hlen, Z2Nat.id; [done|].
      apply Z.div_pos; lia. }
    destruct Hst as [[-> Herr]|[-> Herr]].
    + rewrite decide_False in Hrun by done. injection Hrun as <- <- <-.
      split; [exact Hholds'|]. split; [exact Hinv0|].
      split; [exact Herr|]. split; [|exact Hinv'].
      unfold step_ok. cbn. repeat split; done.
    + rewrite decide_True in Hrun by done. injection Hrun as <- <- <-.
      split; [exact Hholds'|]. split; [exact Hinv0|].
      split; [exact Herr|]. split; [|exact Hinv'].
      unfold step_ok. cbn. repeat split; done.
Qed.

Lemma scan_section_returns (e : Elf) (shstrndx : Z) (scn : Elf_Scn)
    (ndx : Z) (ve ve' : ve_t) (s0 s s' : sys) (ok : bool) :
  ndx ≠ 0 → holds s0 s ve → scan_inv0 ve →
  scan_section e shstrndx scn ndx ve s = Some ((ok, ve'), s') →
  holds s0 s' ve' ∧ scan_inv0 ve' ∧ step_err ok s s'
  ∧ step_ok (is_fstubs e shstrndx scn) (is_vstubs e shstrndx scn)
      (is_symtab scn) ok ve ve'
  ∧ (scn_typed scn → scan_inv ve → scan_inv ve').
Proof.
  intros Hndx Hholds Hinv0 Hrun.
  unfold scan_section in Hrun.
  unfold scn_typed, is_fstubs, is_vstubs, is_symtab, named_progbits.
  destruct (scn_shdr scn) as [shdr|] eqn:Hshdr.
  2: { injection Hrun as <- <- <-.
       split; [exact Hholds|]. split; [exact Hinv0|].
       split; [simpl; eauto|]. split; [|done]. unfold step_ok. done. }
  destruct (elf_strptr e shstrndx (sh_name shdr)) as [nm|] eqn:Hnm.
  2: { injection Hrun as <- <- <-.
       split; [exact Hholds|]. split; [exact Hinv0|].
       split; [simpl; eauto|]. split; [|done]. unfold step_ok.
       destruct (bool_decide (sh_type shdr = SHT_SYMTAB)); done. }
  unfold bind in Hrun.
  destruct (scan_stubs shdr nm scn ndx ve s) as [[[ok1 ve1] s1]|] eqn:Hrun1;
    [|done].
  cbn [fst snd] in Hrun.
  destruct (scan_stubs_returns shdr nm scn ndx ve ve1 s0 s s1 ok1 Hndx Hshdr
              Hholds Hinv0 Hrun1)
    as (Hholds1 & Hinv1 & Herr1 & Hstep1 & Hty1).
  destruct Hstep1 as (Hfd1 & Helf1 & Hf1 & Hv1 & Ht1).
  destruct ok1.
  - destruct (scan_symtab_returns shdr scn ve1 ve' s0 s1 s' ok Hshdr Hholds1
                Hinv1 Hrun)
      as (Hholds2 & Hinv2 & Herr2 & Hstep2 & Hty2).
    split; [exact Hholds2|]. split; [exact Hinv2|].
    split; [by apply step_err_trans with s1|].
    destruct Hstep2 as (Hfd2 & Helf2 & Hf2 & Hv2 & Ht2).
    split.
    + unfold step_ok. split; [congruence|]. split; [congruence|].
      split; [|split].
      * destruct (_ && String.eqb nm ".vitalink.fstubs").
        -- intros _. rewrite Hf2. by apply Hf1.
        -- congruence.
      * destruct (_ && String.eqb nm ".vitalink.vstubs").
        -- intros _. rewrite Hv2. by apply Hv1.
        -- congruence.
      * destruct (bool_decide (sh_type shdr = SHT_SYMTAB)).
        -- intros Hok. rewrite <- Ht1. by apply Ht2.
        -- congruence.
    + intros Htyped Hinv. destruct (Htyped shdr eq_refl) as [Hsz Hent].
      apply Hty2; [done..|]. by apply Hty1.
  - injection Hrun as <- <- <-.
    split; [exact Hholds1|]. split; [exact Hinv1|]. split; [exact Herr1|].
    split.
    + unfold step_ok. split; [done|]. split; [done|].
      split; [|split].
      * destruct (_ && String.eqb nm ".vitalink.fstubs"); done.
      * destruct (_ && String.eqb nm ".vitalink.vstubs"); done.
      * destruct (bool_decide (sh_type shdr = SHT_SYMTAB)); done.
    + intros Htyped Hinv. destruct (Htyped shdr eq_refl) as [Hsz Hent].
      by apply Hty1.
Qed.

Lemma scan_sections_returns (e : Elf) (shstrndx : Z) (scns : list Elf_Scn) :
  ∀ (ndx : Z) (ve ve' : ve_t) (s0 s s' : sys) (ok : bool),
    0 < ndx → holds s0 s ve → scan_inv0 ve →
    scan_sections e shstrndx scns ndx ve s = Some ((ok, ve'), s') →
    holds s0 s' ve' ∧ scan_inv0 ve' ∧ step_err ok s s'
    ∧ fd ve' = fd ve ∧ elf ve' = elf ve
    ∧ (ok = true →
       scan_ok (count_scns (is_fstubs e shstrndx) scns)
         (count_scns (is_vstubs e shstrndx) scns)
         (count_scns is_symtab scns) ve ve')
    ∧ (Forall scn_typed scns → scan_inv ve → scan_inv ve').
Proof.
  induction scns as [|scn rest IH];
    intros ndx ve ve' s0 s s' ok Hndx Hholds Hinv0 Hrun.
  - injection Hrun as <- <- <-. split; [done|]. split; [done|].
    split; [done|]. split; [done|]. split; [done|]. split; [|done].
    intros _. unfold scan_ok. simpl. tauto.
  - cbn [scan_sections] in Hrun. unfold bind in Hrun.
    destruct (scan_section e shstrndx scn ndx ve s) as [[[ok1 ve1] s1]|]
      eqn:Hrun1; [|done].
    cbn [fst snd] in Hrun.
    destruct (scan_section_returns e shstrndx scn ndx ve ve1 s0 s s1 ok1)
      as (Hholds1 & Hinv1 & Herr1 & Hstep1 & Hty1); [lia|done..|].
    destruct Hstep1 as (Hfd1 & Helf1 & Hf1 & Hv1 & Ht1).
    destruct ok1.
    + destruct (IH (ndx + 1) ve1 ve' s0 s1 s' ok)
        as (Hholds' & Hinv' & Herr & Hfd & Helf & Hok & Hty);
        [lia|done..|].
      split; [done|]. split; [done|].
      split; [by apply step_err_trans with s1|].
      split; [congruence|]. split; [congruence|]. split.
      * intros ->. destruct (Hok eq_refl) as (Hcf & Hcv & Hcs).
        unfold scan_ok. cbn [count_scns].
        split; [|split].
        -- destruct (is_fstubs e shstrndx scn).
           ++ destruct (Hf1 eq_refl) as [Hz Hnz]. right.
              destruct Hcf as [[-> Heq]|[_ [Hz' _]]]; [|done].
              split; [done|]. split; [done|]. congruence.
           ++ rewrite <- Hf1. exact Hcf.
        -- destruct (is_vstubs e shstrndx scn).
           ++ destruct (Hv1 eq_refl) as [Hz Hnz]. right.
              destruct Hcv as [[-> Heq]|[_ [Hz' _]]]; [|done].
              split; [done|]. split; [done|]. congruence.
           ++ rewrite <- Hv1. exact Hcv.
        -- destruct (is_symtab scn).
           ++ destruct (Ht1 eq_refl) as [Hz Hnz]. right.
              destruct Hcs as [[-> Heq]|[_ [Hz' _]]]; [|done].
              split; [done|]. split; [done|]. congruence.
           ++ rewrite <- Ht1. exact Hcs.
      * intros Htyped Hinv. apply Forall_cons in Htyped as [Ht0 Htyped].
        apply Hty; [done|]. by apply Hty1.
    + injection Hrun as <- <- <-.
      split; [done|]. split; [done|]. split; [done|]. split; [done|].
      split; [done|]. split; [done|].
      intros Htyped Hinv. apply Forall_cons in Htyped as [Ht0 Htyped].
      by apply Hty1.
Qed.

(** What the correlator does to the process when it returns: it holds
    what it held, and a diagnostic was written exactly when the status
    is 0. *)
Lemma lookup_stub_symbols_returns (ve : ve_t) (num_stubs : Z)
    (stubs stubs' : list stub_t) (stubs_ndx sym_type status : Z)
    (s s' : sys) :
  lookup_stub_symbols ve num_stubs stubs stubs_ndx sym_type s
  = Some ((status, stubs'), s') →
  same_resources s s' ∧ step_err (negb (bool_decide (status = 0))) s s'.
Proof.
  unfold lookup_stub_symbols, bind, lift, warnx, ret.
  destruct (lookup_stub_symbols_loop _ _ _ _ _ stubs) as [[l|l d]|];
    [| |done]; intros [= <- <- <-]; unfold same_resources, step_err; simpl;
    eauto.
Qed.

(** The checks and the correlation after the scan, when they return:
    NULL with one diagnostic and everything released, or the session,
    silently. *)
Lemma after_scan_returns (ve : ve_t) (s0 s s' : sys) (r : option ve_t) :
  holds s0 s ve →
  after_scan ve s = Some (r, s') →
  match r with
  | None => same_resources s0 s' ∧ ∃ d, stderr s' = stderr s ++ [d]
  | Some ve' => holds s0 s' ve' ∧ stderr s' = stderr s
  end.
Proof.
  intros Hholds Hrun. unfold after_scan in Hrun.
  assert (∀ (v : ve_t) s1 d,
            holds s0 s1 v → stderr s1 = stderr s →
            (warnx d ;; failure (Some v)) s1 = Some (r, s') →
            r = None ∧ same_resources s0 s'
            ∧ ∃ d, stderr s' = stderr s ++ [d]) as Hfail.
  { intros v s1 d Hv Herr Hf.
    destruct (failure_spec v s0
                {| live_blocks := live_blocks s1; open_fds := open_fds s1;
                   elf_handles := elf_handles s1;
                   stderr := stderr s1 ++ [d] |} Hv)
      as (s2 & Heq & Hres & Herr2).
    unfold bind, warnx in Hf. rewrite Heq in Hf. injection Hf as <- <-.
    split; [done|]. split; [done|]. exists d. by rewrite Herr2, <- Herr. }
  assert (∀ (v : ve_t) s1 d,
            holds s0 s1 v → stderr s1 = stderr s ++ [d] →
            failure (Some v) s1 = Some (r, s') →
            r = None ∧ same_resources s0 s'
            ∧ ∃ d, stderr s' = stderr s ++ [d]) as Hfail1.
  { intros v s1 d Hv Herr Hf.
    destruct (failure_spec v s0 s1 Hv) as (s2 & Heq & Hres & Herr2).
    rewrite Heq in Hf. injection Hf as <- <-.
    split; [done|]. split; [done|]. exists d. by rewrite Herr2. }
  destruct (decide (fstubs_ndx ve = 0 ∧ vstubs_ndx ve = 0)) as [Hz|Hnz].
  { by destruct (Hfail ve s Err_no_stubs Hholds eq_refl Hrun) as (-> & ?). }
  destruct (symtab ve) as [tab|] eqn:Htab.
  2: { by destruct (Hfail ve s Err_no_symtab Hholds eq_refl Hrun)
         as (-> & ?). }
  unfold bind at 1 in Hrun.
  match type of Hrun with
  | match ?m s with _ => _ end = _ =>
      destruct (m s) as [[[ok1 ve1] s1]|] eqn:Hrun1; [|done]
  end.
  cbn [fst snd] in Hrun.
  assert (holds s0 s1 ve1 ∧ step_err ok1 s s1) as [Hholds1 Herr1].
  { destruct (decide (fstubs_ndx ve ≠ 0)) as [Hf|Hf].
    - unfold bind in Hrun1.
      destruct (lookup_stub_symbols ve (num_fstubs ve) (elems (fstubs ve))
                  (fstubs_ndx ve) STT_FUNC s) as [[[st l'] s2]|] eqn:Hpass;
        [|done].
      unfold ret in Hrun1. cbn [fst snd] in Hrun1.
      injection Hrun1 as <- <- <-.
      destruct (lookup_stub_symbols_returns _ _ _ _ _ _ _ _ _ Hpass)
        as [(Hb & Hf' & He') Herr].
      split; [|exact Herr].
      destruct Hholds as (Hb0 & Hf0 & He0).
      unfold holds, owned_blocks, owned_fds, owned_elfs in *. cbn.
      destruct (fstubs ve), (vstubs ve), (symtab ve), (elf ve),
        (decide (fd ve >= 0)); cbn; repeat split; lia.
    - unfold ret in Hrun1. injection Hrun1 as <- <- <-. done. }
  destruct ok1.
  2: { destruct Herr1 as [d Hd].
       by destruct (Hfail1 ve1 s1 d Hholds1 Hd Hrun) as (-> & ?). }
  simpl in Herr1. cbv zeta in Hrun. unfold bind at 1 in Hrun.
  match type of Hrun with
  | match ?m s1 with _ => _ end = _ =>
      destruct (m s1) as [[[ok2 ve2] s2]|] eqn:Hrun2; [|done]
  end.
  cbn [fst snd] in Hrun.
  assert (holds s0 s2 ve2 ∧ step_err ok2 s1 s2) as [Hholds2 Herr2].
  { destruct (decide (vstubs_ndx ve1 ≠ 0)) as [Hv|Hv].
    - unfold bind in Hrun2.
      destruct (lookup_stub_symbols ve1 (num_vstubs ve1) (elems (vstubs ve1))
                  (vstubs_ndx ve1) STT_OBJECT s1) as [[[st l'] s3]|]
        eqn:Hpass; [|done].
      unfold ret in Hrun2. cbn [fst snd] in Hrun2.
      injection Hrun2 as <- <- <-.
      destruct (lookup_stub_symbols_returns _ _ _ _ _ _ _ _ _ Hpass)
        as [(Hb & Hf' & He') Herr].
      split; [|exact Herr].
      destruct Hholds1 as (Hb0 & Hf0 & He0).
      unfold holds, owned_blocks, owned_fds, owned_elfs in *. cbn.
      destruct (fstubs ve1), (vstubs ve1), (symtab ve1), (elf ve1),
        (decide (fd ve1 >= 0)); cbn; repeat split; lia.
    - unfold ret in Hrun2. injection Hrun2 as <- <- <-. done. }
  destruct ok2.
  2: { destruct Herr2 as [d Hd]. rewrite Herr1 in Hd.
       by destruct (Hfail1 ve2 s2 d Hholds2 Hd Hrun) as (-> & ?). }
  simpl in Herr2. unfold ret in Hrun. injection Hrun as <- <-.
  split; [done|]. congruence.
Qed.

(** The correlation that [after_scan] makes, on the session it returns. *)
Lemma after_scan_attached (ve ve' : ve_t) (s s' : sys) :
  scan_inv ve →
  after_scan ve s = Some (Some ve', s') →
  (fstubs_ndx ve' ≠ 0 →
   attached (elems (symtab ve')) (fstubs_ndx ve') STT_FUNC
     (elems (fstubs ve')))
  ∧ (vstubs_ndx ve' ≠ 0 →
     attached (elems (symtab ve')) (vstubs_ndx ve') STT_OBJECT
       (elems (vstubs ve'))).
Proof.
  intros (Hif & Hiv & Hit) Hrun.
  unfold after_scan in Hrun.
  destruct (decide (fstubs_ndx ve = 0 ∧ vstubs_ndx ve = 0)) as [Hz|Hnz].
  { by apply warnx_failure_returns_None in Hrun. }
  destruct (symtab ve) as [tab|] eqn:Htab.
  2: { by apply warnx_failure_returns_None in Hrun. }
  specialize (Hit tab eq_refl).
  unfold bind at 1 in Hrun.
  match type of Hrun with
  | match ?m s with _ => _ end = _ =>
      destruct (m s) as [[[ok1 ve1] s1]|] eqn:Hrun1; [|done]
  end.
  cbn [fst snd] in Hrun.
  destruct ok1; [|by apply failure_returns_None in Hrun].
  cbv zeta in Hrun. unfold bind at 1 in Hrun.
  match type of Hrun with
  | match ?m s1 with _ => _ end = _ =>
      destruct (m s1) as [[[ok2 ve2] s2]|] eqn:Hrun2; [|done]
  end.
  cbn [fst snd] in Hrun.
  destruct ok2; [|by apply failure_returns_None in Hrun].
  unfold ret in Hrun. injection Hrun as -> ->.
  (* the function stubs *)
  assert (s1 = s ∧ symtab ve1 = Some tab
          ∧ num_symbols ve1 = num_symbols ve
          ∧ fstubs_ndx ve1 = fstubs_ndx ve
          ∧ vstubs_ndx ve1 = vstubs_ndx ve
          ∧ vstubs ve1 = vstubs ve ∧ num_vstubs ve1 = num_vstubs ve
          ∧ (fstubs_ndx ve ≠ 0 →
             attached tab (fstubs_ndx ve) STT_FUNC (elems (fstubs ve1))))
    as (-> & Htab1 & Hns1 & Hfn1 & Hvn1 & Hvs1 & Hnv1 & Hat1).
  { destruct (decide (fstubs_ndx ve ≠ 0)) as [Hf|Hf].
    - destruct Hif as [_ Hif]. destruct (Hif Hf) as (l & Hl & Hnum & Hfresh).
      rewrite Hl in Hrun1. change (elems (Some l)) with l in Hrun1.
      unfold bind in Hrun1.
      destruct (lookup_stub_symbols ve (num_fstubs ve) l (fstubs_ndx ve)
                  STT_FUNC s) as [[[st l'] s0]|] eqn:Hpass; [|done].
      unfold ret in Hrun1. cbn [fst snd fmap option_fmap option_map] in Hrun1.
      destruct (decide (st = 0)) as [Hst|Hst].
      { by rewrite bool_decide_eq_true_2 in Hrun1 by done. }
      rewrite bool_decide_eq_false_2 in Hrun1 by done. cbn [negb] in Hrun1.
      injection Hrun1 as <- <-.
      destruct (lookup_stub_symbols_pass ve (num_fstubs ve) l l'
                  (fstubs_ndx ve) STT_FUNC st s s0)
        as (-> & Hcor & Hatt); [by rewrite Htab|done..|].
      rewrite Htab in Hatt. change (elems (Some tab)) with tab in Hatt.
      cbn. repeat (split; [done|]). done.
    - unfold ret in Hrun1. injection Hrun1 as <- <-.
      repeat (split; [done|]). done. }
  (* the variable stubs *)
  rewrite Hvn1, Hvs1, Hnv1 in Hrun2.
  destruct (decide (vstubs_ndx ve ≠ 0)) as [Hv|Hv].
  - destruct Hiv as [_ Hiv]. destruct (Hiv Hv) as (l & Hl & Hnum & Hfresh).
    rewrite Hl in Hrun2. change (elems (Some l)) with l in Hrun2.
    unfold bind in Hrun2.
    destruct (lookup_stub_symbols ve1 (num_vstubs ve) l (vstubs_ndx ve)
                STT_OBJECT s) as [[[st l'] s0]|] eqn:Hpass; [|done].
    unfold ret in Hrun2. cbn [fst snd fmap option_fmap option_map] in Hrun2.
    destruct (decide (st = 0)) as [Hst|Hst].
    { by rewrite bool_decide_eq_true_2 in Hrun2 by done. }
    rewrite bool_decide_eq_false_2 in Hrun2 by done. cbn [negb] in Hrun2.
    injection Hrun2 as <- <-.
    destruct (lookup_stub_symbols_pass ve1 (num_vstubs ve) l l'
                (vstubs_ndx ve) STT_OBJECT st s s0)
      as (_ & Hcor & Hatt); [by rewrite Htab1, Hns1|done..|].
    rewrite Htab1 in Hatt. change (elems (Some tab)) with tab in Hatt.
    cbn [fd fstubs_ndx vstubs_ndx symtab fstubs vstubs with_vstubs].
    rewrite Htab1, Hfn1, Hvn1. change (elems (Some tab)) with tab.
    change (elems (Some l')) with l'. done.
  - unfold ret in Hrun2. injection Hrun2 as <- <-.
    rewrite Htab1, Hfn1, Hvn1. change (elems (Some tab)) with tab. done.
Qed.

(** Every run of [vita_elf_load] that returns: a check before the scan
    or a section of the scan made it return NULL, with one diagnostic and
    everything released; or the checks passed, the scan went through all
    the sections, and the call returned what [after_scan] returned. *)
Lemma vita_elf_load_scanned (env : Env) (filename : string) (s s' : sys)
    (r : option ve_t) :
  vita_elf_load env filename s = Some (r, s') →
  (r = None ∧ (∃ d, stderr s' = stderr s ++ [d]) ∧ same_resources s s')
  ∨ ∃ e shstrndx (ve1 : ve_t) s1,
      header_ok env filename e shstrndx
      ∧ scan_sections e shstrndx (elf_scns e) 1
          (session0 (env_open env filename) e) (opened s)
        = Some ((true, ve1), s1)
      ∧ holds s s1 ve1 ∧ stderr s1 = stderr s
      ∧ fd ve1 = env_open env filename ∧ elf ve1 = Some e
      ∧ scan_inv0 ve1
      ∧ (Forall scn_typed (elf_scns e) → scan_inv ve1)
      ∧ scan_ok (count_scns (is_fstubs e shstrndx) (elf_scns e))
          (count_scns (is_vstubs e shstrndx) (elf_scns e))
          (count_scns is_symtab (elf_scns e))
          (session0 (env_open env filename) e : ve_t) ve1
      ∧ after_scan ve1 s1 = Some (r, s').
Proof.
  intros Hrun.
  assert (∀ d, rejects (@vita_elf_load vita_imports_lib_t
                          vita_imports_module_t vita_imports_stub_t env
                          filename) s d →
            r = None ∧ (∃ d, stderr s' = stderr s ++ [d])
            ∧ same_resources s s') as Hrej.
  { intros d (s2 & Heq & Herr & Hres). rewrite Heq in Hrun.
    injection Hrun as <- <-. eauto. }
  assert (∀ d s1, same_resources s s1 → stderr s1 = stderr s →
            ∃ s', (warnx d ;; @failure vita_imports_lib_t
                                 vita_imports_module_t vita_imports_stub_t
                                 None) s1 = Some (None, s')
                  ∧ stderr s' = stderr s ++ [d] ∧ same_resources s s')
    as Hfail0.
  { intros d s1 Hres Herr. eexists. unfold bind, warnx, failure, ret. simpl.
    split; [done|]. split; [by rewrite Herr|exact Hres]. }
  destruct (decide (env_elf_version env = EV_NONE)) as [Hver|Hver].
  { left. apply (Hrej Err_elf_init). unfold rejects, vita_elf_load.
    rewrite decide_True by done. by apply Hfail0. }
  destruct (env_calloc_ve env) eqn:Hcal.
  2: { left. apply (Hrej Err_assert_ve). unfold rejects, vita_elf_load.
       rewrite decide_False by done. rewrite Hcal. by apply Hfail0. }
  destruct (decide (env_open env filename < 0)) as [Hfd|Hfd].
  { left. apply (Hrej (Err_open filename)). unfold rejects, vita_elf_load.
    rewrite decide_False by done.
    rewrite Hcal. cbn [negb fd with_fd]. unfold bind at 1.
    unfold add_blocks at 1. rewrite decide_True by done.
    apply warnx_failure_rejects; [|done].
    unfold holds, owned_blocks, owned_fds, owned_elfs. simpl.
    rewrite decide_False by lia. repeat split; lia. }
  destruct (env_elf_begin env (env_open env filename)) as [e|] eqn:Hbegin.
  2: { left. apply (Hrej Err_elf_begin). unfold rejects, vita_elf_load.
       rewrite decide_False by done.
       rewrite Hcal. cbn [negb fd with_fd]. unfold bind at 1.
       unfold add_blocks at 1. rewrite decide_False by lia.
       unfold bind at 1. unfold add_fds at 1. rewrite Hbegin.
       apply warnx_failure_rejects; [|done].
       unfold holds, owned_blocks, owned_fds, owned_elfs. simpl.
       rewrite decide_True by lia. repeat split; lia. }
  set (ve0 := session0 (env_open env filename) e : ve_t).
  assert (vita_elf_load env filename s
          = (if decide (elf_kind e ≠ ELF_K_ELF) then
               warnx (Err_not_elf filename) ;; failure (Some ve0)
             else match elf_ehdr e with
             | None => warnx Err_getehdr ;; failure (Some ve0)
             | Some ehdr =>
                 if decide (e_machine ehdr ≠ EM_ARM) then
                   warnx (Err_not_arm filename) ;; failure (Some ve0)
                 else if decide (ei_class ehdr ≠ ELFCLASS32
                                 ∨ ei_data ehdr ≠ ELFDATA2LSB) then
                   warnx (Err_not_32le filename) ;; failure (Some ve0)
                 else match elf_shdrstrndx e with
                 | None => warnx Err_getshdrstrndx ;; failure (Some ve0)
                 | Some shstrndx =>
                     r <- scan_sections e shstrndx (elf_scns e) 1 ve0 ;;
                     if r.1 then after_scan r.2 else failure (Some r.2)
                 end
             end) (opened s)) as Heq.
  { unfold vita_elf_load. rewrite decide_False by done.
    rewrite Hcal. cbn [negb fd with_fd]. unfold bind at 1.
    unfold add_blocks at 1. rewrite decide_False by done.
    unfold bind at 1. unfold add_fds at 1.
    cbn [live_blocks open_fds elf_handles stderr]. rewrite Hbegin.
    unfold bind at 1. unfold add_elfs at 1. reflexivity. }
  assert (holds s (opened s) ve0) as Hholds0
    by (apply holds_session0; lia).
  destruct (decide (elf_kind e = ELF_K_ELF)) as [Hkind|Hkind].
  2: { left. apply (Hrej (Err_not_elf filename)). unfold rejects.
       rewrite Heq, decide_True by done. by apply warnx_failure_rejects. }
  destruct (elf_ehdr e) as [ehdr|] eqn:Hehdr.
  2: { left. apply (Hrej Err_getehdr). unfold rejects.
       rewrite Heq, decide_False by (by intros ?).
       by apply warnx_failure_rejects. }
  destruct (decide (e_machine ehdr = EM_ARM)) as [Hm|Hm].
  2: { left. apply (Hrej (Err_not_arm filename)). unfold rejects.
       rewrite Heq, decide_False by (by intros ?).
       rewrite decide_True by done. by apply warnx_failure_rejects. }
  destruct (decide (ei_class ehdr = ELFCLASS32 ∧ ei_data ehdr = ELFDATA2LSB))
    as [[Hc Hdat]|Hc].
  2: { left. apply (Hrej (Err_not_32le filename)). unfold rejects.
       rewrite Heq, decide_False by (by intros ?).
       rewrite decide_False by (by intros ?).
       rewrite decide_True; [by apply warnx_failure_rejects|].
       destruct (decide (ei_class ehdr = ELFCLASS32)); [|by left].
       destruct (decide (ei_data ehdr = ELFDATA2LSB)); [|by right].
       tauto. }
  destruct (elf_shdrstrndx e) as [shstrndx|] eqn:Hstr.
  2: { left. apply (Hrej Err_getshdrstrndx). unfold rejects.
       rewrite Heq, decide_False by (by intros ?).
       rewrite decide_False by (by intros ?).
       rewrite decide_False by (intros [?|?]; done).
       by apply warnx_failure_rejects. }
  rewrite Heq in Hrun. clear Heq.
  rewrite decide_False in Hrun by (by intros ?).
  rewrite decide_False in Hrun by (by intros ?).
  rewrite decide_False in Hrun by (intros [?|?]; done).
  unfold bind in Hrun.
  destruct (scan_sections e shstrndx (elf_scns e) 1 ve0 (opened s))
    as [[[ok ve1] s1]|] eqn:Hscan; [|done].
  cbn [fst snd] in Hrun.
  assert (scan_inv ve0) as Hinv0.
  { unfold scan_inv, stubs_inv. simpl. repeat split; try done. }
  destruct (scan_sections_returns e shstrndx (elf_scns e) 1 ve0 ve1 s
              (opened s) s1 ok)
    as (Hholds1 & Hinv1 & Herr1 & Hfd1 & Helf1 & Hcnt & Hty);
    [lia|done|by apply scan_inv_scan_inv0|done|].
  destruct ok.
  - right. exists e, shstrndx, ve1, s1.
    split.
    { unfold header_ok. split; [done|]. split; [done|]. split; [lia|].
      split; [done|]. split; [done|]. split; [|done]. by exists ehdr. }
    split; [done|]. split; [done|]. split; [exact Herr1|].
    split; [by rewrite Hfd1|]. split; [by rewrite Helf1|].
    split; [done|]. split; [by intros Htyped; apply Hty|].
    split; [by apply Hcnt|done].
  - left. destruct (failure_spec ve1 s s1 Hholds1) as (s2 & Hf & Hres & Herr).
    rewrite Hf in Hrun. injection Hrun as <- <-. split; [done|].
    split; [|done]. destruct Herr1 as [d Hd1]. exists d.
    by rewrite Herr, Hd1.
Qed.



End Atomicity.

(** ** The life of a session *)

Section Lifecycle.

Context {vita_imports_t vita_imports_lib_t vita_imports_module_t
         vita_imports_stub_t : Type}.

Variable vita_imports_find_lib :
  vita_imports_t → Z → option vita_imports_lib_t.
Variable vita_imports_find_module :
  vita_imports_lib_t → Z → option vita_imports_module_t.
Variable vita_imports_find_function vita_imports_find_variable :
  vita_imports_module_t → Z → option vita_imports_stub_t.

Local Abbreviation stub_t :=
  (@vita_elf_stub_t vita_imports_lib_t vita_imports_module_t
     vita_imports_stub_t).
Local Abbreviation ve_t :=
  (@vita_elf_t vita_imports_lib_t vita_imports_module_t vita_imports_stub_t).

(** X15: [vita_elf_free] releases what [vita_elf_load] acquired.  Freeing
    the session that a load returned, at once or after
    [vita_elf_lookup_imports] has run on it, leaves the process with the
    blocks, descriptors and handles it held before the load, and writes
    nothing. *)
Theorem vita_elf_free_after_load (env : Env) (filename : string)
    (imports : vita_imports_t) (s s1 : sys) (ve : ve_t) :
  env_wf env filename →
  vita_elf_load env filename s = Some (Some ve, s1) →
  (∃ s2, vita_elf_free ve s1 = Some (tt, s2)
         ∧ same_resources s s2 ∧ stderr s2 = stderr s1)
  ∧ ∃ (found_all : Z) (ve' : ve_t) (s2 s3 : sys),
      vita_elf_lookup_imports vita_imports_find_lib vita_imports_find_module
        vita_imports_find_function vita_imports_find_variable ve imports s1
      = Some ((found_all, ve'), s2)
      ∧ vita_elf_free ve' s2 = Some (tt, s3)
      ∧ same_resources s s3 ∧ stderr s3 = stderr s2.
Proof.
  intros Hwf Hrun.
  destruct (@vita_elf_load_spec vita_imports_lib_t vita_imports_module_t
              vita_imports_stub_t env filename s Hwf)
    as (r & s1' & Hrun' & Hr).
  rewrite Hrun in Hrun'. injection Hrun' as <- <-.
  destruct Hr as (Hholds & _ & Hff & _).
  split; [by apply vita_elf_free_spec|].
  destruct Hff as (_ & _ & _ & _ & _ & _ & _ & Hok).
  destruct (vita_elf_lookup_imports_session vita_imports_find_lib
              vita_imports_find_module vita_imports_find_function
              vita_imports_find_variable ve imports s1 Hok)
    as (fa & s2 & Hres & _ & (Hb & Hf & He) & _).
  eexists fa, _, s2. 
  match type of Hres with _ = Some ((_, ?v), _) => set (ve' := v) in * end.
  assert (holds s s2 ve') as Hholds'.
  { destruct Hholds as (Hb0 & Hf0 & He0).
    unfold holds, owned_blocks, owned_fds, owned_elfs in *. subst ve'. cbn.
    destruct (fstubs ve), (vstubs ve); cbn in *; repeat split; lia. }
  destruct (vita_elf_free_spec ve' s s2 Hholds') as (s3 & Hfree & Hres3 & He3).
  exists s3. done.
Qed.

End Lifecycle.

(** ** The claims on the sample inputs *)

Ltac solve_delivery := repeat split; vm_compute; try reflexivity.

Ltac solve_env_wf :=
  let e := fresh "e" in
  let x := fresh "x" in
  let He := fresh "He" in
  let Hx := fresh "Hx" in
  unfold env_wf; intros e x He Hx; simpl in He; injection He as <-;
  simpl in Hx; injection Hx as <-;
  repeat (apply List.Forall_cons); [..|apply List.Forall_nil];
  (let shdr := fresh "shdr" in
   let Hs := fresh "Hs" in
   let H := fresh "H" in
   unfold scn_wf; intros shdr Hs; simpl in Hs; injection Hs as <-;
   split; intros H;
   first [ by vm_compute in H | solve_delivery ]).

Ltac solve_env_typed :=
  let e := fresh "e" in
  let He := fresh "He" in
  unfold env_typed; intros e He; simpl in He; injection He as <-;
  simpl; repeat (apply List.Forall_cons); [..|apply List.Forall_nil];
  (let shdr := fresh "shdr" in
   let Hs := fresh "Hs" in
   unfold scn_typed; intros shdr Hs; simpl in Hs; injection Hs as <-;
   simpl; lia).

Lemma load_stubs_records_witness :
  (scn_shdr fstubs_scn2 = Some fstubs_shdr
   ∧ sh_size fstubs_shdr = 16 * 2
   ∧ delivery_ok 16 (sh_size fstubs_shdr) (scn_data fstubs_scn2)
   ∧ 0 ≤ sh_addr fstubs_shdr
   ∧ (∀ i, 0 ≤ i < 2 → sh_addr fstubs_shdr + 16 * i < 2 ^ 32))
  ∧ ∃ (stubs : list (@vita_elf_stub_t Z Z Z)) (s' : sys),
      load_stubs fstubs_scn2 sys0 = Some ((1, (2, stubs)), s')
      ∧ addr <$> stubs = [4096; 4112].
Proof.
  assert (delivery_ok 16 (sh_size fstubs_shdr) (scn_data fstubs_scn2)) as Hd
    by solve_delivery.
  assert (0 ≤ sh_addr fstubs_shdr) as Ha by (vm_compute; discriminate).
  assert (∀ i, 0 ≤ i < 2 → sh_addr fstubs_shdr + 16 * i < 2 ^ 32) as Ht
    by (intros i Hi; simpl; lia).
  split; [repeat split; try reflexivity; assumption|].
  destruct (@load_stubs_records Z Z Z fstubs_scn2 fstubs_shdr 2 sys0
              eq_refl eq_refl Hd Ha Ht) as (stubs & s' & Hrun & _).
  exists stubs, s'. split; [exact Hrun|].
  vm_compute in Hrun. injection Hrun as <- <-. reflexivity.
Defined.

(** C1 as stated fails.  The two function stubs placed at 4294967280:
    the section has [16 * 2] bytes and is delivered in whole records, and
    the second record gets the address 0, not [sh_addr + 16], so that the
    addresses do not ascend.  And the two function stubs at 4096 of which
    no data is handed over: both records stay zeroed, at address 0. *)
Lemma load_stubs_wraps :
  (sh_size fstubs_shdr_top = 16 * 2
   ∧ delivery_ok 16 (sh_size fstubs_shdr_top) (scn_data fstubs_scn_top)
   ∧ ∃ (stubs : list (@vita_elf_stub_t Z Z Z)) (s' : sys),
       load_stubs fstubs_scn_top sys0 = Some ((1, (2, stubs)), s')
       ∧ addr <$> stubs = [4294967280; 0])
  ∧ (sh_size fstubs_shdr = 16 * 2
     ∧ sh_addr fstubs_shdr = 4096
     ∧ ∃ s' : sys,
         @load_stubs Z Z Z fstubs_scn_nodata sys0
         = Some ((1, (2, [zero_stub; zero_stub])), s')).
Proof.
  split.
  - split; [reflexivity|]. split; [solve_delivery|].
    eexists _, _. split; [vm_compute; reflexivity|]. reflexivity.
  - split; [reflexivity|]. split; [reflexivity|].
    eexists. vm_compute. reflexivity.
Qed.



Lemma sample_session_ok : session_ok sample_session.
Proof.
  unfold session_ok. split; [reflexivity|]. split; [reflexivity|].
  split; repeat constructor; vm_compute; eauto.
Defined.

Lemma vita_elf_lookup_imports_total_witness :
  session_ok sample_session
  ∧ ∃ (ve' : @vita_elf_t Z Z Z) (s' : sys),
      vita_elf_lookup_imports db_find_lib db_find_module db_find_function
        db_find_variable sample_session false sys0
      = Some ((0, ve'), s')
      ∧ stderr s' = [Warn_no_library 4 "function" (Some "bar"%string)].
Proof.
  split; [exact sample_session_ok|].
  destruct (vita_elf_lookup_imports_total db_find_lib db_find_module
              db_find_function db_find_variable sample_session false sys0
              sample_session_ok) as (found_all & ve' & s' & Hrun & _).
  pose proof Hrun as Hval. vm_compute in Hval.
  injection Hval as Hfa Hve Hs. rewrite <- Hfa in Hrun.
  exists ve', s'. split; [exact Hrun|]. rewrite <- Hs. reflexivity.
Defined.



Lemma load_symbols_indices_witness :
  (symtab (with_elf (@zero_ve Z Z Z) (Some (sample_elf []))) = None
   ∧ scn_shdr symtab_scn = Some symtab_shdr
   ∧ 16 ≤ sh_entsize symtab_shdr
   ∧ 0 ≤ sh_info symtab_shdr
   ∧ delivery_ok (sh_entsize symtab_shdr) (sh_size symtab_shdr)
       (scn_data symtab_scn))
  ∧ ∃ tab written,
      load_symbols_decode (Some (sample_elf [])) symtab_shdr
        (scn_data symtab_scn) = Some (Continue (tab, written))
      ∧ written = [1; 2; 3]
      ∧ name <$> tab
        = [None; Some "foo"%string; Some "bar"%string; Some "baz"%string].
Proof.
  assert (delivery_ok (sh_entsize symtab_shdr) (sh_size symtab_shdr)
            (scn_data symtab_scn)) as Hd by solve_delivery.
  assert (16 ≤ sh_entsize symtab_shdr) as He by (vm_compute; discriminate).
  assert (0 ≤ sh_info symtab_shdr) as Hi by (vm_compute; discriminate).
  split; [repeat split; try reflexivity; assumption|].
  destruct (load_symbols_indices
              (with_elf (@zero_ve Z Z Z) (Some (sample_elf [])))
              symtab_scn symtab_shdr sys0 eq_refl eq_refl He Hi Hd)
    as (tab & written & s' & Hdec & _).
  exists tab, written. split; [exact Hdec|].
  vm_compute in Hdec. injection Hdec as <- <-. split; reflexivity.
Defined.

(** C5 as stated fails: the symbol table of the sample binary has 4
    records and [sh_info] is 1; delivered cut at byte 24 (in offset order,
    covering the section), the stores go to the indices 1 and 2 only:
    index 3 is skipped. *)
Lemma load_symbols_skips_index :
  delivery_ok 1 (sh_size symtab_shdr) (scn_data symtab_scn_cut)
  ∧ sh_size symtab_shdr / sh_entsize symtab_shdr = 4
  ∧ sh_info symtab_shdr = 1
  ∧ ∃ tab,
      load_symbols_decode None symtab_shdr (scn_data symtab_scn_cut)
      = Some (Continue (tab, [1; 2])).
Proof.
  split; [solve_delivery|]. split; [reflexivity|]. split; [reflexivity|].
  eexists. vm_compute. reflexivity.
Qed.

Lemma chunking_unobservable_witness :
  (section_bytes (scn_data fstubs_scn) = section_bytes (scn_data fstubs_scn2)
   ∧ delivery_ok 16 (sh_size fstubs_shdr) (scn_data fstubs_scn)
   ∧ delivery_ok 16 (sh_size fstubs_shdr) (scn_data fstubs_scn2))
  ∧ ∃ r : Z * (Z * list (@vita_elf_stub_t Z Z Z)) * sys,
      load_stubs fstubs_scn sys0 = Some r
      ∧ load_stubs fstubs_scn2 sys0 = Some r.
Proof.
  assert (delivery_ok 16 (sh_size fstubs_shdr) (scn_data fstubs_scn)) as H1
    by solve_delivery.
  assert (delivery_ok 16 (sh_size fstubs_shdr) (scn_data fstubs_scn2)) as H2
    by solve_delivery.
  split; [repeat split; try reflexivity; assumption|].
  destruct (chunking_unobservable (@zero_ve Z Z Z) fstubs_shdr
              (scn_data fstubs_scn) (scn_data fstubs_scn2) sys0
              eq_refl H1 H2) as [Hstubs _].
  exact Hstubs.
Defined.

(** C6 as stated fails: the symbol table of the sample binary delivered
    whole and delivered cut at byte 24 (in offset order, covering the
    section) decode to different tables, and the function stubs cut at
    byte 12 are not decoded to the array of the whole delivery. *)
Lemma chunking_observable :
  (section_bytes (scn_data symtab_scn_whole)
   = section_bytes (scn_data symtab_scn_cut)
   ∧ delivery_ok 1 (sh_size symtab_shdr) (scn_data symtab_scn_whole)
   ∧ delivery_ok 1 (sh_size symtab_shdr) (scn_data symtab_scn_cut)
   ∧ (λ r, symtab r.1.2) <$> load_symbols (@zero_ve Z Z Z) symtab_scn_whole
                               sys0
     ≠ (λ r, symtab r.1.2) <$> load_symbols (@zero_ve Z Z Z) symtab_scn_cut
                                 sys0)
  ∧ (section_bytes (scn_data fstubs_scn)
     = section_bytes (scn_data fstubs_scn_cut)
     ∧ delivery_ok 1 (sh_size fstubs_shdr) (scn_data fstubs_scn)
     ∧ delivery_ok 1 (sh_size fstubs_shdr) (scn_data fstubs_scn_cut)
     ∧ (λ r, r.1.2.2) <$> @load_stubs Z Z Z fstubs_scn sys0
       ≠ (λ r, r.1.2.2) <$> @load_stubs Z Z Z fstubs_scn_cut sys0).
Proof.
  split; (split; [reflexivity|]); (split; [solve_delivery|]);
    (split; [solve_delivery|]); intros H; vm_compute in H; discriminate H.
Qed.



Lemma vita_elf_lookup_imports_complete_witness :
  (session_ok sample_session
   ∧ (∀ st, st ∈ elems (fstubs sample_session) →
        ∃ l m t, db_find_lib true (library_nid st) = Some l
                 ∧ db_find_module l (module_nid st) = Some m
                 ∧ db_find_function m (target_nid st) = Some t)
   ∧ (∀ st, st ∈ elems (vstubs sample_session) →
        ∃ l m t, db_find_lib true (library_nid st) = Some l
                 ∧ db_find_module l (module_nid st) = Some m
                 ∧ db_find_variable m (target_nid st) = Some t))
  ∧ ∃ (ve' : @vita_elf_t Z Z Z) (s' : sys),
      vita_elf_lookup_imports db_find_lib db_find_module db_find_function
        db_find_variable sample_session true sys0
      = Some ((1, ve'), s')
      ∧ target <$> elems (fstubs ve') = [Some 300; Some 600]
      ∧ target <$> elems (vstubs ve') = [Some 900].
Proof.
  assert (∀ st, st ∈ elems (fstubs sample_session) →
            ∃ l m t, db_find_lib true (library_nid st) = Some l
                     ∧ db_find_module l (module_nid st) = Some m
                     ∧ db_find_function m (target_nid st) = Some t) as Hf.
  { intros st Hin. apply list_elem_of_In in Hin. vm_compute in Hin.
    destruct Hin as [<-|[<-|[]]]; do 3 eexists;
      (split; [reflexivity|]); split; reflexivity. }
  assert (∀ st, st ∈ elems (vstubs sample_session) →
            ∃ l m t, db_find_lib true (library_nid st) = Some l
                     ∧ db_find_module l (module_nid st) = Some m
                     ∧ db_find_variable m (target_nid st) = Some t) as Hv.
  { intros st Hin. apply list_elem_of_In in Hin. vm_compute in Hin.
    destruct Hin as [<-|[]]; do 3 eexists;
      (split; [reflexivity|]); split; reflexivity. }
  split; [split; [exact sample_session_ok|split; assumption]|].
  destruct (vita_elf_lookup_imports_complete db_find_lib db_find_module
              db_find_function db_find_variable sample_session true sys0
              sample_session_ok Hf Hv) as (ve' & s' & Hrun & _).
  exists ve', s'. split; [exact Hrun|].
  vm_compute in Hrun. injection Hrun as <- <-. split; reflexivity.
Defined.

Lemma lookup_stubs_stagewise_witness :
  (2 = Z.of_nat (length (elems (fstubs sample_session)))
   ∧ Forall (symbol_ok sample_symtab) (elems (fstubs sample_session)))
  ∧ ∃ (found_all : Z) (stubs' : list (@vita_elf_stub_t Z Z Z)) (s' : sys),
      lookup_stubs db_find_lib (λ l nid, if decide (l = 400) then None
                                         else db_find_module l nid)
        sample_symtab (elems (fstubs sample_session)) 2 true
        db_find_function "function" sys0
      = Some ((found_all, stubs'), s')
      ∧ library <$> stubs' = [Some 100; Some 400]
      ∧ module <$> stubs' = [Some 200; None]
      ∧ target <$> stubs' = [Some 300; None].
Proof.
  assert (Forall (symbol_ok sample_symtab) (elems (fstubs sample_session)))
    as Hok by (repeat constructor; vm_compute; eauto).
  split; [split; [reflexivity|exact Hok]|].
  destruct (lookup_stubs_stagewise db_find_lib
              (λ l nid, if decide (l = 400) then None
                        else db_find_module l nid)
              sample_symtab (elems (fstubs sample_session)) 2 true
              db_find_function "function" sys0 eq_refl Hok)
    as (found_all & stubs' & s' & Hrun & _).
  exists found_all, stubs', s'. split; [exact Hrun|].
  vm_compute in Hrun. injection Hrun as <- <- <-. repeat split.
Defined.

(** C9 on the sample session, against a database without functions: the
    target NIDs of the two function stubs are 3 and 6 and their module
    NIDs are 2 and 5; the diagnostics written for the missing targets
    carry 2 and 5. *)
Theorem lookup_stubs_target_diag_sample :
  target_nid <$> elems (fstubs sample_session) = [3; 6]
  ∧ module_nid <$> elems (fstubs sample_session) = [2; 5]
  ∧ (λ r, stderr r.2)
      <$> lookup_stubs db_find_lib db_find_module sample_symtab
            (elems (fstubs sample_session)) 2 true (λ _ _, None) "function"
            sys0
    = Some [Warn_no_target "function" 2 (Some "foo"%string);
            Warn_no_target "function" 5 (Some "bar"%string)].
Proof. repeat split. Qed.

(** ** The further properties on the sample inputs *)

Lemma load_symbols_records_witness :
  (symtab (with_elf (@zero_ve Z Z Z) (Some (sample_elf []))) = None
   ∧ scn_shdr symtab_scn = Some symtab_shdr
   ∧ sh_entsize symtab_shdr = 16
   ∧ 0 ≤ sh_info symtab_shdr
   ∧ delivery_ok 16 (sh_size symtab_shdr) (scn_data symtab_scn))
  ∧ ∃ (tab : list vita_elf_symbol_t) (s' : sys),
      load_symbols (with_elf (@zero_ve Z Z Z) (Some (sample_elf [])))
        symtab_scn sys0
      = Some ((1, with_symtab (with_elf zero_ve (Some (sample_elf []))) 4
                    (Some tab)), s')
      ∧ value <$> tab = [0; 4096; 4112; 8192]
      ∧ type <$> tab = [0; STT_FUNC; STT_FUNC; STT_OBJECT]
      ∧ binding <$> tab = [0; STB_GLOBAL; STB_GLOBAL; STB_GLOBAL]
      ∧ shndx <$> tab = [0; 1; 1; 2].
Proof.
  assert (delivery_ok 16 (sh_size symtab_shdr) (scn_data symtab_scn)) as Hd
    by solve_delivery.
  assert (0 ≤ sh_info symtab_shdr) as Hi by (vm_compute; discriminate).
  split; [repeat split; try reflexivity; assumption|].
  destruct (load_symbols_records
              (with_elf (@zero_ve Z Z Z) (Some (sample_elf [])))
              symtab_scn symtab_shdr sys0 eq_refl eq_refl eq_refl Hi Hd)
    as (tab & s' & Hrun & _).
  exists tab, s'. split; [exact Hrun|].
  vm_compute in Hrun. injection Hrun as <- <-. repeat split.
Defined.

Lemma load_stubs_overrun_witness :
  (scn_shdr fstubs_scn_cut = Some fstubs_shdr
   ∧ Z.of_nat (length (section_bytes (scn_data fstubs_scn_cut)))
     = sh_size fstubs_shdr
   ∧ Exists (λ data, d_size data mod 16 ≠ 0) (scn_data fstubs_scn_cut))
  ∧ @load_stubs Z Z Z fstubs_scn_cut sys0 = None.
Proof.
  assert (Exists (λ data, d_size data mod 16 ≠ 0) (scn_data fstubs_scn_cut))
    as Hex by (apply Exists_cons_hd; vm_compute; discriminate).
  split; [repeat split; try reflexivity; assumption|].
  exact (load_stubs_overrun fstubs_scn_cut fstubs_shdr sys0 eq_refl eq_refl
           Hex).
Defined.

Lemma sample_fresh_ok :
  Forall (symbol_ok sample_symtab) fresh_fstubs.
Proof. repeat constructor; vm_compute; eauto. Defined.

Lemma lookup_stub_symbols_correlated_witness :
  (num_symbols sample_session
   = Z.of_nat (length (elems (symtab sample_session)))
   ∧ 2 = Z.of_nat (length fresh_fstubs)
   ∧ Forall (symbol_ok (elems (symtab sample_session))) fresh_fstubs)
  ∧ ∃ (stubs' : list (@vita_elf_stub_t Z Z Z)) (s' : sys),
      lookup_stub_symbols sample_session 2 fresh_fstubs 1 STT_FUNC sys0
      = Some ((1, stubs'), s')
      ∧ Forall2 correlated fresh_fstubs stubs'
      ∧ symbol <$> stubs' = [Some 1%nat; Some 2%nat].
Proof.
  split; [repeat split; try reflexivity; exact sample_fresh_ok|].
  destruct (lookup_stub_symbols_correlated sample_session 2 fresh_fstubs 1
              STT_FUNC sys0 eq_refl eq_refl sample_fresh_ok)
    as (status & stubs' & s' & Hrun & _ & Hcor & _).
  pose proof Hrun as Hval. vm_compute in Hval.
  injection Hval as Hst Hstubs Hs. rewrite <- Hst in Hrun.
  exists stubs', s'. split; [exact Hrun|]. split; [exact Hcor|].
  rewrite <- Hstubs. reflexivity.
Defined.

Lemma sample_none_in_section_9 :
  ∀ sym, sym ∈ elems (symtab sample_session) → ¬ qualifies 9 sym.
Proof.
  intros sym Hin (_ & _ & Hs). apply list_elem_of_In in Hin.
  vm_compute in Hin.
  destruct Hin as [<-|[<-|[<-|[<-|[]]]]]; discriminate Hs.
Defined.

Lemma lookup_stub_symbols_skips_witness :
  (num_symbols sample_session
   = Z.of_nat (length (elems (symtab sample_session)))
   ∧ ∀ sym, sym ∈ elems (symtab sample_session) → ¬ qualifies 9 sym)
  ∧ lookup_stub_symbols sample_session 2 fresh_fstubs 9 STT_FUNC sys0
    = Some ((1, fresh_fstubs), sys0).
Proof.
  split; [split; [reflexivity|exact sample_none_in_section_9]|].
  exact (lookup_stub_symbols_skips sample_session 2 fresh_fstubs 9 STT_FUNC
           sys0 eq_refl sample_none_in_section_9).
Defined.

Lemma lookup_stub_symbols_type_witness :
  (num_symbols sample_session
   = Z.of_nat (length (elems (symtab sample_session)))
   ∧ elems (symtab sample_session) !! 1%nat
     = Some {| name := Some "foo"%string; value := 4096; type := STT_FUNC;
               binding := STB_GLOBAL; shndx := 1 |}
   ∧ qualifies 1 {| name := Some "foo"%string; value := 4096;
                    type := STT_FUNC; binding := STB_GLOBAL; shndx := 1 |}
   ∧ STT_FUNC ≠ STT_OBJECT)
  ∧ ∃ s',
      lookup_stub_symbols sample_session 2 fresh_fstubs 1 STT_OBJECT sys0
      = Some ((0, fresh_fstubs), s')
      ∧ stderr s'
        = [Err_symbol_type (Some "foo"%string) 1 STT_OBJECT STT_FUNC].
Proof.
  assert (qualifies 1 {| name := Some "foo"%string; value := 4096;
                         type := STT_FUNC; binding := STB_GLOBAL;
                         shndx := 1 |}) as Hq
    by (split; [reflexivity|split; [by left|reflexivity]]).
  assert (STT_FUNC ≠ STT_OBJECT) as Hne by discriminate.
  split; [split; [reflexivity|split; [reflexivity|split; assumption]]|].
  destruct (lookup_stub_symbols_type sample_session 2 fresh_fstubs 1
              STT_OBJECT sys0 1%nat _ eq_refl eq_refl Hq Hne)
    as (s' & Hrun & Herr & _).
  { intros p sym Hp Hsym (Hb & _). destruct p as [|p]; [|lia].
    vm_compute in Hsym. injection Hsym as <-. discriminate Hb. }
  exists s'. split; [exact Hrun|exact Herr].
Defined.

Lemma sample_symbols_good :
  ∀ sym, sym ∈ elems (symtab sample_session) → qualifies 1 sym →
    type sym = STT_FUNC ∧ ∃ st, st ∈ fresh_fstubs ∧ addr st = value sym.
Proof.
  intros sym Hin (Hb & _ & Hs). apply list_elem_of_In in Hin.
  vm_compute in Hin.
  destruct Hin as [<-|[<-|[<-|[<-|[]]]]]; try discriminate Hs;
    try discriminate Hb; (split; [reflexivity|]).
  - eexists. split; [apply list_elem_of_here|reflexivity].
  - eexists. split; [apply list_elem_of_further, list_elem_of_here|].
    reflexivity.
Defined.

Lemma sample_symbols_apart :
  ∀ (p q : nat) sp sq,
    elems (symtab sample_session) !! p = Some sp →
    elems (symtab sample_session) !! q = Some sq →
    qualifies 1 sp → qualifies 1 sq → value sp = value sq → p = q.
Proof.
  intros p q sp sq Hp Hq (Hbp & _ & Hsp) (Hbq & _ & Hsq) Hv.
  destruct p as [|[|[|[|p]]]]; vm_compute in Hp; try discriminate Hp;
    injection Hp as <-; try discriminate Hbp; try discriminate Hsp;
    destruct q as [|[|[|[|q]]]]; vm_compute in Hq; try discriminate Hq;
    injection Hq as <-; try discriminate Hbq; try discriminate Hsq;
    try reflexivity; discriminate Hv.
Defined.

Lemma sample_fresh : Forall (λ st, symbol st = None) fresh_fstubs.
Proof. repeat constructor. Defined.

Lemma lookup_stub_symbols_succeeds_witness :
  (num_symbols sample_session
   = Z.of_nat (length (elems (symtab sample_session)))
   ∧ 2 = Z.of_nat (length fresh_fstubs)
   ∧ Forall (λ st, symbol st = None) fresh_fstubs
   ∧ (∀ sym, sym ∈ elems (symtab sample_session) → qualifies 1 sym →
        type sym = STT_FUNC ∧ ∃ st, st ∈ fresh_fstubs ∧ addr st = value sym)
   ∧ (∀ (p q : nat) sp sq,
        elems (symtab sample_session) !! p = Some sp →
        elems (symtab sample_session) !! q = Some sq →
        qualifies 1 sp → qualifies 1 sq → value sp = value sq → p = q))
  ∧ ∃ stubs' : list (@vita_elf_stub_t Z Z Z),
      lookup_stub_symbols sample_session 2 fresh_fstubs 1 STT_FUNC sys0
      = Some ((1, stubs'), sys0)
      ∧ symbol <$> stubs' = [Some 1%nat; Some 2%nat].
Proof.
  split.
  { split; [reflexivity|]. split; [reflexivity|].
    split; [exact sample_fresh|].
    split; [exact sample_symbols_good|exact sample_symbols_apart]. }
  destruct (lookup_stub_symbols_succeeds sample_session 2 fresh_fstubs 1
              STT_FUNC sys0 eq_refl eq_refl sample_fresh sample_symbols_good
              sample_symbols_apart) as (stubs' & Hrun & _).
  exists stubs'. split; [exact Hrun|].
  vm_compute in Hrun. injection Hrun as <-. reflexivity.
Defined.

Lemma vita_elf_lookup_imports_keeps_witness :
  session_ok sample_session
  ∧ ∃ (found_all : Z) (ve' : @vita_elf_t Z Z Z) (s' : sys),
      vita_elf_lookup_imports db_find_lib db_find_module db_find_function
        db_find_variable sample_session false sys0
      = Some ((found_all, ve'), s')
      ∧ same_session sample_session ve'
      ∧ session_ok ve'
      ∧ same_resources sys0 s'.
Proof.
  split; [exact sample_session_ok|].
  exact (vita_elf_lookup_imports_keeps db_find_lib db_find_module
           db_find_function db_find_variable sample_session false sys0
           sample_session_ok).
Defined.

Lemma vita_elf_lookup_imports_twice_witness :
  session_ok sample_session
  ∧ ∃ (ve' : @vita_elf_t Z Z Z) (s1 s2 : sys),
      vita_elf_lookup_imports db_find_lib db_find_module db_find_function
        db_find_variable sample_session false sys0
      = Some ((0, ve'), s1)
      ∧ vita_elf_lookup_imports db_find_lib db_find_module db_find_function
          db_find_variable ve' false s1
        = Some ((0, ve'), s2)
      ∧ stderr s1 = [Warn_no_library 4 "function" (Some "bar"%string)]
      ∧ stderr s2 = [Warn_no_library 4 "function" (Some "bar"%string);
                     Warn_no_library 4 "function" (Some "bar"%string)].
Proof.
  split; [exact sample_session_ok|].
  destruct (vita_elf_lookup_imports_twice db_find_lib db_find_module
              db_find_function db_find_variable sample_session false sys0
              sample_session_ok)
    as (found_all & ve' & s1 & s2 & out & Hrun1 & Hrun2 & Herr1 & Herr2).
  pose proof Hrun1 as Hval. vm_compute in Hval.
  injection Hval as Hfa Hve Hs. rewrite <- Hfa in Hrun1, Hrun2.
  exists ve', s1, s2. split; [exact Hrun1|]. split; [exact Hrun2|].
  assert (stderr s1 = [Warn_no_library 4 "function" (Some "bar"%string)])
    as H1 by (rewrite <- Hs; reflexivity).
  split; [exact H1|]. rewrite Herr2. rewrite H1 in Herr1.
  simpl in Herr1. rewrite <- Herr1, H1. reflexivity.
Defined.

Lemma sample_env_wf : env_wf (sample_env sample_scns) "a.elf".
Proof. unfold sample_scns. solve_env_wf. Defined.

Lemma sample_header_ok (scns : list Elf_Scn) :
  header_ok (sample_env scns) "a.elf" (sample_elf scns) 5.
Proof.
  unfold header_ok. simpl. split; [discriminate|]. split; [reflexivity|].
  split; [lia|]. split; [reflexivity|]. split; [reflexivity|].
  split; [|reflexivity]. eexists. split; [reflexivity|]. repeat split.
Defined.

Lemma sample_load :
  vita_elf_load (sample_env sample_scns) "a.elf" sys0
  = Some (Some sample_session, sys_loaded).
Proof. vm_compute. reflexivity. Defined.

Lemma vita_elf_load_diagnostics_witness :
  env_wf (sample_env sample_scns) "a.elf"
  ∧ ∃ (r : option (@vita_elf_t Z Z Z)) (s' : sys),
      vita_elf_load (sample_env sample_scns) "a.elf" sys0 = Some (r, s')
      ∧ match r with
        | Some _ => stderr s' = stderr sys0
        | None => ∃ d, stderr s' = stderr sys0 ++ [d]
        end.
Proof.
  split; [exact sample_env_wf|].
  exact (vita_elf_load_diagnostics (sample_env sample_scns) "a.elf" sys0
           sample_env_wf).
Defined.

Lemma vita_elf_load_entsize_zero_witness :
  (header_ok (sample_env [fstubs_scn; symtab_scn0]) "a.elf"
     (sample_elf [fstubs_scn; symtab_scn0]) 5
   ∧ elf_scns (sample_elf [fstubs_scn; symtab_scn0])
     = [fstubs_scn] ++ symtab_scn0 :: []
   ∧ Forall (scn_wf (sample_elf [fstubs_scn; symtab_scn0]) 5) [fstubs_scn]
   ∧ Forall (scn_readable (sample_elf [fstubs_scn; symtab_scn0]) 5)
       [fstubs_scn]
   ∧ (count_scns (is_fstubs (sample_elf [fstubs_scn; symtab_scn0]) 5)
        [fstubs_scn] ≤ 1)%nat
   ∧ (count_scns (is_vstubs (sample_elf [fstubs_scn; symtab_scn0]) 5)
        [fstubs_scn] ≤ 1)%nat
   ∧ count_scns is_symtab [fstubs_scn] = 0%nat
   ∧ scn_shdr symtab_scn0 = Some symtab_shdr0
   ∧ is_Some (elf_strptr (sample_elf [fstubs_scn; symtab_scn0]) 5
                (sh_name symtab_shdr0))
   ∧ sh_type symtab_shdr0 = SHT_SYMTAB
   ∧ sh_entsize symtab_shdr0 = 0)
  ∧ @vita_elf_load Z Z Z (sample_env [fstubs_scn; symtab_scn0]) "a.elf" sys0
    = None.
Proof.
  assert (Forall (scn_wf (sample_elf [fstubs_scn; symtab_scn0]) 5)
            [fstubs_scn]) as Hwf.
  { apply List.Forall_cons; [|apply List.Forall_nil].
    intros h Hs. simpl in Hs. injection Hs as <-.
    split; intros H; first [by vm_compute in H | solve_delivery]. }
  assert (Forall (scn_readable (sample_elf [fstubs_scn; symtab_scn0]) 5)
            [fstubs_scn]) as Hrd.
  { apply List.Forall_cons; [|apply List.Forall_nil].
    exists fstubs_shdr. split; [reflexivity|].
    split; [vm_compute; eauto|]. intros H. discriminate H. }
  assert (is_Some (elf_strptr (sample_elf [fstubs_scn; symtab_scn0]) 5
                     (sh_name symtab_shdr0))) as Hnm by (vm_compute; eauto).
  split.
  { split; [apply sample_header_ok|]. split; [reflexivity|].
    split; [exact Hwf|]. split; [exact Hrd|].
    split; [vm_compute; repeat constructor|].
    split; [vm_compute; repeat constructor|].
    split; [reflexivity|]. split; [reflexivity|].
    split; [exact Hnm|]. split; reflexivity. }
  apply (vita_elf_load_entsize_zero (sample_env [fstubs_scn; symtab_scn0])
           "a.elf" sys0 (sample_elf [fstubs_scn; symtab_scn0]) 5
           [fstubs_scn] [] symtab_scn0 symtab_shdr0
           (sample_header_ok _) eq_refl Hwf Hrd); try reflexivity;
    try exact Hnm; vm_compute; repeat constructor.
Defined.

Lemma sample_readable :
  Forall (scn_readable (sample_elf sample_scns) 5)
    (elf_scns (sample_elf sample_scns)).
Proof.
  repeat apply List.Forall_cons; [..|apply List.Forall_nil];
    eexists; (split; [reflexivity|]); (split; [vm_compute; eauto|]);
    intros H; try discriminate H; vm_compute; split; discriminate.
Defined.

Lemma vita_elf_load_correlation_only_witness :
  (header_ok (sample_env sample_scns) "a.elf" (sample_elf sample_scns) 5
   ∧ Forall (scn_wf (sample_elf sample_scns) 5)
       (elf_scns (sample_elf sample_scns))
   ∧ Forall (scn_readable (sample_elf sample_scns) 5)
       (elf_scns (sample_elf sample_scns))
   ∧ (count_scns (is_fstubs (sample_elf sample_scns) 5)
        (elf_scns (sample_elf sample_scns)) ≤ 1)%nat
   ∧ (count_scns (is_vstubs (sample_elf sample_scns) 5)
        (elf_scns (sample_elf sample_scns)) ≤ 1)%nat
   ∧ (1 ≤ count_scns (is_fstubs (sample_elf sample_scns) 5)
            (elf_scns (sample_elf sample_scns))
          + count_scns (is_vstubs (sample_elf sample_scns) 5)
              (elf_scns (sample_elf sample_scns)))%nat
   ∧ count_scns is_symtab (elf_scns (sample_elf sample_scns)) = 1%nat)
  ∧ ∃ (r : option (@vita_elf_t Z Z Z)) (s' : sys),
      vita_elf_load (sample_env sample_scns) "a.elf" sys0 = Some (r, s')
      ∧ match r with
        | Some _ => stderr s' = stderr sys0
        | None => ∃ d, stderr s' = stderr sys0 ++ [d] ∧ correlation_diag d
        end.
Proof.
  pose proof (sample_env_wf (sample_elf sample_scns) 5 eq_refl eq_refl)
    as Hwf.
  assert (count_scns (is_fstubs (sample_elf sample_scns) 5)
            (elf_scns (sample_elf sample_scns)) ≤ 1)%nat as Hcf
    by (vm_compute; repeat constructor).
  assert (count_scns (is_vstubs (sample_elf sample_scns) 5)
            (elf_scns (sample_elf sample_scns)) ≤ 1)%nat as Hcv
    by (vm_compute; repeat constructor).
  assert (1 ≤ count_scns (is_fstubs (sample_elf sample_scns) 5)
                (elf_scns (sample_elf sample_scns))
              + count_scns (is_vstubs (sample_elf sample_scns) 5)
                  (elf_scns (sample_elf sample_scns)))%nat as Hcfv
    by (vm_compute; repeat constructor).
  split.
  { split; [apply sample_header_ok|]. split; [exact Hwf|].
    split; [exact sample_readable|]. split; [exact Hcf|].
    split; [exact Hcv|]. split; [exact Hcfv|reflexivity]. }
  exact (vita_elf_load_correlation_only (sample_env sample_scns) "a.elf"
           sys0 (sample_elf sample_scns) 5 (sample_header_ok _) Hwf
           sample_readable Hcf Hcv Hcfv eq_refl).
Defined.

Lemma vita_elf_load_content_witness :
  (env_wf (sample_env sample_scns) "a.elf"
   ∧ vita_elf_load (sample_env sample_scns) "a.elf" sys0
     = Some (Some sample_session, sys_loaded))
  ∧ ∃ e shstrndx,
      header_ok (sample_env sample_scns) "a.elf" e shstrndx
      ∧ fd sample_session = env_open (sample_env sample_scns) "a.elf"
      ∧ session_from (elf_scns e) e shstrndx sample_session.
Proof.
  split; [split; [exact sample_env_wf|exact sample_load]|].
  exact (vita_elf_load_content (sample_env sample_scns) "a.elf" sys0
           sys_loaded sample_session sample_env_wf sample_load).
Defined.

Lemma vita_elf_load_attached_witness :
  (env_wf (sample_env sample_scns) "a.elf"
   ∧ vita_elf_load (sample_env sample_scns) "a.elf" sys0
     = Some (Some sample_session, sys_loaded))
  ∧ (fstubs_ndx sample_session ≠ 0 →
     attached (elems (symtab sample_session)) (fstubs_ndx sample_session)
       STT_FUNC (elems (fstubs sample_session)))
  ∧ (vstubs_ndx sample_session ≠ 0 →
     attached (elems (symtab sample_session)) (vstubs_ndx sample_session)
       STT_OBJECT (elems (vstubs sample_session))).
Proof.
  split; [split; [exact sample_env_wf|exact sample_load]|].
  exact (vita_elf_load_attached (sample_env sample_scns) "a.elf" sys0
           sys_loaded sample_session sample_env_wf sample_load).
Defined.

Lemma vita_elf_free_after_load_witness :
  (env_wf (sample_env sample_scns) "a.elf"
   ∧ vita_elf_load (sample_env sample_scns) "a.elf" sys0
     = Some (Some sample_session, sys_loaded))
  ∧ (∃ s2, vita_elf_free sample_session sys_loaded = Some (tt, s2)
           ∧ same_resources sys0 s2 ∧ stderr s2 = stderr sys_loaded)
  ∧ ∃ (found_all : Z) (ve' : @vita_elf_t Z Z Z) (s2 s3 : sys),
      vita_elf_lookup_imports db_find_lib db_find_module db_find_function
        db_find_variable sample_session false sys_loaded
      = Some ((found_all, ve'), s2)
      ∧ vita_elf_free ve' s2 = Some (tt, s3)
      ∧ same_resources sys0 s3 ∧ stderr s3 = stderr s2.
Proof.
  split; [split; [exact sample_env_wf|exact sample_load]|].
  exact (vita_elf_free_after_load db_find_lib db_find_module
           db_find_function db_find_variable (sample_env sample_scns)
           "a.elf" false sys0 sys_loaded sample_session sample_env_wf
           sample_load).
Defined.

Lemma vita_elf_load_header_witness :
  rejects (@vita_elf_load Z Z Z x86_env "a.elf") sys0 (Err_not_arm "a.elf").
Proof.
  destruct (@vita_elf_load_header Z Z Z x86_env "a.elf" sys0)
    as (_ & _ & H).
  destruct (H ltac:(discriminate) eq_refl) as (_ & _ & He).
  destruct (He _ ltac:(simpl; lia) eq_refl) as (_ & _ & Hh).
  destruct (Hh _ eq_refl eq_refl) as (Harm & _).
  apply Harm. discriminate.
Defined.
